(** * The connection-control and cipher-negotiation core of ssl/s3_lib.c

    A shallow embedding of the cipher catalog and its lookups, the cipher
    choice, the certificate types of a CertificateRequest, the control
    dispatchers, the shutdown and renegotiation plumbing and the secret
    derivation entry points, with the properties stated about them.

    Conventions.  A C integer is a [Z]; an [unsigned char] is a [Z] in
    [0, 256); a pointer that may be NULL is an [option]; a buffer handed
    over as pointer and length is a [list byte].  Functions and macros that
    s3_lib.c calls but does not define (the record layer, the state machine,
    the primitives, libc) are parameters, each named as in the source. *)

From Stdlib Require Import ZArith NArith String List Bool Lia.
From Stdlib Require Import Permutation Sorted.
Import ListNotations.
Open Scope Z_scope.

Definition byte := Z.

Definition uint32 (z : Z) : Z := z mod 2 ^ 32.
Definition int32 (z : Z) : Z := (z + 2 ^ 31) mod 2 ^ 32 - 2 ^ 31.

(** [struct ssl_cipher_st], field for field. *)
Record SSL_CIPHER := mkSSL_CIPHER {
  valid : Z;
  name : option string;
  stdname : option string;
  id : Z;
  algorithm_mkey : Z;
  algorithm_auth : Z;
  algorithm_enc : Z;
  algorithm_mac : Z;
  min_tls : Z;
  max_tls : Z;
  min_dtls : Z;
  max_dtls : Z;
  algo_strength : Z;
  algorithm2 : Z;
  strength_bits : Z;
  alg_bits : Z
}.

(** ** The cipher catalog: the three static tables, their sort, enumeration *)
Module Catalog.

(** The tables are static initialisers written with macros of headers that
    are not part of s3_lib.c.  They are kept as written: an [atom] is a
    macro name or a literal, a field is atoms joined by the C operator [|],
    a string field is a macro, a literal or NULL. *)
Inductive atom := M (macro : string) | L (v : Z).
Definition expr := list atom.
Inductive text := TM (macro : string) | TL (s : string) | TNULL.

(** The preprocessor guard an entry stands under. *)
Inductive guard := always | weak_ssl_ciphers | gost.

Record initialiser := Init {
  i_guard : guard;
  i_valid : Z;
  i_name : text;
  i_stdname : text;
  i_id : expr;
  i_algorithm_mkey : expr;
  i_algorithm_auth : expr;
  i_algorithm_enc : expr;
  i_algorithm_mac : expr;
  i_min_tls : expr;
  i_max_tls : expr;
  i_min_dtls : expr;
  i_max_dtls : expr;
  i_algo_strength : expr;
  i_algorithm2 : expr;
  i_strength_bits : expr;
  i_alg_bits : expr
}.

Definition tls13_ciphers_src : list initialiser :=
  [ Init always 1 (TM "TLS1_3_RFC_AES_128_GCM_SHA256") (TM "TLS1_3_RFC_AES_128_GCM_SHA256")
      [M "TLS1_3_CK_AES_128_GCM_SHA256"] [M "SSL_kANY"] [M "SSL_aANY"] [M "SSL_AES128GCM"] [M "SSL_AEAD"]
      [M "TLS1_3_VERSION"] [M "TLS1_3_VERSION"] [L 0] [L 0]
      [M "SSL_HIGH"] [M "SSL_HANDSHAKE_MAC_SHA256"] [L 128] [L 128];
    Init always 1 (TM "TLS1_3_RFC_AES_256_GCM_SHA384") (TM "TLS1_3_RFC_AES_256_GCM_SHA384")
      [M "TLS1_3_CK_AES_256_GCM_SHA384"] [M "SSL_kANY"] [M "SSL_aANY"] [M "SSL_AES256GCM"] [M "SSL_AEAD"]
      [M "TLS1_3_VERSION"] [M "TLS1_3_VERSION"] [L 0] [L 0]
      [M "SSL_HIGH"] [M "SSL_HANDSHAKE_MAC_SHA384"] [L 256] [L 256];
    Init always 1 (TM "TLS1_3_RFC_CHACHA20_POLY1305_SHA256") (TM "TLS1_3_RFC_CHACHA20_POLY1305_SHA256")
      [M "TLS1_3_CK_CHACHA20_POLY1305_SHA256"] [M "SSL_kANY"] [M "SSL_aANY"] [M "SSL_CHACHA20POLY1305"] [M "SSL_AEAD"]
      [M "TLS1_3_VERSION"] [M "TLS1_3_VERSION"] [L 0] [L 0]
      [M "SSL_HIGH"] [M "SSL_HANDSHAKE_MAC_SHA256"] [L 256] [L 256];
    Init always 1 (TM "TLS1_3_RFC_AES_128_CCM_SHA256") (TM "TLS1_3_RFC_AES_128_CCM_SHA256")
      [M "TLS1_3_CK_AES_128_CCM_SHA256"] [M "SSL_kANY"] [M "SSL_aANY"] [M "SSL_AES128CCM"] [M "SSL_AEAD"]
      [M "TLS1_3_VERSION"] [M "TLS1_3_VERSION"] [L 0] [L 0]
      [M "SSL_NOT_DEFAULT"; M "SSL_HIGH"] [M "SSL_HANDSHAKE_MAC_SHA256"] [L 128] [L 128];
    Init always 1 (TM "TLS1_3_RFC_AES_128_CCM_8_SHA256") (TM "TLS1_3_RFC_AES_128_CCM_8_SHA256")
      [M "TLS1_3_CK_AES_128_CCM_8_SHA256"] [M "SSL_kANY"] [M "SSL_aANY"] [M "SSL_AES128CCM8"] [M "SSL_AEAD"]
      [M "TLS1_3_VERSION"] [M "TLS1_3_VERSION"] [L 0] [L 0]
      [M "SSL_NOT_DEFAULT"; M "SSL_HIGH"] [M "SSL_HANDSHAKE_MAC_SHA256"] [L 128] [L 128] ].

Definition ssl3_ciphers_src : list initialiser :=
  [ Init always 1 (TM "SSL3_TXT_RSA_NULL_MD5") (TM "SSL3_RFC_RSA_NULL_MD5")
      [M "SSL3_CK_RSA_NULL_MD5"] [M "SSL_kRSA"] [M "SSL_aRSA"] [M "SSL_eNULL"] [M "SSL_MD5"]
      [M "SSL3_VERSION"] [M "TLS1_2_VERSION"] [M "DTLS1_BAD_VER"] [M "DTLS1_2_VERSION"]
      [M "SSL_STRONG_NONE"] [M "SSL_HANDSHAKE_MAC_DEFAULT"; M "TLS1_PRF"] [L 0] [L 0];
    Init always 1 (TM "SSL3_TXT_RSA_NULL_SHA") (TM "SSL3_RFC_RSA_NULL_SHA")
      [M "SSL3_CK_RSA_NULL_SHA"] [M "SSL_kRSA"] [M "SSL_aRSA"] [M "SSL_eNULL"] [M "SSL_SHA1"]
      [M "SSL3_VERSION"] [M "TLS1_2_VERSION"] [M "DTLS1_BAD_VER"] [M "DTLS1_2_VERSION"]
      [M "SSL_STRONG_NONE"; M "SSL_FIPS"] [M "SSL_HANDSHAKE_MAC_DEFAULT"; M "TLS1_PRF"] [L 0] [L 0];
    Init weak_ssl_ciphers 1 (TM "SSL3_TXT_RSA_DES_192_CBC3_SHA") (TM "SSL3_RFC_RSA_DES_192_CBC3_SHA")
      [M "SSL3_CK_RSA_DES_192_CBC3_SHA"] [M "SSL_kRSA"] [M "SSL_aRSA"] [M "SSL_3DES"] [M "SSL_SHA1"]
      [M "SSL3_VERSION"] [M "TLS1_2_VERSION"] [M "DTLS1_BAD_VER"] [M "DTLS1_2_VERSION"]
      [M "SSL_NOT_DEFAULT"; M "SSL_MEDIUM"; M "SSL_FIPS"] [M "SSL_HANDSHAKE_MAC_DEFAULT"; M "TLS1_PRF"] [L 112] [L 168];
    Init weak_ssl_ciphers 1 (TM "SSL3_TXT_DHE_DSS_DES_192_CBC3_SHA") (TM "SSL3_RFC_DHE_DSS_DES_192_CBC3_SHA")
      [M "SSL3_CK_DHE_DSS_DES_192_CBC3_SHA"] [M "SSL_kDHE"] [M "SSL_aDSS"] [M "SSL_3DES"] [M "SSL_SHA1"]
      [M "SSL3_VERSION"] [M "TLS1_2_VERSION"] [M "DTLS1_BAD_VER"] [M "DTLS1_2_VERSION"]
      [M "SSL_NOT_DEFAULT"; M "SSL_MEDIUM"; M "SSL_FIPS"] [M "SSL_HANDSHAKE_MAC_DEFAULT"; M "TLS1_PRF"] [L 112] [L 168];
    Init weak_ssl_ciphers 1 (TM "SSL3_TXT_DHE_RSA_DES_192_CBC3_SHA") (TM "SSL3_RFC_DHE_RSA_DES_192_CBC3_SHA")
      [M "SSL3_CK_DHE_RSA_DES_192_CBC3_SHA"] [M "SSL_kDHE"] [M "SSL_aRSA"] [M "SSL_3DES"] [M "SSL_SHA1"]
      [M "SSL3_VERSION"] [M "TLS1_2_VERSION"] [M "DTLS1_BAD_VER"] [M "DTLS1_2_VERSION"]
      [M "SSL_NOT_DEFAULT"; M "SSL_MEDIUM"; M "SSL_FIPS"] [M "SSL_HANDSHAKE_MAC_DEFAULT"; M "TLS1_PRF"] [L 112] [L 168];
    Init weak_ssl_ciphers 1 (TM "SSL3_TXT_ADH_DES_192_CBC_SHA") (TM "SSL3_RFC_ADH_DES_192_CBC_SHA")
      [M "SSL3_CK_ADH_DES_192_CBC_SHA"] [M "SSL_kDHE"] [M "SSL_aNULL"] [M "SSL_3DES"] [M "SSL_SHA1"]
      [M "SSL3_VERSION"] [M "TLS1_2_VERSION"] [M "DTLS1_BAD_VER"] [M "DTLS1_2_VERSION"]
      [M "SSL_NOT_DEFAULT"; M "SSL_MEDIUM"; M "SSL_FIPS"] [M "SSL_HANDSHAKE_MAC_DEFAULT"; M "TLS1_PRF"] [L 112] [L 168];
    Init always 1 (TM "TLS1_TXT_RSA_WITH_AES_128_SHA") (TM "TLS1_RFC_RSA_WITH_AES_128_SHA")
      [M "TLS1_CK_RSA_WITH_AES_128_SHA"] [M "SSL_kRSA"] [M "SSL_aRSA"] [M "SSL_AES128"] [M "SSL_SHA1"]
      [M "SSL3_VERSION"] [M "TLS1_2_VERSION"] [M "DTLS1_BAD_VER"] [M "DTLS1_2_VERSION"]
      [M "SSL_HIGH"; M "SSL_FIPS"] [M "SSL_HANDSHAKE_MAC_DEFAULT"; M "TLS1_PRF"] [L 128] [L 128];
    Init always 1 (TM "TLS1_TXT_DHE_DSS_WITH_AES_128_SHA") (TM "TLS1_RFC_DHE_DSS_WITH_AES_128_SHA")
      [M "TLS1_CK_DHE_DSS_WITH_AES_128_SHA"] [M "SSL_kDHE"] [M "SSL_aDSS"] [M "SSL_AES128"] [M "SSL_SHA1"]
      [M "SSL3_VERSION"] [M "TLS1_2_VERSION"] [M "DTLS1_BAD_VER"] [M "DTLS1_2_VERSION"]
      [M "SSL_NOT_DEFAULT"; M "SSL_HIGH"; M "SSL_FIPS"] [M "SSL_HANDSHAKE_MAC_DEFAULT"; M "TLS1_PRF"] [L 128] [L 128];
    Init always 1 (TM "TLS1_TXT_DHE_RSA_WITH_AES_128_SHA") (TM "TLS1_RFC_DHE_RSA_WITH_AES_128_SHA")
      [M "TLS1_CK_DHE_RSA_WITH_AES_128_SHA"] [M "SSL_kDHE"] [M "SSL_aRSA"] [M "SSL_AES128"] [M "SSL_SHA1"]
      [M "SSL3_VERSION"] [M "TLS1_2_VERSION"] [M "DTLS1_BAD_VER"] [M "DTLS1_2_VERSION"]
      [M "SSL_HIGH"; M "SSL_FIPS"] [M "SSL_HANDSHAKE_MAC_DEFAULT"; M "TLS1_PRF"] [L 128] [L 128];
    Init always 1 (TM "TLS1_TXT_ADH_WITH_AES_128_SHA") (TM "TLS1_RFC_ADH_WITH_AES_128_SHA")
      [M "TLS1_CK_ADH_WITH_AES_128_SHA"] [M "SSL_kDHE"] [M "SSL_aNULL"] [M "SSL_AES128"] [M "SSL_SHA1"]
      [M "SSL3_VERSION"] [M "TLS1_2_VERSION"] [M "DTLS1_BAD_VER"] [M "DTLS1_2_VERSION"]
      [M "SSL_NOT_DEFAULT"; M "SSL_HIGH"; M "SSL_FIPS"] [M "SSL_HANDSHAKE_MAC_DEFAULT"; M "TLS1_PRF"] [L 128] [L 128];
    Init always 1 (TM "TLS1_TXT_RSA_WITH_AES_256_SHA") (TM "TLS1_RFC_RSA_WITH_AES_256_SHA")
      [M "TLS1_CK_RSA_WITH_AES_256_SHA"] [M "SSL_kRSA"] [M "SSL_aRSA"] [M "SSL_AES256"] [M "SSL_SHA1"]
      [M "SSL3_VERSION"] [M "TLS1_2_VERSION"] [M "DTLS1_BAD_VER"] [M "DTLS1_2_VERSION"]
      [M "SSL_HIGH"; M "SSL_FIPS"] [M "SSL_HANDSHAKE_MAC_DEFAULT"; M "TLS1_PRF"] [L 256] [L 256];
    Init always 1 (TM "TLS1_TXT_DHE_DSS_WITH_AES_256_SHA") (TM "TLS1_RFC_DHE_DSS_WITH_AES_256_SHA")
      [M "TLS1_CK_DHE_DSS_WITH_AES_256_SHA"] [M "SSL_kDHE"] [M "SSL_aDSS"] [M "SSL_AES256"] [M "SSL_SHA1"]
      [M "SSL3_VERSION"] [M "TLS1_2_VERSION"] [M "DTLS1_BAD_VER"] [M "DTLS1_2_VERSION"]
      [M "SSL_NOT_DEFAULT"; M "SSL_HIGH"; M "SSL_FIPS"] [M "SSL_HANDSHAKE_MAC_DEFAULT"; M "TLS1_PRF"] [L 256] [L 256];
    Init always 1 (TM "TLS1_TXT_DHE_RSA_WITH_AES_256_SHA") (TM "TLS1_RFC_DHE_RSA_WITH_AES_256_SHA")
      [M "TLS1_CK_DHE_RSA_WITH_AES_256_SHA"] [M "SSL_kDHE"] [M "SSL_aRSA"] [M "SSL_AES256"] [M "SSL_SHA1"]
      [M "SSL3_VERSION"] [M "TLS1_2_VERSION"] [M "DTLS1_BAD_VER"] [M "DTLS1_2_VERSION"]
      [M "SSL_HIGH"; M "SSL_FIPS"] [M "SSL_HANDSHAKE_MAC_DEFAULT"; M "TLS1_PRF"] [L 256] [L 256];
    Init always 1 (TM "TLS1_TXT_ADH_WITH_AES_256_SHA") (TM "TLS1_RFC_ADH_WITH_AES_256_SHA")
      [M "TLS1_CK_ADH_WITH_AES_256_SHA"] [M "SSL_kDHE"] [M "SSL_aNULL"] [M "SSL_AES256"] [M "SSL_SHA1"]
      [M "SSL3_VERSION"] [M "TLS1_2_VERSION"] [M "DTLS1_BAD_VER"] [M "DTLS1_2_VERSION"]
      [M "SSL_NOT_DEFAULT"; M "SSL_HIGH"; M "SSL_FIPS"] [M "SSL_HANDSHAKE_MAC_DEFAULT"; M "TLS1_PRF"] [L 256] [L 256];
    Init always 1 (TM "TLS1_TXT_RSA_WITH_NULL_SHA256") (TM "TLS1_RFC_RSA_WITH_NULL_SHA256")
      [M "TLS1_CK_RSA_WITH_NULL_SHA256"] [M "SSL_kRSA"] [M "SSL_aRSA"] [M "SSL_eNULL"] [M "SSL_SHA256"]
      [M "TLS1_2_VERSION"] [M "TLS1_2_VERSION"] [M "DTLS1_2_VERSION"] [M "DTLS1_2_VERSION"]
      [M "SSL_STRONG_NONE"; M "SSL_FIPS"] [M "SSL_HANDSHAKE_MAC_DEFAULT"; M "TLS1_PRF"] [L 0] [L 0];
    Init always 1 (TM "TLS1_TXT_RSA_WITH_AES_128_SHA256") (TM "TLS1_RFC_RSA_WITH_AES_128_SHA256")
      [M "TLS1_CK_RSA_WITH_AES_128_SHA256"] [M "SSL_kRSA"] [M "SSL_aRSA"] [M "SSL_AES128"] [M "SSL_SHA256"]
      [M "TLS1_2_VERSION"] [M "TLS1_2_VERSION"] [M "DTLS1_2_VERSION"] [M "DTLS1_2_VERSION"]
      [M "SSL_HIGH"; M "SSL_FIPS"] [M "SSL_HANDSHAKE_MAC_DEFAULT"; M "TLS1_PRF"] [L 128] [L 128];
    Init always 1 (TM "TLS1_TXT_RSA_WITH_AES_256_SHA256") (TM "TLS1_RFC_RSA_WITH_AES_256_SHA256")
      [M "TLS1_CK_RSA_WITH_AES_256_SHA256"] [M "SSL_kRSA"] [M "SSL_aRSA"] [M "SSL_AES256"] [M "SSL_SHA256"]
      [M "TLS1_2_VERSION"] [M "TLS1_2_VERSION"] [M "DTLS1_2_VERSION"] [M "DTLS1_2_VERSION"]
      [M "SSL_HIGH"; M "SSL_FIPS"] [M "SSL_HANDSHAKE_MAC_DEFAULT"; M "TLS1_PRF"] [L 256] [L 256];
    Init always 1 (TM "TLS1_TXT_DHE_DSS_WITH_AES_128_SHA256") (TM "TLS1_RFC_DHE_DSS_WITH_AES_128_SHA256")
      [M "TLS1_CK_DHE_DSS_WITH_AES_128_SHA256"] [M "SSL_kDHE"] [M "SSL_aDSS"] [M "SSL_AES128"] [M "SSL_SHA256"]
      [M "TLS1_2_VERSION"] [M "TLS1_2_VERSION"] [M "DTLS1_2_VERSION"] [M "DTLS1_2_VERSION"]
      [M "SSL_NOT_DEFAULT"; M "SSL_HIGH"; M "SSL_FIPS"] [M "SSL_HANDSHAKE_MAC_DEFAULT"; M "TLS1_PRF"] [L 128] [L 128];
    Init always 1 (TM "TLS1_TXT_DHE_RSA_WITH_AES_128_SHA256") (TM "TLS1_RFC_DHE_RSA_WITH_AES_128_SHA256")
      [M "TLS1_CK_DHE_RSA_WITH_AES_128_SHA256"] [M "SSL_kDHE"] [M "SSL_aRSA"] [M "SSL_AES128"] [M "SSL_SHA256"]
      [M "TLS1_2_VERSION"] [M "TLS1_2_VERSION"] [M "DTLS1_2_VERSION"] [M "DTLS1_2_VERSION"]
      [M "SSL_HIGH"; M "SSL_FIPS"] [M "SSL_HANDSHAKE_MAC_DEFAULT"; M "TLS1_PRF"] [L 128] [L 128];
    Init always 1 (TM "TLS1_TXT_DHE_DSS_WITH_AES_256_SHA256") (TM "TLS1_RFC_DHE_DSS_WITH_AES_256_SHA256")
      [M "TLS1_CK_DHE_DSS_WITH_AES_256_SHA256"] [M "SSL_kDHE"] [M "SSL_aDSS"] [M "SSL_AES256"] [M "SSL_SHA256"]
      [M "TLS1_2_VERSION"] [M "TLS1_2_VERSION"] [M "DTLS1_2_VERSION"] [M "DTLS1_2_VERSION"]
      [M "SSL_NOT_DEFAULT"; M "SSL_HIGH"; M "SSL_FIPS"] [M "SSL_HANDSHAKE_MAC_DEFAULT"; M "TLS1_PRF"] [L 256] [L 256];
    Init always 1 (TM "TLS1_TXT_DHE_RSA_WITH_AES_256_SHA256") (TM "TLS1_RFC_DHE_RSA_WITH_AES_256_SHA256")
      [M "TLS1_CK_DHE_RSA_WITH_AES_256_SHA256"] [M "SSL_kDHE"] [M "SSL_aRSA"] [M "SSL_AES256"] [M "SSL_SHA256"]
      [M "TLS1_2_VERSION"] [M "TLS1_2_VERSION"] [M "DTLS1_2_VERSION"] [M "DTLS1_2_VERSION"]
      [M "SSL_HIGH"; M "SSL_FIPS"] [M "SSL_HANDSHAKE_MAC_DEFAULT"; M "TLS1_PRF"] [L 256] [L 256];
    Init always 1 (TM "TLS1_TXT_ADH_WITH_AES_128_SHA256") (TM "TLS1_RFC_ADH_WITH_AES_128_SHA256")
      [M "TLS1_CK_ADH_WITH_AES_128_SHA256"] [M "SSL_kDHE"] [M "SSL_aNULL"] [M "SSL_AES128"] [M "SSL_SHA256"]
      [M "TLS1_2_VERSION"] [M "TLS1_2_VERSION"] [M "DTLS1_2_VERSION"] [M "DTLS1_2_VERSION"]
      [M "SSL_NOT_DEFAULT"; M "SSL_HIGH"; M "SSL_FIPS"] [M "SSL_HANDSHAKE_MAC_DEFAULT"; M "TLS1_PRF"] [L 128] [L 128];
    Init always 1 (TM "TLS1_TXT_ADH_WITH_AES_256_SHA256") (TM "TLS1_RFC_ADH_WITH_AES_256_SHA256")
      [M "TLS1_CK_ADH_WITH_AES_256_SHA256"] [M "SSL_kDHE"] [M "SSL_aNULL"] [M "SSL_AES256"] [M "SSL_SHA256"]
      [M "TLS1_2_VERSION"] [M "TLS1_2_VERSION"] [M "DTLS1_2_VERSION"] [M "DTLS1_2_VERSION"]
      [M "SSL_NOT_DEFAULT"; M "SSL_HIGH"; M "SSL_FIPS"] [M "SSL_HANDSHAKE_MAC_DEFAULT"; M "TLS1_PRF"] [L 256] [L 256];
    Init always 1 (TM "TLS1_TXT_RSA_WITH_AES_128_GCM_SHA256") (TM "TLS1_RFC_RSA_WITH_AES_128_GCM_SHA256")
      [M "TLS1_CK_RSA_WITH_AES_128_GCM_SHA256"] [M "SSL_kRSA"] [M "SSL_aRSA"] [M "SSL_AES128GCM"] [M "SSL_AEAD"]
      [M "TLS1_2_VERSION"] [M "TLS1_2_VERSION"] [M "DTLS1_2_VERSION"] [M "DTLS1_2_VERSION"]
      [M "SSL_HIGH"; M "SSL_FIPS"] [M "SSL_HANDSHAKE_MAC_SHA256"; M "TLS1_PRF_SHA256"] [L 128] [L 128];
    Init always 1 (TM "TLS1_TXT_RSA_WITH_AES_256_GCM_SHA384") (TM "TLS1_RFC_RSA_WITH_AES_256_GCM_SHA384")
      [M "TLS1_CK_RSA_WITH_AES_256_GCM_SHA384"] [M "SSL_kRSA"] [M "SSL_aRSA"] [M "SSL_AES256GCM"] [M "SSL_AEAD"]
      [M "TLS1_2_VERSION"] [M "TLS1_2_VERSION"] [M "DTLS1_2_VERSION"] [M "DTLS1_2_VERSION"]
      [M "SSL_HIGH"; M "SSL_FIPS"] [M "SSL_HANDSHAKE_MAC_SHA384"; M "TLS1_PRF_SHA384"] [L 256] [L 256];
    Init always 1 (TM "TLS1_TXT_DHE_RSA_WITH_AES_128_GCM_SHA256") (TM "TLS1_RFC_DHE_RSA_WITH_AES_128_GCM_SHA256")
      [M "TLS1_CK_DHE_RSA_WITH_AES_128_GCM_SHA256"] [M "SSL_kDHE"] [M "SSL_aRSA"] [M "SSL_AES128GCM"] [M "SSL_AEAD"]
      [M "TLS1_2_VERSION"] [M "TLS1_2_VERSION"] [M "DTLS1_2_VERSION"] [M "DTLS1_2_VERSION"]
      [M "SSL_HIGH"; M "SSL_FIPS"] [M "SSL_HANDSHAKE_MAC_SHA256"; M "TLS1_PRF_SHA256"] [L 128] [L 128];
    Init always 1 (TM "TLS1_TXT_DHE_RSA_WITH_AES_256_GCM_SHA384") (TM "TLS1_RFC_DHE_RSA_WITH_AES_256_GCM_SHA384")
      [M "TLS1_CK_DHE_RSA_WITH_AES_256_GCM_SHA384"] [M "SSL_kDHE"] [M "SSL_aRSA"] [M "SSL_AES256GCM"] [M "SSL_AEAD"]
      [M "TLS1_2_VERSION"] [M "TLS1_2_VERSION"] [M "DTLS1_2_VERSION"] [M "DTLS1_2_VERSION"]
      [M "SSL_HIGH"; M "SSL_FIPS"] [M "SSL_HANDSHAKE_MAC_SHA384"; M "TLS1_PRF_SHA384"] [L 256] [L 256];
    Init always 1 (TM "TLS1_TXT_DHE_DSS_WITH_AES_128_GCM_SHA256") (TM "TLS1_RFC_DHE_DSS_WITH_AES_128_GCM_SHA256")
      [M "TLS1_CK_DHE_DSS_WITH_AES_128_GCM_SHA256"] [M "SSL_kDHE"] [M "SSL_aDSS"] [M "SSL_AES128GCM"] [M "SSL_AEAD"]
      [M "TLS1_2_VERSION"] [M "TLS1_2_VERSION"] [M "DTLS1_2_VERSION"] [M "DTLS1_2_VERSION"]
      [M "SSL_NOT_DEFAULT"; M "SSL_HIGH"; M "SSL_FIPS"] [M "SSL_HANDSHAKE_MAC_SHA256"; M "TLS1_PRF_SHA256"] [L 128] [L 128];
    Init always 1 (TM "TLS1_TXT_DHE_DSS_WITH_AES_256_GCM_SHA384") (TM "TLS1_RFC_DHE_DSS_WITH_AES_256_GCM_SHA384")
      [M "TLS1_CK_DHE_DSS_WITH_AES_256_GCM_SHA384"] [M "SSL_kDHE"] [M "SSL_aDSS"] [M "SSL_AES256GCM"] [M "SSL_AEAD"]
      [M "TLS1_2_VERSION"] [M "TLS1_2_VERSION"] [M "DTLS1_2_VERSION"] [M "DTLS1_2_VERSION"]
      [M "SSL_NOT_DEFAULT"; M "SSL_HIGH"; M "SSL_FIPS"] [M "SSL_HANDSHAKE_MAC_SHA384"; M "TLS1_PRF_SHA384"] [L 256] [L 256];
    Init always 1 (TM "TLS1_TXT_ADH_WITH_AES_128_GCM_SHA256") (TM "TLS1_RFC_ADH_WITH_AES_128_GCM_SHA256")
      [M "TLS1_CK_ADH_WITH_AES_128_GCM_SHA256"] [M "SSL_kDHE"] [M "SSL_aNULL"] [M "SSL_AES128GCM"] [M "SSL_AEAD"]
      [M "TLS1_2_VERSION"] [M "TLS1_2_VERSION"] [M "DTLS1_2_VERSION"] [M "DTLS1_2_VERSION"]
      [M "SSL_NOT_DEFAULT"; M "SSL_HIGH"; M "SSL_FIPS"] [M "SSL_HANDSHAKE_MAC_SHA256"; M "TLS1_PRF_SHA256"] [L 128] [L 128];
    Init always 1 (TM "TLS1_TXT_ADH_WITH_AES_256_GCM_SHA384") (TM "TLS1_RFC_ADH_WITH_AES_256_GCM_SHA384")
      [M "TLS1_CK_ADH_WITH_AES_256_GCM_SHA384"] [M "SSL_kDHE"] [M "SSL_aNULL"] [M "SSL_AES256GCM"] [M "SSL_AEAD"]
      [M "TLS1_2_VERSION"] [M "TLS1_2_VERSION"] [M "DTLS1_2_VERSION"] [M "DTLS1_2_VERSION"]
      [M "SSL_NOT_DEFAULT"; M "SSL_HIGH"; M "SSL_FIPS"] [M "SSL_HANDSHAKE_MAC_SHA384"; M "TLS1_PRF_SHA384"] [L 256] [L 256];
    Init always 1 (TM "TLS1_TXT_RSA_WITH_AES_128_CCM") (TM "TLS1_RFC_RSA_WITH_AES_128_CCM")
      [M "TLS1_CK_RSA_WITH_AES_128_CCM"] [M "SSL_kRSA"] [M "SSL_aRSA"] [M "SSL_AES128CCM"] [M "SSL_AEAD"]
      [M "TLS1_2_VERSION"] [M "TLS1_2_VERSION"] [M "DTLS1_2_VERSION"] [M "DTLS1_2_VERSION"]
      [M "SSL_NOT_DEFAULT"; M "SSL_HIGH"] [M "SSL_HANDSHAKE_MAC_SHA256"; M "TLS1_PRF_SHA256"] [L 128] [L 128];
    Init always 1 (TM "TLS1_TXT_RSA_WITH_AES_256_CCM") (TM "TLS1_RFC_RSA_WITH_AES_256_CCM")
      [M "TLS1_CK_RSA_WITH_AES_256_CCM"] [M "SSL_kRSA"] [M "SSL_aRSA"] [M "SSL_AES256CCM"] [M "SSL_AEAD"]
      [M "TLS1_2_VERSION"] [M "TLS1_2_VERSION"] [M "DTLS1_2_VERSION"] [M "DTLS1_2_VERSION"]
      [M "SSL_NOT_DEFAULT"; M "SSL_HIGH"] [M "SSL_HANDSHAKE_MAC_SHA256"; M "TLS1_PRF_SHA256"] [L 256] [L 256];
    Init always 1 (TM "TLS1_TXT_DHE_RSA_WITH_AES_128_CCM") (TM "TLS1_RFC_DHE_RSA_WITH_AES_128_CCM")
      [M "TLS1_CK_DHE_RSA_WITH_AES_128_CCM"] [M "SSL_kDHE"] [M "SSL_aRSA"] [M "SSL_AES128CCM"] [M "SSL_AEAD"]
      [M "TLS1_2_VERSION"] [M "TLS1_2_VERSION"] [M "DTLS1_2_VERSION"] [M "DTLS1_2_VERSION"]
      [M "SSL_NOT_DEFAULT"; M "SSL_HIGH"] [M "SSL_HANDSHAKE_MAC_SHA256"; M "TLS1_PRF_SHA256"] [L 128] [L 128];
    Init always 1 (TM "TLS1_TXT_DHE_RSA_WITH_AES_256_CCM") (TM "TLS1_RFC_DHE_RSA_WITH_AES_256_CCM")
      [M "TLS1_CK_DHE_RSA_WITH_AES_256_CCM"] [M "SSL_kDHE"] [M "SSL_aRSA"] [M "SSL_AES256CCM"] [M "SSL_AEAD"]
      [M "TLS1_2_VERSION"] [M "TLS1_2_VERSION"] [M "DTLS1_2_VERSION"] [M "DTLS1_2_VERSION"]
      [M "SSL_NOT_DEFAULT"; M "SSL_HIGH"] [M "SSL_HANDSHAKE_MAC_SHA256"; M "TLS1_PRF_SHA256"] [L 256] [L 256];
    Init always 1 (TM "TLS1_TXT_RSA_WITH_AES_128_CCM_8") (TM "TLS1_RFC_RSA_WITH_AES_128_CCM_8")
      [M "TLS1_CK_RSA_WITH_AES_128_CCM_8"] [M "SSL_kRSA"] [M "SSL_aRSA"] [M "SSL_AES128CCM8"] [M "SSL_AEAD"]
      [M "TLS1_2_VERSION"] [M "TLS1_2_VERSION"] [M "DTLS1_2_VERSION"] [M "DTLS1_2_VERSION"]
      [M "SSL_NOT_DEFAULT"; M "SSL_HIGH"] [M "SSL_HANDSHAKE_MAC_SHA256"; M "TLS1_PRF_SHA256"] [L 128] [L 128];
    Init always 1 (TM "TLS1_TXT_RSA_WITH_AES_256_CCM_8") (TM "TLS1_RFC_RSA_WITH_AES_256_CCM_8")
      [M "TLS1_CK_RSA_WITH_AES_256_CCM_8"] [M "SSL_kRSA"] [M "SSL_aRSA"] [M "SSL_AES256CCM8"] [M "SSL_AEAD"]
      [M "TLS1_2_VERSION"] [M "TLS1_2_VERSION"] [M "DTLS1_2_VERSION"] [M "DTLS1_2_VERSION"]
      [M "SSL_NOT_DEFAULT"; M "SSL_HIGH"] [M "SSL_HANDSHAKE_MAC_SHA256"; M "TLS1_PRF_SHA256"] [L 256] [L 256];
    Init always 1 (TM "TLS1_TXT_DHE_RSA_WITH_AES_128_CCM_8") (TM "TLS1_RFC_DHE_RSA_WITH_AES_128_CCM_8")
      [M "TLS1_CK_DHE_RSA_WITH_AES_128_CCM_8"] [M "SSL_kDHE"] [M "SSL_aRSA"] [M "SSL_AES128CCM8"] [M "SSL_AEAD"]
      [M "TLS1_2_VERSION"] [M "TLS1_2_VERSION"] [M "DTLS1_2_VERSION"] [M "DTLS1_2_VERSION"]
      [M "SSL_NOT_DEFAULT"; M "SSL_HIGH"] [M "SSL_HANDSHAKE_MAC_SHA256"; M "TLS1_PRF_SHA256"] [L 128] [L 128];
    Init always 1 (TM "TLS1_TXT_DHE_RSA_WITH_AES_256_CCM_8") (TM "TLS1_RFC_DHE_RSA_WITH_AES_256_CCM_8")
      [M "TLS1_CK_DHE_RSA_WITH_AES_256_CCM_8"] [M "SSL_kDHE"] [M "SSL_aRSA"] [M "SSL_AES256CCM8"] [M "SSL_AEAD"]
      [M "TLS1_2_VERSION"] [M "TLS1_2_VERSION"] [M "DTLS1_2_VERSION"] [M "DTLS1_2_VERSION"]
      [M "SSL_NOT_DEFAULT"; M "SSL_HIGH"] [M "SSL_HANDSHAKE_MAC_SHA256"; M "TLS1_PRF_SHA256"] [L 256] [L 256];
    Init always 1 (TM "TLS1_TXT_PSK_WITH_AES_128_CCM") (TM "TLS1_RFC_PSK_WITH_AES_128_CCM")
      [M "TLS1_CK_PSK_WITH_AES_128_CCM"] [M "SSL_kPSK"] [M "SSL_aPSK"] [M "SSL_AES128CCM"] [M "SSL_AEAD"]
      [M "TLS1_2_VERSION"] [M "TLS1_2_VERSION"] [M "DTLS1_2_VERSION"] [M "DTLS1_2_VERSION"]
      [M "SSL_NOT_DEFAULT"; M "SSL_HIGH"] [M "SSL_HANDSHAKE_MAC_SHA256"; M "TLS1_PRF_SHA256"] [L 128] [L 128];
    Init always 1 (TM "TLS1_TXT_PSK_WITH_AES_256_CCM") (TM "TLS1_RFC_PSK_WITH_AES_256_CCM")
      [M "TLS1_CK_PSK_WITH_AES_256_CCM"] [M "SSL_kPSK"] [M "SSL_aPSK"] [M "SSL_AES256CCM"] [M "SSL_AEAD"]
      [M "TLS1_2_VERSION"] [M "TLS1_2_VERSION"] [M "DTLS1_2_VERSION"] [M "DTLS1_2_VERSION"]
      [M "SSL_NOT_DEFAULT"; M "SSL_HIGH"] [M "SSL_HANDSHAKE_MAC_SHA256"; M "TLS1_PRF_SHA256"] [L 256] [L 256];
    Init always 1 (TM "TLS1_TXT_DHE_PSK_WITH_AES_128_CCM") (TM "TLS1_RFC_DHE_PSK_WITH_AES_128_CCM")
      [M "TLS1_CK_DHE_PSK_WITH_AES_128_CCM"] [M "SSL_kDHEPSK"] [M "SSL_aPSK"] [M "SSL_AES128CCM"] [M "SSL_AEAD"]
      [M "TLS1_2_VERSION"] [M "TLS1_2_VERSION"] [M "DTLS1_2_VERSION"] [M "DTLS1_2_VERSION"]
      [M "SSL_NOT_DEFAULT"; M "SSL_HIGH"] [M "SSL_HANDSHAKE_MAC_SHA256"; M "TLS1_PRF_SHA256"] [L 128] [L 128];
    Init always 1 (TM "TLS1_TXT_DHE_PSK_WITH_AES_256_CCM") (TM "TLS1_RFC_DHE_PSK_WITH_AES_256_CCM")
      [M "TLS1_CK_DHE_PSK_WITH_AES_256_CCM"] [M "SSL_kDHEPSK"] [M "SSL_aPSK"] [M "SSL_AES256CCM"] [M "SSL_AEAD"]
      [M "TLS1_2_VERSION"] [M "TLS1_2_VERSION"] [M "DTLS1_2_VERSION"] [M "DTLS1_2_VERSION"]
      [M "SSL_NOT_DEFAULT"; M "SSL_HIGH"] [M "SSL_HANDSHAKE_MAC_SHA256"; M "TLS1_PRF_SHA256"] [L 256] [L 256];
    Init always 1 (TM "TLS1_TXT_PSK_WITH_AES_128_CCM_8") (TM "TLS1_RFC_PSK_WITH_AES_128_CCM_8")
      [M "TLS1_CK_PSK_WITH_AES_128_CCM_8"] [M "SSL_kPSK"] [M "SSL_aPSK"] [M "SSL_AES128CCM8"] [M "SSL_AEAD"]
      [M "TLS1_2_VERSION"] [M "TLS1_2_VERSION"] [M "DTLS1_2_VERSION"] [M "DTLS1_2_VERSION"]
      [M "SSL_NOT_DEFAULT"; M "SSL_HIGH"] [M "SSL_HANDSHAKE_MAC_SHA256"; M "TLS1_PRF_SHA256"] [L 128] [L 128];
    Init always 1 (TM "TLS1_TXT_PSK_WITH_AES_256_CCM_8") (TM "TLS1_RFC_PSK_WITH_AES_256_CCM_8")
      [M "TLS1_CK_PSK_WITH_AES_256_CCM_8"] [M "SSL_kPSK"] [M "SSL_aPSK"] [M "SSL_AES256CCM8"] [M "SSL_AEAD"]
      [M "TLS1_2_VERSION"] [M "TLS1_2_VERSION"] [M "DTLS1_2_VERSION"] [M "DTLS1_2_VERSION"]
      [M "SSL_NOT_DEFAULT"; M "SSL_HIGH"] [M "SSL_HANDSHAKE_MAC_SHA256"; M "TLS1_PRF_SHA256"] [L 256] [L 256];
    Init always 1 (TM "TLS1_TXT_DHE_PSK_WITH_AES_128_CCM_8") (TM "TLS1_RFC_DHE_PSK_WITH_AES_128_CCM_8")
      [M "TLS1_CK_DHE_PSK_WITH_AES_128_CCM_8"] [M "SSL_kDHEPSK"] [M "SSL_aPSK"] [M "SSL_AES128CCM8"] [M "SSL_AEAD"]
      [M "TLS1_2_VERSION"] [M "TLS1_2_VERSION"] [M "DTLS1_2_VERSION"] [M "DTLS1_2_VERSION"]
      [M "SSL_NOT_DEFAULT"; M "SSL_HIGH"] [M "SSL_HANDSHAKE_MAC_SHA256"; M "TLS1_PRF_SHA256"] [L 128] [L 128];
    Init always 1 (TM "TLS1_TXT_DHE_PSK_WITH_AES_256_CCM_8") (TM "TLS1_RFC_DHE_PSK_WITH_AES_256_CCM_8")
      [M "TLS1_CK_DHE_PSK_WITH_AES_256_CCM_8"] [M "SSL_kDHEPSK"] [M "SSL_aPSK"] [M "SSL_AES256CCM8"] [M "SSL_AEAD"]
      [M "TLS1_2_VERSION"] [M "TLS1_2_VERSION"] [M "DTLS1_2_VERSION"] [M "DTLS1_2_VERSION"]
      [M "SSL_NOT_DEFAULT"; M "SSL_HIGH"] [M "SSL_HANDSHAKE_MAC_SHA256"; M "TLS1_PRF_SHA256"] [L 256] [L 256];
    Init always 1 (TM "TLS1_TXT_ECDHE_ECDSA_WITH_AES_128_CCM") (TM "TLS1_RFC_ECDHE_ECDSA_WITH_AES_128_CCM")
      [M "TLS1_CK_ECDHE_ECDSA_WITH_AES_128_CCM"] [M "SSL_kECDHE"] [M "SSL_aECDSA"] [M "SSL_AES128CCM"] [M "SSL_AEAD"]
      [M "TLS1_2_VERSION"] [M "TLS1_2_VERSION"] [M "DTLS1_2_VERSION"] [M "DTLS1_2_VERSION"]
      [M "SSL_NOT_DEFAULT"; M "SSL_HIGH"] [M "SSL_HANDSHAKE_MAC_SHA256"; M "TLS1_PRF_SHA256"] [L 128] [L 128];
    Init always 1 (TM "TLS1_TXT_ECDHE_ECDSA_WITH_AES_256_CCM") (TM "TLS1_RFC_ECDHE_ECDSA_WITH_AES_256_CCM")
      [M "TLS1_CK_ECDHE_ECDSA_WITH_AES_256_CCM"] [M "SSL_kECDHE"] [M "SSL_aECDSA"] [M "SSL_AES256CCM"] [M "SSL_AEAD"]
      [M "TLS1_2_VERSION"] [M "TLS1_2_VERSION"] [M "DTLS1_2_VERSION"] [M "DTLS1_2_VERSION"]
      [M "SSL_NOT_DEFAULT"; M "SSL_HIGH"] [M "SSL_HANDSHAKE_MAC_SHA256"; M "TLS1_PRF_SHA256"] [L 256] [L 256];
    Init always 1 (TM "TLS1_TXT_ECDHE_ECDSA_WITH_AES_128_CCM_8") (TM "TLS1_RFC_ECDHE_ECDSA_WITH_AES_128_CCM_8")
      [M "TLS1_CK_ECDHE_ECDSA_WITH_AES_128_CCM_8"] [M "SSL_kECDHE"] [M "SSL_aECDSA"] [M "SSL_AES128CCM8"] [M "SSL_AEAD"]
      [M "TLS1_2_VERSION"] [M "TLS1_2_VERSION"] [M "DTLS1_2_VERSION"] [M "DTLS1_2_VERSION"]
      [M "SSL_NOT_DEFAULT"; M "SSL_HIGH"] [M "SSL_HANDSHAKE_MAC_SHA256"; M "TLS1_PRF_SHA256"] [L 128] [L 128];
    Init always 1 (TM "TLS1_TXT_ECDHE_ECDSA_WITH_AES_256_CCM_8") (TM "TLS1_RFC_ECDHE_ECDSA_WITH_AES_256_CCM_8")
      [M "TLS1_CK_ECDHE_ECDSA_WITH_AES_256_CCM_8"] [M "SSL_kECDHE"] [M "SSL_aECDSA"] [M "SSL_AES256CCM8"] [M "SSL_AEAD"]
      [M "TLS1_2_VERSION"] [M "TLS1_2_VERSION"] [M "DTLS1_2_VERSION"] [M "DTLS1_2_VERSION"]
      [M "SSL_NOT_DEFAULT"; M "SSL_HIGH"] [M "SSL_HANDSHAKE_MAC_SHA256"; M "TLS1_PRF_SHA256"] [L 256] [L 256];
    Init always 1 (TM "TLS1_TXT_ECDHE_ECDSA_WITH_NULL_SHA") (TM "TLS1_RFC_ECDHE_ECDSA_WITH_NULL_SHA")
      [M "TLS1_CK_ECDHE_ECDSA_WITH_NULL_SHA"] [M "SSL_kECDHE"] [M "SSL_aECDSA"] [M "SSL_eNULL"] [M "SSL_SHA1"]
      [M "TLS1_VERSION"] [M "TLS1_2_VERSION"] [M "DTLS1_BAD_VER"] [M "DTLS1_2_VERSION"]
      [M "SSL_STRONG_NONE"; M "SSL_FIPS"] [M "SSL_HANDSHAKE_MAC_DEFAULT"; M "TLS1_PRF"] [L 0] [L 0];
    Init weak_ssl_ciphers 1 (TM "TLS1_TXT_ECDHE_ECDSA_WITH_DES_192_CBC3_SHA") (TM "TLS1_RFC_ECDHE_ECDSA_WITH_DES_192_CBC3_SHA")
      [M "TLS1_CK_ECDHE_ECDSA_WITH_DES_192_CBC3_SHA"] [M "SSL_kECDHE"] [M "SSL_aECDSA"] [M "SSL_3DES"] [M "SSL_SHA1"]
      [M "TLS1_VERSION"] [M "TLS1_2_VERSION"] [M "DTLS1_BAD_VER"] [M "DTLS1_2_VERSION"]
      [M "SSL_NOT_DEFAULT"; M "SSL_MEDIUM"; M "SSL_FIPS"] [M "SSL_HANDSHAKE_MAC_DEFAULT"; M "TLS1_PRF"] [L 112] [L 168];
    Init always 1 (TM "TLS1_TXT_ECDHE_ECDSA_WITH_AES_128_CBC_SHA") (TM "TLS1_RFC_ECDHE_ECDSA_WITH_AES_128_CBC_SHA")
      [M "TLS1_CK_ECDHE_ECDSA_WITH_AES_128_CBC_SHA"] [M "SSL_kECDHE"] [M "SSL_aECDSA"] [M "SSL_AES128"] [M "SSL_SHA1"]
      [M "TLS1_VERSION"] [M "TLS1_2_VERSION"] [M "DTLS1_BAD_VER"] [M "DTLS1_2_VERSION"]
      [M "SSL_HIGH"; M "SSL_FIPS"] [M "SSL_HANDSHAKE_MAC_DEFAULT"; M "TLS1_PRF"] [L 128] [L 128];
    Init always 1 (TM "TLS1_TXT_ECDHE_ECDSA_WITH_AES_256_CBC_SHA") (TM "TLS1_RFC_ECDHE_ECDSA_WITH_AES_256_CBC_SHA")
      [M "TLS1_CK_ECDHE_ECDSA_WITH_AES_256_CBC_SHA"] [M "SSL_kECDHE"] [M "SSL_aECDSA"] [M "SSL_AES256"] [M "SSL_SHA1"]
      [M "TLS1_VERSION"] [M "TLS1_2_VERSION"] [M "DTLS1_BAD_VER"] [M "DTLS1_2_VERSION"]
      [M "SSL_HIGH"; M "SSL_FIPS"] [M "SSL_HANDSHAKE_MAC_DEFAULT"; M "TLS1_PRF"] [L 256] [L 256];
    Init always 1 (TM "TLS1_TXT_ECDHE_RSA_WITH_NULL_SHA") (TM "TLS1_RFC_ECDHE_RSA_WITH_NULL_SHA")
      [M "TLS1_CK_ECDHE_RSA_WITH_NULL_SHA"] [M "SSL_kECDHE"] [M "SSL_aRSA"] [M "SSL_eNULL"] [M "SSL_SHA1"]
      [M "TLS1_VERSION"] [M "TLS1_2_VERSION"] [M "DTLS1_BAD_VER"] [M "DTLS1_2_VERSION"]
      [M "SSL_STRONG_NONE"; M "SSL_FIPS"] [M "SSL_HANDSHAKE_MAC_DEFAULT"; M "TLS1_PRF"] [L 0] [L 0];
    Init weak_ssl_ciphers 1 (TM "TLS1_TXT_ECDHE_RSA_WITH_DES_192_CBC3_SHA") (TM "TLS1_RFC_ECDHE_RSA_WITH_DES_192_CBC3_SHA")
      [M "TLS1_CK_ECDHE_RSA_WITH_DES_192_CBC3_SHA"] [M "SSL_kECDHE"] [M "SSL_aRSA"] [M "SSL_3DES"] [M "SSL_SHA1"]
      [M "TLS1_VERSION"] [M "TLS1_2_VERSION"] [M "DTLS1_BAD_VER"] [M "DTLS1_2_VERSION"]
      [M "SSL_NOT_DEFAULT"; M "SSL_MEDIUM"; M "SSL_FIPS"] [M "SSL_HANDSHAKE_MAC_DEFAULT"; M "TLS1_PRF"] [L 112] [L 168];
    Init always 1 (TM "TLS1_TXT_ECDHE_RSA_WITH_AES_128_CBC_SHA") (TM "TLS1_RFC_ECDHE_RSA_WITH_AES_128_CBC_SHA")
      [M "TLS1_CK_ECDHE_RSA_WITH_AES_128_CBC_SHA"] [M "SSL_kECDHE"] [M "SSL_aRSA"] [M "SSL_AES128"] [M "SSL_SHA1"]
      [M "TLS1_VERSION"] [M "TLS1_2_VERSION"] [M "DTLS1_BAD_VER"] [M "DTLS1_2_VERSION"]
      [M "SSL_HIGH"; M "SSL_FIPS"] [M "SSL_HANDSHAKE_MAC_DEFAULT"; M "TLS1_PRF"] [L 128] [L 128];
    Init always 1 (TM "TLS1_TXT_ECDHE_RSA_WITH_AES_256_CBC_SHA") (TM "TLS1_RFC_ECDHE_RSA_WITH_AES_256_CBC_SHA")
      [M "TLS1_CK_ECDHE_RSA_WITH_AES_256_CBC_SHA"] [M "SSL_kECDHE"] [M "SSL_aRSA"] [M "SSL_AES256"] [M "SSL_SHA1"]
      [M "TLS1_VERSION"] [M "TLS1_2_VERSION"] [M "DTLS1_BAD_VER"] [M "DTLS1_2_VERSION"]
      [M "SSL_HIGH"; M "SSL_FIPS"] [M "SSL_HANDSHAKE_MAC_DEFAULT"; M "TLS1_PRF"] [L 256] [L 256];
    Init always 1 (TM "TLS1_TXT_ECDH_anon_WITH_NULL_SHA") (TM "TLS1_RFC_ECDH_anon_WITH_NULL_SHA")
      [M "TLS1_CK_ECDH_anon_WITH_NULL_SHA"] [M "SSL_kECDHE"] [M "SSL_aNULL"] [M "SSL_eNULL"] [M "SSL_SHA1"]
      [M "TLS1_VERSION"] [M "TLS1_2_VERSION"] [M "DTLS1_BAD_VER"] [M "DTLS1_2_VERSION"]
      [M "SSL_STRONG_NONE"; M "SSL_FIPS"] [M "SSL_HANDSHAKE_MAC_DEFAULT"; M "TLS1_PRF"] [L 0] [L 0];
    Init weak_ssl_ciphers 1 (TM "TLS1_TXT_ECDH_anon_WITH_DES_192_CBC3_SHA") (TM "TLS1_RFC_ECDH_anon_WITH_DES_192_CBC3_SHA")
      [M "TLS1_CK_ECDH_anon_WITH_DES_192_CBC3_SHA"] [M "SSL_kECDHE"] [M "SSL_aNULL"] [M "SSL_3DES"] [M "SSL_SHA1"]
      [M "TLS1_VERSION"] [M "TLS1_2_VERSION"] [M "DTLS1_BAD_VER"] [M "DTLS1_2_VERSION"]
      [M "SSL_NOT_DEFAULT"; M "SSL_MEDIUM"; M "SSL_FIPS"] [M "SSL_HANDSHAKE_MAC_DEFAULT"; M "TLS1_PRF"] [L 112] [L 168];
    Init always 1 (TM "TLS1_TXT_ECDH_anon_WITH_AES_128_CBC_SHA") (TM "TLS1_RFC_ECDH_anon_WITH_AES_128_CBC_SHA")
      [M "TLS1_CK_ECDH_anon_WITH_AES_128_CBC_SHA"] [M "SSL_kECDHE"] [M "SSL_aNULL"] [M "SSL_AES128"] [M "SSL_SHA1"]
      [M "TLS1_VERSION"] [M "TLS1_2_VERSION"] [M "DTLS1_BAD_VER"] [M "DTLS1_2_VERSION"]
      [M "SSL_NOT_DEFAULT"; M "SSL_HIGH"; M "SSL_FIPS"] [M "SSL_HANDSHAKE_MAC_DEFAULT"; M "TLS1_PRF"] [L 128] [L 128];
    Init always 1 (TM "TLS1_TXT_ECDH_anon_WITH_AES_256_CBC_SHA") (TM "TLS1_RFC_ECDH_anon_WITH_AES_256_CBC_SHA")
      [M "TLS1_CK_ECDH_anon_WITH_AES_256_CBC_SHA"] [M "SSL_kECDHE"] [M "SSL_aNULL"] [M "SSL_AES256"] [M "SSL_SHA1"]
      [M "TLS1_VERSION"] [M "TLS1_2_VERSION"] [M "DTLS1_BAD_VER"] [M "DTLS1_2_VERSION"]
      [M "SSL_NOT_DEFAULT"; M "SSL_HIGH"; M "SSL_FIPS"] [M "SSL_HANDSHAKE_MAC_DEFAULT"; M "TLS1_PRF"] [L 256] [L 256];
    Init always 1 (TM "TLS1_TXT_ECDHE_ECDSA_WITH_AES_128_SHA256") (TM "TLS1_RFC_ECDHE_ECDSA_WITH_AES_128_SHA256")
      [M "TLS1_CK_ECDHE_ECDSA_WITH_AES_128_SHA256"] [M "SSL_kECDHE"] [M "SSL_aECDSA"] [M "SSL_AES128"] [M "SSL_SHA256"]
      [M "TLS1_2_VERSION"] [M "TLS1_2_VERSION"] [M "DTLS1_2_VERSION"] [M "DTLS1_2_VERSION"]
      [M "SSL_HIGH"; M "SSL_FIPS"] [M "SSL_HANDSHAKE_MAC_SHA256"; M "TLS1_PRF_SHA256"] [L 128] [L 128];
    Init always 1 (TM "TLS1_TXT_ECDHE_ECDSA_WITH_AES_256_SHA384") (TM "TLS1_RFC_ECDHE_ECDSA_WITH_AES_256_SHA384")
      [M "TLS1_CK_ECDHE_ECDSA_WITH_AES_256_SHA384"] [M "SSL_kECDHE"] [M "SSL_aECDSA"] [M "SSL_AES256"] [M "SSL_SHA384"]
      [M "TLS1_2_VERSION"] [M "TLS1_2_VERSION"] [M "DTLS1_2_VERSION"] [M "DTLS1_2_VERSION"]
      [M "SSL_HIGH"; M "SSL_FIPS"] [M "SSL_HANDSHAKE_MAC_SHA384"; M "TLS1_PRF_SHA384"] [L 256] [L 256];
    Init always 1 (TM "TLS1_TXT_ECDHE_RSA_WITH_AES_128_SHA256") (TM "TLS1_RFC_ECDHE_RSA_WITH_AES_128_SHA256")
      [M "TLS1_CK_ECDHE_RSA_WITH_AES_128_SHA256"] [M "SSL_kECDHE"] [M "SSL_aRSA"] [M "SSL_AES128"] [M "SSL_SHA256"]
      [M "TLS1_2_VERSION"] [M "TLS1_2_VERSION"] [M "DTLS1_2_VERSION"] [M "DTLS1_2_VERSION"]
      [M "SSL_HIGH"; M "SSL_FIPS"] [M "SSL_HANDSHAKE_MAC_SHA256"; M "TLS1_PRF_SHA256"] [L 128] [L 128];
    Init always 1 (TM "TLS1_TXT_ECDHE_RSA_WITH_AES_256_SHA384") (TM "TLS1_RFC_ECDHE_RSA_WITH_AES_256_SHA384")
      [M "TLS1_CK_ECDHE_RSA_WITH_AES_256_SHA384"] [M "SSL_kECDHE"] [M "SSL_aRSA"] [M "SSL_AES256"] [M "SSL_SHA384"]
      [M "TLS1_2_VERSION"] [M "TLS1_2_VERSION"] [M "DTLS1_2_VERSION"] [M "DTLS1_2_VERSION"]
      [M "SSL_HIGH"; M "SSL_FIPS"] [M "SSL_HANDSHAKE_MAC_SHA384"; M "TLS1_PRF_SHA384"] [L 256] [L 256];
    Init always 1 (TM "TLS1_TXT_ECDHE_ECDSA_WITH_AES_128_GCM_SHA256") (TM "TLS1_RFC_ECDHE_ECDSA_WITH_AES_128_GCM_SHA256")
      [M "TLS1_CK_ECDHE_ECDSA_WITH_AES_128_GCM_SHA256"] [M "SSL_kECDHE"] [M "SSL_aECDSA"] [M "SSL_AES128GCM"] [M "SSL_AEAD"]
      [M "TLS1_2_VERSION"] [M "TLS1_2_VERSION"] [M "DTLS1_2_VERSION"] [M "DTLS1_2_VERSION"]
      [M "SSL_HIGH"; M "SSL_FIPS"] [M "SSL_HANDSHAKE_MAC_SHA256"; M "TLS1_PRF_SHA256"] [L 128] [L 128];
    Init always 1 (TM "TLS1_TXT_ECDHE_ECDSA_WITH_AES_256_GCM_SHA384") (TM "TLS1_RFC_ECDHE_ECDSA_WITH_AES_256_GCM_SHA384")
      [M "TLS1_CK_ECDHE_ECDSA_WITH_AES_256_GCM_SHA384"] [M "SSL_kECDHE"] [M "SSL_aECDSA"] [M "SSL_AES256GCM"] [M "SSL_AEAD"]
      [M "TLS1_2_VERSION"] [M "TLS1_2_VERSION"] [M "DTLS1_2_VERSION"] [M "DTLS1_2_VERSION"]
      [M "SSL_HIGH"; M "SSL_FIPS"] [M "SSL_HANDSHAKE_MAC_SHA384"; M "TLS1_PRF_SHA384"] [L 256] [L 256];
    Init always 1 (TM "TLS1_TXT_ECDHE_RSA_WITH_AES_128_GCM_SHA256") (TM "TLS1_RFC_ECDHE_RSA_WITH_AES_128_GCM_SHA256")
      [M "TLS1_CK_ECDHE_RSA_WITH_AES_128_GCM_SHA256"] [M "SSL_kECDHE"] [M "SSL_aRSA"] [M "SSL_AES128GCM"] [M "SSL_AEAD"]
      [M "TLS1_2_VERSION"] [M "TLS1_2_VERSION"] [M "DTLS1_2_VERSION"] [M "DTLS1_2_VERSION"]
      [M "SSL_HIGH"; M "SSL_FIPS"] [M "SSL_HANDSHAKE_MAC_SHA256"; M "TLS1_PRF_SHA256"] [L 128] [L 128];
    Init always 1 (TM "TLS1_TXT_ECDHE_RSA_WITH_AES_256_GCM_SHA384") (TM "TLS1_RFC_ECDHE_RSA_WITH_AES_256_GCM_SHA384")
      [M "TLS1_CK_ECDHE_RSA_WITH_AES_256_GCM_SHA384"] [M "SSL_kECDHE"] [M "SSL_aRSA"] [M "SSL_AES256GCM"] [M "SSL_AEAD"]
      [M "TLS1_2_VERSION"] [M "TLS1_2_VERSION"] [M "DTLS1_2_VERSION"] [M "DTLS1_2_VERSION"]
      [M "SSL_HIGH"; M "SSL_FIPS"] [M "SSL_HANDSHAKE_MAC_SHA384"; M "TLS1_PRF_SHA384"] [L 256] [L 256];
    Init always 1 (TM "TLS1_TXT_PSK_WITH_NULL_SHA") (TM "TLS1_RFC_PSK_WITH_NULL_SHA")
      [M "TLS1_CK_PSK_WITH_NULL_SHA"] [M "SSL_kPSK"] [M "SSL_aPSK"] [M "SSL_eNULL"] [M "SSL_SHA1"]
      [M "SSL3_VERSION"] [M "TLS1_2_VERSION"] [M "DTLS1_BAD_VER"] [M "DTLS1_2_VERSION"]
      [M "SSL_STRONG_NONE"; M "SSL_FIPS"] [M "SSL_HANDSHAKE_MAC_DEFAULT"; M "TLS1_PRF"] [L 0] [L 0];
    Init always 1 (TM "TLS1_TXT_DHE_PSK_WITH_NULL_SHA") (TM "TLS1_RFC_DHE_PSK_WITH_NULL_SHA")
      [M "TLS1_CK_DHE_PSK_WITH_NULL_SHA"] [M "SSL_kDHEPSK"] [M "SSL_aPSK"] [M "SSL_eNULL"] [M "SSL_SHA1"]
      [M "SSL3_VERSION"] [M "TLS1_2_VERSION"] [M "DTLS1_BAD_VER"] [M "DTLS1_2_VERSION"]
      [M "SSL_STRONG_NONE"; M "SSL_FIPS"] [M "SSL_HANDSHAKE_MAC_DEFAULT"; M "TLS1_PRF"] [L 0] [L 0];
    Init always 1 (TM "TLS1_TXT_RSA_PSK_WITH_NULL_SHA") (TM "TLS1_RFC_RSA_PSK_WITH_NULL_SHA")
      [M "TLS1_CK_RSA_PSK_WITH_NULL_SHA"] [M "SSL_kRSAPSK"] [M "SSL_aRSA"] [M "SSL_eNULL"] [M "SSL_SHA1"]
      [M "SSL3_VERSION"] [M "TLS1_2_VERSION"] [M "DTLS1_BAD_VER"] [M "DTLS1_2_VERSION"]
      [M "SSL_STRONG_NONE"; M "SSL_FIPS"] [M "SSL_HANDSHAKE_MAC_DEFAULT"; M "TLS1_PRF"] [L 0] [L 0];
    Init weak_ssl_ciphers 1 (TM "TLS1_TXT_PSK_WITH_3DES_EDE_CBC_SHA") (TM "TLS1_RFC_PSK_WITH_3DES_EDE_CBC_SHA")
      [M "TLS1_CK_PSK_WITH_3DES_EDE_CBC_SHA"] [M "SSL_kPSK"] [M "SSL_aPSK"] [M "SSL_3DES"] [M "SSL_SHA1"]
      [M "SSL3_VERSION"] [M "TLS1_2_VERSION"] [M "DTLS1_BAD_VER"] [M "DTLS1_2_VERSION"]
      [M "SSL_NOT_DEFAULT"; M "SSL_MEDIUM"; M "SSL_FIPS"] [M "SSL_HANDSHAKE_MAC_DEFAULT"; M "TLS1_PRF"] [L 112] [L 168];
    Init always 1 (TM "TLS1_TXT_PSK_WITH_AES_128_CBC_SHA") (TM "TLS1_RFC_PSK_WITH_AES_128_CBC_SHA")
      [M "TLS1_CK_PSK_WITH_AES_128_CBC_SHA"] [M "SSL_kPSK"] [M "SSL_aPSK"] [M "SSL_AES128"] [M "SSL_SHA1"]
      [M "SSL3_VERSION"] [M "TLS1_2_VERSION"] [M "DTLS1_BAD_VER"] [M "DTLS1_2_VERSION"]
      [M "SSL_HIGH"; M "SSL_FIPS"] [M "SSL_HANDSHAKE_MAC_DEFAULT"; M "TLS1_PRF"] [L 128] [L 128];
    Init always 1 (TM "TLS1_TXT_PSK_WITH_AES_256_CBC_SHA") (TM "TLS1_RFC_PSK_WITH_AES_256_CBC_SHA")
      [M "TLS1_CK_PSK_WITH_AES_256_CBC_SHA"] [M "SSL_kPSK"] [M "SSL_aPSK"] [M "SSL_AES256"] [M "SSL_SHA1"]
      [M "SSL3_VERSION"] [M "TLS1_2_VERSION"] [M "DTLS1_BAD_VER"] [M "DTLS1_2_VERSION"]
      [M "SSL_HIGH"; M "SSL_FIPS"] [M "SSL_HANDSHAKE_MAC_DEFAULT"; M "TLS1_PRF"] [L 256] [L 256];
    Init weak_ssl_ciphers 1 (TM "TLS1_TXT_DHE_PSK_WITH_3DES_EDE_CBC_SHA") (TM "TLS1_RFC_DHE_PSK_WITH_3DES_EDE_CBC_SHA")
      [M "TLS1_CK_DHE_PSK_WITH_3DES_EDE_CBC_SHA"] [M "SSL_kDHEPSK"] [M "SSL_aPSK"] [M "SSL_3DES"] [M "SSL_SHA1"]
      [M "SSL3_VERSION"] [M "TLS1_2_VERSION"] [M "DTLS1_BAD_VER"] [M "DTLS1_2_VERSION"]
      [M "SSL_NOT_DEFAULT"; M "SSL_MEDIUM"; M "SSL_FIPS"] [M "SSL_HANDSHAKE_MAC_DEFAULT"; M "TLS1_PRF"] [L 112] [L 168];
    Init always 1 (TM "TLS1_TXT_DHE_PSK_WITH_AES_128_CBC_SHA") (TM "TLS1_RFC_DHE_PSK_WITH_AES_128_CBC_SHA")
      [M "TLS1_CK_DHE_PSK_WITH_AES_128_CBC_SHA"] [M "SSL_kDHEPSK"] [M "SSL_aPSK"] [M "SSL_AES128"] [M "SSL_SHA1"]
      [M "SSL3_VERSION"] [M "TLS1_2_VERSION"] [M "DTLS1_BAD_VER"] [M "DTLS1_2_VERSION"]
      [M "SSL_HIGH"; M "SSL_FIPS"] [M "SSL_HANDSHAKE_MAC_DEFAULT"; M "TLS1_PRF"] [L 128] [L 128];
    Init always 1 (TM "TLS1_TXT_DHE_PSK_WITH_AES_256_CBC_SHA") (TM "TLS1_RFC_DHE_PSK_WITH_AES_256_CBC_SHA")
      [M "TLS1_CK_DHE_PSK_WITH_AES_256_CBC_SHA"] [M "SSL_kDHEPSK"] [M "SSL_aPSK"] [M "SSL_AES256"] [M "SSL_SHA1"]
      [M "SSL3_VERSION"] [M "TLS1_2_VERSION"] [M "DTLS1_BAD_VER"] [M "DTLS1_2_VERSION"]
      [M "SSL_HIGH"; M "SSL_FIPS"] [M "SSL_HANDSHAKE_MAC_DEFAULT"; M "TLS1_PRF"] [L 256] [L 256];
    Init weak_ssl_ciphers 1 (TM "TLS1_TXT_RSA_PSK_WITH_3DES_EDE_CBC_SHA") (TM "TLS1_RFC_RSA_PSK_WITH_3DES_EDE_CBC_SHA")
      [M "TLS1_CK_RSA_PSK_WITH_3DES_EDE_CBC_SHA"] [M "SSL_kRSAPSK"] [M "SSL_aRSA"] [M "SSL_3DES"] [M "SSL_SHA1"]
      [M "SSL3_VERSION"] [M "TLS1_2_VERSION"] [M "DTLS1_BAD_VER"] [M "DTLS1_2_VERSION"]
      [M "SSL_NOT_DEFAULT"; M "SSL_MEDIUM"; M "SSL_FIPS"] [M "SSL_HANDSHAKE_MAC_DEFAULT"; M "TLS1_PRF"] [L 112] [L 168];
    Init always 1 (TM "TLS1_TXT_RSA_PSK_WITH_AES_128_CBC_SHA") (TM "TLS1_RFC_RSA_PSK_WITH_AES_128_CBC_SHA")
      [M "TLS1_CK_RSA_PSK_WITH_AES_128_CBC_SHA"] [M "SSL_kRSAPSK"] [M "SSL_aRSA"] [M "SSL_AES128"] [M "SSL_SHA1"]
      [M "SSL3_VERSION"] [M "TLS1_2_VERSION"] [M "DTLS1_BAD_VER"] [M "DTLS1_2_VERSION"]
      [M "SSL_HIGH"; M "SSL_FIPS"] [M "SSL_HANDSHAKE_MAC_DEFAULT"; M "TLS1_PRF"] [L 128] [L 128];
    Init always 1 (TM "TLS1_TXT_RSA_PSK_WITH_AES_256_CBC_SHA") (TM "TLS1_RFC_RSA_PSK_WITH_AES_256_CBC_SHA")
      [M "TLS1_CK_RSA_PSK_WITH_AES_256_CBC_SHA"] [M "SSL_kRSAPSK"] [M "SSL_aRSA"] [M "SSL_AES256"] [M "SSL_SHA1"]
      [M "SSL3_VERSION"] [M "TLS1_2_VERSION"] [M "DTLS1_BAD_VER"] [M "DTLS1_2_VERSION"]
      [M "SSL_HIGH"; M "SSL_FIPS"] [M "SSL_HANDSHAKE_MAC_DEFAULT"; M "TLS1_PRF"] [L 256] [L 256];
    Init always 1 (TM "TLS1_TXT_PSK_WITH_AES_128_GCM_SHA256") (TM "TLS1_RFC_PSK_WITH_AES_128_GCM_SHA256")
      [M "TLS1_CK_PSK_WITH_AES_128_GCM_SHA256"] [M "SSL_kPSK"] [M "SSL_aPSK"] [M "SSL_AES128GCM"] [M "SSL_AEAD"]
      [M "TLS1_2_VERSION"] [M "TLS1_2_VERSION"] [M "DTLS1_2_VERSION"] [M "DTLS1_2_VERSION"]
      [M "SSL_HIGH"; M "SSL_FIPS"] [M "SSL_HANDSHAKE_MAC_SHA256"; M "TLS1_PRF_SHA256"] [L 128] [L 128];
    Init always 1 (TM "TLS1_TXT_PSK_WITH_AES_256_GCM_SHA384") (TM "TLS1_RFC_PSK_WITH_AES_256_GCM_SHA384")
      [M "TLS1_CK_PSK_WITH_AES_256_GCM_SHA384"] [M "SSL_kPSK"] [M "SSL_aPSK"] [M "SSL_AES256GCM"] [M "SSL_AEAD"]
      [M "TLS1_2_VERSION"] [M "TLS1_2_VERSION"] [M "DTLS1_2_VERSION"] [M "DTLS1_2_VERSION"]
      [M "SSL_HIGH"; M "SSL_FIPS"] [M "SSL_HANDSHAKE_MAC_SHA384"; M "TLS1_PRF_SHA384"] [L 256] [L 256];
    Init always 1 (TM "TLS1_TXT_DHE_PSK_WITH_AES_128_GCM_SHA256") (TM "TLS1_RFC_DHE_PSK_WITH_AES_128_GCM_SHA256")
      [M "TLS1_CK_DHE_PSK_WITH_AES_128_GCM_SHA256"] [M "SSL_kDHEPSK"] [M "SSL_aPSK"] [M "SSL_AES128GCM"] [M "SSL_AEAD"]
      [M "TLS1_2_VERSION"] [M "TLS1_2_VERSION"] [M "DTLS1_2_VERSION"] [M "DTLS1_2_VERSION"]
      [M "SSL_HIGH"; M "SSL_FIPS"] [M "SSL_HANDSHAKE_MAC_SHA256"; M "TLS1_PRF_SHA256"] [L 128] [L 128];
    Init always 1 (TM "TLS1_TXT_DHE_PSK_WITH_AES_256_GCM_SHA384") (TM "TLS1_RFC_DHE_PSK_WITH_AES_256_GCM_SHA384")
      [M "TLS1_CK_DHE_PSK_WITH_AES_256_GCM_SHA384"] [M "SSL_kDHEPSK"] [M "SSL_aPSK"] [M "SSL_AES256GCM"] [M "SSL_AEAD"]
      [M "TLS1_2_VERSION"] [M "TLS1_2_VERSION"] [M "DTLS1_2_VERSION"] [M "DTLS1_2_VERSION"]
      [M "SSL_HIGH"; M "SSL_FIPS"] [M "SSL_HANDSHAKE_MAC_SHA384"; M "TLS1_PRF_SHA384"] [L 256] [L 256];
    Init always 1 (TM "TLS1_TXT_RSA_PSK_WITH_AES_128_GCM_SHA256") (TM "TLS1_RFC_RSA_PSK_WITH_AES_128_GCM_SHA256")
      [M "TLS1_CK_RSA_PSK_WITH_AES_128_GCM_SHA256"] [M "SSL_kRSAPSK"] [M "SSL_aRSA"] [M "SSL_AES128GCM"] [M "SSL_AEAD"]
      [M "TLS1_2_VERSION"] [M "TLS1_2_VERSION"] [M "DTLS1_2_VERSION"] [M "DTLS1_2_VERSION"]
      [M "SSL_HIGH"; M "SSL_FIPS"] [M "SSL_HANDSHAKE_MAC_SHA256"; M "TLS1_PRF_SHA256"] [L 128] [L 128];
    Init always 1 (TM "TLS1_TXT_RSA_PSK_WITH_AES_256_GCM_SHA384") (TM "TLS1_RFC_RSA_PSK_WITH_AES_256_GCM_SHA384")
      [M "TLS1_CK_RSA_PSK_WITH_AES_256_GCM_SHA384"] [M "SSL_kRSAPSK"] [M "SSL_aRSA"] [M "SSL_AES256GCM"] [M "SSL_AEAD"]
      [M "TLS1_2_VERSION"] [M "TLS1_2_VERSION"] [M "DTLS1_2_VERSION"] [M "DTLS1_2_VERSION"]
      [M "SSL_HIGH"; M "SSL_FIPS"] [M "SSL_HANDSHAKE_MAC_SHA384"; M "TLS1_PRF_SHA384"] [L 256] [L 256];
    Init always 1 (TM "TLS1_TXT_PSK_WITH_AES_128_CBC_SHA256") (TM "TLS1_RFC_PSK_WITH_AES_128_CBC_SHA256")
      [M "TLS1_CK_PSK_WITH_AES_128_CBC_SHA256"] [M "SSL_kPSK"] [M "SSL_aPSK"] [M "SSL_AES128"] [M "SSL_SHA256"]
      [M "TLS1_VERSION"] [M "TLS1_2_VERSION"] [M "DTLS1_BAD_VER"] [M "DTLS1_2_VERSION"]
      [M "SSL_HIGH"; M "SSL_FIPS"] [M "SSL_HANDSHAKE_MAC_DEFAULT"; M "TLS1_PRF"] [L 128] [L 128];
    Init always 1 (TM "TLS1_TXT_PSK_WITH_AES_256_CBC_SHA384") (TM "TLS1_RFC_PSK_WITH_AES_256_CBC_SHA384")
      [M "TLS1_CK_PSK_WITH_AES_256_CBC_SHA384"] [M "SSL_kPSK"] [M "SSL_aPSK"] [M "SSL_AES256"] [M "SSL_SHA384"]
      [M "TLS1_VERSION"] [M "TLS1_2_VERSION"] [M "DTLS1_BAD_VER"] [M "DTLS1_2_VERSION"]
      [M "SSL_HIGH"; M "SSL_FIPS"] [M "SSL_HANDSHAKE_MAC_SHA384"; M "TLS1_PRF_SHA384"] [L 256] [L 256];
    Init always 1 (TM "TLS1_TXT_PSK_WITH_NULL_SHA256") (TM "TLS1_RFC_PSK_WITH_NULL_SHA256")
      [M "TLS1_CK_PSK_WITH_NULL_SHA256"] [M "SSL_kPSK"] [M "SSL_aPSK"] [M "SSL_eNULL"] [M "SSL_SHA256"]
      [M "TLS1_VERSION"] [M "TLS1_2_VERSION"] [M "DTLS1_BAD_VER"] [M "DTLS1_2_VERSION"]
      [M "SSL_STRONG_NONE"; M "SSL_FIPS"] [M "SSL_HANDSHAKE_MAC_DEFAULT"; M "TLS1_PRF"] [L 0] [L 0];
    Init always 1 (TM "TLS1_TXT_PSK_WITH_NULL_SHA384") (TM "TLS1_RFC_PSK_WITH_NULL_SHA384")
      [M "TLS1_CK_PSK_WITH_NULL_SHA384"] [M "SSL_kPSK"] [M "SSL_aPSK"] [M "SSL_eNULL"] [M "SSL_SHA384"]
      [M "TLS1_VERSION"] [M "TLS1_2_VERSION"] [M "DTLS1_BAD_VER"] [M "DTLS1_2_VERSION"]
      [M "SSL_STRONG_NONE"; M "SSL_FIPS"] [M "SSL_HANDSHAKE_MAC_SHA384"; M "TLS1_PRF_SHA384"] [L 0] [L 0];
    Init always 1 (TM "TLS1_TXT_DHE_PSK_WITH_AES_128_CBC_SHA256") (TM "TLS1_RFC_DHE_PSK_WITH_AES_128_CBC_SHA256")
      [M "TLS1_CK_DHE_PSK_WITH_AES_128_CBC_SHA256"] [M "SSL_kDHEPSK"] [M "SSL_aPSK"] [M "SSL_AES128"] [M "SSL_SHA256"]
      [M "TLS1_VERSION"] [M "TLS1_2_VERSION"] [M "DTLS1_BAD_VER"] [M "DTLS1_2_VERSION"]
      [M "SSL_HIGH"; M "SSL_FIPS"] [M "SSL_HANDSHAKE_MAC_DEFAULT"; M "TLS1_PRF"] [L 128] [L 128];
    Init always 1 (TM "TLS1_TXT_DHE_PSK_WITH_AES_256_CBC_SHA384") (TM "TLS1_RFC_DHE_PSK_WITH_AES_256_CBC_SHA384")
      [M "TLS1_CK_DHE_PSK_WITH_AES_256_CBC_SHA384"] [M "SSL_kDHEPSK"] [M "SSL_aPSK"] [M "SSL_AES256"] [M "SSL_SHA384"]
      [M "TLS1_VERSION"] [M "TLS1_2_VERSION"] [M "DTLS1_BAD_VER"] [M "DTLS1_2_VERSION"]
      [M "SSL_HIGH"; M "SSL_FIPS"] [M "SSL_HANDSHAKE_MAC_SHA384"; M "TLS1_PRF_SHA384"] [L 256] [L 256];
    Init always 1 (TM "TLS1_TXT_DHE_PSK_WITH_NULL_SHA256") (TM "TLS1_RFC_DHE_PSK_WITH_NULL_SHA256")
      [M "TLS1_CK_DHE_PSK_WITH_NULL_SHA256"] [M "SSL_kDHEPSK"] [M "SSL_aPSK"] [M "SSL_eNULL"] [M "SSL_SHA256"]
      [M "TLS1_VERSION"] [M "TLS1_2_VERSION"] [M "DTLS1_BAD_VER"] [M "DTLS1_2_VERSION"]
      [M "SSL_STRONG_NONE"; M "SSL_FIPS"] [M "SSL_HANDSHAKE_MAC_DEFAULT"; M "TLS1_PRF"] [L 0] [L 0];
    Init always 1 (TM "TLS1_TXT_DHE_PSK_WITH_NULL_SHA384") (TM "TLS1_RFC_DHE_PSK_WITH_NULL_SHA384")
      [M "TLS1_CK_DHE_PSK_WITH_NULL_SHA384"] [M "SSL_kDHEPSK"] [M "SSL_aPSK"] [M "SSL_eNULL"] [M "SSL_SHA384"]
      [M "TLS1_VERSION"] [M "TLS1_2_VERSION"] [M "DTLS1_BAD_VER"] [M "DTLS1_2_VERSION"]
      [M "SSL_STRONG_NONE"; M "SSL_FIPS"] [M "SSL_HANDSHAKE_MAC_SHA384"; M "TLS1_PRF_SHA384"] [L 0] [L 0];
    Init always 1 (TM "TLS1_TXT_RSA_PSK_WITH_AES_128_CBC_SHA256") (TM "TLS1_RFC_RSA_PSK_WITH_AES_128_CBC_SHA256")
      [M "TLS1_CK_RSA_PSK_WITH_AES_128_CBC_SHA256"] [M "SSL_kRSAPSK"] [M "SSL_aRSA"] [M "SSL_AES128"] [M "SSL_SHA256"]
      [M "TLS1_VERSION"] [M "TLS1_2_VERSION"] [M "DTLS1_BAD_VER"] [M "DTLS1_2_VERSION"]
      [M "SSL_HIGH"; M "SSL_FIPS"] [M "SSL_HANDSHAKE_MAC_DEFAULT"; M "TLS1_PRF"] [L 128] [L 128];
    Init always 1 (TM "TLS1_TXT_RSA_PSK_WITH_AES_256_CBC_SHA384") (TM "TLS1_RFC_RSA_PSK_WITH_AES_256_CBC_SHA384")
      [M "TLS1_CK_RSA_PSK_WITH_AES_256_CBC_SHA384"] [M "SSL_kRSAPSK"] [M "SSL_aRSA"] [M "SSL_AES256"] [M "SSL_SHA384"]
      [M "TLS1_VERSION"] [M "TLS1_2_VERSION"] [M "DTLS1_BAD_VER"] [M "DTLS1_2_VERSION"]
      [M "SSL_HIGH"; M "SSL_FIPS"] [M "SSL_HANDSHAKE_MAC_SHA384"; M "TLS1_PRF_SHA384"] [L 256] [L 256];
    Init always 1 (TM "TLS1_TXT_RSA_PSK_WITH_NULL_SHA256") (TM "TLS1_RFC_RSA_PSK_WITH_NULL_SHA256")
      [M "TLS1_CK_RSA_PSK_WITH_NULL_SHA256"] [M "SSL_kRSAPSK"] [M "SSL_aRSA"] [M "SSL_eNULL"] [M "SSL_SHA256"]
      [M "TLS1_VERSION"] [M "TLS1_2_VERSION"] [M "DTLS1_BAD_VER"] [M "DTLS1_2_VERSION"]
      [M "SSL_STRONG_NONE"; M "SSL_FIPS"] [M "SSL_HANDSHAKE_MAC_DEFAULT"; M "TLS1_PRF"] [L 0] [L 0];
    Init always 1 (TM "TLS1_TXT_RSA_PSK_WITH_NULL_SHA384") (TM "TLS1_RFC_RSA_PSK_WITH_NULL_SHA384")
      [M "TLS1_CK_RSA_PSK_WITH_NULL_SHA384"] [M "SSL_kRSAPSK"] [M "SSL_aRSA"] [M "SSL_eNULL"] [M "SSL_SHA384"]
      [M "TLS1_VERSION"] [M "TLS1_2_VERSION"] [M "DTLS1_BAD_VER"] [M "DTLS1_2_VERSION"]
      [M "SSL_STRONG_NONE"; M "SSL_FIPS"] [M "SSL_HANDSHAKE_MAC_SHA384"; M "TLS1_PRF_SHA384"] [L 0] [L 0];
    Init weak_ssl_ciphers 1 (TM "TLS1_TXT_ECDHE_PSK_WITH_3DES_EDE_CBC_SHA") (TM "TLS1_RFC_ECDHE_PSK_WITH_3DES_EDE_CBC_SHA")
      [M "TLS1_CK_ECDHE_PSK_WITH_3DES_EDE_CBC_SHA"] [M "SSL_kECDHEPSK"] [M "SSL_aPSK"] [M "SSL_3DES"] [M "SSL_SHA1"]
      [M "TLS1_VERSION"] [M "TLS1_2_VERSION"] [M "DTLS1_BAD_VER"] [M "DTLS1_2_VERSION"]
      [M "SSL_NOT_DEFAULT"; M "SSL_MEDIUM"; M "SSL_FIPS"] [M "SSL_HANDSHAKE_MAC_DEFAULT"; M "TLS1_PRF"] [L 112] [L 168];
    Init always 1 (TM "TLS1_TXT_ECDHE_PSK_WITH_AES_128_CBC_SHA") (TM "TLS1_RFC_ECDHE_PSK_WITH_AES_128_CBC_SHA")
      [M "TLS1_CK_ECDHE_PSK_WITH_AES_128_CBC_SHA"] [M "SSL_kECDHEPSK"] [M "SSL_aPSK"] [M "SSL_AES128"] [M "SSL_SHA1"]
      [M "TLS1_VERSION"] [M "TLS1_2_VERSION"] [M "DTLS1_BAD_VER"] [M "DTLS1_2_VERSION"]
      [M "SSL_HIGH"; M "SSL_FIPS"] [M "SSL_HANDSHAKE_MAC_DEFAULT"; M "TLS1_PRF"] [L 128] [L 128];
    Init always 1 (TM "TLS1_TXT_ECDHE_PSK_WITH_AES_256_CBC_SHA") (TM "TLS1_RFC_ECDHE_PSK_WITH_AES_256_CBC_SHA")
      [M "TLS1_CK_ECDHE_PSK_WITH_AES_256_CBC_SHA"] [M "SSL_kECDHEPSK"] [M "SSL_aPSK"] [M "SSL_AES256"] [M "SSL_SHA1"]
      [M "TLS1_VERSION"] [M "TLS1_2_VERSION"] [M "DTLS1_BAD_VER"] [M "DTLS1_2_VERSION"]
      [M "SSL_HIGH"; M "SSL_FIPS"] [M "SSL_HANDSHAKE_MAC_DEFAULT"; M "TLS1_PRF"] [L 256] [L 256];
    Init always 1 (TM "TLS1_TXT_ECDHE_PSK_WITH_AES_128_CBC_SHA256") (TM "TLS1_RFC_ECDHE_PSK_WITH_AES_128_CBC_SHA256")
      [M "TLS1_CK_ECDHE_PSK_WITH_AES_128_CBC_SHA256"] [M "SSL_kECDHEPSK"] [M "SSL_aPSK"] [M "SSL_AES128"] [M "SSL_SHA256"]
      [M "TLS1_VERSION"] [M "TLS1_2_VERSION"] [M "DTLS1_BAD_VER"] [M "DTLS1_2_VERSION"]
      [M "SSL_HIGH"; M "SSL_FIPS"] [M "SSL_HANDSHAKE_MAC_DEFAULT"; M "TLS1_PRF"] [L 128] [L 128];
    Init always 1 (TM "TLS1_TXT_ECDHE_PSK_WITH_AES_256_CBC_SHA384") (TM "TLS1_RFC_ECDHE_PSK_WITH_AES_256_CBC_SHA384")
      [M "TLS1_CK_ECDHE_PSK_WITH_AES_256_CBC_SHA384"] [M "SSL_kECDHEPSK"] [M "SSL_aPSK"] [M "SSL_AES256"] [M "SSL_SHA384"]
      [M "TLS1_VERSION"] [M "TLS1_2_VERSION"] [M "DTLS1_BAD_VER"] [M "DTLS1_2_VERSION"]
      [M "SSL_HIGH"; M "SSL_FIPS"] [M "SSL_HANDSHAKE_MAC_SHA384"; M "TLS1_PRF_SHA384"] [L 256] [L 256];
    Init always 1 (TM "TLS1_TXT_ECDHE_PSK_WITH_NULL_SHA") (TM "TLS1_RFC_ECDHE_PSK_WITH_NULL_SHA")
      [M "TLS1_CK_ECDHE_PSK_WITH_NULL_SHA"] [M "SSL_kECDHEPSK"] [M "SSL_aPSK"] [M "SSL_eNULL"] [M "SSL_SHA1"]
      [M "TLS1_VERSION"] [M "TLS1_2_VERSION"] [M "DTLS1_BAD_VER"] [M "DTLS1_2_VERSION"]
      [M "SSL_STRONG_NONE"; M "SSL_FIPS"] [M "SSL_HANDSHAKE_MAC_DEFAULT"; M "TLS1_PRF"] [L 0] [L 0];
    Init always 1 (TM "TLS1_TXT_ECDHE_PSK_WITH_NULL_SHA256") (TM "TLS1_RFC_ECDHE_PSK_WITH_NULL_SHA256")
      [M "TLS1_CK_ECDHE_PSK_WITH_NULL_SHA256"] [M "SSL_kECDHEPSK"] [M "SSL_aPSK"] [M "SSL_eNULL"] [M "SSL_SHA256"]
      [M "TLS1_VERSION"] [M "TLS1_2_VERSION"] [M "DTLS1_BAD_VER"] [M "DTLS1_2_VERSION"]
      [M "SSL_STRONG_NONE"; M "SSL_FIPS"] [M "SSL_HANDSHAKE_MAC_DEFAULT"; M "TLS1_PRF"] [L 0] [L 0];
    Init always 1 (TM "TLS1_TXT_ECDHE_PSK_WITH_NULL_SHA384") (TM "TLS1_RFC_ECDHE_PSK_WITH_NULL_SHA384")
      [M "TLS1_CK_ECDHE_PSK_WITH_NULL_SHA384"] [M "SSL_kECDHEPSK"] [M "SSL_aPSK"] [M "SSL_eNULL"] [M "SSL_SHA384"]
      [M "TLS1_VERSION"] [M "TLS1_2_VERSION"] [M "DTLS1_BAD_VER"] [M "DTLS1_2_VERSION"]
      [M "SSL_STRONG_NONE"; M "SSL_FIPS"] [M "SSL_HANDSHAKE_MAC_SHA384"; M "TLS1_PRF_SHA384"] [L 0] [L 0];
    Init weak_ssl_ciphers 1 (TM "TLS1_TXT_SRP_SHA_WITH_3DES_EDE_CBC_SHA") (TM "TLS1_RFC_SRP_SHA_WITH_3DES_EDE_CBC_SHA")
      [M "TLS1_CK_SRP_SHA_WITH_3DES_EDE_CBC_SHA"] [M "SSL_kSRP"] [M "SSL_aSRP"] [M "SSL_3DES"] [M "SSL_SHA1"]
      [M "SSL3_VERSION"] [M "TLS1_2_VERSION"] [M "DTLS1_BAD_VER"] [M "DTLS1_2_VERSION"]
      [M "SSL_NOT_DEFAULT"; M "SSL_MEDIUM"] [M "SSL_HANDSHAKE_MAC_DEFAULT"; M "TLS1_PRF"] [L 112] [L 168];
    Init weak_ssl_ciphers 1 (TM "TLS1_TXT_SRP_SHA_RSA_WITH_3DES_EDE_CBC_SHA") (TM "TLS1_RFC_SRP_SHA_RSA_WITH_3DES_EDE_CBC_SHA")
      [M "TLS1_CK_SRP_SHA_RSA_WITH_3DES_EDE_CBC_SHA"] [M "SSL_kSRP"] [M "SSL_aRSA"] [M "SSL_3DES"] [M "SSL_SHA1"]
      [M "SSL3_VERSION"] [M "TLS1_2_VERSION"] [M "DTLS1_BAD_VER"] [M "DTLS1_2_VERSION"]
      [M "SSL_NOT_DEFAULT"; M "SSL_MEDIUM"] [M "SSL_HANDSHAKE_MAC_DEFAULT"; M "TLS1_PRF"] [L 112] [L 168];
    Init weak_ssl_ciphers 1 (TM "TLS1_TXT_SRP_SHA_DSS_WITH_3DES_EDE_CBC_SHA") (TM "TLS1_RFC_SRP_SHA_DSS_WITH_3DES_EDE_CBC_SHA")
      [M "TLS1_CK_SRP_SHA_DSS_WITH_3DES_EDE_CBC_SHA"] [M "SSL_kSRP"] [M "SSL_aDSS"] [M "SSL_3DES"] [M "SSL_SHA1"]
      [M "SSL3_VERSION"] [M "TLS1_2_VERSION"] [M "DTLS1_BAD_VER"] [M "DTLS1_2_VERSION"]
      [M "SSL_NOT_DEFAULT"; M "SSL_MEDIUM"] [M "SSL_HANDSHAKE_MAC_DEFAULT"; M "TLS1_PRF"] [L 112] [L 168];
    Init always 1 (TM "TLS1_TXT_SRP_SHA_WITH_AES_128_CBC_SHA") (TM "TLS1_RFC_SRP_SHA_WITH_AES_128_CBC_SHA")
      [M "TLS1_CK_SRP_SHA_WITH_AES_128_CBC_SHA"] [M "SSL_kSRP"] [M "SSL_aSRP"] [M "SSL_AES128"] [M "SSL_SHA1"]
      [M "SSL3_VERSION"] [M "TLS1_2_VERSION"] [M "DTLS1_BAD_VER"] [M "DTLS1_2_VERSION"]
      [M "SSL_HIGH"] [M "SSL_HANDSHAKE_MAC_DEFAULT"; M "TLS1_PRF"] [L 128] [L 128];
    Init always 1 (TM "TLS1_TXT_SRP_SHA_RSA_WITH_AES_128_CBC_SHA") (TM "TLS1_RFC_SRP_SHA_RSA_WITH_AES_128_CBC_SHA")
      [M "TLS1_CK_SRP_SHA_RSA_WITH_AES_128_CBC_SHA"] [M "SSL_kSRP"] [M "SSL_aRSA"] [M "SSL_AES128"] [M "SSL_SHA1"]
      [M "SSL3_VERSION"] [M "TLS1_2_VERSION"] [M "DTLS1_BAD_VER"] [M "DTLS1_2_VERSION"]
      [M "SSL_HIGH"] [M "SSL_HANDSHAKE_MAC_DEFAULT"; M "TLS1_PRF"] [L 128] [L 128];
    Init always 1 (TM "TLS1_TXT_SRP_SHA_DSS_WITH_AES_128_CBC_SHA") (TM "TLS1_RFC_SRP_SHA_DSS_WITH_AES_128_CBC_SHA")
      [M "TLS1_CK_SRP_SHA_DSS_WITH_AES_128_CBC_SHA"] [M "SSL_kSRP"] [M "SSL_aDSS"] [M "SSL_AES128"] [M "SSL_SHA1"]
      [M "SSL3_VERSION"] [M "TLS1_2_VERSION"] [M "DTLS1_BAD_VER"] [M "DTLS1_2_VERSION"]
      [M "SSL_NOT_DEFAULT"; M "SSL_HIGH"] [M "SSL_HANDSHAKE_MAC_DEFAULT"; M "TLS1_PRF"] [L 128] [L 128];
    Init always 1 (TM "TLS1_TXT_SRP_SHA_WITH_AES_256_CBC_SHA") (TM "TLS1_RFC_SRP_SHA_WITH_AES_256_CBC_SHA")
      [M "TLS1_CK_SRP_SHA_WITH_AES_256_CBC_SHA"] [M "SSL_kSRP"] [M "SSL_aSRP"] [M "SSL_AES256"] [M "SSL_SHA1"]
      [M "SSL3_VERSION"] [M "TLS1_2_VERSION"] [M "DTLS1_BAD_VER"] [M "DTLS1_2_VERSION"]
      [M "SSL_HIGH"] [M "SSL_HANDSHAKE_MAC_DEFAULT"; M "TLS1_PRF"] [L 256] [L 256];
    Init always 1 (TM "TLS1_TXT_SRP_SHA_RSA_WITH_AES_256_CBC_SHA") (TM "TLS1_RFC_SRP_SHA_RSA_WITH_AES_256_CBC_SHA")
      [M "TLS1_CK_SRP_SHA_RSA_WITH_AES_256_CBC_SHA"] [M "SSL_kSRP"] [M "SSL_aRSA"] [M "SSL_AES256"] [M "SSL_SHA1"]
      [M "SSL3_VERSION"] [M "TLS1_2_VERSION"] [M "DTLS1_BAD_VER"] [M "DTLS1_2_VERSION"]
      [M "SSL_HIGH"] [M "SSL_HANDSHAKE_MAC_DEFAULT"; M "TLS1_PRF"] [L 256] [L 256];
    Init always 1 (TM "TLS1_TXT_SRP_SHA_DSS_WITH_AES_256_CBC_SHA") (TM "TLS1_RFC_SRP_SHA_DSS_WITH_AES_256_CBC_SHA")
      [M "TLS1_CK_SRP_SHA_DSS_WITH_AES_256_CBC_SHA"] [M "SSL_kSRP"] [M "SSL_aDSS"] [M "SSL_AES256"] [M "SSL_SHA1"]
      [M "SSL3_VERSION"] [M "TLS1_2_VERSION"] [M "DTLS1_BAD_VER"] [M "DTLS1_2_VERSION"]
      [M "SSL_NOT_DEFAULT"; M "SSL_HIGH"] [M "SSL_HANDSHAKE_MAC_DEFAULT"; M "TLS1_PRF"] [L 256] [L 256];
    Init always 1 (TM "TLS1_TXT_DHE_RSA_WITH_CHACHA20_POLY1305") (TM "TLS1_RFC_DHE_RSA_WITH_CHACHA20_POLY1305")
      [M "TLS1_CK_DHE_RSA_WITH_CHACHA20_POLY1305"] [M "SSL_kDHE"] [M "SSL_aRSA"] [M "SSL_CHACHA20POLY1305"] [M "SSL_AEAD"]
      [M "TLS1_2_VERSION"] [M "TLS1_2_VERSION"] [M "DTLS1_2_VERSION"] [M "DTLS1_2_VERSION"]
      [M "SSL_HIGH"] [M "SSL_HANDSHAKE_MAC_SHA256"; M "TLS1_PRF_SHA256"] [L 256] [L 256];
    Init always 1 (TM "TLS1_TXT_ECDHE_RSA_WITH_CHACHA20_POLY1305") (TM "TLS1_RFC_ECDHE_RSA_WITH_CHACHA20_POLY1305")
      [M "TLS1_CK_ECDHE_RSA_WITH_CHACHA20_POLY1305"] [M "SSL_kECDHE"] [M "SSL_aRSA"] [M "SSL_CHACHA20POLY1305"] [M "SSL_AEAD"]
      [M "TLS1_2_VERSION"] [M "TLS1_2_VERSION"] [M "DTLS1_2_VERSION"] [M "DTLS1_2_VERSION"]
      [M "SSL_HIGH"] [M "SSL_HANDSHAKE_MAC_SHA256"; M "TLS1_PRF_SHA256"] [L 256] [L 256];
    Init always 1 (TM "TLS1_TXT_ECDHE_ECDSA_WITH_CHACHA20_POLY1305") (TM "TLS1_RFC_ECDHE_ECDSA_WITH_CHACHA20_POLY1305")
      [M "TLS1_CK_ECDHE_ECDSA_WITH_CHACHA20_POLY1305"] [M "SSL_kECDHE"] [M "SSL_aECDSA"] [M "SSL_CHACHA20POLY1305"] [M "SSL_AEAD"]
      [M "TLS1_2_VERSION"] [M "TLS1_2_VERSION"] [M "DTLS1_2_VERSION"] [M "DTLS1_2_VERSION"]
      [M "SSL_HIGH"] [M "SSL_HANDSHAKE_MAC_SHA256"; M "TLS1_PRF_SHA256"] [L 256] [L 256];
    Init always 1 (TM "TLS1_TXT_PSK_WITH_CHACHA20_POLY1305") (TM "TLS1_RFC_PSK_WITH_CHACHA20_POLY1305")
      [M "TLS1_CK_PSK_WITH_CHACHA20_POLY1305"] [M "SSL_kPSK"] [M "SSL_aPSK"] [M "SSL_CHACHA20POLY1305"] [M "SSL_AEAD"]
      [M "TLS1_2_VERSION"] [M "TLS1_2_VERSION"] [M "DTLS1_2_VERSION"] [M "DTLS1_2_VERSION"]
      [M "SSL_HIGH"] [M "SSL_HANDSHAKE_MAC_SHA256"; M "TLS1_PRF_SHA256"] [L 256] [L 256];
    Init always 1 (TM "TLS1_TXT_ECDHE_PSK_WITH_CHACHA20_POLY1305") (TM "TLS1_RFC_ECDHE_PSK_WITH_CHACHA20_POLY1305")
      [M "TLS1_CK_ECDHE_PSK_WITH_CHACHA20_POLY1305"] [M "SSL_kECDHEPSK"] [M "SSL_aPSK"] [M "SSL_CHACHA20POLY1305"] [M "SSL_AEAD"]
      [M "TLS1_2_VERSION"] [M "TLS1_2_VERSION"] [M "DTLS1_2_VERSION"] [M "DTLS1_2_VERSION"]
      [M "SSL_HIGH"] [M "SSL_HANDSHAKE_MAC_SHA256"; M "TLS1_PRF_SHA256"] [L 256] [L 256];
    Init always 1 (TM "TLS1_TXT_DHE_PSK_WITH_CHACHA20_POLY1305") (TM "TLS1_RFC_DHE_PSK_WITH_CHACHA20_POLY1305")
      [M "TLS1_CK_DHE_PSK_WITH_CHACHA20_POLY1305"] [M "SSL_kDHEPSK"] [M "SSL_aPSK"] [M "SSL_CHACHA20POLY1305"] [M "SSL_AEAD"]
      [M "TLS1_2_VERSION"] [M "TLS1_2_VERSION"] [M "DTLS1_2_VERSION"] [M "DTLS1_2_VERSION"]
      [M "SSL_HIGH"] [M "SSL_HANDSHAKE_MAC_SHA256"; M "TLS1_PRF_SHA256"] [L 256] [L 256];
    Init always 1 (TM "TLS1_TXT_RSA_PSK_WITH_CHACHA20_POLY1305") (TM "TLS1_RFC_RSA_PSK_WITH_CHACHA20_POLY1305")
      [M "TLS1_CK_RSA_PSK_WITH_CHACHA20_POLY1305"] [M "SSL_kRSAPSK"] [M "SSL_aRSA"] [M "SSL_CHACHA20POLY1305"] [M "SSL_AEAD"]
      [M "TLS1_2_VERSION"] [M "TLS1_2_VERSION"] [M "DTLS1_2_VERSION"] [M "DTLS1_2_VERSION"]
      [M "SSL_HIGH"] [M "SSL_HANDSHAKE_MAC_SHA256"; M "TLS1_PRF_SHA256"] [L 256] [L 256];
    Init always 1 (TM "TLS1_TXT_RSA_WITH_CAMELLIA_128_CBC_SHA256") (TM "TLS1_RFC_RSA_WITH_CAMELLIA_128_CBC_SHA256")
      [M "TLS1_CK_RSA_WITH_CAMELLIA_128_CBC_SHA256"] [M "SSL_kRSA"] [M "SSL_aRSA"] [M "SSL_CAMELLIA128"] [M "SSL_SHA256"]
      [M "TLS1_2_VERSION"] [M "TLS1_2_VERSION"] [M "DTLS1_2_VERSION"] [M "DTLS1_2_VERSION"]
      [M "SSL_NOT_DEFAULT"; M "SSL_HIGH"] [M "SSL_HANDSHAKE_MAC_SHA256"; M "TLS1_PRF_SHA256"] [L 128] [L 128];
    Init always 1 (TM "TLS1_TXT_DHE_DSS_WITH_CAMELLIA_128_CBC_SHA256") (TM "TLS1_RFC_DHE_DSS_WITH_CAMELLIA_128_CBC_SHA256")
      [M "TLS1_CK_DHE_DSS_WITH_CAMELLIA_128_CBC_SHA256"] [M "SSL_kDHE"] [M "SSL_aDSS"] [M "SSL_CAMELLIA128"] [M "SSL_SHA256"]
      [M "TLS1_2_VERSION"] [M "TLS1_2_VERSION"] [M "DTLS1_2_VERSION"] [M "DTLS1_2_VERSION"]
      [M "SSL_NOT_DEFAULT"; M "SSL_HIGH"] [M "SSL_HANDSHAKE_MAC_SHA256"; M "TLS1_PRF_SHA256"] [L 128] [L 128];
    Init always 1 (TM "TLS1_TXT_DHE_RSA_WITH_CAMELLIA_128_CBC_SHA256") (TM "TLS1_RFC_DHE_RSA_WITH_CAMELLIA_128_CBC_SHA256")
      [M "TLS1_CK_DHE_RSA_WITH_CAMELLIA_128_CBC_SHA256"] [M "SSL_kDHE"] [M "SSL_aRSA"] [M "SSL_CAMELLIA128"] [M "SSL_SHA256"]
      [M "TLS1_2_VERSION"] [M "TLS1_2_VERSION"] [M "DTLS1_2_VERSION"] [M "DTLS1_2_VERSION"]
      [M "SSL_NOT_DEFAULT"; M "SSL_HIGH"] [M "SSL_HANDSHAKE_MAC_SHA256"; M "TLS1_PRF_SHA256"] [L 128] [L 128];
    Init always 1 (TM "TLS1_TXT_ADH_WITH_CAMELLIA_128_CBC_SHA256") (TM "TLS1_RFC_ADH_WITH_CAMELLIA_128_CBC_SHA256")
      [M "TLS1_CK_ADH_WITH_CAMELLIA_128_CBC_SHA256"] [M "SSL_kDHE"] [M "SSL_aNULL"] [M "SSL_CAMELLIA128"] [M "SSL_SHA256"]
      [M "TLS1_2_VERSION"] [M "TLS1_2_VERSION"] [M "DTLS1_2_VERSION"] [M "DTLS1_2_VERSION"]
      [M "SSL_NOT_DEFAULT"; M "SSL_HIGH"] [M "SSL_HANDSHAKE_MAC_SHA256"; M "TLS1_PRF_SHA256"] [L 128] [L 128];
    Init always 1 (TM "TLS1_TXT_RSA_WITH_CAMELLIA_256_CBC_SHA256") (TM "TLS1_RFC_RSA_WITH_CAMELLIA_256_CBC_SHA256")
      [M "TLS1_CK_RSA_WITH_CAMELLIA_256_CBC_SHA256"] [M "SSL_kRSA"] [M "SSL_aRSA"] [M "SSL_CAMELLIA256"] [M "SSL_SHA256"]
      [M "TLS1_2_VERSION"] [M "TLS1_2_VERSION"] [M "DTLS1_2_VERSION"] [M "DTLS1_2_VERSION"]
      [M "SSL_NOT_DEFAULT"; M "SSL_HIGH"] [M "SSL_HANDSHAKE_MAC_SHA256"; M "TLS1_PRF_SHA256"] [L 256] [L 256];
    Init always 1 (TM "TLS1_TXT_DHE_DSS_WITH_CAMELLIA_256_CBC_SHA256") (TM "TLS1_RFC_DHE_DSS_WITH_CAMELLIA_256_CBC_SHA256")
      [M "TLS1_CK_DHE_DSS_WITH_CAMELLIA_256_CBC_SHA256"] [M "SSL_kDHE"] [M "SSL_aDSS"] [M "SSL_CAMELLIA256"] [M "SSL_SHA256"]
      [M "TLS1_2_VERSION"] [M "TLS1_2_VERSION"] [M "DTLS1_2_VERSION"] [M "DTLS1_2_VERSION"]
      [M "SSL_NOT_DEFAULT"; M "SSL_HIGH"] [M "SSL_HANDSHAKE_MAC_SHA256"; M "TLS1_PRF_SHA256"] [L 256] [L 256];
    Init always 1 (TM "TLS1_TXT_DHE_RSA_WITH_CAMELLIA_256_CBC_SHA256") (TM "TLS1_RFC_DHE_RSA_WITH_CAMELLIA_256_CBC_SHA256")
      [M "TLS1_CK_DHE_RSA_WITH_CAMELLIA_256_CBC_SHA256"] [M "SSL_kDHE"] [M "SSL_aRSA"] [M "SSL_CAMELLIA256"] [M "SSL_SHA256"]
      [M "TLS1_2_VERSION"] [M "TLS1_2_VERSION"] [M "DTLS1_2_VERSION"] [M "DTLS1_2_VERSION"]
      [M "SSL_NOT_DEFAULT"; M "SSL_HIGH"] [M "SSL_HANDSHAKE_MAC_SHA256"; M "TLS1_PRF_SHA256"] [L 256] [L 256];
    Init always 1 (TM "TLS1_TXT_ADH_WITH_CAMELLIA_256_CBC_SHA256") (TM "TLS1_RFC_ADH_WITH_CAMELLIA_256_CBC_SHA256")
      [M "TLS1_CK_ADH_WITH_CAMELLIA_256_CBC_SHA256"] [M "SSL_kDHE"] [M "SSL_aNULL"] [M "SSL_CAMELLIA256"] [M "SSL_SHA256"]
      [M "TLS1_2_VERSION"] [M "TLS1_2_VERSION"] [M "DTLS1_2_VERSION"] [M "DTLS1_2_VERSION"]
      [M "SSL_NOT_DEFAULT"; M "SSL_HIGH"] [M "SSL_HANDSHAKE_MAC_SHA256"; M "TLS1_PRF_SHA256"] [L 256] [L 256];
    Init always 1 (TM "TLS1_TXT_RSA_WITH_CAMELLIA_256_CBC_SHA") (TM "TLS1_RFC_RSA_WITH_CAMELLIA_256_CBC_SHA")
      [M "TLS1_CK_RSA_WITH_CAMELLIA_256_CBC_SHA"] [M "SSL_kRSA"] [M "SSL_aRSA"] [M "SSL_CAMELLIA256"] [M "SSL_SHA1"]
      [M "SSL3_VERSION"] [M "TLS1_2_VERSION"] [M "DTLS1_BAD_VER"] [M "DTLS1_2_VERSION"]
      [M "SSL_NOT_DEFAULT"; M "SSL_HIGH"] [M "SSL_HANDSHAKE_MAC_DEFAULT"; M "TLS1_PRF"] [L 256] [L 256];
    Init always 1 (TM "TLS1_TXT_DHE_DSS_WITH_CAMELLIA_256_CBC_SHA") (TM "TLS1_RFC_DHE_DSS_WITH_CAMELLIA_256_CBC_SHA")
      [M "TLS1_CK_DHE_DSS_WITH_CAMELLIA_256_CBC_SHA"] [M "SSL_kDHE"] [M "SSL_aDSS"] [M "SSL_CAMELLIA256"] [M "SSL_SHA1"]
      [M "SSL3_VERSION"] [M "TLS1_2_VERSION"] [M "DTLS1_BAD_VER"] [M "DTLS1_2_VERSION"]
      [M "SSL_NOT_DEFAULT"; M "SSL_HIGH"] [M "SSL_HANDSHAKE_MAC_DEFAULT"; M "TLS1_PRF"] [L 256] [L 256];
    Init always 1 (TM "TLS1_TXT_DHE_RSA_WITH_CAMELLIA_256_CBC_SHA") (TM "TLS1_RFC_DHE_RSA_WITH_CAMELLIA_256_CBC_SHA")
      [M "TLS1_CK_DHE_RSA_WITH_CAMELLIA_256_CBC_SHA"] [M "SSL_kDHE"] [M "SSL_aRSA"] [M "SSL_CAMELLIA256"] [M "SSL_SHA1"]
      [M "SSL3_VERSION"] [M "TLS1_2_VERSION"] [M "DTLS1_BAD_VER"] [M "DTLS1_2_VERSION"]
      [M "SSL_NOT_DEFAULT"; M "SSL_HIGH"] [M "SSL_HANDSHAKE_MAC_DEFAULT"; M "TLS1_PRF"] [L 256] [L 256];
    Init always 1 (TM "TLS1_TXT_ADH_WITH_CAMELLIA_256_CBC_SHA") (TM "TLS1_RFC_ADH_WITH_CAMELLIA_256_CBC_SHA")
      [M "TLS1_CK_ADH_WITH_CAMELLIA_256_CBC_SHA"] [M "SSL_kDHE"] [M "SSL_aNULL"] [M "SSL_CAMELLIA256"] [M "SSL_SHA1"]
      [M "SSL3_VERSION"] [M "TLS1_2_VERSION"] [M "DTLS1_BAD_VER"] [M "DTLS1_2_VERSION"]
      [M "SSL_NOT_DEFAULT"; M "SSL_HIGH"] [M "SSL_HANDSHAKE_MAC_DEFAULT"; M "TLS1_PRF"] [L 256] [L 256];
    Init always 1 (TM "TLS1_TXT_RSA_WITH_CAMELLIA_128_CBC_SHA") (TM "TLS1_RFC_RSA_WITH_CAMELLIA_128_CBC_SHA")
      [M "TLS1_CK_RSA_WITH_CAMELLIA_128_CBC_SHA"] [M "SSL_kRSA"] [M "SSL_aRSA"] [M "SSL_CAMELLIA128"] [M "SSL_SHA1"]
      [M "SSL3_VERSION"] [M "TLS1_2_VERSION"] [M "DTLS1_BAD_VER"] [M "DTLS1_2_VERSION"]
      [M "SSL_NOT_DEFAULT"; M "SSL_HIGH"] [M "SSL_HANDSHAKE_MAC_DEFAULT"; M "TLS1_PRF"] [L 128] [L 128];
    Init always 1 (TM "TLS1_TXT_DHE_DSS_WITH_CAMELLIA_128_CBC_SHA") (TM "TLS1_RFC_DHE_DSS_WITH_CAMELLIA_128_CBC_SHA")
      [M "TLS1_CK_DHE_DSS_WITH_CAMELLIA_128_CBC_SHA"] [M "SSL_kDHE"] [M "SSL_aDSS"] [M "SSL_CAMELLIA128"] [M "SSL_SHA1"]
      [M "SSL3_VERSION"] [M "TLS1_2_VERSION"] [M "DTLS1_BAD_VER"] [M "DTLS1_2_VERSION"]
      [M "SSL_NOT_DEFAULT"; M "SSL_HIGH"] [M "SSL_HANDSHAKE_MAC_DEFAULT"; M "TLS1_PRF"] [L 128] [L 128];
    Init always 1 (TM "TLS1_TXT_DHE_RSA_WITH_CAMELLIA_128_CBC_SHA") (TM "TLS1_RFC_DHE_RSA_WITH_CAMELLIA_128_CBC_SHA")
      [M "TLS1_CK_DHE_RSA_WITH_CAMELLIA_128_CBC_SHA"] [M "SSL_kDHE"] [M "SSL_aRSA"] [M "SSL_CAMELLIA128"] [M "SSL_SHA1"]
      [M "SSL3_VERSION"] [M "TLS1_2_VERSION"] [M "DTLS1_BAD_VER"] [M "DTLS1_2_VERSION"]
      [M "SSL_NOT_DEFAULT"; M "SSL_HIGH"] [M "SSL_HANDSHAKE_MAC_DEFAULT"; M "TLS1_PRF"] [L 128] [L 128];
    Init always 1 (TM "TLS1_TXT_ADH_WITH_CAMELLIA_128_CBC_SHA") (TM "TLS1_RFC_ADH_WITH_CAMELLIA_128_CBC_SHA")
      [M "TLS1_CK_ADH_WITH_CAMELLIA_128_CBC_SHA"] [M "SSL_kDHE"] [M "SSL_aNULL"] [M "SSL_CAMELLIA128"] [M "SSL_SHA1"]
      [M "SSL3_VERSION"] [M "TLS1_2_VERSION"] [M "DTLS1_BAD_VER"] [M "DTLS1_2_VERSION"]
      [M "SSL_NOT_DEFAULT"; M "SSL_HIGH"] [M "SSL_HANDSHAKE_MAC_DEFAULT"; M "TLS1_PRF"] [L 128] [L 128];
    Init always 1 (TM "TLS1_TXT_ECDHE_ECDSA_WITH_CAMELLIA_128_CBC_SHA256") (TM "TLS1_RFC_ECDHE_ECDSA_WITH_CAMELLIA_128_CBC_SHA256")
      [M "TLS1_CK_ECDHE_ECDSA_WITH_CAMELLIA_128_CBC_SHA256"] [M "SSL_kECDHE"] [M "SSL_aECDSA"] [M "SSL_CAMELLIA128"] [M "SSL_SHA256"]
      [M "TLS1_2_VERSION"] [M "TLS1_2_VERSION"] [M "DTLS1_2_VERSION"] [M "DTLS1_2_VERSION"]
      [M "SSL_NOT_DEFAULT"; M "SSL_HIGH"] [M "SSL_HANDSHAKE_MAC_SHA256"; M "TLS1_PRF_SHA256"] [L 128] [L 128];
    Init always 1 (TM "TLS1_TXT_ECDHE_ECDSA_WITH_CAMELLIA_256_CBC_SHA384") (TM "TLS1_RFC_ECDHE_ECDSA_WITH_CAMELLIA_256_CBC_SHA384")
      [M "TLS1_CK_ECDHE_ECDSA_WITH_CAMELLIA_256_CBC_SHA384"] [M "SSL_kECDHE"] [M "SSL_aECDSA"] [M "SSL_CAMELLIA256"] [M "SSL_SHA384"]
      [M "TLS1_2_VERSION"] [M "TLS1_2_VERSION"] [M "DTLS1_2_VERSION"] [M "DTLS1_2_VERSION"]
      [M "SSL_NOT_DEFAULT"; M "SSL_HIGH"] [M "SSL_HANDSHAKE_MAC_SHA384"; M "TLS1_PRF_SHA384"] [L 256] [L 256];
    Init always 1 (TM "TLS1_TXT_ECDHE_RSA_WITH_CAMELLIA_128_CBC_SHA256") (TM "TLS1_RFC_ECDHE_RSA_WITH_CAMELLIA_128_CBC_SHA256")
      [M "TLS1_CK_ECDHE_RSA_WITH_CAMELLIA_128_CBC_SHA256"] [M "SSL_kECDHE"] [M "SSL_aRSA"] [M "SSL_CAMELLIA128"] [M "SSL_SHA256"]
      [M "TLS1_2_VERSION"] [M "TLS1_2_VERSION"] [M "DTLS1_2_VERSION"] [M "DTLS1_2_VERSION"]
      [M "SSL_NOT_DEFAULT"; M "SSL_HIGH"] [M "SSL_HANDSHAKE_MAC_SHA256"; M "TLS1_PRF_SHA256"] [L 128] [L 128];
    Init always 1 (TM "TLS1_TXT_ECDHE_RSA_WITH_CAMELLIA_256_CBC_SHA384") (TM "TLS1_RFC_ECDHE_RSA_WITH_CAMELLIA_256_CBC_SHA384")
      [M "TLS1_CK_ECDHE_RSA_WITH_CAMELLIA_256_CBC_SHA384"] [M "SSL_kECDHE"] [M "SSL_aRSA"] [M "SSL_CAMELLIA256"] [M "SSL_SHA384"]
      [M "TLS1_2_VERSION"] [M "TLS1_2_VERSION"] [M "DTLS1_2_VERSION"] [M "DTLS1_2_VERSION"]
      [M "SSL_NOT_DEFAULT"; M "SSL_HIGH"] [M "SSL_HANDSHAKE_MAC_SHA384"; M "TLS1_PRF_SHA384"] [L 256] [L 256];
    Init always 1 (TM "TLS1_TXT_PSK_WITH_CAMELLIA_128_CBC_SHA256") (TM "TLS1_RFC_PSK_WITH_CAMELLIA_128_CBC_SHA256")
      [M "TLS1_CK_PSK_WITH_CAMELLIA_128_CBC_SHA256"] [M "SSL_kPSK"] [M "SSL_aPSK"] [M "SSL_CAMELLIA128"] [M "SSL_SHA256"]
      [M "TLS1_VERSION"] [M "TLS1_2_VERSION"] [M "DTLS1_BAD_VER"] [M "DTLS1_2_VERSION"]
      [M "SSL_NOT_DEFAULT"; M "SSL_HIGH"] [M "SSL_HANDSHAKE_MAC_DEFAULT"; M "TLS1_PRF"] [L 128] [L 128];
    Init always 1 (TM "TLS1_TXT_PSK_WITH_CAMELLIA_256_CBC_SHA384") (TM "TLS1_RFC_PSK_WITH_CAMELLIA_256_CBC_SHA384")
      [M "TLS1_CK_PSK_WITH_CAMELLIA_256_CBC_SHA384"] [M "SSL_kPSK"] [M "SSL_aPSK"] [M "SSL_CAMELLIA256"] [M "SSL_SHA384"]
      [M "TLS1_VERSION"] [M "TLS1_2_VERSION"] [M "DTLS1_BAD_VER"] [M "DTLS1_2_VERSION"]
      [M "SSL_NOT_DEFAULT"; M "SSL_HIGH"] [M "SSL_HANDSHAKE_MAC_SHA384"; M "TLS1_PRF_SHA384"] [L 256] [L 256];
    Init always 1 (TM "TLS1_TXT_DHE_PSK_WITH_CAMELLIA_128_CBC_SHA256") (TM "TLS1_RFC_DHE_PSK_WITH_CAMELLIA_128_CBC_SHA256")
      [M "TLS1_CK_DHE_PSK_WITH_CAMELLIA_128_CBC_SHA256"] [M "SSL_kDHEPSK"] [M "SSL_aPSK"] [M "SSL_CAMELLIA128"] [M "SSL_SHA256"]
      [M "TLS1_VERSION"] [M "TLS1_2_VERSION"] [M "DTLS1_BAD_VER"] [M "DTLS1_2_VERSION"]
      [M "SSL_NOT_DEFAULT"; M "SSL_HIGH"] [M "SSL_HANDSHAKE_MAC_DEFAULT"; M "TLS1_PRF"] [L 128] [L 128];
    Init always 1 (TM "TLS1_TXT_DHE_PSK_WITH_CAMELLIA_256_CBC_SHA384") (TM "TLS1_RFC_DHE_PSK_WITH_CAMELLIA_256_CBC_SHA384")
      [M "TLS1_CK_DHE_PSK_WITH_CAMELLIA_256_CBC_SHA384"] [M "SSL_kDHEPSK"] [M "SSL_aPSK"] [M "SSL_CAMELLIA256"] [M "SSL_SHA384"]
      [M "TLS1_VERSION"] [M "TLS1_2_VERSION"] [M "DTLS1_BAD_VER"] [M "DTLS1_2_VERSION"]
      [M "SSL_NOT_DEFAULT"; M "SSL_HIGH"] [M "SSL_HANDSHAKE_MAC_SHA384"; M "TLS1_PRF_SHA384"] [L 256] [L 256];
    Init always 1 (TM "TLS1_TXT_RSA_PSK_WITH_CAMELLIA_128_CBC_SHA256") (TM "TLS1_RFC_RSA_PSK_WITH_CAMELLIA_128_CBC_SHA256")
      [M "TLS1_CK_RSA_PSK_WITH_CAMELLIA_128_CBC_SHA256"] [M "SSL_kRSAPSK"] [M "SSL_aRSA"] [M "SSL_CAMELLIA128"] [M "SSL_SHA256"]
      [M "TLS1_VERSION"] [M "TLS1_2_VERSION"] [M "DTLS1_BAD_VER"] [M "DTLS1_2_VERSION"]
      [M "SSL_NOT_DEFAULT"; M "SSL_HIGH"] [M "SSL_HANDSHAKE_MAC_DEFAULT"; M "TLS1_PRF"] [L 128] [L 128];
    Init always 1 (TM "TLS1_TXT_RSA_PSK_WITH_CAMELLIA_256_CBC_SHA384") (TM "TLS1_RFC_RSA_PSK_WITH_CAMELLIA_256_CBC_SHA384")
      [M "TLS1_CK_RSA_PSK_WITH_CAMELLIA_256_CBC_SHA384"] [M "SSL_kRSAPSK"] [M "SSL_aRSA"] [M "SSL_CAMELLIA256"] [M "SSL_SHA384"]
      [M "TLS1_VERSION"] [M "TLS1_2_VERSION"] [M "DTLS1_BAD_VER"] [M "DTLS1_2_VERSION"]
      [M "SSL_NOT_DEFAULT"; M "SSL_HIGH"] [M "SSL_HANDSHAKE_MAC_SHA384"; M "TLS1_PRF_SHA384"] [L 256] [L 256];
    Init always 1 (TM "TLS1_TXT_ECDHE_PSK_WITH_CAMELLIA_128_CBC_SHA256") (TM "TLS1_RFC_ECDHE_PSK_WITH_CAMELLIA_128_CBC_SHA256")
      [M "TLS1_CK_ECDHE_PSK_WITH_CAMELLIA_128_CBC_SHA256"] [M "SSL_kECDHEPSK"] [M "SSL_aPSK"] [M "SSL_CAMELLIA128"] [M "SSL_SHA256"]
      [M "TLS1_VERSION"] [M "TLS1_2_VERSION"] [M "DTLS1_BAD_VER"] [M "DTLS1_2_VERSION"]
      [M "SSL_NOT_DEFAULT"; M "SSL_HIGH"] [M "SSL_HANDSHAKE_MAC_DEFAULT"; M "TLS1_PRF"] [L 128] [L 128];
    Init always 1 (TM "TLS1_TXT_ECDHE_PSK_WITH_CAMELLIA_256_CBC_SHA384") (TM "TLS1_RFC_ECDHE_PSK_WITH_CAMELLIA_256_CBC_SHA384")
      [M "TLS1_CK_ECDHE_PSK_WITH_CAMELLIA_256_CBC_SHA384"] [M "SSL_kECDHEPSK"] [M "SSL_aPSK"] [M "SSL_CAMELLIA256"] [M "SSL_SHA384"]
      [M "TLS1_VERSION"] [M "TLS1_2_VERSION"] [M "DTLS1_BAD_VER"] [M "DTLS1_2_VERSION"]
      [M "SSL_NOT_DEFAULT"; M "SSL_HIGH"] [M "SSL_HANDSHAKE_MAC_SHA384"; M "TLS1_PRF_SHA384"] [L 256] [L 256];
    Init gost 1 (TL "GOST2001-GOST89-GOST89") (TL "TLS_GOSTR341001_WITH_28147_CNT_IMIT")
      [L 0x3000081] [M "SSL_kGOST"] [M "SSL_aGOST01"] [M "SSL_eGOST2814789CNT"] [M "SSL_GOST89MAC"]
      [M "TLS1_VERSION"] [M "TLS1_2_VERSION"] [L 0] [L 0]
      [M "SSL_HIGH"] [M "SSL_HANDSHAKE_MAC_GOST94"; M "TLS1_PRF_GOST94"; M "TLS1_STREAM_MAC"] [L 256] [L 256];
    Init gost 1 (TL "GOST2001-NULL-GOST94") (TL "TLS_GOSTR341001_WITH_NULL_GOSTR3411")
      [L 0x3000083] [M "SSL_kGOST"] [M "SSL_aGOST01"] [M "SSL_eNULL"] [M "SSL_GOST94"]
      [M "TLS1_VERSION"] [M "TLS1_2_VERSION"] [L 0] [L 0]
      [M "SSL_STRONG_NONE"] [M "SSL_HANDSHAKE_MAC_GOST94"; M "TLS1_PRF_GOST94"] [L 0] [L 0];
    Init gost 1 (TL "IANA-GOST2012-GOST8912-GOST8912") TNULL
      [L 0x0300c102] [M "SSL_kGOST"] [M "SSL_aGOST12"; M "SSL_aGOST01"] [M "SSL_eGOST2814789CNT12"] [M "SSL_GOST89MAC12"]
      [M "TLS1_VERSION"] [M "TLS1_2_VERSION"] [L 0] [L 0]
      [M "SSL_HIGH"] [M "SSL_HANDSHAKE_MAC_GOST12_256"; M "TLS1_PRF_GOST12_256"; M "TLS1_STREAM_MAC"] [L 256] [L 256];
    Init gost 1 (TL "LEGACY-GOST2012-GOST8912-GOST8912") TNULL
      [L 0x0300ff85] [M "SSL_kGOST"] [M "SSL_aGOST12"; M "SSL_aGOST01"] [M "SSL_eGOST2814789CNT12"] [M "SSL_GOST89MAC12"]
      [M "TLS1_VERSION"] [M "TLS1_2_VERSION"] [L 0] [L 0]
      [M "SSL_HIGH"] [M "SSL_HANDSHAKE_MAC_GOST12_256"; M "TLS1_PRF_GOST12_256"; M "TLS1_STREAM_MAC"] [L 256] [L 256];
    Init gost 1 (TL "GOST2012-NULL-GOST12") TNULL
      [L 0x0300ff87] [M "SSL_kGOST"] [M "SSL_aGOST12"; M "SSL_aGOST01"] [M "SSL_eNULL"] [M "SSL_GOST12_256"]
      [M "TLS1_VERSION"] [M "TLS1_2_VERSION"] [L 0] [L 0]
      [M "SSL_STRONG_NONE"] [M "SSL_HANDSHAKE_MAC_GOST12_256"; M "TLS1_PRF_GOST12_256"; M "TLS1_STREAM_MAC"] [L 0] [L 0];
    Init gost 1 (TL "GOST2012-KUZNYECHIK-KUZNYECHIKOMAC") TNULL
      [L 0x0300c100] [M "SSL_kGOST18"] [M "SSL_aGOST12"] [M "SSL_KUZNYECHIK"] [M "SSL_KUZNYECHIKOMAC"]
      [M "TLS1_2_VERSION"] [M "TLS1_2_VERSION"] [L 0] [L 0]
      [M "SSL_HIGH"] [M "SSL_HANDSHAKE_MAC_GOST12_256"; M "TLS1_PRF_GOST12_256"; M "TLS1_TLSTREE"] [L 256] [L 256];
    Init gost 1 (TL "GOST2012-MAGMA-MAGMAOMAC") TNULL
      [L 0x0300c101] [M "SSL_kGOST18"] [M "SSL_aGOST12"] [M "SSL_MAGMA"] [M "SSL_MAGMAOMAC"]
      [M "TLS1_2_VERSION"] [M "TLS1_2_VERSION"] [L 0] [L 0]
      [M "SSL_HIGH"] [M "SSL_HANDSHAKE_MAC_GOST12_256"; M "TLS1_PRF_GOST12_256"; M "TLS1_TLSTREE"] [L 256] [L 256];
    Init always 1 (TM "SSL3_TXT_RSA_IDEA_128_SHA") (TM "SSL3_RFC_RSA_IDEA_128_SHA")
      [M "SSL3_CK_RSA_IDEA_128_SHA"] [M "SSL_kRSA"] [M "SSL_aRSA"] [M "SSL_IDEA"] [M "SSL_SHA1"]
      [M "SSL3_VERSION"] [M "TLS1_1_VERSION"] [M "DTLS1_BAD_VER"] [M "DTLS1_VERSION"]
      [M "SSL_NOT_DEFAULT"; M "SSL_MEDIUM"] [M "SSL_HANDSHAKE_MAC_DEFAULT"; M "TLS1_PRF"] [L 128] [L 128];
    Init always 1 (TM "TLS1_TXT_RSA_WITH_SEED_SHA") (TM "TLS1_RFC_RSA_WITH_SEED_SHA")
      [M "TLS1_CK_RSA_WITH_SEED_SHA"] [M "SSL_kRSA"] [M "SSL_aRSA"] [M "SSL_SEED"] [M "SSL_SHA1"]
      [M "SSL3_VERSION"] [M "TLS1_2_VERSION"] [M "DTLS1_BAD_VER"] [M "DTLS1_2_VERSION"]
      [M "SSL_NOT_DEFAULT"; M "SSL_MEDIUM"] [M "SSL_HANDSHAKE_MAC_DEFAULT"; M "TLS1_PRF"] [L 128] [L 128];
    Init always 1 (TM "TLS1_TXT_DHE_DSS_WITH_SEED_SHA") (TM "TLS1_RFC_DHE_DSS_WITH_SEED_SHA")
      [M "TLS1_CK_DHE_DSS_WITH_SEED_SHA"] [M "SSL_kDHE"] [M "SSL_aDSS"] [M "SSL_SEED"] [M "SSL_SHA1"]
      [M "SSL3_VERSION"] [M "TLS1_2_VERSION"] [M "DTLS1_BAD_VER"] [M "DTLS1_2_VERSION"]
      [M "SSL_NOT_DEFAULT"; M "SSL_MEDIUM"] [M "SSL_HANDSHAKE_MAC_DEFAULT"; M "TLS1_PRF"] [L 128] [L 128];
    Init always 1 (TM "TLS1_TXT_DHE_RSA_WITH_SEED_SHA") (TM "TLS1_RFC_DHE_RSA_WITH_SEED_SHA")
      [M "TLS1_CK_DHE_RSA_WITH_SEED_SHA"] [M "SSL_kDHE"] [M "SSL_aRSA"] [M "SSL_SEED"] [M "SSL_SHA1"]
      [M "SSL3_VERSION"] [M "TLS1_2_VERSION"] [M "DTLS1_BAD_VER"] [M "DTLS1_2_VERSION"]
      [M "SSL_NOT_DEFAULT"; M "SSL_MEDIUM"] [M "SSL_HANDSHAKE_MAC_DEFAULT"; M "TLS1_PRF"] [L 128] [L 128];
    Init always 1 (TM "TLS1_TXT_ADH_WITH_SEED_SHA") (TM "TLS1_RFC_ADH_WITH_SEED_SHA")
      [M "TLS1_CK_ADH_WITH_SEED_SHA"] [M "SSL_kDHE"] [M "SSL_aNULL"] [M "SSL_SEED"] [M "SSL_SHA1"]
      [M "SSL3_VERSION"] [M "TLS1_2_VERSION"] [M "DTLS1_BAD_VER"] [M "DTLS1_2_VERSION"]
      [M "SSL_NOT_DEFAULT"; M "SSL_MEDIUM"] [M "SSL_HANDSHAKE_MAC_DEFAULT"; M "TLS1_PRF"] [L 128] [L 128];
    Init weak_ssl_ciphers 1 (TM "SSL3_TXT_RSA_RC4_128_MD5") (TM "SSL3_RFC_RSA_RC4_128_MD5")
      [M "SSL3_CK_RSA_RC4_128_MD5"] [M "SSL_kRSA"] [M "SSL_aRSA"] [M "SSL_RC4"] [M "SSL_MD5"]
      [M "SSL3_VERSION"] [M "TLS1_2_VERSION"] [L 0] [L 0]
      [M "SSL_NOT_DEFAULT"; M "SSL_MEDIUM"] [M "SSL_HANDSHAKE_MAC_DEFAULT"; M "TLS1_PRF"] [L 128] [L 128];
    Init weak_ssl_ciphers 1 (TM "SSL3_TXT_RSA_RC4_128_SHA") (TM "SSL3_RFC_RSA_RC4_128_SHA")
      [M "SSL3_CK_RSA_RC4_128_SHA"] [M "SSL_kRSA"] [M "SSL_aRSA"] [M "SSL_RC4"] [M "SSL_SHA1"]
      [M "SSL3_VERSION"] [M "TLS1_2_VERSION"] [L 0] [L 0]
      [M "SSL_NOT_DEFAULT"; M "SSL_MEDIUM"] [M "SSL_HANDSHAKE_MAC_DEFAULT"; M "TLS1_PRF"] [L 128] [L 128];
    Init weak_ssl_ciphers 1 (TM "SSL3_TXT_ADH_RC4_128_MD5") (TM "SSL3_RFC_ADH_RC4_128_MD5")
      [M "SSL3_CK_ADH_RC4_128_MD5"] [M "SSL_kDHE"] [M "SSL_aNULL"] [M "SSL_RC4"] [M "SSL_MD5"]
      [M "SSL3_VERSION"] [M "TLS1_2_VERSION"] [L 0] [L 0]
      [M "SSL_NOT_DEFAULT"; M "SSL_MEDIUM"] [M "SSL_HANDSHAKE_MAC_DEFAULT"; M "TLS1_PRF"] [L 128] [L 128];
    Init weak_ssl_ciphers 1 (TM "TLS1_TXT_ECDHE_PSK_WITH_RC4_128_SHA") (TM "TLS1_RFC_ECDHE_PSK_WITH_RC4_128_SHA")
      [M "TLS1_CK_ECDHE_PSK_WITH_RC4_128_SHA"] [M "SSL_kECDHEPSK"] [M "SSL_aPSK"] [M "SSL_RC4"] [M "SSL_SHA1"]
      [M "TLS1_VERSION"] [M "TLS1_2_VERSION"] [L 0] [L 0]
      [M "SSL_NOT_DEFAULT"; M "SSL_MEDIUM"] [M "SSL_HANDSHAKE_MAC_DEFAULT"; M "TLS1_PRF"] [L 128] [L 128];
    Init weak_ssl_ciphers 1 (TM "TLS1_TXT_ECDH_anon_WITH_RC4_128_SHA") (TM "TLS1_RFC_ECDH_anon_WITH_RC4_128_SHA")
      [M "TLS1_CK_ECDH_anon_WITH_RC4_128_SHA"] [M "SSL_kECDHE"] [M "SSL_aNULL"] [M "SSL_RC4"] [M "SSL_SHA1"]
      [M "TLS1_VERSION"] [M "TLS1_2_VERSION"] [L 0] [L 0]
      [M "SSL_NOT_DEFAULT"; M "SSL_MEDIUM"] [M "SSL_HANDSHAKE_MAC_DEFAULT"; M "TLS1_PRF"] [L 128] [L 128];
    Init weak_ssl_ciphers 1 (TM "TLS1_TXT_ECDHE_ECDSA_WITH_RC4_128_SHA") (TM "TLS1_RFC_ECDHE_ECDSA_WITH_RC4_128_SHA")
      [M "TLS1_CK_ECDHE_ECDSA_WITH_RC4_128_SHA"] [M "SSL_kECDHE"] [M "SSL_aECDSA"] [M "SSL_RC4"] [M "SSL_SHA1"]
      [M "TLS1_VERSION"] [M "TLS1_2_VERSION"] [L 0] [L 0]
      [M "SSL_NOT_DEFAULT"; M "SSL_MEDIUM"] [M "SSL_HANDSHAKE_MAC_DEFAULT"; M "TLS1_PRF"] [L 128] [L 128];
    Init weak_ssl_ciphers 1 (TM "TLS1_TXT_ECDHE_RSA_WITH_RC4_128_SHA") (TM "TLS1_RFC_ECDHE_RSA_WITH_RC4_128_SHA")
      [M "TLS1_CK_ECDHE_RSA_WITH_RC4_128_SHA"] [M "SSL_kECDHE"] [M "SSL_aRSA"] [M "SSL_RC4"] [M "SSL_SHA1"]
      [M "TLS1_VERSION"] [M "TLS1_2_VERSION"] [L 0] [L 0]
      [M "SSL_NOT_DEFAULT"; M "SSL_MEDIUM"] [M "SSL_HANDSHAKE_MAC_DEFAULT"; M "TLS1_PRF"] [L 128] [L 128];
    Init weak_ssl_ciphers 1 (TM "TLS1_TXT_PSK_WITH_RC4_128_SHA") (TM "TLS1_RFC_PSK_WITH_RC4_128_SHA")
      [M "TLS1_CK_PSK_WITH_RC4_128_SHA"] [M "SSL_kPSK"] [M "SSL_aPSK"] [M "SSL_RC4"] [M "SSL_SHA1"]
      [M "SSL3_VERSION"] [M "TLS1_2_VERSION"] [L 0] [L 0]
      [M "SSL_NOT_DEFAULT"; M "SSL_MEDIUM"] [M "SSL_HANDSHAKE_MAC_DEFAULT"; M "TLS1_PRF"] [L 128] [L 128];
    Init weak_ssl_ciphers 1 (TM "TLS1_TXT_RSA_PSK_WITH_RC4_128_SHA") (TM "TLS1_RFC_RSA_PSK_WITH_RC4_128_SHA")
      [M "TLS1_CK_RSA_PSK_WITH_RC4_128_SHA"] [M "SSL_kRSAPSK"] [M "SSL_aRSA"] [M "SSL_RC4"] [M "SSL_SHA1"]
      [M "SSL3_VERSION"] [M "TLS1_2_VERSION"] [L 0] [L 0]
      [M "SSL_NOT_DEFAULT"; M "SSL_MEDIUM"] [M "SSL_HANDSHAKE_MAC_DEFAULT"; M "TLS1_PRF"] [L 128] [L 128];
    Init weak_ssl_ciphers 1 (TM "TLS1_TXT_DHE_PSK_WITH_RC4_128_SHA") (TM "TLS1_RFC_DHE_PSK_WITH_RC4_128_SHA")
      [M "TLS1_CK_DHE_PSK_WITH_RC4_128_SHA"] [M "SSL_kDHEPSK"] [M "SSL_aPSK"] [M "SSL_RC4"] [M "SSL_SHA1"]
      [M "SSL3_VERSION"] [M "TLS1_2_VERSION"] [L 0] [L 0]
      [M "SSL_NOT_DEFAULT"; M "SSL_MEDIUM"] [M "SSL_HANDSHAKE_MAC_DEFAULT"; M "TLS1_PRF"] [L 128] [L 128];
    Init always 1 (TM "TLS1_TXT_RSA_WITH_ARIA_128_GCM_SHA256") (TM "TLS1_RFC_RSA_WITH_ARIA_128_GCM_SHA256")
      [M "TLS1_CK_RSA_WITH_ARIA_128_GCM_SHA256"] [M "SSL_kRSA"] [M "SSL_aRSA"] [M "SSL_ARIA128GCM"] [M "SSL_AEAD"]
      [M "TLS1_2_VERSION"] [M "TLS1_2_VERSION"] [M "DTLS1_2_VERSION"] [M "DTLS1_2_VERSION"]
      [M "SSL_NOT_DEFAULT"; M "SSL_HIGH"] [M "SSL_HANDSHAKE_MAC_SHA256"; M "TLS1_PRF_SHA256"] [L 128] [L 128];
    Init always 1 (TM "TLS1_TXT_RSA_WITH_ARIA_256_GCM_SHA384") (TM "TLS1_RFC_RSA_WITH_ARIA_256_GCM_SHA384")
      [M "TLS1_CK_RSA_WITH_ARIA_256_GCM_SHA384"] [M "SSL_kRSA"] [M "SSL_aRSA"] [M "SSL_ARIA256GCM"] [M "SSL_AEAD"]
      [M "TLS1_2_VERSION"] [M "TLS1_2_VERSION"] [M "DTLS1_2_VERSION"] [M "DTLS1_2_VERSION"]
      [M "SSL_NOT_DEFAULT"; M "SSL_HIGH"] [M "SSL_HANDSHAKE_MAC_SHA384"; M "TLS1_PRF_SHA384"] [L 256] [L 256];
    Init always 1 (TM "TLS1_TXT_DHE_RSA_WITH_ARIA_128_GCM_SHA256") (TM "TLS1_RFC_DHE_RSA_WITH_ARIA_128_GCM_SHA256")
      [M "TLS1_CK_DHE_RSA_WITH_ARIA_128_GCM_SHA256"] [M "SSL_kDHE"] [M "SSL_aRSA"] [M "SSL_ARIA128GCM"] [M "SSL_AEAD"]
      [M "TLS1_2_VERSION"] [M "TLS1_2_VERSION"] [M "DTLS1_2_VERSION"] [M "DTLS1_2_VERSION"]
      [M "SSL_NOT_DEFAULT"; M "SSL_HIGH"] [M "SSL_HANDSHAKE_MAC_SHA256"; M "TLS1_PRF_SHA256"] [L 128] [L 128];
    Init always 1 (TM "TLS1_TXT_DHE_RSA_WITH_ARIA_256_GCM_SHA384") (TM "TLS1_RFC_DHE_RSA_WITH_ARIA_256_GCM_SHA384")
      [M "TLS1_CK_DHE_RSA_WITH_ARIA_256_GCM_SHA384"] [M "SSL_kDHE"] [M "SSL_aRSA"] [M "SSL_ARIA256GCM"] [M "SSL_AEAD"]
      [M "TLS1_2_VERSION"] [M "TLS1_2_VERSION"] [M "DTLS1_2_VERSION"] [M "DTLS1_2_VERSION"]
      [M "SSL_NOT_DEFAULT"; M "SSL_HIGH"] [M "SSL_HANDSHAKE_MAC_SHA384"; M "TLS1_PRF_SHA384"] [L 256] [L 256];
    Init always 1 (TM "TLS1_TXT_DHE_DSS_WITH_ARIA_128_GCM_SHA256") (TM "TLS1_RFC_DHE_DSS_WITH_ARIA_128_GCM_SHA256")
      [M "TLS1_CK_DHE_DSS_WITH_ARIA_128_GCM_SHA256"] [M "SSL_kDHE"] [M "SSL_aDSS"] [M "SSL_ARIA128GCM"] [M "SSL_AEAD"]
      [M "TLS1_2_VERSION"] [M "TLS1_2_VERSION"] [M "DTLS1_2_VERSION"] [M "DTLS1_2_VERSION"]
      [M "SSL_NOT_DEFAULT"; M "SSL_HIGH"] [M "SSL_HANDSHAKE_MAC_SHA256"; M "TLS1_PRF_SHA256"] [L 128] [L 128];
    Init always 1 (TM "TLS1_TXT_DHE_DSS_WITH_ARIA_256_GCM_SHA384") (TM "TLS1_RFC_DHE_DSS_WITH_ARIA_256_GCM_SHA384")
      [M "TLS1_CK_DHE_DSS_WITH_ARIA_256_GCM_SHA384"] [M "SSL_kDHE"] [M "SSL_aDSS"] [M "SSL_ARIA256GCM"] [M "SSL_AEAD"]
      [M "TLS1_2_VERSION"] [M "TLS1_2_VERSION"] [M "DTLS1_2_VERSION"] [M "DTLS1_2_VERSION"]
      [M "SSL_NOT_DEFAULT"; M "SSL_HIGH"] [M "SSL_HANDSHAKE_MAC_SHA384"; M "TLS1_PRF_SHA384"] [L 256] [L 256];
    Init always 1 (TM "TLS1_TXT_ECDHE_ECDSA_WITH_ARIA_128_GCM_SHA256") (TM "TLS1_RFC_ECDHE_ECDSA_WITH_ARIA_128_GCM_SHA256")
      [M "TLS1_CK_ECDHE_ECDSA_WITH_ARIA_128_GCM_SHA256"] [M "SSL_kECDHE"] [M "SSL_aECDSA"] [M "SSL_ARIA128GCM"] [M "SSL_AEAD"]
      [M "TLS1_2_VERSION"] [M "TLS1_2_VERSION"] [M "DTLS1_2_VERSION"] [M "DTLS1_2_VERSION"]
      [M "SSL_NOT_DEFAULT"; M "SSL_HIGH"] [M "SSL_HANDSHAKE_MAC_SHA256"; M "TLS1_PRF_SHA256"] [L 128] [L 128];
    Init always 1 (TM "TLS1_TXT_ECDHE_ECDSA_WITH_ARIA_256_GCM_SHA384") (TM "TLS1_RFC_ECDHE_ECDSA_WITH_ARIA_256_GCM_SHA384")
      [M "TLS1_CK_ECDHE_ECDSA_WITH_ARIA_256_GCM_SHA384"] [M "SSL_kECDHE"] [M "SSL_aECDSA"] [M "SSL_ARIA256GCM"] [M "SSL_AEAD"]
      [M "TLS1_2_VERSION"] [M "TLS1_2_VERSION"] [M "DTLS1_2_VERSION"] [M "DTLS1_2_VERSION"]
      [M "SSL_NOT_DEFAULT"; M "SSL_HIGH"] [M "SSL_HANDSHAKE_MAC_SHA384"; M "TLS1_PRF_SHA384"] [L 256] [L 256];
    Init always 1 (TM "TLS1_TXT_ECDHE_RSA_WITH_ARIA_128_GCM_SHA256") (TM "TLS1_RFC_ECDHE_RSA_WITH_ARIA_128_GCM_SHA256")
      [M "TLS1_CK_ECDHE_RSA_WITH_ARIA_128_GCM_SHA256"] [M "SSL_kECDHE"] [M "SSL_aRSA"] [M "SSL_ARIA128GCM"] [M "SSL_AEAD"]
      [M "TLS1_2_VERSION"] [M "TLS1_2_VERSION"] [M "DTLS1_2_VERSION"] [M "DTLS1_2_VERSION"]
      [M "SSL_NOT_DEFAULT"; M "SSL_HIGH"] [M "SSL_HANDSHAKE_MAC_SHA256"; M "TLS1_PRF_SHA256"] [L 128] [L 128];
    Init always 1 (TM "TLS1_TXT_ECDHE_RSA_WITH_ARIA_256_GCM_SHA384") (TM "TLS1_RFC_ECDHE_RSA_WITH_ARIA_256_GCM_SHA384")
      [M "TLS1_CK_ECDHE_RSA_WITH_ARIA_256_GCM_SHA384"] [M "SSL_kECDHE"] [M "SSL_aRSA"] [M "SSL_ARIA256GCM"] [M "SSL_AEAD"]
      [M "TLS1_2_VERSION"] [M "TLS1_2_VERSION"] [M "DTLS1_2_VERSION"] [M "DTLS1_2_VERSION"]
      [M "SSL_NOT_DEFAULT"; M "SSL_HIGH"] [M "SSL_HANDSHAKE_MAC_SHA384"; M "TLS1_PRF_SHA384"] [L 256] [L 256];
    Init always 1 (TM "TLS1_TXT_PSK_WITH_ARIA_128_GCM_SHA256") (TM "TLS1_RFC_PSK_WITH_ARIA_128_GCM_SHA256")
      [M "TLS1_CK_PSK_WITH_ARIA_128_GCM_SHA256"] [M "SSL_kPSK"] [M "SSL_aPSK"] [M "SSL_ARIA128GCM"] [M "SSL_AEAD"]
      [M "TLS1_2_VERSION"] [M "TLS1_2_VERSION"] [M "DTLS1_2_VERSION"] [M "DTLS1_2_VERSION"]
      [M "SSL_NOT_DEFAULT"; M "SSL_HIGH"] [M "SSL_HANDSHAKE_MAC_SHA256"; M "TLS1_PRF_SHA256"] [L 128] [L 128];
    Init always 1 (TM "TLS1_TXT_PSK_WITH_ARIA_256_GCM_SHA384") (TM "TLS1_RFC_PSK_WITH_ARIA_256_GCM_SHA384")
      [M "TLS1_CK_PSK_WITH_ARIA_256_GCM_SHA384"] [M "SSL_kPSK"] [M "SSL_aPSK"] [M "SSL_ARIA256GCM"] [M "SSL_AEAD"]
      [M "TLS1_2_VERSION"] [M "TLS1_2_VERSION"] [M "DTLS1_2_VERSION"] [M "DTLS1_2_VERSION"]
      [M "SSL_NOT_DEFAULT"; M "SSL_HIGH"] [M "SSL_HANDSHAKE_MAC_SHA384"; M "TLS1_PRF_SHA384"] [L 256] [L 256];
    Init always 1 (TM "TLS1_TXT_DHE_PSK_WITH_ARIA_128_GCM_SHA256") (TM "TLS1_RFC_DHE_PSK_WITH_ARIA_128_GCM_SHA256")
      [M "TLS1_CK_DHE_PSK_WITH_ARIA_128_GCM_SHA256"] [M "SSL_kDHEPSK"] [M "SSL_aPSK"] [M "SSL_ARIA128GCM"] [M "SSL_AEAD"]
      [M "TLS1_2_VERSION"] [M "TLS1_2_VERSION"] [M "DTLS1_2_VERSION"] [M "DTLS1_2_VERSION"]
      [M "SSL_NOT_DEFAULT"; M "SSL_HIGH"] [M "SSL_HANDSHAKE_MAC_SHA256"; M "TLS1_PRF_SHA256"] [L 128] [L 128];
    Init always 1 (TM "TLS1_TXT_DHE_PSK_WITH_ARIA_256_GCM_SHA384") (TM "TLS1_RFC_DHE_PSK_WITH_ARIA_256_GCM_SHA384")
      [M "TLS1_CK_DHE_PSK_WITH_ARIA_256_GCM_SHA384"] [M "SSL_kDHEPSK"] [M "SSL_aPSK"] [M "SSL_ARIA256GCM"] [M "SSL_AEAD"]
      [M "TLS1_2_VERSION"] [M "TLS1_2_VERSION"] [M "DTLS1_2_VERSION"] [M "DTLS1_2_VERSION"]
      [M "SSL_NOT_DEFAULT"; M "SSL_HIGH"] [M "SSL_HANDSHAKE_MAC_SHA384"; M "TLS1_PRF_SHA384"] [L 256] [L 256];
    Init always 1 (TM "TLS1_TXT_RSA_PSK_WITH_ARIA_128_GCM_SHA256") (TM "TLS1_RFC_RSA_PSK_WITH_ARIA_128_GCM_SHA256")
      [M "TLS1_CK_RSA_PSK_WITH_ARIA_128_GCM_SHA256"] [M "SSL_kRSAPSK"] [M "SSL_aRSA"] [M "SSL_ARIA128GCM"] [M "SSL_AEAD"]
      [M "TLS1_2_VERSION"] [M "TLS1_2_VERSION"] [M "DTLS1_2_VERSION"] [M "DTLS1_2_VERSION"]
      [M "SSL_NOT_DEFAULT"; M "SSL_HIGH"] [M "SSL_HANDSHAKE_MAC_SHA256"; M "TLS1_PRF_SHA256"] [L 128] [L 128];
    Init always 1 (TM "TLS1_TXT_RSA_PSK_WITH_ARIA_256_GCM_SHA384") (TM "TLS1_RFC_RSA_PSK_WITH_ARIA_256_GCM_SHA384")
      [M "TLS1_CK_RSA_PSK_WITH_ARIA_256_GCM_SHA384"] [M "SSL_kRSAPSK"] [M "SSL_aRSA"] [M "SSL_ARIA256GCM"] [M "SSL_AEAD"]
      [M "TLS1_2_VERSION"] [M "TLS1_2_VERSION"] [M "DTLS1_2_VERSION"] [M "DTLS1_2_VERSION"]
      [M "SSL_NOT_DEFAULT"; M "SSL_HIGH"] [M "SSL_HANDSHAKE_MAC_SHA384"; M "TLS1_PRF_SHA384"] [L 256] [L 256];
    Init always 1 (TM "BTLS1_TXT_DHE_BIGN_WITH_BELT_CTR_MAC_HBELT") (TM "BTLS1_RFC_DHE_BIGN_WITH_BELT_CTR_MAC_HBELT")
      [L 0x0300ff15] [M "SSL_kBDHE"] [M "SSL_aBIGN"] [M "SSL_BELTCTR"] [M "SSL_BELTMAC"]
      [M "TLS1_2_VERSION"] [M "TLS1_2_VERSION"] [L 0] [L 0]
      [M "SSL_HIGH"] [M "SSL_HANDSHAKE_MAC_HBELT"; M "TLS1_PRF_HBELT"] [L 256] [L 256];
    Init always 1 (TM "BTLS1_TXT_DHE_BIGN_WITH_BELT_DWP_HBELT") (TM "BTLS1_RFC_DHE_BIGN_WITH_BELT_DWP_HBELT")
      [L 0x0300ff16] [M "SSL_kBDHE"] [M "SSL_aBIGN"] [M "SSL_BELTDWP"] [M "SSL_AEAD"]
      [M "TLS1_2_VERSION"] [M "TLS1_2_VERSION"] [L 0] [L 0]
      [M "SSL_HIGH"] [M "SSL_HANDSHAKE_MAC_HBELT"; M "TLS1_PRF_HBELT"] [L 256] [L 256];
    Init always 1 (TM "BTLS1_TXT_DHT_BIGN_WITH_BELT_CTR_MAC_HBELT") (TM "BTLS1_RFC_DHT_BIGN_WITH_BELT_CTR_MAC_HBELT")
      [L 0x0300ff17] [M "SSL_kBDHT"] [M "SSL_aBIGN"] [M "SSL_BELTCTR"] [M "SSL_BELTMAC"]
      [M "TLS1_2_VERSION"] [M "TLS1_2_VERSION"] [L 0] [L 0]
      [M "SSL_HIGH"] [M "SSL_HANDSHAKE_MAC_HBELT"; M "TLS1_PRF_HBELT"] [L 256] [L 256];
    Init always 1 (TM "BTLS1_TXT_DHT_BIGN_WITH_BELT_DWP_HBELT") (TM "BTLS1_RFC_DHT_BIGN_WITH_BELT_DWP_HBELT")
      [L 0x0300ff18] [M "SSL_kBDHT"] [M "SSL_aBIGN"] [M "SSL_BELTDWP"] [M "SSL_AEAD"]
      [M "TLS1_2_VERSION"] [M "TLS1_2_VERSION"] [L 0] [L 0]
      [M "SSL_HIGH"] [M "SSL_HANDSHAKE_MAC_HBELT"; M "TLS1_PRF_HBELT"] [L 256] [L 256];
    Init always 1 (TM "BTLS1_TXT_DHE_PSK_BIGN_WITH_BELT_CTR_MAC_HBELT") (TM "BTLS1_RFC_DHE_PSK_BIGN_WITH_BELT_CTR_MAC_HBELT")
      [L 0x0300ff19] [M "SSL_kBDHEPSK"] [M "SSL_aPSK"] [M "SSL_BELTCTR"] [M "SSL_BELTMAC"]
      [M "TLS1_2_VERSION"] [M "TLS1_2_VERSION"] [L 0] [L 0]
      [M "SSL_HIGH"] [M "SSL_HANDSHAKE_MAC_HBELT"; M "TLS1_PRF_HBELT"] [L 256] [L 256];
    Init always 1 (TM "BTLS1_TXT_DHE_PSK_BIGN_WITH_BELT_DWP_HBELT") (TM "BTLS1_RFC_DHE_PSK_BIGN_WITH_BELT_DWP_HBELT")
      [L 0x0300ff1a] [M "SSL_kBDHEPSK"] [M "SSL_aPSK"] [M "SSL_BELTDWP"] [M "SSL_AEAD"]
      [M "TLS1_2_VERSION"] [M "TLS1_2_VERSION"] [L 0] [L 0]
      [M "SSL_HIGH"] [M "SSL_HANDSHAKE_MAC_HBELT"; M "TLS1_PRF_HBELT"] [L 256] [L 256];
    Init always 1 (TM "BTLS1_TXT_DHT_PSK_BIGN_WITH_BELT_CTR_MAC_HBELT") (TM "BTLS1_RFC_DHT_PSK_BIGN_WITH_BELT_CTR_MAC_HBELT")
      [L 0x0300ff1b] [M "SSL_kBDHTPSK"] [M "SSL_aBIGN"] [M "SSL_BELTCTR"] [M "SSL_BELTMAC"]
      [M "TLS1_2_VERSION"] [M "TLS1_2_VERSION"] [L 0] [L 0]
      [M "SSL_HIGH"] [M "SSL_HANDSHAKE_MAC_HBELT"; M "TLS1_PRF_HBELT"] [L 256] [L 256];
    Init always 1 (TM "BTLS1_TXT_DHT_PSK_BIGN_WITH_BELT_DWP_HBELT") (TM "BTLS1_RFC_DHT_PSK_BIGN_WITH_BELT_DWP_HBELT")
      [L 0x0300ff1c] [M "SSL_kBDHTPSK"] [M "SSL_aBIGN"] [M "SSL_BELTDWP"] [M "SSL_AEAD"]
      [M "TLS1_2_VERSION"] [M "TLS1_2_VERSION"] [L 0] [L 0]
      [M "SSL_HIGH"] [M "SSL_HANDSHAKE_MAC_HBELT"; M "TLS1_PRF_HBELT"] [L 256] [L 256] ].

Definition ssl3_scsvs_src : list initialiser :=
  [ Init always 0 (TL "TLS_EMPTY_RENEGOTIATION_INFO_SCSV") (TL "TLS_EMPTY_RENEGOTIATION_INFO_SCSV")
      [M "SSL3_CK_SCSV"] [L 0] [L 0] [L 0] [L 0]
      [L 0] [L 0] [L 0] [L 0]
      [L 0] [L 0] [L 0] [L 0];
    Init always 0 (TL "TLS_FALLBACK_SCSV") (TL "TLS_FALLBACK_SCSV")
      [M "SSL3_CK_FALLBACK_SCSV"] [L 0] [L 0] [L 0] [L 0]
      [L 0] [L 0] [L 0] [L 0]
      [L 0] [L 0] [L 0] [L 0] ].
(** The headers: what each numeric and each string macro expands to. *)
Record Headers := {
  num : string -> Z;
  str : string -> string
}.

(** The build configuration the guards test. *)
Record Config := {
  OPENSSL_NO_WEAK_SSL_CIPHERS : bool;
  OPENSSL_NO_GOST : bool
}.

Definition eval_atom (H : Headers) (a : atom) : Z :=
  match a with M m => num H m | L v => v end.

Definition eval (H : Headers) (e : expr) : Z :=
  fold_right (fun a acc => Z.lor (eval_atom H a) acc) 0 e.

Definition eval_text (H : Headers) (t : text) : option string :=
  match t with TM m => Some (str H m) | TL s => Some s | TNULL => None end.

(** The value an initialiser gives a table entry; the conversions are those
    of the field types of [struct ssl_cipher_st]. *)
Definition compile (H : Headers) (i : initialiser) : SSL_CIPHER :=
  {| valid := uint32 (i_valid i);
     name := eval_text H (i_name i);
     stdname := eval_text H (i_stdname i);
     id := uint32 (eval H (i_id i));
     algorithm_mkey := uint32 (eval H (i_algorithm_mkey i));
     algorithm_auth := uint32 (eval H (i_algorithm_auth i));
     algorithm_enc := uint32 (eval H (i_algorithm_enc i));
     algorithm_mac := uint32 (eval H (i_algorithm_mac i));
     min_tls := int32 (eval H (i_min_tls i));
     max_tls := int32 (eval H (i_max_tls i));
     min_dtls := int32 (eval H (i_min_dtls i));
     max_dtls := int32 (eval H (i_max_dtls i));
     algo_strength := uint32 (eval H (i_algo_strength i));
     algorithm2 := uint32 (eval H (i_algorithm2 i));
     strength_bits := int32 (eval H (i_strength_bits i));
     alg_bits := uint32 (eval H (i_alg_bits i)) |}.

Definition enabled (cfg : Config) (g : guard) : bool :=
  match g with
  | always => true
  | weak_ssl_ciphers => negb (OPENSSL_NO_WEAK_SSL_CIPHERS cfg)
  | gost => negb (OPENSSL_NO_GOST cfg)
  end.

Definition preprocess (cfg : Config) (src : list initialiser) : list initialiser :=
  filter (fun i => enabled cfg (i_guard i)) src.

Definition build (H : Headers) (cfg : Config) (src : list initialiser) : list SSL_CIPHER :=
  map (compile H) (preprocess cfg src).

(** The three global arrays; they are the process-wide state that
    [ssl_sort_cipher_list] mutates. *)
Record Tables := {
  tls13_ciphers : list SSL_CIPHER;
  ssl3_ciphers : list SSL_CIPHER;
  ssl3_scsvs : list SSL_CIPHER
}.

Definition initial_tables (H : Headers) (cfg : Config) : Tables :=
  {| tls13_ciphers := build H cfg tls13_ciphers_src;
     ssl3_ciphers := build H cfg ssl3_ciphers_src;
     ssl3_scsvs := build H cfg ssl3_scsvs_src |}.

Definition TLS13_NUM_CIPHERS (t : Tables) : N := N.of_nat (length (tls13_ciphers t)).
Definition SSL3_NUM_CIPHERS (t : Tables) : N := N.of_nat (length (ssl3_ciphers t)).
Definition SSL3_NUM_SCSVS (t : Tables) : N := N.of_nat (length (ssl3_scsvs t)).

Definition cipher_compare (ap bp : SSL_CIPHER) : Z :=
  if id ap =? id bp then 0
  else if id ap <? id bp then -1 else 1.

(** libc's qsort over an array held as a list: the element size and count
    are those of the list. *)
Definition qsort_t := forall A : Type, (A -> A -> Z) -> list A -> list A.

(** What the C standard asks of a comparison function. *)
Record consistent {A : Type} (cmp : A -> A -> Z) : Prop := {
  cmp_sgn : forall a b, Z.sgn (cmp a b) = - Z.sgn (cmp b a);
  cmp_trans : forall a b c, cmp a b <= 0 -> cmp b c <= 0 -> cmp a c <= 0
}.

(** What the C standard promises of qsort when the comparison function is
    consistent: the array holds the same objects, each one not greater than
    its successor. *)
Record qsort_contract (qsort : qsort_t) : Prop := {
  qsort_permutes : forall A cmp (l : list A),
      consistent cmp -> Permutation l (qsort A cmp l);
  qsort_orders : forall A cmp (l : list A),
      consistent cmp -> Sorted (fun a b => cmp a b <= 0) (qsort A cmp l)
}.

Section Sorting.
Variable qsort : qsort_t.

Definition ssl_sort_cipher_list (t : Tables) : Tables :=
  {| tls13_ciphers := qsort _ cipher_compare (tls13_ciphers t);
     ssl3_ciphers := qsort _ cipher_compare (ssl3_ciphers t);
     ssl3_scsvs := qsort _ cipher_compare (ssl3_scsvs t) |}.
End Sorting.

Definition ssl3_num_ciphers (t : Tables) : Z := Z.of_N (SSL3_NUM_CIPHERS t).

Definition ssl3_get_cipher (t : Tables) (u : N) : option SSL_CIPHER :=
  if (u <? SSL3_NUM_CIPHERS t)%N
  then nth_error (ssl3_ciphers t) (N.to_nat (SSL3_NUM_CIPHERS t - 1 - u))
  else None.

(** The properties the catalog is to have. *)
Definition ascending_by_id (l : list SSL_CIPHER) : Prop :=
  forall i a b, nth_error l i = Some a -> nth_error l (S i) = Some b -> id a < id b.

Definition ids_unique (l : list SSL_CIPHER) : Prop :=
  forall i j a b,
    nth_error l i = Some a -> nth_error l j = Some b -> id a = id b -> i = j.

(** The id initialisers of a table, as written. *)
Definition id_exprs (src : list initialiser) : list expr := map i_id src.

(** A header tells the id initialisers of a table apart: two that are
    written differently denote different 32-bit values. *)
Definition separates (H : Headers) (es : list expr) : Prop :=
  forall a b, In a es -> In b es -> a <> b -> uint32 (eval H a) <> uint32 (eval H b).

Definition header_separates_ids (H : Headers) : Prop :=
  separates H (id_exprs tls13_ciphers_src) /\
  separates H (id_exprs ssl3_ciphers_src) /\
  separates H (id_exprs ssl3_scsvs_src).

(** Not greater by id: the order the sort establishes. *)
Definition id_le (a b : SSL_CIPHER) : Prop := id a <= id b.

(** Checks that run: whether two initialisers are written alike, whether
    all of a list are written differently, whether all of a list of values
    differ. *)
Definition atom_eqb (a b : atom) : bool :=
  match a, b with
  | M x, M y => String.eqb x y
  | L x, L y => Z.eqb x y
  | _, _ => false
  end.

Fixpoint expr_eqb (e f : expr) : bool :=
  match e, f with
  | [], [] => true
  | a :: e', b :: f' => atom_eqb a b && expr_eqb e' f'
  | _, _ => false
  end.

Fixpoint distinctb (es : list expr) : bool :=
  match es with
  | [] => true
  | e :: r => negb (existsb (expr_eqb e) r) && distinctb r
  end.

Fixpoint all_differ (vs : list Z) : bool :=
  match vs with
  | [] => true
  | v :: r => negb (existsb (Z.eqb v) r) && all_differ r
  end.

End Catalog.

(** ** Shared conventions of the function models *)

(** The address of a function; a function pointer that may be NULL is an
    [option fn_ptr]. *)
Definition fn_ptr := N.

(** A C [int] used as a truth value. *)
Definition truth (z : Z) : bool := negb (z =? 0).

Definition INT_MAX : Z := 2 ^ 31 - 1.
Definition INT_MIN : Z := - 2 ^ 31.

(** [n] zero bytes, as memset(p, 0, n) leaves them. *)
Definition zeros (n : Z) : list byte := repeat 0 (Z.to_nat n).

(** memcpy's source: the [n] bytes found at [p]. *)
Definition bytes_at (p : list byte) (n : Z) : list byte := firstn (Z.to_nat n) p.

(** memcpy's destination: [buf] with [data] written at offset [off]. *)
Definition store (buf : list byte) (off : Z) (data : list byte) : list byte :=
  firstn (Z.to_nat off) buf ++ data ++ skipn (Z.to_nat off + List.length data) buf.

(** Modelled from the spec: the macro s2n of ssl_local.h, which s3_lib.c
    uses and does not define; the spec has it write a 2-byte big-endian
    length. *)
Definition s2n (s : Z) : list byte :=
  [Z.land (Z.shiftr s 8) 0xff; Z.land s 0xff].

(** Modelled from the spec: the macro l2n of ssl_local.h, which s3_lib.c
    uses and does not define; the spec has it write a 4-byte big-endian
    value. *)
Definition l2n (l : Z) : list byte :=
  [Z.land (Z.shiftr l 24) 0xff; Z.land (Z.shiftr l 16) 0xff;
   Z.land (Z.shiftr l 8) 0xff; Z.land l 0xff].

(** ** Renegotiation bookkeeping: ssl3_renegotiate, ssl3_renegotiate_check *)
Module Renegotiation.

(** The part of [struct ssl_st] the two functions touch.  The state machine
    and the record layer are the collaborators' own: their types are left
    open. *)
Record SSL {STATEM RLAYER : Type} := mkSSL {
  handshake_func : option fn_ptr;
  statem : STATEM;
  rlayer : RLAYER;
  renegotiate : Z;            (* s->s3.renegotiate *)
  total_renegotiations : Z;   (* s->s3.total_renegotiations *)
  num_renegotiations : Z      (* s->s3.num_renegotiations *)
}.
Arguments SSL : clear implicits.
Arguments mkSSL {STATEM RLAYER}.

(** What the functions call and s3_lib.c does not define. *)
Record Env {STATEM RLAYER : Type} := {
  RECORD_LAYER_read_pending : RLAYER -> Z;
  RECORD_LAYER_write_pending : RLAYER -> Z;
  SSL_in_init : STATEM -> Z;
  ossl_statem_set_renegotiate : STATEM -> STATEM
}.
Arguments Env : clear implicits.

Section Functions.
Context {STATEM RLAYER : Type} (E : Env STATEM RLAYER).


Definition ssl3_renegotiate_check (s : SSL STATEM RLAYER) (initok : Z)
  : Z * SSL STATEM RLAYER :=
  if truth (renegotiate s) then
    if negb (truth (RECORD_LAYER_read_pending E (rlayer s)))
       && negb (truth (RECORD_LAYER_write_pending E (rlayer s)))
       && (truth initok || negb (truth (SSL_in_init E (statem s))))
    then
      (1, mkSSL (handshake_func s)
                (ossl_statem_set_renegotiate E (statem s))
                (rlayer s)
                0
                (int32 (total_renegotiations s + 1))
                (int32 (num_renegotiations s + 1)))
    else (0, s)
  else (0, s).
End Functions.

End Renegotiation.

(** ** The close-notify exchange: ssl3_shutdown *)
Module Shutdown.

(** The part of [struct ssl_st] that ssl3_shutdown touches; [rest] stands
    for everything else the collaborators read and write through the
    connection pointer. *)
Record SSL {X : Type} := mkSSL {
  quiet_shutdown : Z;
  shutdown : Z;
  alert_dispatch : Z;   (* s->s3.alert_dispatch *)
  rest : X
}.
Arguments SSL : clear implicits.
Arguments mkSSL {X}.

Record Env {X : Type} := {
  SSL_SENT_SHUTDOWN : Z;
  SSL_RECEIVED_SHUTDOWN : Z;
  SSL3_AL_WARNING : Z;
  SSL_AD_CLOSE_NOTIFY : Z;
  SSL_in_before : SSL X -> Z;
  ssl3_send_alert : SSL X -> Z -> Z -> Z * SSL X;
  ssl_dispatch_alert : SSL X -> Z * SSL X;       (* s->method->ssl_dispatch_alert *)
  (* s->method->ssl_read_bytes(s, 0, NULL, NULL, 0, 0, &readbytes) *)
  ssl_read_bytes : SSL X -> Z * SSL X
}.
Arguments Env : clear implicits.

Section Functions.
Context {X : Type} (E : Env X).

Definition set_shutdown (v : Z) (s : SSL X) : SSL X :=
  mkSSL (quiet_shutdown s) v (alert_dispatch s) (rest s).

(** The last statement of the function. *)
Definition finished (s : SSL X) : Z * SSL X :=
  if (shutdown s =? Z.lor (SSL_SENT_SHUTDOWN E) (SSL_RECEIVED_SHUTDOWN E))
     && negb (truth (alert_dispatch s))
  then (1, s) else (0, s).

Definition ssl3_shutdown (s : SSL X) : Z * SSL X :=
  if truth (quiet_shutdown s) || truth (SSL_in_before E s) then
    (1, set_shutdown (Z.lor (SSL_SENT_SHUTDOWN E) (SSL_RECEIVED_SHUTDOWN E)) s)
  else if negb (truth (Z.land (shutdown s) (SSL_SENT_SHUTDOWN E))) then
    let s1 := set_shutdown (Z.lor (shutdown s) (SSL_SENT_SHUTDOWN E)) s in
    let s2 := snd (ssl3_send_alert E s1 (SSL3_AL_WARNING E) (SSL_AD_CLOSE_NOTIFY E)) in
    if truth (alert_dispatch s2) then (-1, s2)   (* return WANT_WRITE *)
    else finished s2
  else if truth (alert_dispatch s) then
    let (ret, s1) := ssl_dispatch_alert E s in
    if ret =? -1 then (ret, s1)                   (* return WANT_WRITE *)
    else finished s1
  else if negb (truth (Z.land (shutdown s) (SSL_RECEIVED_SHUTDOWN E))) then
    let s1 := snd (ssl_read_bytes E s) in
    if negb (truth (Z.land (shutdown s1) (SSL_RECEIVED_SHUTDOWN E)))
    then (-1, s1)                                 (* return WANT_READ *)
    else finished s1
  else finished s.
End Functions.

End Shutdown.

(** ** Hello randoms: ssl_fill_hello_random *)
Module HelloRandom.

(** TLSv1.3 downgrade protection sentinel values *)
Definition tls11downgrade : list byte :=
  [0x44; 0x4f; 0x57; 0x4e; 0x47; 0x52; 0x44; 0x00].
Definition tls12downgrade : list byte :=
  [0x44; 0x4f; 0x57; 0x4e; 0x47; 0x52; 0x44; 0x01].

(** The type DOWNGRADE of ssl_local.h. *)
Inductive DOWNGRADE := DOWNGRADE_NONE | DOWNGRADE_TO_1_2 | DOWNGRADE_TO_1_1.

Record SSL := { mode : Z }.

(** The environment: the two mode bits, the clock, and the generator.
    RAND_bytes_ex(ctx, p, n, 0) returns [rand_ret] and leaves the bytes
    [rand_byte 0 .. rand_byte (n-1)] at p.  For a generator that fails,
    [rand_byte] stands for whatever one call found at p afterwards, which
    may be what was there before: the environment describes one call, and
    a statement that compares calls on different buffers is made for a
    generator that succeeds. *)
Record Env := {
  SSL_MODE_SEND_SERVERHELLO_TIME : Z;
  SSL_MODE_SEND_CLIENTHELLO_TIME : Z;
  time : Z;
  rand_ret : Z;
  rand_byte : nat -> byte
}.

Definition sizeof (a : list byte) : Z := Z.of_nat (List.length a).

Section Functions.
Variable E : Env.

Definition RAND_bytes_ex (buf : list byte) (off n : Z) : Z * list byte :=
  (rand_ret E, store buf off (map (rand_byte E) (seq 0 (Z.to_nat n)))).

(** [result] is the caller's buffer; the function returns its status and
    the buffer as it leaves it.  ossl_assert(x) is taken as in a release
    build, where it is the value of x. *)
Definition ssl_fill_hello_random (s : SSL) (server : Z) (result : list byte)
           (len : Z) (dgrd : DOWNGRADE) : Z * list byte :=
  if len <? 4 then (0, result)
  else
    let send_time :=
      if truth server
      then truth (Z.land (mode s) (SSL_MODE_SEND_SERVERHELLO_TIME E))
      else truth (Z.land (mode s) (SSL_MODE_SEND_CLIENTHELLO_TIME E)) in
    let (ret, filled) :=
      if send_time
      then RAND_bytes_ex (store result 0 (l2n (time E))) 4 (len - 4)
      else RAND_bytes_ex result 0 len in
    if ret >? 0 then
      if negb (sizeof tls11downgrade <? len) || negb (sizeof tls12downgrade <? len)
      then (0, filled)
      else
        match dgrd with
        | DOWNGRADE_TO_1_2 =>
            (ret, store filled (len - sizeof tls12downgrade) tls12downgrade)
        | DOWNGRADE_TO_1_1 =>
            (ret, store filled (len - sizeof tls11downgrade) tls11downgrade)
        | DOWNGRADE_NONE => (ret, filled)
        end
    else (ret, filled).

(** The bytes the generator hands out for a request of [n]. *)
Definition drawn (n : Z) : list byte := map (rand_byte E) (seq 0 (Z.to_nat n)).

(** The random field before any sentinel: the time and [len - 4] drawn
    bytes when the mode bit of the side asks for the time, [len] drawn
    bytes otherwise. *)
Definition fill (s : SSL) (server len : Z) : list byte :=
  if (if truth server
      then truth (Z.land (mode s) (SSL_MODE_SEND_SERVERHELLO_TIME E))
      else truth (Z.land (mode s) (SSL_MODE_SEND_CLIENTHELLO_TIME E)))
  then l2n (time E) ++ drawn (len - 4)
  else drawn len.
End Functions.

End HelloRandom.

(** ** Undefined behaviour

    Where the C code reads through a NULL pointer or outside a buffer, the
    model stops with [Undefined]. *)
Inductive result (A : Type) : Type :=
| Ok (a : A)
| Undefined.
Arguments Ok {A} a.
Arguments Undefined {A}.

Definition bind {A B : Type} (r : result A) (k : A -> result B) : result B :=
  match r with
  | Ok a => k a
  | Undefined => Undefined
  end.

Notation "x <- r ;; k" := (bind r (fun x => k))
  (at level 61, r at next level, right associativity).

(** [n] bytes read at offset [off] of the object [p]. *)
Definition read (p : list byte) (off n : Z) : result (list byte) :=
  if (0 <=? off) && (0 <=? n) && (off + n <=? Z.of_nat (List.length p))
  then Ok (firstn (Z.to_nat n) (skipn (Z.to_nat off) p))
  else Undefined.

(** [data] written at offset [off] of the object [p]. *)
Definition write (p : list byte) (off : Z) (data : list byte) : result (list byte) :=
  if (0 <=? off) && (off + Z.of_nat (List.length data) <=? Z.of_nat (List.length p))
  then Ok (store p off data)
  else Undefined.

(** ** The control dispatchers: ssl3_ctrl, ssl3_callback_ctrl,
       ssl3_ctx_ctrl, ssl3_ctx_callback_ctrl *)
Module Dispatch.

(** The command codes.  The four switches share one space of codes, the
    macros SSL_CTRL_* of ssl.h.  The commands below are those whose cases
    are modelled; a command whose case only hands over to another
    compilation unit (chains, stores, signature algorithms, the setters of
    groups, SRP names and passwords, OCSP lists, host names, peer keys) has
    no constructor, and the model says nothing about it.  [unlisted] is a
    code that is no case label of any of the four switches. *)
Inductive ctrl :=
| SSL_CTRL_GET_CLIENT_CERT_REQUEST
| SSL_CTRL_GET_NUM_RENEGOTIATIONS
| SSL_CTRL_CLEAR_NUM_RENEGOTIATIONS
| SSL_CTRL_GET_TOTAL_RENEGOTIATIONS
| SSL_CTRL_GET_FLAGS
| SSL_CTRL_SET_TMP_DH_CB
| SSL_CTRL_SET_DH_AUTO
| SSL_CTRL_GET_TLSEXT_STATUS_REQ_TYPE
| SSL_CTRL_SET_TLSEXT_STATUS_REQ_TYPE
| SSL_CTRL_GET_GROUPS
| SSL_CTRL_GET_NEGOTIATED_GROUP
| SSL_CTRL_SET_TLSEXT_TICKET_KEYS
| SSL_CTRL_GET_TLSEXT_TICKET_KEYS
| SSL_CTRL_SET_TLS_EXT_SRP_STRENGTH
| SSL_CTRL_SET_TLSEXT_DEBUG_CB
| SSL_CTRL_SET_NOT_RESUMABLE_SESS_CB
| SSL_CTRL_SET_TLSEXT_SERVERNAME_CB
| SSL_CTRL_SET_TLSEXT_STATUS_REQ_CB
| SSL_CTRL_SET_TLSEXT_TICKET_KEY_CB
| SSL_CTRL_SET_SRP_VERIFY_PARAM_CB
| SSL_CTRL_SET_TLS_EXT_SRP_USERNAME_CB
| SSL_CTRL_SET_SRP_GIVE_CLIENT_PWD_CB
| unlisted (code : Z).

(** The reason codes handed to ERR_raise(ERR_LIB_SSL, ...). *)
Inductive reason :=
| ERR_R_SHOULD_NOT_HAVE_BEEN_CALLED
| SSL_R_INVALID_TICKET_KEYS_LENGTH.

(** What [parg] points to: a byte buffer or an array of int.  NULL is
    [None]. *)
Inductive pointee :=
| Bytes (b : list byte)
| Ints (a : list Z).

Record CERT := mkCERT {
  dh_tmp_cb : option fn_ptr;
  dh_tmp_auto : Z
}.

Record SSL_SESSION := { kex_group : Z }.

(** The part of [struct ssl_st] the modelled cases touch. *)
Record SSL := mkSSL {
  cert : CERT;
  session : option SSL_SESSION;
  flags : Z;                        (* s->s3.flags *)
  total_renegotiations : Z;         (* s->s3.total_renegotiations *)
  num_renegotiations : Z;           (* s->s3.num_renegotiations *)
  did_kex : Z;                      (* s->s3.did_kex *)
  group_id : Z;                     (* s->s3.group_id *)
  status_type : Z;                  (* s->ext.status_type *)
  peer_supportedgroups : list Z;    (* s->ext.peer_supportedgroups, _len *)
  debug_cb : option fn_ptr;         (* s->ext.debug_cb *)
  not_resumable_session_cb : option fn_ptr
}.

(** The part of [struct ssl_ctx_st] the modelled cases touch. *)
Record SSL_CTX := mkSSL_CTX {
  ctx_cert : CERT;
  tick_key_name : list byte;        (* ctx->ext.tick_key_name *)
  tick_hmac_key : list byte;        (* ctx->ext.secure->tick_hmac_key *)
  tick_aes_key : list byte;         (* ctx->ext.secure->tick_aes_key *)
  ctx_status_type : Z;              (* ctx->ext.status_type *)
  servername_cb : option fn_ptr;    (* ctx->ext.servername_cb *)
  status_cb : option fn_ptr;        (* ctx->ext.status_cb *)
  ticket_key_cb : option fn_ptr;    (* ctx->ext.ticket_key_cb *)
  srp_Mask : Z;                     (* ctx->srp_ctx.srp_Mask *)
  srp_strength : Z;                 (* ctx->srp_ctx.strength *)
  SRP_verify_param_callback : option fn_ptr;
  TLS_ext_srp_username_callback : option fn_ptr;
  SRP_give_srp_client_pwd_callback : option fn_ptr;
  ctx_not_resumable_session_cb : option fn_ptr
}.

(** What the dispatchers use and s3_lib.c does not define: the build
    configuration, the sizes of the three ticket key arrays, and the group
    helpers of t1_lib.c. *)
Record Env := {
  OPENSSL_NO_DEPRECATED_3_0 : bool;
  OPENSSL_NO_SRP : bool;
  sizeof_tick_key_name : Z;
  sizeof_tick_hmac_key : Z;
  sizeof_tick_aes_key : Z;
  SSL_kSRP : Z;
  TLSEXT_nid_unknown : Z;
  SSL_IS_TLS13 : SSL -> Z;
  tls1_group_id_lookup : Z -> option Z;   (* the group_id of the entry found *)
  tls1_group_id2nid : Z -> Z -> Z
}.

(** What a call leaves behind: its return value, the object it worked on,
    what [parg] points to afterwards, and the errors it raised. *)
Record outcome (S : Type) := Outcome {
  ret : Z;
  after : S;
  pointed : option pointee;
  raised : list reason
}.
Arguments Outcome {S}.
Arguments ret {S}.
Arguments after {S}.
Arguments pointed {S}.
Arguments raised {S}.

Definition set_cert (c : CERT) (s : SSL) : SSL :=
  mkSSL c (session s) (flags s) (total_renegotiations s) (num_renegotiations s)
        (did_kex s) (group_id s) (status_type s) (peer_supportedgroups s)
        (debug_cb s) (not_resumable_session_cb s).

Definition set_num_renegotiations (n : Z) (s : SSL) : SSL :=
  mkSSL (cert s) (session s) (flags s) (total_renegotiations s) n
        (did_kex s) (group_id s) (status_type s) (peer_supportedgroups s)
        (debug_cb s) (not_resumable_session_cb s).

Definition set_status_type (t : Z) (s : SSL) : SSL :=
  mkSSL (cert s) (session s) (flags s) (total_renegotiations s) (num_renegotiations s)
        (did_kex s) (group_id s) t (peer_supportedgroups s)
        (debug_cb s) (not_resumable_session_cb s).

Definition set_debug_cb (fp : option fn_ptr) (s : SSL) : SSL :=
  mkSSL (cert s) (session s) (flags s) (total_renegotiations s) (num_renegotiations s)
        (did_kex s) (group_id s) (status_type s) (peer_supportedgroups s)
        fp (not_resumable_session_cb s).

Definition set_not_resumable_session_cb (fp : option fn_ptr) (s : SSL) : SSL :=
  mkSSL (cert s) (session s) (flags s) (total_renegotiations s) (num_renegotiations s)
        (did_kex s) (group_id s) (status_type s) (peer_supportedgroups s)
        (debug_cb s) fp.

Section Functions.
Variable E : Env.

(** The display identifier written for each group of the peer's list. *)
Definition group_nid (g : Z) : Z :=
  match tls1_group_id_lookup E g with
  | Some group_id => tls1_group_id2nid E group_id 1
  | None => Z.lor (TLSEXT_nid_unknown E) g
  end.

Definition ssl3_ctrl (s : SSL) (cmd : ctrl) (larg : Z) (parg : option pointee)
  : result (outcome SSL) :=
  let ret := 0 in
  match cmd with
  | SSL_CTRL_GET_CLIENT_CERT_REQUEST => Ok (Outcome ret s parg [])
  | SSL_CTRL_GET_NUM_RENEGOTIATIONS =>
      Ok (Outcome (num_renegotiations s) s parg [])
  | SSL_CTRL_CLEAR_NUM_RENEGOTIATIONS =>
      Ok (Outcome (num_renegotiations s) (set_num_renegotiations 0 s) parg [])
  | SSL_CTRL_GET_TOTAL_RENEGOTIATIONS =>
      Ok (Outcome (total_renegotiations s) s parg [])
  | SSL_CTRL_GET_FLAGS => Ok (Outcome (int32 (flags s)) s parg [])
  | SSL_CTRL_SET_TMP_DH_CB =>
      if OPENSSL_NO_DEPRECATED_3_0 E then Ok (Outcome ret s parg [])
      else Ok (Outcome ret s parg [ERR_R_SHOULD_NOT_HAVE_BEEN_CALLED])
  | SSL_CTRL_SET_DH_AUTO =>
      Ok (Outcome 1 (set_cert (mkCERT (dh_tmp_cb (cert s)) (int32 larg)) s) parg [])
  | SSL_CTRL_GET_TLSEXT_STATUS_REQ_TYPE => Ok (Outcome (status_type s) s parg [])
  | SSL_CTRL_SET_TLSEXT_STATUS_REQ_TYPE =>
      Ok (Outcome 1 (set_status_type (int32 larg) s) parg [])
  | SSL_CTRL_GET_GROUPS =>
      match session s with
      | None => Ok (Outcome 0 s parg [])
      | Some _ =>
          let clist := peer_supportedgroups s in
          let clistlen := Z.of_nat (List.length clist) in
          match parg with
          | None => Ok (Outcome (int32 clistlen) s parg [])
          | Some (Ints cptr) =>
              if clistlen <=? Z.of_nat (List.length cptr)
              then Ok (Outcome (int32 clistlen) s
                         (Some (Ints (map group_nid clist
                                        ++ skipn (List.length clist) cptr))) [])
              else Undefined
          | Some (Bytes _) => Undefined
          end
      end
  | SSL_CTRL_GET_NEGOTIATED_GROUP =>
      id <- (if truth (SSL_IS_TLS13 E s) && truth (did_kex s)
             then Ok (group_id s)
             else match session s with
                  | Some sess => Ok (kex_group sess)   (* s->session->kex_group *)
                  | None => Undefined
                  end) ;;
      Ok (Outcome (tls1_group_id2nid E id 1) s parg [])
  | _ => Ok (Outcome ret s parg [])
  end.

Definition ssl3_callback_ctrl (s : SSL) (cmd : ctrl) (fp : option fn_ptr)
  : outcome SSL :=
  let ret := 0 in
  match cmd with
  | SSL_CTRL_SET_TMP_DH_CB =>
      if OPENSSL_NO_DEPRECATED_3_0 E then Outcome ret s None []
      else Outcome 1 (set_cert (mkCERT fp (dh_tmp_auto (cert s))) s) None []
  | SSL_CTRL_SET_TLSEXT_DEBUG_CB => Outcome 1 (set_debug_cb fp s) None []
  | SSL_CTRL_SET_NOT_RESUMABLE_SESS_CB =>
      Outcome 1 (set_not_resumable_session_cb fp s) None []
  | _ => Outcome ret s None []
  end.

Definition tick_keylen : Z :=
  sizeof_tick_key_name E + sizeof_tick_hmac_key E + sizeof_tick_aes_key E.

Definition set_ticket_keys (name hmac aes : list byte) (c : SSL_CTX) : SSL_CTX :=
  mkSSL_CTX (ctx_cert c) name hmac aes (ctx_status_type c)
            (servername_cb c) (status_cb c) (ticket_key_cb c)
            (srp_Mask c) (srp_strength c)
            (SRP_verify_param_callback c) (TLS_ext_srp_username_callback c)
            (SRP_give_srp_client_pwd_callback c) (ctx_not_resumable_session_cb c).

Definition set_ctx_cert (x : CERT) (c : SSL_CTX) : SSL_CTX :=
  mkSSL_CTX x (tick_key_name c) (tick_hmac_key c) (tick_aes_key c) (ctx_status_type c)
            (servername_cb c) (status_cb c) (ticket_key_cb c)
            (srp_Mask c) (srp_strength c)
            (SRP_verify_param_callback c) (TLS_ext_srp_username_callback c)
            (SRP_give_srp_client_pwd_callback c) (ctx_not_resumable_session_cb c).

Definition set_ctx_status_type (t : Z) (c : SSL_CTX) : SSL_CTX :=
  mkSSL_CTX (ctx_cert c) (tick_key_name c) (tick_hmac_key c) (tick_aes_key c) t
            (servername_cb c) (status_cb c) (ticket_key_cb c)
            (srp_Mask c) (srp_strength c)
            (SRP_verify_param_callback c) (TLS_ext_srp_username_callback c)
            (SRP_give_srp_client_pwd_callback c) (ctx_not_resumable_session_cb c).

Definition set_srp_strength (n : Z) (c : SSL_CTX) : SSL_CTX :=
  mkSSL_CTX (ctx_cert c) (tick_key_name c) (tick_hmac_key c) (tick_aes_key c)
            (ctx_status_type c)
            (servername_cb c) (status_cb c) (ticket_key_cb c)
            (srp_Mask c) n
            (SRP_verify_param_callback c) (TLS_ext_srp_username_callback c)
            (SRP_give_srp_client_pwd_callback c) (ctx_not_resumable_session_cb c).

(** The callback fields of the context, set together: the SRP cases also
    set the mask. *)
Definition set_ctx_callbacks (servername status ticket : option fn_ptr) (mask : Z)
           (verify username give notres : option fn_ptr) (c : SSL_CTX) : SSL_CTX :=
  mkSSL_CTX (ctx_cert c) (tick_key_name c) (tick_hmac_key c) (tick_aes_key c)
            (ctx_status_type c)
            servername status ticket mask (srp_strength c)
            verify username give notres.

Definition ssl3_ctx_ctrl (ctx : SSL_CTX) (cmd : ctrl) (larg : Z) (parg : option pointee)
  : result (outcome SSL_CTX) :=
  match cmd with
  | SSL_CTRL_SET_TMP_DH_CB =>
      if OPENSSL_NO_DEPRECATED_3_0 E then Ok (Outcome 0 ctx parg [])
      else Ok (Outcome 0 ctx parg [ERR_R_SHOULD_NOT_HAVE_BEEN_CALLED])
  | SSL_CTRL_SET_DH_AUTO =>
      Ok (Outcome 1 (set_ctx_cert (mkCERT (dh_tmp_cb (ctx_cert ctx)) (int32 larg)) ctx)
                  parg [])
  | SSL_CTRL_SET_TLSEXT_TICKET_KEYS
  | SSL_CTRL_GET_TLSEXT_TICKET_KEYS =>
      match parg with
      | None => Ok (Outcome tick_keylen ctx parg [])
      | Some (Ints _) => Undefined
      | Some (Bytes keys) =>
          if negb (larg =? tick_keylen)
          then Ok (Outcome 0 ctx parg [SSL_R_INVALID_TICKET_KEYS_LENGTH])
          else
            match cmd with
            | SSL_CTRL_SET_TLSEXT_TICKET_KEYS =>
                name <- read keys 0 (sizeof_tick_key_name E) ;;
                hmac <- read keys (sizeof_tick_key_name E) (sizeof_tick_hmac_key E) ;;
                aes <- read keys (sizeof_tick_key_name E + sizeof_tick_hmac_key E)
                            (sizeof_tick_aes_key E) ;;
                Ok (Outcome 1 (set_ticket_keys name hmac aes ctx) parg [])
            | _ =>
                name <- read (tick_key_name ctx) 0 (sizeof_tick_key_name E) ;;
                hmac <- read (tick_hmac_key ctx) 0 (sizeof_tick_hmac_key E) ;;
                aes <- read (tick_aes_key ctx) 0 (sizeof_tick_aes_key E) ;;
                k1 <- write keys 0 name ;;
                k2 <- write k1 (sizeof_tick_key_name E) hmac ;;
                k3 <- write k2 (sizeof_tick_key_name E + sizeof_tick_hmac_key E) aes ;;
                Ok (Outcome 1 ctx (Some (Bytes k3)) [])
            end
      end
  | SSL_CTRL_GET_TLSEXT_STATUS_REQ_TYPE =>
      Ok (Outcome (ctx_status_type ctx) ctx parg [])
  | SSL_CTRL_SET_TLSEXT_STATUS_REQ_TYPE =>
      Ok (Outcome 1 (set_ctx_status_type (int32 larg) ctx) parg [])
  | SSL_CTRL_SET_TLS_EXT_SRP_STRENGTH =>
      if OPENSSL_NO_SRP E then Ok (Outcome 0 ctx parg [])
      else Ok (Outcome 1 (set_srp_strength (int32 larg) ctx) parg [])
  | _ => Ok (Outcome 0 ctx parg [])
  end.

Definition ssl3_ctx_callback_ctrl (ctx : SSL_CTX) (cmd : ctrl) (fp : option fn_ptr)
  : outcome SSL_CTX :=
  let keep := Outcome 0 ctx None [] in
  match cmd with
  | SSL_CTRL_SET_TMP_DH_CB =>
      if OPENSSL_NO_DEPRECATED_3_0 E then keep
      else Outcome 1 (set_ctx_cert (mkCERT fp (dh_tmp_auto (ctx_cert ctx))) ctx) None []
  | SSL_CTRL_SET_TLSEXT_SERVERNAME_CB =>
      Outcome 1 (set_ctx_callbacks fp (status_cb ctx) (ticket_key_cb ctx)
                   (srp_Mask ctx) (SRP_verify_param_callback ctx)
                   (TLS_ext_srp_username_callback ctx)
                   (SRP_give_srp_client_pwd_callback ctx)
                   (ctx_not_resumable_session_cb ctx) ctx) None []
  | SSL_CTRL_SET_TLSEXT_STATUS_REQ_CB =>
      Outcome 1 (set_ctx_callbacks (servername_cb ctx) fp (ticket_key_cb ctx)
                   (srp_Mask ctx) (SRP_verify_param_callback ctx)
                   (TLS_ext_srp_username_callback ctx)
                   (SRP_give_srp_client_pwd_callback ctx)
                   (ctx_not_resumable_session_cb ctx) ctx) None []
  | SSL_CTRL_SET_TLSEXT_TICKET_KEY_CB =>
      if OPENSSL_NO_DEPRECATED_3_0 E then keep
      else Outcome 1 (set_ctx_callbacks (servername_cb ctx) (status_cb ctx) fp
                        (srp_Mask ctx) (SRP_verify_param_callback ctx)
                        (TLS_ext_srp_username_callback ctx)
                        (SRP_give_srp_client_pwd_callback ctx)
                        (ctx_not_resumable_session_cb ctx) ctx) None []
  | SSL_CTRL_SET_SRP_VERIFY_PARAM_CB =>
      if OPENSSL_NO_SRP E then keep
      else Outcome 1 (set_ctx_callbacks (servername_cb ctx) (status_cb ctx)
                        (ticket_key_cb ctx)
                        (Z.lor (srp_Mask ctx) (SSL_kSRP E)) fp
                        (TLS_ext_srp_username_callback ctx)
                        (SRP_give_srp_client_pwd_callback ctx)
                        (ctx_not_resumable_session_cb ctx) ctx) None []
  | SSL_CTRL_SET_TLS_EXT_SRP_USERNAME_CB =>
      if OPENSSL_NO_SRP E then keep
      else Outcome 1 (set_ctx_callbacks (servername_cb ctx) (status_cb ctx)
                        (ticket_key_cb ctx)
                        (Z.lor (srp_Mask ctx) (SSL_kSRP E))
                        (SRP_verify_param_callback ctx) fp
                        (SRP_give_srp_client_pwd_callback ctx)
                        (ctx_not_resumable_session_cb ctx) ctx) None []
  | SSL_CTRL_SET_SRP_GIVE_CLIENT_PWD_CB =>
      if OPENSSL_NO_SRP E then keep
      else Outcome 1 (set_ctx_callbacks (servername_cb ctx) (status_cb ctx)
                        (ticket_key_cb ctx)
                        (Z.lor (srp_Mask ctx) (SSL_kSRP E))
                        (SRP_verify_param_callback ctx)
                        (TLS_ext_srp_username_callback ctx) fp
                        (ctx_not_resumable_session_cb ctx) ctx) None []
  | SSL_CTRL_SET_NOT_RESUMABLE_SESS_CB =>
      Outcome 1 (set_ctx_callbacks (servername_cb ctx) (status_cb ctx)
                   (ticket_key_cb ctx) (srp_Mask ctx)
                   (SRP_verify_param_callback ctx)
                   (TLS_ext_srp_username_callback ctx)
                   (SRP_give_srp_client_pwd_callback ctx) fp ctx) None []
  | _ => keep
  end.
End Functions.

End Dispatch.

(** ** The classic master secret: ssl_generate_master_secret *)
Module MasterSecret.

Record SSL_SESSION := {
  master_key : list byte;
  master_key_length : Z
}.

(** The part of [struct ssl_st] the function touches. *)
Record SSL := mkSSL {
  server : Z;
  session : option SSL_SESSION;
  new_cipher : option SSL_CIPHER;   (* s->s3.tmp.new_cipher *)
  pms : option (list byte);         (* s->s3.tmp.pms *)
  pmslen : Z;                       (* s->s3.tmp.pmslen *)
  psk : option (list byte);         (* s->s3.tmp.psk *)
  psklen : Z                        (* s->s3.tmp.psklen *)
}.

(** The build configuration, the two key-exchange masks, the allocator
    (whether a request of that many bytes is served) and the KDF of the
    method, s->method->ssl3_enc->generate_master_secret(s, out, p, len,
    &outlen): the master key it writes, or [None] when it returns 0. *)
Record Env := {
  OPENSSL_NO_PSK : bool;
  SSL_PSK : Z;
  SSL_kPSK : Z;
  OPENSSL_malloc : Z -> bool;
  generate_master_secret : SSL -> list byte -> Z -> option (list byte)
}.

(** The buffers the function erases, and what it does to the world outside
    the connection, in order.  Each entry is made by the operation it
    records: [Kdf] by the call of the KDF, the erasure of the caller's
    premaster by the write that erases it. *)
Inductive buffer := the_psk | the_pskpms | the_pms.

Inductive event :=
| Kdf (p : list byte) (len : Z)           (* the KDF called on the [len] bytes [p] *)
| Clear_free (b : buffer) (len : Z)       (* OPENSSL_clear_free *)
| Cleanse (b : buffer) (len : Z).         (* OPENSSL_cleanse *)

Definition sizeof (a : list byte) : Z := Z.of_nat (List.length a).

(** [n] bytes read through a pointer that may be NULL. *)
Definition read_ptr (p : option (list byte)) (n : Z) : result (list byte) :=
  match p with
  | Some b => read b 0 n
  | None => if n =? 0 then Ok [] else Undefined
  end.

Definition clear_psk (s : SSL) : SSL :=
  mkSSL (server s) (session s) (new_cipher s) (pms s) (pmslen s) None 0.

Definition clear_pms (s : SSL) : SSL :=
  mkSSL (server s) (session s) (new_cipher s) None 0 (psk s) (psklen s).

Definition set_master_key (key : list byte) (s : SSL) : SSL :=
  mkSSL (server s)
        (Some {| master_key := key; master_key_length := sizeof key |})
        (new_cipher s) (pms s) (pmslen s) (psk s) (psklen s).

Section Functions.
Variable E : Env.

(** The call of the KDF with s->session->master_key as its output:
    whether it succeeded, the connection, and the record of the call. *)
Definition call_kdf (s : SSL) (p : list byte) (len : Z)
  : result (bool * SSL * list event) :=
  match session s with
  | None => Undefined
  | Some _ =>
      match generate_master_secret E s p len with
      | Some key => Ok (true, set_master_key key s, [Kdf p len])
      | None => Ok (false, s, [Kdf p len])
      end
  end.

(** The statement at the label err that erases the caller's premaster:
    OPENSSL_clear_free(pms, pmslen) or OPENSSL_cleanse(pms, pmslen) writes
    [pmslen] bytes at [pms], which is undefined when the buffer handed in
    is shorter. *)
Definition erase_pms (pms : option (list byte)) (pmslen free_pms : Z)
  : result (list event) :=
  match pms with
  | None => Ok []
  | Some b =>
      if (0 <=? pmslen) && (pmslen <=? sizeof b)
      then Ok [if truth free_pms then Clear_free the_pms pmslen
               else Cleanse the_pms pmslen]
      else Undefined
  end.

(** The value of pmslen at the label err: the caller's, unless the suite
    is plain PSK in a build with PSK, which has overwritten it with the
    length of the PSK. *)
Definition length_at_err (s : SSL) (alg_k pmslen : Z) : Z :=
  if truth (Z.land alg_k (SSL_PSK E)) && negb (OPENSSL_NO_PSK E)
     && truth (Z.land alg_k (SSL_kPSK E))
  then psklen s else pmslen.

(** The function up to its label err: the value of [ret] there, the
    connection, the value of [pmslen] there, and what was done.  The
    lengths are those of objects in memory, far below the range of size_t:
    their sum is not reduced. *)
Definition until_err (s : SSL) (alg_k : Z) (pms : option (list byte)) (pmslen : Z)
  : result (Z * SSL * Z * list event) :=
  if truth (Z.land alg_k (SSL_PSK E)) then
    if OPENSSL_NO_PSK E then Ok (0, s, pmslen, [])
    else
      let psklen := psklen s in
      (* For plain PSK "other_secret" is psklen zeroes *)
      let pmslen := if truth (Z.land alg_k (SSL_kPSK E)) then psklen else pmslen in
      let pskpmslen := 4 + pmslen + psklen in
      if negb (OPENSSL_malloc E pskpmslen) then Ok (0, s, pmslen, [])
      else
        other <- (if truth (Z.land alg_k (SSL_kPSK E))
                  then Ok (zeros pmslen)
                  else read_ptr pms pmslen) ;;
        key <- read_ptr (psk s) psklen ;;
        let pskpms := s2n pmslen ++ other ++ s2n psklen ++ key in
        let s1 := clear_psk s in
        r <- call_kdf s1 pskpms pskpmslen ;;
        let '(ok, s2, called) := r in
        Ok (if ok then 1 else 0, s2, pmslen,
            [Clear_free the_psk psklen] ++ called
            ++ [Clear_free the_pskpms pskpmslen])
  else
    p <- read_ptr pms pmslen ;;
    r <- call_kdf s p pmslen ;;
    let '(ok, s1, called) := r in
    Ok (if ok then 1 else 0, s1, pmslen, called).

Definition ssl_generate_master_secret (s : SSL) (pms : option (list byte))
           (pmslen : Z) (free_pms : Z) : result (Z * SSL * list event) :=
  match new_cipher s with
  | None => Undefined                 (* s->s3.tmp.new_cipher->algorithm_mkey *)
  | Some c =>
      r <- until_err s (algorithm_mkey c) pms pmslen ;;
      let '(ret, s1, pmslen, done) := r in
      erased <- erase_pms pms pmslen free_pms ;;
      let s2 := if server s1 =? 0 then clear_pms s1 else s1 in
      Ok (ret, s2, done ++ erased)
  end.

(** The inputs the KDF was called on. *)
Definition kdf_calls (done : list event) : list (list byte * Z) :=
  flat_map (fun e => match e with Kdf p len => [(p, len)] | _ => [] end) done.
End Functions.

End MasterSecret.

(** ** Cipher negotiation: ssl3_choose_cipher *)
Module Negotiation.

(** A STACK_OF(SSL_CIPHER) is the list of its entries, in order.  The
    entries are pointers into the catalog, compared as pointers by
    sk_SSL_CIPHER_find since no compare function is set; here they are the
    catalog values, compared as values.  The OSSL_TRACE output of the
    function has no part in its result and is left out. *)
Definition SSL_CIPHER_eq_dec (a b : SSL_CIPHER) : {a = b} + {a <> b}.
Proof.
  decide equality; try apply Z.eq_dec; decide equality; apply string_dec.
Defined.

Definition sk_SSL_CIPHER_num (st : list SSL_CIPHER) : Z := Z.of_nat (List.length st).

(** The entry at [i]; [d] stands for what an index out of range yields. *)
Definition sk_SSL_CIPHER_value (st : list SSL_CIPHER) (i : nat) (d : SSL_CIPHER)
  : SSL_CIPHER := nth i st d.

(** The index of the first entry equal to [c], [None] for -1. *)
Fixpoint sk_SSL_CIPHER_find (st : list SSL_CIPHER) (c : SSL_CIPHER) : option nat :=
  match st with
  | [] => None
  | x :: r =>
      if SSL_CIPHER_eq_dec x c then Some O
      else option_map S (sk_SSL_CIPHER_find r c)
  end.

(** The part of [struct ssl_st] the function reads; [rest] stands for what
    only its collaborators read and write (certificates, method,
    security callback). *)
Record SSL {X : Type} := mkSSL {
  version : Z;
  options : Z;
  mask_k : Z;                           (* s->s3.tmp.mask_k *)
  mask_a : Z;                           (* s->s3.tmp.mask_a *)
  is_probably_safari : Z;               (* s->s3.is_probably_safari *)
  srp_Mask : Z;                         (* s->srp_ctx.srp_Mask *)
  psk_server_callback : option fn_ptr;
  rest : X
}.
Arguments SSL : clear implicits.
Arguments mkSSL {X}.

(** What the function uses and s3_lib.c does not define: the build
    configuration, constants and macros of the headers, helpers of other
    compilation units, and whether the temporary stack can be allocated. *)
Record Env {X MD : Type} := {
  OPENSSL_NO_PSK : bool;
  OPENSSL_NO_SRP : bool;
  SSL_OP_CIPHER_SERVER_PREFERENCE : Z;
  SSL_OP_PRIORITIZE_CHACHA : Z;
  SSL_CHACHA20POLY1305 : Z;
  SSL_kSRP : Z;
  SSL_aSRP : Z;
  SSL_PSK : Z;
  SSL_kECDHE : Z;
  SSL_aECDSA : Z;
  SSL_PKEY_NUM : Z;
  SSL_SECOP_CIPHER_SHARED : Z;
  OSSL_DIGEST_NAME_SHA2_256 : string;
  tls1_suiteb : SSL X -> Z;
  SSL_IS_TLS13 : SSL X -> Z;
  SSL_IS_DTLS : SSL X -> Z;
  DTLS_VERSION_LT : Z -> Z -> Z;
  DTLS_VERSION_GT : Z -> Z -> Z;
  ssl_has_cert : SSL X -> Z -> Z;
  tls1_set_cert_validity : SSL X -> SSL X;
  ssl_set_masks : SSL X -> SSL X;
  tls1_check_ec_tmp_key : SSL X -> Z -> Z;
  ssl_security : SSL X -> Z -> Z -> Z -> SSL_CIPHER -> Z;
  ssl_md : SSL X -> Z -> option MD;      (* ssl_md(s->ctx, idx) *)
  EVP_MD_is_a : MD -> string -> Z;
  sk_SSL_CIPHER_new_reserve : Z -> bool
}.
Arguments Env : clear implicits.

Section Functions.
Context {X MD : Type} (E : Env X MD).

Definition is_chacha (c : SSL_CIPHER) : bool :=
  algorithm_enc c =? SSL_CHACHA20POLY1305 E.

(** The first loop over the server's list: the first ChaCha20 entry and the
    entries after it. *)
Fixpoint first_chacha (srvr : list SSL_CIPHER) : option (SSL_CIPHER * list SSL_CIPHER) :=
  match srvr with
  | [] => None
  | c :: r => if is_chacha c then Some (c, r) else first_chacha r
  end.

(** The priority list under server preference. *)
Definition prioritize_chacha (s : SSL X) (clnt srvr : list SSL_CIPHER)
  : list SSL_CIPHER :=
  if truth (Z.land (options s) (SSL_OP_PRIORITIZE_CHACHA E))
     && (sk_SSL_CIPHER_num clnt >? 0)
  then
    match clnt with
    | [] => srvr
    | c :: _ =>
        if is_chacha c then
          (* ChaCha20 is client preferred, check server... *)
          match first_chacha srvr with
          | None => srvr
          | Some (c, after) =>
              if sk_SSL_CIPHER_new_reserve E (sk_SSL_CIPHER_num srvr) then
                (* Put all ChaCha20 at the top, starting with the one we
                   just found; pull in the rest *)
                c :: filter is_chacha after
                  ++ filter (fun c => negb (is_chacha c)) srvr
              else srvr
          end
        else srvr
    end
  else srvr.

(** for (j = 0; j < SSL_PKEY_NUM && !ssl_has_cert(s, j); j++); with [n]
    indices still to visit: the value of j on exit. *)
Fixpoint cert_scan (s : SSL X) (n : nat) (j : Z) : Z :=
  match n with
  | O => j
  | S n' => if truth (ssl_has_cert E s j) then j else cert_scan s n' (j + 1)
  end.

Definition prefer_sha256 (s : SSL X) : bool :=
  if truth (SSL_IS_TLS13 E s) then
    if OPENSSL_NO_PSK E then false
    else
      match psk_server_callback s with
      | None => false
      | Some _ =>
          cert_scan s (Z.to_nat (SSL_PKEY_NUM E)) 0 =? SSL_PKEY_NUM E
      end
  else false.

(** The loop over the priority list.  [alg_k], [alg_a] and [ret] are the
    variables of the function that live across iterations. *)
Fixpoint scan (s : SSL X) (prefer : bool) (allow prio : list SSL_CIPHER)
         (alg_k alg_a : Z) (ret : option SSL_CIPHER) : option SSL_CIPHER :=
  match prio with
  | [] => ret
  | c :: next =>
      (* Skip ciphers not supported by the protocol version *)
      if negb (truth (SSL_IS_DTLS E s))
         && ((version s <? min_tls c) || (version s >? max_tls c))
      then scan s prefer allow next alg_k alg_a ret
      else if truth (SSL_IS_DTLS E s)
              && (truth (DTLS_VERSION_LT E (version s) (min_dtls c))
                  || truth (DTLS_VERSION_GT E (version s) (max_dtls c)))
      then scan s prefer allow next alg_k alg_a ret
      else
        (* the block of the pre-1.3 tests: whether it ends in continue,
           and alg_k, alg_a after it *)
        let '(skip, alg_k, alg_a) :=
          if negb (truth (SSL_IS_TLS13 E s)) then
            let '(mask_k, mask_a) :=
              if negb (OPENSSL_NO_SRP E) && truth (Z.land (srp_Mask s) (SSL_kSRP E))
              then (Z.lor (mask_k s) (SSL_kSRP E), Z.lor (mask_a s) (SSL_aSRP E))
              else (mask_k s, mask_a s) in
            let alg_k := algorithm_mkey c in
            let alg_a := algorithm_auth c in
            (* with PSK there must be server callback set *)
            if negb (OPENSSL_NO_PSK E) && truth (Z.land alg_k (SSL_PSK E))
               && match psk_server_callback s with None => true | Some _ => false end
            then (true, alg_k, alg_a)
            else
              let ok := truth (Z.land alg_k mask_k) && truth (Z.land alg_a mask_a) in
              let ok :=
                if truth (Z.land alg_k (SSL_kECDHE E))
                then ok && truth (tls1_check_ec_tmp_key E s (id c))
                else ok in
              (negb ok, alg_k, alg_a)
          else (false, alg_k, alg_a) in
        if skip then scan s prefer allow next alg_k alg_a ret
        else
          match sk_SSL_CIPHER_find allow c with
          | None => scan s prefer allow next alg_k alg_a ret
          | Some ii =>
              (* Check security callback permits this cipher *)
              if negb (truth (ssl_security E s (SSL_SECOP_CIPHER_SHARED E)
                                           (strength_bits c) 0 c))
              then scan s prefer allow next alg_k alg_a ret
              else if truth (Z.land alg_k (SSL_kECDHE E))
                      && truth (Z.land alg_a (SSL_aECDSA E))
                      && truth (is_probably_safari s)
              then
                scan s prefer allow next alg_k alg_a
                     (match ret with
                      | None => Some (sk_SSL_CIPHER_value allow ii c)
                      | Some _ => ret
                      end)
              else if prefer then
                let tmp := sk_SSL_CIPHER_value allow ii c in
                let sha256 :=
                  match ssl_md E s (algorithm2 tmp) with
                  | Some md => truth (EVP_MD_is_a E md (OSSL_DIGEST_NAME_SHA2_256 E))
                  | None => false
                  end in
                if sha256 then Some tmp
                else
                  scan s prefer allow next alg_k alg_a
                       (match ret with None => Some tmp | Some _ => ret end)
              else Some (sk_SSL_CIPHER_value allow ii c)
          end
  end.

(** The connection when the loop starts: before TLS 1.3 the certificate
    validity flags and the masks have been set anew. *)
Definition after_masks (s : SSL X) : SSL X :=
  if truth (SSL_IS_TLS13 E s) then s
  else ssl_set_masks E (tls1_set_cert_validity E s).

(** The cipher chosen, NULL being [None], and the connection as the call
    leaves it. *)
Definition ssl3_choose_cipher (s : SSL X) (clnt srvr : list SSL_CIPHER)
  : option SSL_CIPHER * SSL X :=
  let '(prio, allow) :=
    (* SUITE-B takes precedence over server preference and ChaCha priortiy *)
    if truth (tls1_suiteb E s) then (srvr, clnt)
    else if truth (Z.land (options s) (SSL_OP_CIPHER_SERVER_PREFERENCE E))
    then (prioritize_chacha s clnt srvr, clnt)
    else (clnt, srvr) in
  let prefer := prefer_sha256 s in
  let s1 := after_masks s in
  (scan s1 prefer allow prio 0 0 None, s1).

(** The four filters a candidate has to pass, as the loop applies them. *)
Definition version_ok (s : SSL X) (c : SSL_CIPHER) : bool :=
  if truth (SSL_IS_DTLS E s)
  then negb (truth (DTLS_VERSION_LT E (version s) (min_dtls c))
             || truth (DTLS_VERSION_GT E (version s) (max_dtls c)))
  else (min_tls c <=? version s) && (version s <=? max_tls c).

Definition capable (s : SSL X) (c : SSL_CIPHER) : bool :=
  if truth (SSL_IS_TLS13 E s) then true
  else
    let srp := negb (OPENSSL_NO_SRP E) && truth (Z.land (srp_Mask s) (SSL_kSRP E)) in
    let mk := if srp then Z.lor (mask_k s) (SSL_kSRP E) else mask_k s in
    let ma := if srp then Z.lor (mask_a s) (SSL_aSRP E) else mask_a s in
    negb (negb (OPENSSL_NO_PSK E) && truth (Z.land (algorithm_mkey c) (SSL_PSK E))
          && match psk_server_callback s with None => true | Some _ => false end)
    && truth (Z.land (algorithm_mkey c) mk)
    && truth (Z.land (algorithm_auth c) ma)
    && (negb (truth (Z.land (algorithm_mkey c) (SSL_kECDHE E)))
        || truth (tls1_check_ec_tmp_key E s (id c))).

Definition allowed (allow : list SSL_CIPHER) (c : SSL_CIPHER) : bool :=
  if in_dec SSL_CIPHER_eq_dec c allow then true else false.

Definition permitted (s : SSL X) (c : SSL_CIPHER) : bool :=
  truth (ssl_security E s (SSL_SECOP_CIPHER_SHARED E) (strength_bits c) 0 c).

Definition passes (s : SSL X) (allow : list SSL_CIPHER) (c : SSL_CIPHER) : bool :=
  version_ok s c && capable s c && allowed allow c && permitted s c.
End Functions.

End Negotiation.

(** ** The tie-break rules of ssl3_choose_cipher, named

    The tests by which the loop of [ssl3_choose_cipher] sets a candidate
    that passed its filters aside instead of returning it. *)
Module Tiebreak.
Import Negotiation.

Section Rules.
Context {X MD : Type} (E : Env X MD).

(** (alg_k & SSL_kECDHE) && (alg_a & SSL_aECDSA), on the candidate's own
    algorithms. *)
Definition ecdhe_ecdsa (c : SSL_CIPHER) : bool :=
  truth (Z.land (algorithm_mkey c) (SSL_kECDHE E))
  && truth (Z.land (algorithm_auth c) (SSL_aECDSA E)).

(** The candidate is kept back for the client with the broken ECDSA
    support.  In TLS 1.3 alg_k and alg_a are never assigned and stay 0, so
    the test fails there. *)
Definition set_aside (s : SSL X) (c : SSL_CIPHER) : bool :=
  negb (truth (SSL_IS_TLS13 E s)) && ecdhe_ecdsa c && truth (is_probably_safari s).

(** md != NULL && EVP_MD_is_a(md, OSSL_DIGEST_NAME_SHA2_256) *)
Definition uses_sha256 (s : SSL X) (c : SSL_CIPHER) : bool :=
  match ssl_md E s (algorithm2 c) with
  | Some md => truth (EVP_MD_is_a E md (OSSL_DIGEST_NAME_SHA2_256 E))
  | None => false
  end.

(** The candidate ends the loop at once. *)
Definition immediate (s : SSL X) (prefer : bool) (c : SSL_CIPHER) : bool :=
  negb (set_aside s c) && (negb prefer || uses_sha256 s c).

(** Whether the server list is reordered: the option is set, the client's
    first choice is ChaCha20, the server has a ChaCha20 suite, and the
    temporary stack could be allocated. *)
Definition chacha_first (s : SSL X) (clnt srvr : list SSL_CIPHER) : bool :=
  truth (Z.land (options s) (SSL_OP_PRIORITIZE_CHACHA E))
  && match clnt with [] => false | c :: _ => is_chacha E c end
  && existsb (is_chacha E) srvr
  && sk_SSL_CIPHER_new_reserve E (sk_SSL_CIPHER_num srvr).
End Rules.

End Tiebreak.

(** ** Lookup in the catalog: ssl3_get_cipher_by_id, by standard name, by
       the two bytes of the wire, and ssl3_put_cipher_by_char *)
Module Lookup.
Import Catalog.

(** OBJ_bsearch_ssl_cipher_id(&c, table, n), generated in another
    compilation unit: a binary search for the id of [c] in a table sorted
    by id.  Only the id of the key is set, so the key is its id. *)
Definition bsearch_t := Z -> list SSL_CIPHER -> option SSL_CIPHER.

(** What a binary search by id gives: an entry it returns is in the table
    and has the id sought, and on a table ascending by id it finds an
    entry whenever one has that id. *)
Record bsearch_contract (bsearch : bsearch_t) : Prop := {
  bsearch_sound : forall key tbl c,
      bsearch key tbl = Some c -> In c tbl /\ id c = key;
  bsearch_complete : forall key tbl,
      StronglySorted id_le tbl ->
      (exists c, In c tbl /\ id c = key) -> bsearch key tbl <> None
}.

(** The writer of packets, of packet.c: its state is left open.
    [WPACKET_put_bytes_u16], [WPACKET_put_bytes_u8] and [WPACKET_memcpy]
    give the packet after the write, or [None] when they return 0, and a
    write that fails is taken to leave the packet as it was; [written] is
    the bytes a packet holds. *)
Record Writer {W : Type} := {
  WPACKET_put_bytes_u8 : W -> Z -> option W;
  WPACKET_put_bytes_u16 : W -> Z -> option W;
  WPACKET_memcpy : W -> list byte -> option W;
  written : W -> list byte
}.
Arguments Writer : clear implicits.

(** What the writer promises: a successful write appends the value, most
    significant byte first, or the bytes copied. *)
Record writer_contract {W : Type} (P : Writer W) : Prop := {
  put_u8_appends : forall pkt v pkt',
      WPACKET_put_bytes_u8 P pkt v = Some pkt' ->
      written P pkt' = written P pkt ++ [v mod 256];
  put_u16_appends : forall pkt v pkt',
      WPACKET_put_bytes_u16 P pkt v = Some pkt' ->
      written P pkt' = written P pkt ++ [(v / 256) mod 256; v mod 256];
  memcpy_appends : forall pkt src pkt',
      WPACKET_memcpy P pkt src = Some pkt' ->
      written P pkt' = written P pkt ++ src
}.

Section Functions.
Variable OBJ_bsearch_ssl_cipher_id : bsearch_t.
Variable SSL3_CK_CIPHERSUITE_FLAG : Z.

Definition ssl3_get_cipher_by_id (t : Tables) (id : Z) : option SSL_CIPHER :=
  match OBJ_bsearch_ssl_cipher_id id (tls13_ciphers t) with
  | Some cp => Some cp
  | None =>
      match OBJ_bsearch_ssl_cipher_id id (ssl3_ciphers t) with
      | Some cp => Some cp
      | None => OBJ_bsearch_ssl_cipher_id id (ssl3_scsvs t)
      end
  end.

(** The inner loop over one table: the first entry whose standard name is
    not NULL and equals the name sought. *)
Fixpoint scan_table (sought : string) (tbl : list SSL_CIPHER) : option SSL_CIPHER :=
  match tbl with
  | [] => None
  | c :: r =>
      match stdname c with
      | None => scan_table sought r
      | Some n => if String.eqb sought n then Some c else scan_table sought r
      end
  end.

(** The outer loop over alltabs. *)
Fixpoint scan_tables (sought : string) (alltabs : list (list SSL_CIPHER))
  : option SSL_CIPHER :=
  match alltabs with
  | [] => None
  | tbl :: r =>
      match scan_table sought tbl with
      | Some c => Some c
      | None => scan_tables sought r
      end
  end.

Definition ssl3_get_cipher_by_std_name (t : Tables) (sought : string)
  : option SSL_CIPHER :=
  scan_tables sought [tls13_ciphers t; ssl3_ciphers t; ssl3_scsvs t].

(** [p] is the bytes found at the pointer; the function reads two. *)
Definition ssl3_get_cipher_by_char (t : Tables) (p : list byte)
  : result (option SSL_CIPHER) :=
  match p with
  | p0 :: p1 :: _ =>
      Ok (ssl3_get_cipher_by_id t
            (uint32 (Z.lor (Z.lor SSL3_CK_CIPHERSUITE_FLAG
                                  (uint32 (Z.shiftl (uint32 p0) 8)))
                           (uint32 p1))))
  | _ => Undefined
  end.

(** The return value, the packet, and *len as the call leaves it ([len]
    is its value before). *)
Definition ssl3_put_cipher_by_char {W : Type} (P : Writer W)
           (c : SSL_CIPHER) (pkt : W) (len : Z) : Z * W * Z :=
  if negb (Z.land (id c) 0xff000000 =? SSL3_CK_CIPHERSUITE_FLAG)
  then (1, pkt, 0)
  else
    match WPACKET_put_bytes_u16 P pkt (Z.land (id c) 0xffff) with
    | None => (0, pkt, len)
    | Some pkt' => (1, pkt', 2)
    end.
End Functions.

(** The tables in the order the lookups consult them. *)
Definition all_entries (t : Tables) : list SSL_CIPHER :=
  tls13_ciphers t ++ ssl3_ciphers t ++ ssl3_scsvs t.

(** A header tells all id initialisers of the catalog apart, across the
    three tables. *)
Definition header_separates_all_ids (H : Headers) : Prop :=
  separates H (id_exprs (tls13_ciphers_src ++ ssl3_ciphers_src ++ ssl3_scsvs_src)).

(** Each of the three tables is in ascending order by id. *)
Definition sorted_by_id (t : Tables) : Prop :=
  StronglySorted id_le (tls13_ciphers t) /\
  StronglySorted id_le (ssl3_ciphers t) /\
  StronglySorted id_le (ssl3_scsvs t).

End Lookup.

(** ** The certificate types of a CertificateRequest:
       ssl3_set_req_cert_type and ssl3_get_req_cert_type *)
Module CertTypes.
Import Lookup.

(** The two fields of [struct cert_st] the functions touch: the custom
    list, NULL being [None], and its length. *)
Record CERT := mkCERT {
  ctype : option (list byte);
  ctype_len : Z
}.

Record SSL := mkSSL {
  cert : CERT;
  version : Z;
  new_cipher : option SSL_CIPHER      (* s->s3.tmp.new_cipher *)
}.

(** What the functions use and s3_lib.c does not define: the build
    configuration, the constants of the headers, the mask of signature
    algorithms of t1_lib.c (the value it leaves in *pmask_a, given the
    value before), and whether OPENSSL_memdup is served. *)
Record Env := {
  OPENSSL_NO_GOST : bool;
  SSL3_VERSION : Z;
  TLS1_VERSION : Z;
  TLS1_2_VERSION : Z;
  SSL_kGOST : Z;
  SSL_kGOST18 : Z;
  SSL_kBDHE : Z;
  SSL_kBDHTPSK : Z;
  SSL_kDHE : Z;
  SSL_aDSS : Z;
  SSL_aRSA : Z;
  SSL_aECDSA : Z;
  TLS_CT_GOST01_SIGN : Z;
  TLS_CT_GOST12_IANA_SIGN : Z;
  TLS_CT_GOST12_IANA_512_SIGN : Z;
  TLS_CT_GOST12_LEGACY_SIGN : Z;
  TLS_CT_GOST12_LEGACY_512_SIGN : Z;
  TLS_CT_BIGN_SIGN : Z;
  SSL3_CT_RSA_EPHEMERAL_DH : Z;
  SSL3_CT_DSS_EPHEMERAL_DH : Z;
  SSL3_CT_RSA_SIGN : Z;
  SSL3_CT_DSS_SIGN : Z;
  TLS_CT_ECDSA_SIGN : Z;
  SSL_SECOP_SIGALG_MASK : Z;
  ssl_set_sig_mask : Z -> SSL -> Z -> Z;
  OPENSSL_memdup : Z -> bool
}.

Section Functions.
Variable E : Env.
Context {W : Type} (P : Writer W).

(** [len] is a size_t: it is not negative.  The previous list is freed
    and the fields reset before anything is looked at. *)
Definition ssl3_set_req_cert_type (c : CERT) (p : option (list byte)) (len : Z)
  : result (Z * CERT) :=
  let c := mkCERT None 0 in
  match p with
  | None => Ok (1, c)
  | Some b =>
      if len =? 0 then Ok (1, c)
      else if len >? 0xff then Ok (0, c)
      else if negb (OPENSSL_memdup E len) then Ok (0, c)
      else
        copy <- read b 0 len ;;
        Ok (1, mkCERT (Some copy) len)
  end.

(** A chain  !WPACKET_put_bytes_u8(pkt, a) || !WPACKET_put_bytes_u8(pkt, b)
    || ...  : whether every write succeeded, and the packet where the chain
    stopped. *)
Fixpoint puts (vs : list Z) (pkt : W) : bool * W :=
  match vs with
  | [] => (true, pkt)
  | v :: r =>
      match WPACKET_put_bytes_u8 P pkt v with
      | None => (false, pkt)
      | Some pkt' => puts r pkt'
      end
  end.

(** if (chain fails) return 0;  followed by the rest of the function. *)
Definition or_return_0 (vs : list Z) (pkt : W) (rest : W -> Z * W) : Z * W :=
  let (ok, pkt') := puts vs pkt in
  if ok then rest pkt' else (0, pkt').

(** The return value and the packet. *)
Definition ssl3_get_req_cert_type (s : SSL) (pkt : W) : result (Z * W) :=
  (* If we have custom certificate types set, use them *)
  match ctype (cert s) with
  | Some custom =>
      bytes <- read custom 0 (ctype_len (cert s)) ;;
      Ok (match WPACKET_memcpy P pkt bytes with
          | Some pkt' => (1, pkt')
          | None => (0, pkt)
          end)
  | None =>
      (* Get mask of algorithms disabled by signature list *)
      let alg_a := uint32 (ssl_set_sig_mask E 0 s (SSL_SECOP_SIGALG_MASK E)) in
      match new_cipher s with
      | None => Undefined
      | Some c =>
          let alg_k := algorithm_mkey c in
          Ok (
            or_return_0
              (if negb (OPENSSL_NO_GOST E) && (version s >=? TLS1_VERSION E)
                  && truth (Z.land alg_k (SSL_kGOST E))
               then [TLS_CT_GOST01_SIGN E; TLS_CT_GOST12_IANA_SIGN E;
                     TLS_CT_GOST12_IANA_512_SIGN E; TLS_CT_GOST12_LEGACY_SIGN E;
                     TLS_CT_GOST12_LEGACY_512_SIGN E]
               else []) pkt (fun pkt =>
            or_return_0
              (if negb (OPENSSL_NO_GOST E) && (version s >=? TLS1_2_VERSION E)
                  && truth (Z.land alg_k (SSL_kGOST18 E))
               then [TLS_CT_GOST12_IANA_SIGN E; TLS_CT_GOST12_IANA_512_SIGN E]
               else []) pkt (fun pkt =>
            if (version s >=? TLS1_VERSION E) && truth (Z.land alg_k (SSL_kBDHE E))
            then or_return_0 [TLS_CT_BIGN_SIGN E] pkt (fun pkt => (1, pkt))
            else if (version s >=? TLS1_VERSION E)
                    && truth (Z.land alg_k (SSL_kBDHTPSK E))
            then or_return_0 [TLS_CT_BIGN_SIGN E] pkt (fun pkt => (1, pkt))
            else
              or_return_0
                (if (version s =? SSL3_VERSION E) && truth (Z.land alg_k (SSL_kDHE E))
                 then [SSL3_CT_RSA_EPHEMERAL_DH E] else []) pkt (fun pkt =>
              or_return_0
                (if (version s =? SSL3_VERSION E) && truth (Z.land alg_k (SSL_kDHE E))
                    && negb (truth (Z.land alg_a (SSL_aDSS E)))
                 then [SSL3_CT_DSS_EPHEMERAL_DH E] else []) pkt (fun pkt =>
              or_return_0
                (if negb (truth (Z.land alg_a (SSL_aRSA E)))
                 then [SSL3_CT_RSA_SIGN E] else []) pkt (fun pkt =>
              or_return_0
                (if negb (truth (Z.land alg_a (SSL_aDSS E)))
                 then [SSL3_CT_DSS_SIGN E] else []) pkt (fun pkt =>
              (* ECDSA certs can be used with RSA cipher suites too *)
              or_return_0
                (if (version s >=? TLS1_VERSION E)
                    && negb (truth (Z.land alg_a (SSL_aECDSA E)))
                 then [TLS_CT_ECDSA_SIGN E] else []) pkt (fun pkt =>
              (1, pkt)))))))))
      end
  end.

(** The types the function sets out to write when no custom list is set,
    in the order of writing. *)
Definition default_types (s : SSL) (c : SSL_CIPHER) : list Z :=
  let alg_a := uint32 (ssl_set_sig_mask E 0 s (SSL_SECOP_SIGALG_MASK E)) in
  let alg_k := algorithm_mkey c in
  (if negb (OPENSSL_NO_GOST E) && (version s >=? TLS1_VERSION E)
      && truth (Z.land alg_k (SSL_kGOST E))
   then [TLS_CT_GOST01_SIGN E; TLS_CT_GOST12_IANA_SIGN E;
         TLS_CT_GOST12_IANA_512_SIGN E; TLS_CT_GOST12_LEGACY_SIGN E;
         TLS_CT_GOST12_LEGACY_512_SIGN E]
   else [])
  ++ (if negb (OPENSSL_NO_GOST E) && (version s >=? TLS1_2_VERSION E)
         && truth (Z.land alg_k (SSL_kGOST18 E))
      then [TLS_CT_GOST12_IANA_SIGN E; TLS_CT_GOST12_IANA_512_SIGN E]
      else [])
  ++ (if (version s >=? TLS1_VERSION E)
         && (truth (Z.land alg_k (SSL_kBDHE E))
             || truth (Z.land alg_k (SSL_kBDHTPSK E)))
      then [TLS_CT_BIGN_SIGN E]
      else
        (if (version s =? SSL3_VERSION E) && truth (Z.land alg_k (SSL_kDHE E))
         then SSL3_CT_RSA_EPHEMERAL_DH E
              :: (if truth (Z.land alg_a (SSL_aDSS E)) then []
                  else [SSL3_CT_DSS_EPHEMERAL_DH E])
         else [])
        ++ (if truth (Z.land alg_a (SSL_aRSA E)) then [] else [SSL3_CT_RSA_SIGN E])
        ++ (if truth (Z.land alg_a (SSL_aDSS E)) then [] else [SSL3_CT_DSS_SIGN E])
        ++ (if (version s >=? TLS1_VERSION E)
               && negb (truth (Z.land alg_a (SSL_aECDSA E)))
            then [TLS_CT_ECDSA_SIGN E] else [])).
End Functions.

End CertTypes.

(** ** SSL_group_to_name *)
Module GroupNames.

(** Besides what the dispatchers use: the inverse table of t1_lib.c, and
    the field tlsname of the entry that tls1_group_id_lookup finds for a
    group id. *)
Record Env := {
  base : Dispatch.Env;
  tls1_nid2group_id : Z -> Z;
  tlsname : Z -> string
}.

Section Functions.
Variable E : Env.

(** The name, NULL being [None].  The group id is an int handed to a
    uint16_t parameter of the lookup. *)
Definition SSL_group_to_name (nid : Z) : option string :=
  (* first convert to real group id for internal and external IDs *)
  let group_id :=
    if truth (Z.land nid (Dispatch.TLSEXT_nid_unknown (base E)))
    then Z.land nid 0xFFFF
    else tls1_nid2group_id E nid in
  (* then look up *)
  match Dispatch.tls1_group_id_lookup (base E) (group_id mod 65536) with
  | Some cinf => Some (tlsname E cinf)
  | None => None
  end.
End Functions.

End GroupNames.

(** ** ssl_get_algorithm2 *)
Module Algorithm2.

Record SSL := mkSSL {
  new_cipher : option SSL_CIPHER;   (* s->s3.tmp.new_cipher *)
  enc_flags : Z                     (* s->method->ssl3_enc->enc_flags *)
}.

Record Env := {
  SSL_ENC_FLAG_SHA256_PRF : Z;
  SSL_PSK : Z;
  SSL_HANDSHAKE_MAC_DEFAULT : Z;
  SSL_HANDSHAKE_MAC_SHA256 : Z;
  SSL_HANDSHAKE_MAC_SHA384 : Z;
  TLS1_PRF : Z;
  TLS1_PRF_SHA256 : Z;
  TLS1_PRF_SHA384 : Z
}.

Section Functions.
Variable E : Env.

(** [long] is taken to hold every value of the 32-bit field algorithm2. *)
Definition ssl_get_algorithm2 (s : SSL) : Z :=
  match new_cipher s with
  | None => -1
  | Some c =>
      let alg2 := algorithm2 c in
      if truth (Z.land (enc_flags s) (SSL_ENC_FLAG_SHA256_PRF E)) then
        if alg2 =? Z.lor (SSL_HANDSHAKE_MAC_DEFAULT E) (TLS1_PRF E)
        then Z.lor (SSL_HANDSHAKE_MAC_SHA256 E) (TLS1_PRF_SHA256 E)
        else alg2
      else if truth (Z.land (algorithm_mkey c) (SSL_PSK E)) then
        if alg2 =? Z.lor (SSL_HANDSHAKE_MAC_SHA384 E) (TLS1_PRF_SHA384 E)
        then Z.lor (SSL_HANDSHAKE_MAC_DEFAULT E) (TLS1_PRF E)
        else alg2
      else alg2
  end.
End Functions.

End Algorithm2.

(** ** Environments derived from others *)
Module Scenarios.

(** A shutdown environment with another record-layer read in place of its
    own; everything else is kept. *)
Definition with_read {X : Type} (E : Shutdown.Env X)
           (rd : Shutdown.SSL X -> Z * Shutdown.SSL X) : Shutdown.Env X :=
  {| Shutdown.SSL_SENT_SHUTDOWN := Shutdown.SSL_SENT_SHUTDOWN E;
     Shutdown.SSL_RECEIVED_SHUTDOWN := Shutdown.SSL_RECEIVED_SHUTDOWN E;
     Shutdown.SSL3_AL_WARNING := Shutdown.SSL3_AL_WARNING E;
     Shutdown.SSL_AD_CLOSE_NOTIFY := Shutdown.SSL_AD_CLOSE_NOTIFY E;
     Shutdown.SSL_in_before := Shutdown.SSL_in_before E;
     Shutdown.ssl3_send_alert := Shutdown.ssl3_send_alert E;
     Shutdown.ssl_dispatch_alert := Shutdown.ssl_dispatch_alert E;
     Shutdown.ssl_read_bytes := rd |}.

End Scenarios.

(** ** A sample environment

    One concrete choice for what s3_lib.c leaves to its environment, used to
    run the model and to show that what the theorems assume can be met: an
    insertion sort for qsort, and a header giving every cipher-suite id
    macro its registered code point under the 0x03000000 tag. *)
Module Sample.
Import Catalog.

Fixpoint insert {A : Type} (cmp : A -> A -> Z) (x : A) (l : list A) : list A :=
  match l with
  | [] => [x]
  | y :: r => if cmp x y <=? 0 then x :: l else y :: insert cmp x r
  end.

Fixpoint isort {A : Type} (cmp : A -> A -> Z) (l : list A) : list A :=
  match l with
  | [] => []
  | x :: r => insert cmp x (isort cmp r)
  end.

Definition qsort : qsort_t := fun A cmp l => isort cmp l.

Local Open Scope string_scope.

Definition code_points : list (string * Z) :=
  [ ("TLS1_3_CK_AES_128_GCM_SHA256", 0x03001301); ("TLS1_3_CK_AES_256_GCM_SHA384", 0x03001302);
    ("TLS1_3_CK_CHACHA20_POLY1305_SHA256", 0x03001303); ("TLS1_3_CK_AES_128_CCM_SHA256", 0x03001304);
    ("TLS1_3_CK_AES_128_CCM_8_SHA256", 0x03001305); ("SSL3_CK_RSA_NULL_MD5", 0x03000001);
    ("SSL3_CK_RSA_NULL_SHA", 0x03000002); ("SSL3_CK_RSA_DES_192_CBC3_SHA", 0x0300000a);
    ("SSL3_CK_DHE_DSS_DES_192_CBC3_SHA", 0x03000013); ("SSL3_CK_DHE_RSA_DES_192_CBC3_SHA", 0x03000016);
    ("SSL3_CK_ADH_DES_192_CBC_SHA", 0x0300001b); ("TLS1_CK_RSA_WITH_AES_128_SHA", 0x0300002f);
    ("TLS1_CK_DHE_DSS_WITH_AES_128_SHA", 0x03000032); ("TLS1_CK_DHE_RSA_WITH_AES_128_SHA", 0x03000033);
    ("TLS1_CK_ADH_WITH_AES_128_SHA", 0x03000034); ("TLS1_CK_RSA_WITH_AES_256_SHA", 0x03000035);
    ("TLS1_CK_DHE_DSS_WITH_AES_256_SHA", 0x03000038); ("TLS1_CK_DHE_RSA_WITH_AES_256_SHA", 0x03000039);
    ("TLS1_CK_ADH_WITH_AES_256_SHA", 0x0300003a); ("TLS1_CK_RSA_WITH_NULL_SHA256", 0x0300003b);
    ("TLS1_CK_RSA_WITH_AES_128_SHA256", 0x0300003c); ("TLS1_CK_RSA_WITH_AES_256_SHA256", 0x0300003d);
    ("TLS1_CK_DHE_DSS_WITH_AES_128_SHA256", 0x03000040); ("TLS1_CK_DHE_RSA_WITH_AES_128_SHA256", 0x03000067);
    ("TLS1_CK_DHE_DSS_WITH_AES_256_SHA256", 0x0300006a); ("TLS1_CK_DHE_RSA_WITH_AES_256_SHA256", 0x0300006b);
    ("TLS1_CK_ADH_WITH_AES_128_SHA256", 0x0300006c); ("TLS1_CK_ADH_WITH_AES_256_SHA256", 0x0300006d);
    ("TLS1_CK_RSA_WITH_AES_128_GCM_SHA256", 0x0300009c); ("TLS1_CK_RSA_WITH_AES_256_GCM_SHA384", 0x0300009d);
    ("TLS1_CK_DHE_RSA_WITH_AES_128_GCM_SHA256", 0x0300009e); ("TLS1_CK_DHE_RSA_WITH_AES_256_GCM_SHA384", 0x0300009f);
    ("TLS1_CK_DHE_DSS_WITH_AES_128_GCM_SHA256", 0x030000a2); ("TLS1_CK_DHE_DSS_WITH_AES_256_GCM_SHA384", 0x030000a3);
    ("TLS1_CK_ADH_WITH_AES_128_GCM_SHA256", 0x030000a6); ("TLS1_CK_ADH_WITH_AES_256_GCM_SHA384", 0x030000a7);
    ("TLS1_CK_RSA_WITH_AES_128_CCM", 0x0300c09c); ("TLS1_CK_RSA_WITH_AES_256_CCM", 0x0300c09d);
    ("TLS1_CK_DHE_RSA_WITH_AES_128_CCM", 0x0300c09e); ("TLS1_CK_DHE_RSA_WITH_AES_256_CCM", 0x0300c09f);
    ("TLS1_CK_RSA_WITH_AES_128_CCM_8", 0x0300c0a0); ("TLS1_CK_RSA_WITH_AES_256_CCM_8", 0x0300c0a1);
    ("TLS1_CK_DHE_RSA_WITH_AES_128_CCM_8", 0x0300c0a2); ("TLS1_CK_DHE_RSA_WITH_AES_256_CCM_8", 0x0300c0a3);
    ("TLS1_CK_PSK_WITH_AES_128_CCM", 0x0300c0a4); ("TLS1_CK_PSK_WITH_AES_256_CCM", 0x0300c0a5);
    ("TLS1_CK_DHE_PSK_WITH_AES_128_CCM", 0x0300c0a6); ("TLS1_CK_DHE_PSK_WITH_AES_256_CCM", 0x0300c0a7);
    ("TLS1_CK_PSK_WITH_AES_128_CCM_8", 0x0300c0a8); ("TLS1_CK_PSK_WITH_AES_256_CCM_8", 0x0300c0a9);
    ("TLS1_CK_DHE_PSK_WITH_AES_128_CCM_8", 0x0300c0aa); ("TLS1_CK_DHE_PSK_WITH_AES_256_CCM_8", 0x0300c0ab);
    ("TLS1_CK_ECDHE_ECDSA_WITH_AES_128_CCM", 0x0300c0ac); ("TLS1_CK_ECDHE_ECDSA_WITH_AES_256_CCM", 0x0300c0ad);
    ("TLS1_CK_ECDHE_ECDSA_WITH_AES_128_CCM_8", 0x0300c0ae); ("TLS1_CK_ECDHE_ECDSA_WITH_AES_256_CCM_8", 0x0300c0af);
    ("TLS1_CK_ECDHE_ECDSA_WITH_NULL_SHA", 0x0300c006); ("TLS1_CK_ECDHE_ECDSA_WITH_DES_192_CBC3_SHA", 0x0300c008);
    ("TLS1_CK_ECDHE_ECDSA_WITH_AES_128_CBC_SHA", 0x0300c009); ("TLS1_CK_ECDHE_ECDSA_WITH_AES_256_CBC_SHA", 0x0300c00a);
    ("TLS1_CK_ECDHE_RSA_WITH_NULL_SHA", 0x0300c010); ("TLS1_CK_ECDHE_RSA_WITH_DES_192_CBC3_SHA", 0x0300c012);
    ("TLS1_CK_ECDHE_RSA_WITH_AES_128_CBC_SHA", 0x0300c013); ("TLS1_CK_ECDHE_RSA_WITH_AES_256_CBC_SHA", 0x0300c014);
    ("TLS1_CK_ECDH_anon_WITH_NULL_SHA", 0x0300c015); ("TLS1_CK_ECDH_anon_WITH_DES_192_CBC3_SHA", 0x0300c017);
    ("TLS1_CK_ECDH_anon_WITH_AES_128_CBC_SHA", 0x0300c018); ("TLS1_CK_ECDH_anon_WITH_AES_256_CBC_SHA", 0x0300c019);
    ("TLS1_CK_ECDHE_ECDSA_WITH_AES_128_SHA256", 0x0300c023); ("TLS1_CK_ECDHE_ECDSA_WITH_AES_256_SHA384", 0x0300c024);
    ("TLS1_CK_ECDHE_RSA_WITH_AES_128_SHA256", 0x0300c027); ("TLS1_CK_ECDHE_RSA_WITH_AES_256_SHA384", 0x0300c028);
    ("TLS1_CK_ECDHE_ECDSA_WITH_AES_128_GCM_SHA256", 0x0300c02b); ("TLS1_CK_ECDHE_ECDSA_WITH_AES_256_GCM_SHA384", 0x0300c02c);
    ("TLS1_CK_ECDHE_RSA_WITH_AES_128_GCM_SHA256", 0x0300c02f); ("TLS1_CK_ECDHE_RSA_WITH_AES_256_GCM_SHA384", 0x0300c030);
    ("TLS1_CK_PSK_WITH_NULL_SHA", 0x0300002c); ("TLS1_CK_DHE_PSK_WITH_NULL_SHA", 0x0300002d);
    ("TLS1_CK_RSA_PSK_WITH_NULL_SHA", 0x0300002e); ("TLS1_CK_PSK_WITH_3DES_EDE_CBC_SHA", 0x0300008b);
    ("TLS1_CK_PSK_WITH_AES_128_CBC_SHA", 0x0300008c); ("TLS1_CK_PSK_WITH_AES_256_CBC_SHA", 0x0300008d);
    ("TLS1_CK_DHE_PSK_WITH_3DES_EDE_CBC_SHA", 0x0300008f); ("TLS1_CK_DHE_PSK_WITH_AES_128_CBC_SHA", 0x03000090);
    ("TLS1_CK_DHE_PSK_WITH_AES_256_CBC_SHA", 0x03000091); ("TLS1_CK_RSA_PSK_WITH_3DES_EDE_CBC_SHA", 0x03000093);
    ("TLS1_CK_RSA_PSK_WITH_AES_128_CBC_SHA", 0x03000094); ("TLS1_CK_RSA_PSK_WITH_AES_256_CBC_SHA", 0x03000095);
    ("TLS1_CK_PSK_WITH_AES_128_GCM_SHA256", 0x030000a8); ("TLS1_CK_PSK_WITH_AES_256_GCM_SHA384", 0x030000a9);
    ("TLS1_CK_DHE_PSK_WITH_AES_128_GCM_SHA256", 0x030000aa); ("TLS1_CK_DHE_PSK_WITH_AES_256_GCM_SHA384", 0x030000ab);
    ("TLS1_CK_RSA_PSK_WITH_AES_128_GCM_SHA256", 0x030000ac); ("TLS1_CK_RSA_PSK_WITH_AES_256_GCM_SHA384", 0x030000ad);
    ("TLS1_CK_PSK_WITH_AES_128_CBC_SHA256", 0x030000ae); ("TLS1_CK_PSK_WITH_AES_256_CBC_SHA384", 0x030000af);
    ("TLS1_CK_PSK_WITH_NULL_SHA256", 0x030000b0); ("TLS1_CK_PSK_WITH_NULL_SHA384", 0x030000b1);
    ("TLS1_CK_DHE_PSK_WITH_AES_128_CBC_SHA256", 0x030000b2); ("TLS1_CK_DHE_PSK_WITH_AES_256_CBC_SHA384", 0x030000b3);
    ("TLS1_CK_DHE_PSK_WITH_NULL_SHA256", 0x030000b4); ("TLS1_CK_DHE_PSK_WITH_NULL_SHA384", 0x030000b5);
    ("TLS1_CK_RSA_PSK_WITH_AES_128_CBC_SHA256", 0x030000b6); ("TLS1_CK_RSA_PSK_WITH_AES_256_CBC_SHA384", 0x030000b7);
    ("TLS1_CK_RSA_PSK_WITH_NULL_SHA256", 0x030000b8); ("TLS1_CK_RSA_PSK_WITH_NULL_SHA384", 0x030000b9);
    ("TLS1_CK_ECDHE_PSK_WITH_3DES_EDE_CBC_SHA", 0x0300c034); ("TLS1_CK_ECDHE_PSK_WITH_AES_128_CBC_SHA", 0x0300c035);
    ("TLS1_CK_ECDHE_PSK_WITH_AES_256_CBC_SHA", 0x0300c036); ("TLS1_CK_ECDHE_PSK_WITH_AES_128_CBC_SHA256", 0x0300c037);
    ("TLS1_CK_ECDHE_PSK_WITH_AES_256_CBC_SHA384", 0x0300c038); ("TLS1_CK_ECDHE_PSK_WITH_NULL_SHA", 0x0300c039);
    ("TLS1_CK_ECDHE_PSK_WITH_NULL_SHA256", 0x0300c03a); ("TLS1_CK_ECDHE_PSK_WITH_NULL_SHA384", 0x0300c03b);
    ("TLS1_CK_SRP_SHA_WITH_3DES_EDE_CBC_SHA", 0x0300c01a); ("TLS1_CK_SRP_SHA_RSA_WITH_3DES_EDE_CBC_SHA", 0x0300c01b);
    ("TLS1_CK_SRP_SHA_DSS_WITH_3DES_EDE_CBC_SHA", 0x0300c01c); ("TLS1_CK_SRP_SHA_WITH_AES_128_CBC_SHA", 0x0300c01d);
    ("TLS1_CK_SRP_SHA_RSA_WITH_AES_128_CBC_SHA", 0x0300c01e); ("TLS1_CK_SRP_SHA_DSS_WITH_AES_128_CBC_SHA", 0x0300c01f);
    ("TLS1_CK_SRP_SHA_WITH_AES_256_CBC_SHA", 0x0300c020); ("TLS1_CK_SRP_SHA_RSA_WITH_AES_256_CBC_SHA", 0x0300c021);
    ("TLS1_CK_SRP_SHA_DSS_WITH_AES_256_CBC_SHA", 0x0300c022); ("TLS1_CK_DHE_RSA_WITH_CHACHA20_POLY1305", 0x0300ccaa);
    ("TLS1_CK_ECDHE_RSA_WITH_CHACHA20_POLY1305", 0x0300cca8); ("TLS1_CK_ECDHE_ECDSA_WITH_CHACHA20_POLY1305", 0x0300cca9);
    ("TLS1_CK_PSK_WITH_CHACHA20_POLY1305", 0x0300ccab); ("TLS1_CK_ECDHE_PSK_WITH_CHACHA20_POLY1305", 0x0300ccac);
    ("TLS1_CK_DHE_PSK_WITH_CHACHA20_POLY1305", 0x0300ccad); ("TLS1_CK_RSA_PSK_WITH_CHACHA20_POLY1305", 0x0300ccae);
    ("TLS1_CK_RSA_WITH_CAMELLIA_128_CBC_SHA256", 0x030000ba); ("TLS1_CK_DHE_DSS_WITH_CAMELLIA_128_CBC_SHA256", 0x030000bd);
    ("TLS1_CK_DHE_RSA_WITH_CAMELLIA_128_CBC_SHA256", 0x030000be); ("TLS1_CK_ADH_WITH_CAMELLIA_128_CBC_SHA256", 0x030000bf);
    ("TLS1_CK_RSA_WITH_CAMELLIA_256_CBC_SHA256", 0x030000c0); ("TLS1_CK_DHE_DSS_WITH_CAMELLIA_256_CBC_SHA256", 0x030000c3);
    ("TLS1_CK_DHE_RSA_WITH_CAMELLIA_256_CBC_SHA256", 0x030000c4); ("TLS1_CK_ADH_WITH_CAMELLIA_256_CBC_SHA256", 0x030000c5);
    ("TLS1_CK_RSA_WITH_CAMELLIA_256_CBC_SHA", 0x03000084); ("TLS1_CK_DHE_DSS_WITH_CAMELLIA_256_CBC_SHA", 0x03000087);
    ("TLS1_CK_DHE_RSA_WITH_CAMELLIA_256_CBC_SHA", 0x03000088); ("TLS1_CK_ADH_WITH_CAMELLIA_256_CBC_SHA", 0x03000089);
    ("TLS1_CK_RSA_WITH_CAMELLIA_128_CBC_SHA", 0x03000041); ("TLS1_CK_DHE_DSS_WITH_CAMELLIA_128_CBC_SHA", 0x03000044);
    ("TLS1_CK_DHE_RSA_WITH_CAMELLIA_128_CBC_SHA", 0x03000045); ("TLS1_CK_ADH_WITH_CAMELLIA_128_CBC_SHA", 0x03000046);
    ("TLS1_CK_ECDHE_ECDSA_WITH_CAMELLIA_128_CBC_SHA256", 0x0300c072); ("TLS1_CK_ECDHE_ECDSA_WITH_CAMELLIA_256_CBC_SHA384", 0x0300c073);
    ("TLS1_CK_ECDHE_RSA_WITH_CAMELLIA_128_CBC_SHA256", 0x0300c076); ("TLS1_CK_ECDHE_RSA_WITH_CAMELLIA_256_CBC_SHA384", 0x0300c077);
    ("TLS1_CK_PSK_WITH_CAMELLIA_128_CBC_SHA256", 0x0300c094); ("TLS1_CK_PSK_WITH_CAMELLIA_256_CBC_SHA384", 0x0300c095);
    ("TLS1_CK_DHE_PSK_WITH_CAMELLIA_128_CBC_SHA256", 0x0300c096); ("TLS1_CK_DHE_PSK_WITH_CAMELLIA_256_CBC_SHA384", 0x0300c097);
    ("TLS1_CK_RSA_PSK_WITH_CAMELLIA_128_CBC_SHA256", 0x0300c098); ("TLS1_CK_RSA_PSK_WITH_CAMELLIA_256_CBC_SHA384", 0x0300c099);
    ("TLS1_CK_ECDHE_PSK_WITH_CAMELLIA_128_CBC_SHA256", 0x0300c09a); ("TLS1_CK_ECDHE_PSK_WITH_CAMELLIA_256_CBC_SHA384", 0x0300c09b);
    ("SSL3_CK_RSA_IDEA_128_SHA", 0x03000007); ("TLS1_CK_RSA_WITH_SEED_SHA", 0x03000096);
    ("TLS1_CK_DHE_DSS_WITH_SEED_SHA", 0x03000099); ("TLS1_CK_DHE_RSA_WITH_SEED_SHA", 0x0300009a);
    ("TLS1_CK_ADH_WITH_SEED_SHA", 0x0300009b); ("SSL3_CK_RSA_RC4_128_MD5", 0x03000004);
    ("SSL3_CK_RSA_RC4_128_SHA", 0x03000005); ("SSL3_CK_ADH_RC4_128_MD5", 0x03000018);
    ("TLS1_CK_ECDHE_PSK_WITH_RC4_128_SHA", 0x0300c033); ("TLS1_CK_ECDH_anon_WITH_RC4_128_SHA", 0x0300c016);
    ("TLS1_CK_ECDHE_ECDSA_WITH_RC4_128_SHA", 0x0300c007); ("TLS1_CK_ECDHE_RSA_WITH_RC4_128_SHA", 0x0300c011);
    ("TLS1_CK_PSK_WITH_RC4_128_SHA", 0x0300008a); ("TLS1_CK_RSA_PSK_WITH_RC4_128_SHA", 0x03000092);
    ("TLS1_CK_DHE_PSK_WITH_RC4_128_SHA", 0x0300008e); ("TLS1_CK_RSA_WITH_ARIA_128_GCM_SHA256", 0x0300c050);
    ("TLS1_CK_RSA_WITH_ARIA_256_GCM_SHA384", 0x0300c051); ("TLS1_CK_DHE_RSA_WITH_ARIA_128_GCM_SHA256", 0x0300c052);
    ("TLS1_CK_DHE_RSA_WITH_ARIA_256_GCM_SHA384", 0x0300c053); ("TLS1_CK_DHE_DSS_WITH_ARIA_128_GCM_SHA256", 0x0300c056);
    ("TLS1_CK_DHE_DSS_WITH_ARIA_256_GCM_SHA384", 0x0300c057); ("TLS1_CK_ECDHE_ECDSA_WITH_ARIA_128_GCM_SHA256", 0x0300c05c);
    ("TLS1_CK_ECDHE_ECDSA_WITH_ARIA_256_GCM_SHA384", 0x0300c05d); ("TLS1_CK_ECDHE_RSA_WITH_ARIA_128_GCM_SHA256", 0x0300c060);
    ("TLS1_CK_ECDHE_RSA_WITH_ARIA_256_GCM_SHA384", 0x0300c061); ("TLS1_CK_PSK_WITH_ARIA_128_GCM_SHA256", 0x0300c06a);
    ("TLS1_CK_PSK_WITH_ARIA_256_GCM_SHA384", 0x0300c06b); ("TLS1_CK_DHE_PSK_WITH_ARIA_128_GCM_SHA256", 0x0300c06c);
    ("TLS1_CK_DHE_PSK_WITH_ARIA_256_GCM_SHA384", 0x0300c06d); ("TLS1_CK_RSA_PSK_WITH_ARIA_128_GCM_SHA256", 0x0300c06e);
    ("TLS1_CK_RSA_PSK_WITH_ARIA_256_GCM_SHA384", 0x0300c06f); ("SSL3_CK_SCSV", 0x030000ff);
    ("SSL3_CK_FALLBACK_SCSV", 0x03005600) ].

Local Close Scope string_scope.

Fixpoint lookup (m : string) (tbl : list (string * Z)) : Z :=
  match tbl with
  | [] => 0
  | (k, v) :: r => if String.eqb m k then v else lookup m r
  end.

Definition headers : Headers :=
  {| num := fun m => lookup m code_points;
     str := fun m => m |}.

Definition config : Config :=
  {| OPENSSL_NO_WEAK_SSL_CIPHERS := false; OPENSSL_NO_GOST := false |}.

(** A state machine with three states and a record layer that is its two
    pending counts. *)
Inductive statem := Before | Handshaking | Established | Renegotiating.

Definition reneg_env : Renegotiation.Env statem (Z * Z) :=
  {| Renegotiation.RECORD_LAYER_read_pending := fst;
     Renegotiation.RECORD_LAYER_write_pending := snd;
     Renegotiation.SSL_in_init :=
       fun st => match st with Established => 0 | _ => 1 end;
     Renegotiation.ossl_statem_set_renegotiate := fun _ => Renegotiating |}.

(** An established connection asked to renegotiate, nothing pending. *)
Definition reneg_ready : Renegotiation.SSL statem (Z * Z) :=
  Renegotiation.mkSSL (Some 1%N) Established (0, 0) 1 4 2.

(** The same with unread data pending in the record layer. *)
Definition reneg_pending : Renegotiation.SSL statem (Z * Z) :=
  Renegotiation.mkSSL (Some 1%N) Established (5, 0) 1 4 2.

(** A transport on which nothing can be written or read at the moment: an
    alert handed to the record layer stays queued, a read finds no record. *)
Definition blocked_env : Shutdown.Env unit :=
  {| Shutdown.SSL_SENT_SHUTDOWN := 1;
     Shutdown.SSL_RECEIVED_SHUTDOWN := 2;
     Shutdown.SSL3_AL_WARNING := 1;
     Shutdown.SSL_AD_CLOSE_NOTIFY := 0;
     Shutdown.SSL_in_before := fun _ => 0;
     Shutdown.ssl3_send_alert := fun s _ _ =>
       (-1, Shutdown.mkSSL (Shutdown.quiet_shutdown s) (Shutdown.shutdown s) 1 tt);
     Shutdown.ssl_dispatch_alert := fun s => (-1, s);
     Shutdown.ssl_read_bytes := fun s => (-1, s) |}.

(** Shutdown not yet begun. *)
Definition shutdown_idle : Shutdown.SSL unit := Shutdown.mkSSL 0 0 0 tt.

(** Our close-notify written, the peer's awaited. *)
Definition shutdown_sent : Shutdown.SSL unit := Shutdown.mkSSL 0 1 0 tt.

(** A generator that succeeds and counts upwards from 0xA0, a clock, and
    the two mode bits. *)
Definition random_env : HelloRandom.Env :=
  {| HelloRandom.SSL_MODE_SEND_SERVERHELLO_TIME := 0x40;
     HelloRandom.SSL_MODE_SEND_CLIENTHELLO_TIME := 0x20;
     HelloRandom.time := 0x65432100;
     HelloRandom.rand_ret := 1;
     HelloRandom.rand_byte := fun i => 0xA0 + Z.of_nat i |}.

(** The default build, ticket key arrays of 16, 32 and 32 bytes, and a
    group table that knows the groups 23 to 25 and 29 and shows them by
    1000 + id. *)
Definition dispatch_env : Dispatch.Env :=
  {| Dispatch.OPENSSL_NO_DEPRECATED_3_0 := false;
     Dispatch.OPENSSL_NO_SRP := false;
     Dispatch.sizeof_tick_key_name := 16;
     Dispatch.sizeof_tick_hmac_key := 32;
     Dispatch.sizeof_tick_aes_key := 32;
     Dispatch.SSL_kSRP := 0x20;
     Dispatch.TLSEXT_nid_unknown := 0x1000000;
     Dispatch.SSL_IS_TLS13 := fun _ => 0;
     Dispatch.tls1_group_id_lookup :=
       fun g => if (23 <=? g) && (g <=? 25) || (g =? 29) then Some g else None;
     Dispatch.tls1_group_id2nid := fun g _ => 1000 + g |}.

(** A connection on which no handshake has begun: there is no session. *)
Definition fresh_ssl : Dispatch.SSL :=
  Dispatch.mkSSL (Dispatch.mkCERT None 0) None 0 0 0 0 0 0 [] None None.

(** A context whose ticket keys are all zero. *)
Definition fresh_ctx : Dispatch.SSL_CTX :=
  Dispatch.mkSSL_CTX (Dispatch.mkCERT None 0)
                     (repeat 0 16) (repeat 0 32) (repeat 0 32)
                     0 None None None 0 0 None None None None.

(** Eighty bytes 1, 2, ..., 80. *)
Definition ticket_blob : list byte := map Z.of_nat (seq 1 80).

(** Key-exchange masks with PSK alone on bit 3 and three further PSK
    kinds, an allocator that never fails, and a KDF that returns its input
    reversed. *)
Definition secret_env : MasterSecret.Env :=
  {| MasterSecret.OPENSSL_NO_PSK := false;
     MasterSecret.SSL_PSK := 0x1c8;
     MasterSecret.SSL_kPSK := 0x8;
     MasterSecret.OPENSSL_malloc := fun _ => true;
     MasterSecret.generate_master_secret := fun _ p _ => Some (rev p) |}.

Definition cipher_with_kex (k : Z) : SSL_CIPHER :=
  mkSSL_CIPHER 1 None None 0 k 0 0 0 0 0 0 0 0 0 0 0.

(** A server that has negotiated a plain PSK suite and holds a 3-byte
    PSK. *)
Definition psk_server : MasterSecret.SSL :=
  MasterSecret.mkSSL 1
    (Some {| MasterSecret.master_key := []; MasterSecret.master_key_length := 0 |})
    (Some (cipher_with_kex 0x8)) None 0 (Some [0xC1; 0xC2; 0xC3]) 3.

(** The same with a DHE_PSK suite. *)
Definition dhe_psk_server : MasterSecret.SSL :=
  MasterSecret.mkSSL 1
    (Some {| MasterSecret.master_key := []; MasterSecret.master_key_length := 0 |})
    (Some (cipher_with_kex 0x100)) None 0 (Some [0xC1; 0xC2; 0xC3]) 3.

(** An environment for servers of TLS 1.2 and TLS 1.3 that hold no
    certificate: every group and every cipher is acceptable to the
    security policy, the masks are those found in the connection, and a
    digest is known by the low byte of algorithm2 (4 for SHA-256, 5 for
    SHA-384). *)
Definition choose_env : Negotiation.Env unit string :=
  {| Negotiation.OPENSSL_NO_PSK := false;
     Negotiation.OPENSSL_NO_SRP := false;
     Negotiation.SSL_OP_CIPHER_SERVER_PREFERENCE := 0x400000;
     Negotiation.SSL_OP_PRIORITIZE_CHACHA := 0x200000;
     Negotiation.SSL_CHACHA20POLY1305 := 0x80000;
     Negotiation.SSL_kSRP := 0x20;
     Negotiation.SSL_aSRP := 0x40;
     Negotiation.SSL_PSK := 0x1c8;
     Negotiation.SSL_kECDHE := 0x4;
     Negotiation.SSL_aECDSA := 0x8;
     Negotiation.SSL_PKEY_NUM := 9;
     Negotiation.SSL_SECOP_CIPHER_SHARED := 0x10002;
     Negotiation.OSSL_DIGEST_NAME_SHA2_256 := "SHA2-256";
     Negotiation.tls1_suiteb := fun _ => 0;
     Negotiation.SSL_IS_TLS13 :=
       fun s => if Negotiation.version s =? 0x304 then 1 else 0;
     Negotiation.SSL_IS_DTLS := fun _ => 0;
     Negotiation.DTLS_VERSION_LT := fun a b => if a >? b then 1 else 0;
     Negotiation.DTLS_VERSION_GT := fun a b => if a <? b then 1 else 0;
     Negotiation.ssl_has_cert := fun _ _ => 0;
     Negotiation.tls1_set_cert_validity := fun s => s;
     Negotiation.ssl_set_masks := fun s => s;
     Negotiation.tls1_check_ec_tmp_key := fun _ _ => 1;
     Negotiation.ssl_security := fun _ _ _ _ _ => 1;
     Negotiation.ssl_md :=
       fun _ alg2 =>
         if Z.land alg2 0xff =? 4 then Some "SHA2-256"%string
         else if Z.land alg2 0xff =? 5 then Some "SHA2-384"%string
         else None;
     Negotiation.EVP_MD_is_a := fun md n => if String.eqb md n then 1 else 0;
     Negotiation.sk_SSL_CIPHER_new_reserve := fun _ => true |}.

(** Four suites: ECDHE-ECDSA and RSA with AES-128-GCM for TLS 1.2, and
    the SHA-384 and SHA-256 suites of TLS 1.3. *)
Definition ECDHE_ECDSA_AES128_GCM_SHA256 : SSL_CIPHER :=
  mkSSL_CIPHER 1 (Some "ECDHE-ECDSA-AES128-GCM-SHA256"%string) None 0x0300C02B
               0x4 0x8 0x1000 0x40 0x303 0x303 0xFEFD 0xFEFD 0x4 0x404 128 128.
Definition AES128_GCM_SHA256 : SSL_CIPHER :=
  mkSSL_CIPHER 1 (Some "AES128-GCM-SHA256"%string) None 0x0300009C
               0x1 0x1 0x1000 0x40 0x303 0x303 0xFEFD 0xFEFD 0x4 0x404 128 128.
Definition TLS_AES_256_GCM_SHA384 : SSL_CIPHER :=
  mkSSL_CIPHER 1 (Some "TLS_AES_256_GCM_SHA384"%string) None 0x03001302
               0 0 0x2000 0x40 0x304 0x304 0 0 0x4 0x5 256 256.
Definition TLS_AES_128_GCM_SHA256 : SSL_CIPHER :=
  mkSSL_CIPHER 1 (Some "TLS_AES_128_GCM_SHA256"%string) None 0x03001301
               0 0 0x1000 0x40 0x304 0x304 0 0 0x4 0x4 128 128.

(** A TLS 1.2 server, client order, able to do RSA and ECDHE-ECDSA. *)
Definition tls12_server : Negotiation.SSL unit :=
  Negotiation.mkSSL 0x303 0 0x5 0x9 0 0 None tt.

(** The same, its peer taken for the client with the broken ECDSA
    support. *)
Definition tls12_server_safari : Negotiation.SSL unit :=
  Negotiation.mkSSL 0x303 0 0x5 0x9 1 0 None tt.

(** A TLS 1.3 server, client order, with a PSK callback and no
    certificate. *)
Definition tls13_psk_server : Negotiation.SSL unit :=
  Negotiation.mkSSL 0x304 0 0 0 0 0 (Some 9%N) tt.

End Sample.

(** ** Further sample environments *)
Module Fixtures.

(** A search by id that walks the table. *)
Definition bsearch : Lookup.bsearch_t :=
  fun key tbl => find (fun c => id c =? key) tbl.

(** A packet writer that is the list of bytes written so far, with room
    for 64 bytes. *)
Definition room (pkt data : list byte) : option (list byte) :=
  if (List.length pkt + List.length data <=? 64)%nat then Some (pkt ++ data) else None.

Definition writer : Lookup.Writer (list byte) :=
  {| Lookup.WPACKET_put_bytes_u8 := fun pkt v => room pkt [v mod 256];
     Lookup.WPACKET_put_bytes_u16 := fun pkt v => room pkt [(v / 256) mod 256; v mod 256];
     Lookup.WPACKET_memcpy := fun pkt src => room pkt src;
     Lookup.written := fun pkt => pkt |}.

(** The catalog of the sample environment, sorted. *)
Definition tables : Catalog.Tables :=
  Catalog.ssl_sort_cipher_list Sample.qsort
    (Catalog.initial_tables Sample.headers Sample.config).

(** Another sort: the same insertion sort run over the array backwards;
    it orders entries that compare equal the other way round. *)
Definition qsort_backwards : Catalog.qsort_t :=
  fun A cmp l => Sample.isort cmp (rev l).

(** The first entry of the sorted TLS 1.3 table. *)
Definition first_suite : SSL_CIPHER :=
  nth 0 (Catalog.tls13_ciphers tables) Sample.TLS_AES_128_GCM_SHA256.

Definition SSL3_CK_CIPHERSUITE_FLAG : Z := 0x03000000.

(** A ChaCha20 suite for TLS 1.2, and a server that follows its own order
    and puts ChaCha20 first for a client that does. *)
Definition ECDHE_ECDSA_CHACHA20_POLY1305 : SSL_CIPHER :=
  mkSSL_CIPHER 1 (Some "ECDHE-ECDSA-CHACHA20-POLY1305"%string) None 0x0300CCA9
               0x4 0x8 0x80000 0x40 0x303 0x303 0xFEFD 0xFEFD 0x4 0x404 256 256.

Definition tls12_server_chacha : Negotiation.SSL unit :=
  Negotiation.mkSSL 0x303 0x600000 0x5 0x9 0 0 None tt.

(** A transport that is open both ways: an alert is written at once, and
    the peer's close-notify is there to be read. *)
Definition open_env : Shutdown.Env unit :=
  {| Shutdown.SSL_SENT_SHUTDOWN := 1;
     Shutdown.SSL_RECEIVED_SHUTDOWN := 2;
     Shutdown.SSL3_AL_WARNING := 1;
     Shutdown.SSL_AD_CLOSE_NOTIFY := 0;
     Shutdown.SSL_in_before := fun _ => 0;
     Shutdown.ssl3_send_alert := fun s _ _ =>
       (1, Shutdown.mkSSL (Shutdown.quiet_shutdown s) (Shutdown.shutdown s) 0 tt);
     Shutdown.ssl_dispatch_alert := fun s =>
       (1, Shutdown.mkSSL (Shutdown.quiet_shutdown s) (Shutdown.shutdown s) 0 tt);
     Shutdown.ssl_read_bytes := fun s =>
       (0, Shutdown.mkSSL (Shutdown.quiet_shutdown s)
             (Z.lor (Shutdown.shutdown s) 2) (Shutdown.alert_dispatch s) tt) |}.

(** Closed both ways. *)
Definition shutdown_done : Shutdown.SSL unit := Shutdown.mkSSL 0 3 0 tt.

(** A generator that fails. *)
Definition dry_env : HelloRandom.Env :=
  {| HelloRandom.SSL_MODE_SEND_SERVERHELLO_TIME := 0x40;
     HelloRandom.SSL_MODE_SEND_CLIENTHELLO_TIME := 0x20;
     HelloRandom.time := 0x65432100;
     HelloRandom.rand_ret := 0;
     HelloRandom.rand_byte := fun _ => 0 |}.



(** Codes for the certificate types and bits for the key exchange and
    authentication masks, no signature algorithm disabled, and an
    allocator that serves. *)
Definition types_env : CertTypes.Env :=
  {| CertTypes.OPENSSL_NO_GOST := false;
     CertTypes.SSL3_VERSION := 0x300;
     CertTypes.TLS1_VERSION := 0x301;
     CertTypes.TLS1_2_VERSION := 0x303;
     CertTypes.SSL_kGOST := 0x10;
     CertTypes.SSL_kGOST18 := 0x200;
     CertTypes.SSL_kBDHE := 0x400;
     CertTypes.SSL_kBDHTPSK := 0x800;
     CertTypes.SSL_kDHE := 0x2;
     CertTypes.SSL_aDSS := 0x2;
     CertTypes.SSL_aRSA := 0x1;
     CertTypes.SSL_aECDSA := 0x8;
     CertTypes.TLS_CT_GOST01_SIGN := 22;
     CertTypes.TLS_CT_GOST12_IANA_SIGN := 67;
     CertTypes.TLS_CT_GOST12_IANA_512_SIGN := 68;
     CertTypes.TLS_CT_GOST12_LEGACY_SIGN := 238;
     CertTypes.TLS_CT_GOST12_LEGACY_512_SIGN := 239;
     CertTypes.TLS_CT_BIGN_SIGN := 231;
     CertTypes.SSL3_CT_RSA_EPHEMERAL_DH := 5;
     CertTypes.SSL3_CT_DSS_EPHEMERAL_DH := 6;
     CertTypes.SSL3_CT_RSA_SIGN := 1;
     CertTypes.SSL3_CT_DSS_SIGN := 2;
     CertTypes.TLS_CT_ECDSA_SIGN := 64;
     CertTypes.SSL_SECOP_SIGALG_MASK := 0x5000c;
     CertTypes.ssl_set_sig_mask := fun before _ _ => before;
     CertTypes.OPENSSL_memdup := fun _ => true |}.

(** A TLS 1.2 server that has negotiated a BIGN key exchange and has no
    custom list, and one that has negotiated nothing yet. *)
Definition bign_server : CertTypes.SSL :=
  CertTypes.mkSSL (CertTypes.mkCERT None 0) 0x303 (Some (Sample.cipher_with_kex 0x400)).

Definition early_server : CertTypes.SSL :=
  CertTypes.mkSSL (CertTypes.mkCERT None 0) 0x303 None.

(** A TLS 1.2 server that has negotiated an RSA key exchange. *)
Definition rsa_server : CertTypes.SSL :=
  CertTypes.mkSSL (CertTypes.mkCERT None 0) 0x303 (Some (Sample.cipher_with_kex 0x1)).

(** The group table of the sample with names, and its inverse. *)
Definition names_env : GroupNames.Env :=
  {| GroupNames.base := Sample.dispatch_env;
     GroupNames.tls1_nid2group_id := fun nid => nid - 1000;
     GroupNames.tlsname := fun g =>
       if g =? 23 then "secp256r1"%string
       else if g =? 24 then "secp384r1"%string
       else if g =? 25 then "secp521r1"%string
       else "x25519"%string |}.

(** A connection with a session whose peer listed the groups 29, 23 and
    one the library does not know. *)
Definition listed_ssl : Dispatch.SSL :=
  Dispatch.mkSSL (Dispatch.mkCERT None 0) (Some {| Dispatch.kex_group := 29 |})
                 0 0 0 0 0 0 [29; 23; 0x6A6A] None None.

(** Digest and PRF codes: 9 and 0x900 for the default pair, 4 and 0x400
    for SHA-256, 5 and 0x500 for SHA-384. *)
Definition algorithm2_env : Algorithm2.Env :=
  {| Algorithm2.SSL_ENC_FLAG_SHA256_PRF := 0x4;
     Algorithm2.SSL_PSK := 0x1c8;
     Algorithm2.SSL_HANDSHAKE_MAC_DEFAULT := 9;
     Algorithm2.SSL_HANDSHAKE_MAC_SHA256 := 4;
     Algorithm2.SSL_HANDSHAKE_MAC_SHA384 := 5;
     Algorithm2.TLS1_PRF := 0x900;
     Algorithm2.TLS1_PRF_SHA256 := 0x400;
     Algorithm2.TLS1_PRF_SHA384 := 0x500 |}.

(** A method with the SHA-256 PRF flag and a suite that names the default
    pair, 0x909. *)
Definition tls12_default_suite : Algorithm2.SSL :=
  Algorithm2.mkSSL (Some (mkSSL_CIPHER 1 None None 0x0300002F
                            0x1 0x1 0x40 0x2 0x300 0x303 0 0 0 0x909 128 128)) 0x17.


End Fixtures.

(** * Properties *)

(** ** Buffers *)
Module BufferFacts.

(** Reading and writing a segment of an object laid out as three parts. *)
Lemma read_segment (pre seg post : list byte) (off n : Z) :
  Z.of_nat (List.length pre) = off -> Z.of_nat (List.length seg) = n ->
  read (pre ++ seg ++ post) off n = Ok seg.
Proof.
  intros P S. unfold read.
  assert (C : (0 <=? off) && (0 <=? n)
              && (off + n <=? Z.of_nat (List.length (pre ++ seg ++ post))) = true).
  { rewrite !length_app. rewrite !andb_true_iff, !Z.leb_le. lia. }
  rewrite C. f_equal.
  rewrite skipn_app.
  replace (Z.to_nat off) with (List.length pre) by lia.
  rewrite skipn_all, Nat.sub_diag. simpl.
  rewrite firstn_app.
  replace (Z.to_nat n) with (List.length seg) by lia.
  rewrite firstn_all, Nat.sub_diag. simpl. apply app_nil_r.
Qed.

Lemma write_segment (pre old post data : list byte) (off : Z) :
  Z.of_nat (List.length pre) = off -> List.length old = List.length data ->
  write (pre ++ old ++ post) off data = Ok (pre ++ data ++ post).
Proof.
  intros P S. unfold write.
  assert (C : (0 <=? off)
              && (off + Z.of_nat (List.length data)
                  <=? Z.of_nat (List.length (pre ++ old ++ post))) = true).
  { rewrite !length_app. rewrite andb_true_iff, !Z.leb_le. lia. }
  rewrite C. f_equal. unfold store.
  replace (Z.to_nat off) with (List.length pre) by lia.
  rewrite firstn_app, firstn_all, Nat.sub_diag. simpl. rewrite app_nil_r.
  f_equal. f_equal.
  rewrite skipn_app.
  rewrite skipn_all2 by lia.
  replace (List.length pre + List.length data - List.length pre)%nat
    with (List.length old) by lia.
  rewrite skipn_app, skipn_all, Nat.sub_diag. reflexivity.
Qed.

Lemma three_parts (l : list byte) (a b c : Z) :
  0 <= a -> 0 <= b -> 0 <= c -> Z.of_nat (List.length l) = a + b + c ->
  exists x y z, l = x ++ y ++ z /\
    Z.of_nat (List.length x) = a /\ Z.of_nat (List.length y) = b /\
    Z.of_nat (List.length z) = c.
Proof.
  intros A B C L.
  exists (firstn (Z.to_nat a) l),
         (firstn (Z.to_nat b) (skipn (Z.to_nat a) l)),
         (skipn (Z.to_nat b) (skipn (Z.to_nat a) l)).
  rewrite !firstn_skipn. rewrite !length_firstn, !length_skipn.
  repeat split; lia.
Qed.

End BufferFacts.

(** ** The catalog *)
Module CatalogProofs.
Import Catalog.

Lemma cipher_compare_le (a b : SSL_CIPHER) : cipher_compare a b <= 0 <-> id a <= id b.
Proof.
  unfold cipher_compare.
  destruct (id a =? id b) eqn:E; [apply Z.eqb_eq in E; lia|].
  apply Z.eqb_neq in E.
  destruct (id a <? id b) eqn:E'; [apply Z.ltb_lt in E' | apply Z.ltb_ge in E']; lia.
Qed.

Lemma cipher_compare_consistent : consistent cipher_compare.
Proof.
  split.
  - intros a b. unfold cipher_compare.
    rewrite (Z.eqb_sym (id b) (id a)).
    destruct (id a =? id b) eqn:E; [reflexivity|].
    apply Z.eqb_neq in E.
    destruct (id a <? id b) eqn:E1, (id b <? id a) eqn:E2; try reflexivity;
      rewrite ?Z.ltb_lt, ?Z.ltb_ge in *; lia.
  - intros a b c. rewrite !cipher_compare_le. lia.
Qed.

Lemma qsort_id_sorted qsort (l : list SSL_CIPHER) :
  qsort_contract qsort -> StronglySorted id_le (qsort _ cipher_compare l).
Proof.
  intros Q. apply Sorted_StronglySorted.
  - intros a b c. unfold id_le. lia.
  - pose proof (qsort_orders _ Q _ _ l cipher_compare_consistent) as S.
    induction S as [|a r S IH Hd]; constructor; auto.
    destruct Hd as [|b r' Hab]; constructor. now apply cipher_compare_le.
Qed.

Lemma StronglySorted_nth {A} (R : A -> A -> Prop) (l : list A) :
  StronglySorted R l ->
  forall i j a b, (i < j)%nat ->
    nth_error l i = Some a -> nth_error l j = Some b -> R a b.
Proof.
  induction 1 as [|x l S IH F]; intros i j a b Hij Ha Hb.
  - destruct i; discriminate.
  - destruct j as [|j]; [lia|]. simpl in Hb.
    destruct i as [|i]; simpl in Ha.
    + injection Ha as <-. rewrite Forall_forall in F.
      apply F. eapply nth_error_In; eauto.
    + apply (IH i j); auto. lia.
Qed.

Lemma NoDup_ids_unique (l : list SSL_CIPHER) : NoDup (map id l) -> ids_unique l.
Proof.
  intros N i j a b Ha Hb E.
  rewrite NoDup_nth_error in N. apply N.
  - rewrite length_map. apply nth_error_Some. congruence.
  - rewrite !nth_error_map, Ha, Hb. simpl. congruence.
Qed.

Lemma sorted_unique_ascending (l : list SSL_CIPHER) :
  StronglySorted id_le l -> ids_unique l -> ascending_by_id l.
Proof.
  intros St U i a b Ha Hb.
  assert (id a <= id b) by (apply (StronglySorted_nth _ _ St i (S i)); auto).
  assert (id a <> id b) by (intros E; specialize (U _ _ _ _ Ha Hb E); lia).
  lia.
Qed.

Lemma atom_eqb_eq a b : atom_eqb a b = true <-> a = b.
Proof.
  destruct a, b; simpl; try (split; discriminate).
  - rewrite String.eqb_eq. split; congruence.
  - rewrite Z.eqb_eq. split; congruence.
Qed.

Lemma expr_eqb_eq e : forall f, expr_eqb e f = true <-> e = f.
Proof.
  induction e as [|a e IH]; intros [|b f]; simpl; try (split; [discriminate|congruence]).
  - tauto.
  - rewrite andb_true_iff, atom_eqb_eq, IH. split; [intros []|intros [=]]; subst; auto.
Qed.

Lemma distinctb_NoDup es : distinctb es = true -> NoDup es.
Proof.
  induction es as [|e r IH]; simpl; [constructor|].
  rewrite andb_true_iff, negb_true_iff. intros [X D].
  constructor; auto. intros I.
  assert (existsb (expr_eqb e) r = true); [|congruence].
  apply existsb_exists. exists e. split; auto. now apply expr_eqb_eq.
Qed.

Lemma tls13_ids_written_once : NoDup (id_exprs tls13_ciphers_src).
Proof. apply distinctb_NoDup. vm_compute. reflexivity. Qed.

Lemma ssl3_ids_written_once : NoDup (id_exprs ssl3_ciphers_src).
Proof. apply distinctb_NoDup. vm_compute. reflexivity. Qed.

Lemma scsv_ids_written_once : NoDup (id_exprs ssl3_scsvs_src).
Proof. apply distinctb_NoDup. vm_compute. reflexivity. Qed.

Lemma filter_keeps_distinct {K V : Type} (key : V -> K) (keep : V -> bool) :
  forall xs : list V, NoDup (map key xs) -> NoDup (map key (filter keep xs)).
Proof.
  intros xs. induction xs as [|v xs IH]; simpl; auto.
  intros N. inversion_clear N as [|? ? Fresh N'].
  destruct (keep v); simpl; auto.
  constructor; auto. intros I. apply Fresh.
  apply in_map_iff in I as (w & E & I). apply filter_In in I as [I _].
  apply in_map_iff. eauto.
Qed.

Lemma NoDup_map_apart {A B} (g : A -> B) (l : list A) :
  NoDup l ->
  (forall a b, In a l -> In b l -> a <> b -> g a <> g b) ->
  NoDup (map g l).
Proof.
  induction 1 as [|x l X N IH]; simpl; intros G; constructor.
  - intros I. apply in_map_iff in I as (y & E & I).
    apply (G y x); auto. congruence.
  - apply IH. intros a b Ia Ib. apply G; auto.
Qed.

Lemma build_ids_unique H cfg src :
  NoDup (id_exprs src) -> separates H (id_exprs src) ->
  NoDup (map id (build H cfg src)).
Proof.
  intros N S. unfold build.
  rewrite map_map. simpl.
  rewrite <- (map_map i_id (fun e => uint32 (eval H e))).
  apply NoDup_map_apart.
  - now apply filter_keeps_distinct.
  - intros a b Ia Ib. apply S.
    + apply in_map_iff in Ia as (x & <- & I). apply filter_In in I as [I _].
      now apply in_map.
    + apply in_map_iff in Ib as (x & <- & I). apply filter_In in I as [I _].
      now apply in_map.
Qed.

Lemma Permutation_ids_unique (l l' : list SSL_CIPHER) :
  Permutation l l' -> NoDup (map id l) -> NoDup (map id l').
Proof.
  intros P. apply Permutation_NoDup. now apply Permutation_map.
Qed.

Lemma sorted_table qsort H cfg src :
  qsort_contract qsort ->
  NoDup (id_exprs src) -> separates H (id_exprs src) ->
  let l := qsort _ cipher_compare (build H cfg src) in
  StronglySorted id_le l /\ ids_unique l.
Proof.
  intros Q N S l. split.
  - now apply qsort_id_sorted.
  - apply NoDup_ids_unique.
    apply (Permutation_ids_unique (build H cfg src)).
    + apply (qsort_permutes _ Q _ _ _ cipher_compare_consistent).
    + now apply build_ids_unique.
Qed.

(** C8. After [ssl_sort_cipher_list] has run on the tables as initialised,
    each of the three tables is strictly ascending by id over every
    adjacent pair of entries, and no two entries of one table share an id.
    The header is any that tells the id initialisers of a table apart, and
    qsort any that meets the C standard's contract. *)
Theorem sorted_tables_strictly_ascending qsort H cfg :
  qsort_contract qsort -> header_separates_ids H ->
  let t := ssl_sort_cipher_list qsort (initial_tables H cfg) in
  (ascending_by_id (tls13_ciphers t) /\ ids_unique (tls13_ciphers t)) /\
  (ascending_by_id (ssl3_ciphers t) /\ ids_unique (ssl3_ciphers t)) /\
  (ascending_by_id (ssl3_scsvs t) /\ ids_unique (ssl3_scsvs t)).
Proof.
  intros Q (S13 & S3 & Ssc) t.
  destruct (sorted_table qsort H cfg _ Q tls13_ids_written_once S13) as [A1 U1].
  destruct (sorted_table qsort H cfg _ Q ssl3_ids_written_once S3) as [A2 U2].
  destruct (sorted_table qsort H cfg _ Q scsv_ids_written_once Ssc) as [A3 U3].
  repeat split; try assumption; now apply sorted_unique_ascending.
Qed.

(** The sample environment meets what the theorems assume. *)
Section SampleSort.
Context {A : Type} (cmp : A -> A -> Z) (C : consistent cmp).
Let R (a b : A) : Prop := cmp a b <= 0.

Lemma insert_permutes x l : Permutation (x :: l) (Sample.insert cmp x l).
Proof.
  induction l as [|y r IH]; simpl; auto.
  destruct (cmp x y <=? 0); auto.
  rewrite perm_swap. now constructor.
Qed.

Lemma isort_permutes l : Permutation l (Sample.isort cmp l).
Proof.
  induction l as [|x r IH]; simpl; auto.
  rewrite <- insert_permutes. now constructor.
Qed.

Lemma insert_head x y r : HdRel R y r -> R y x -> HdRel R y (Sample.insert cmp x r).
Proof.
  intros Hd Ryx. destruct r as [|z r]; simpl; [now constructor|].
  destruct (cmp x z <=? 0); constructor; auto.
  now inversion Hd.
Qed.

Lemma insert_orders x l : Sorted R l -> Sorted R (Sample.insert cmp x l).
Proof.
  induction 1 as [|y r S IH Hd]; simpl; [repeat constructor|].
  destruct (cmp x y <=? 0) eqn:E.
  - apply Z.leb_le in E. repeat constructor; auto.
  - apply Z.leb_gt in E. constructor; auto.
    apply insert_head; auto.
    unfold R. pose proof (cmp_sgn _ C x y) as G.
    rewrite (Z.sgn_pos (cmp x y)) in G by lia.
    destruct (Z.sgn_spec (cmp y x)) as [[? ?]|[[? ?]|[? ?]]]; lia.
Qed.

Lemma isort_orders l : Sorted R (Sample.isort cmp l).
Proof.
  induction l as [|x r IH]; simpl; [constructor|]. now apply insert_orders.
Qed.
End SampleSort.

Lemma sample_qsort_contract : qsort_contract Sample.qsort.
Proof.
  split; intros A cmp l C.
  - apply isort_permutes.
  - now apply isort_orders.
Qed.

Lemma all_differ_NoDup vs : all_differ vs = true -> NoDup vs.
Proof.
  induction vs as [|v r IH]; simpl; [constructor|].
  rewrite andb_true_iff, negb_true_iff. intros [X D].
  constructor; auto. intros I.
  assert (existsb (Z.eqb v) r = true); [|congruence].
  apply existsb_exists. exists v. split; auto. apply Z.eqb_refl.
Qed.

Lemma NoDup_map_separates H es :
  NoDup (map (fun e => uint32 (eval H e)) es) -> separates H es.
Proof.
  induction es as [|x r IH]; simpl; intros N a b Ia Ib D E; [contradiction|].
  inversion_clear N as [|? ? X N'].
  destruct Ia as [<-|Ia], Ib as [<-|Ib].
  - contradiction.
  - apply X. rewrite E. now apply (in_map (fun e => uint32 (eval H e))).
  - apply X. rewrite <- E. now apply (in_map (fun e => uint32 (eval H e))).
  - now apply (IH N' a b).
Qed.

Lemma sample_headers_separate : header_separates_ids Sample.headers.
Proof.
  repeat split; apply NoDup_map_separates, all_differ_NoDup; vm_compute; reflexivity.
Qed.

(** The statement of C8 holds in the sample environment. *)
Lemma sorted_tables_strictly_ascending_sample :
  let t := ssl_sort_cipher_list Sample.qsort (initial_tables Sample.headers Sample.config) in
  (ascending_by_id (tls13_ciphers t) /\ ids_unique (tls13_ciphers t)) /\
  (ascending_by_id (ssl3_ciphers t) /\ ids_unique (ssl3_ciphers t)) /\
  (ascending_by_id (ssl3_scsvs t) /\ ids_unique (ssl3_scsvs t)).
Proof.
  apply (sorted_tables_strictly_ascending Sample.qsort Sample.headers Sample.config).
  - exact sample_qsort_contract.
  - exact sample_headers_separate.
Defined.







(** In the sample environment the legacy table has 199 entries; index 0 is
    the entry of greatest id and index 198 the entry of least id. *)
Example ssl3_get_cipher_sample_ends :
  let t := ssl_sort_cipher_list Sample.qsort (initial_tables Sample.headers Sample.config) in
  ssl3_num_ciphers t = 199 /\
  option_map id (ssl3_get_cipher t 0) = Some 0x0300ff87 /\
  option_map id (ssl3_get_cipher t 198) = Some 0x03000001 /\
  ssl3_get_cipher t 199 = None.
Proof. vm_compute. repeat split. Qed.

End CatalogProofs.

(** ** Renegotiation *)
Module RenegotiationProofs.
Import Renegotiation.

Lemma int32_in_range z : INT_MIN <= z <= INT_MAX -> int32 z = z.
Proof.
  unfold int32, INT_MIN, INT_MAX. intros R.
  rewrite Z.mod_small; lia.
Qed.

Section Facts.
Context {STATEM RLAYER : Type} (E : Env STATEM RLAYER).

Lemma truth_true z : z <> 0 -> truth z = true.
Proof. unfold truth. intros D. now apply negb_true_iff, Z.eqb_neq. Qed.

Lemma truth_false z : z = 0 -> truth z = false.
Proof. intros ->. reflexivity. Qed.

(** C6. With the flag set, the record layer reporting neither a pending
    read nor a pending write, and the caller being the state machine or
    the connection not in init, [ssl3_renegotiate_check] puts the state
    machine into renegotiation, clears the flag, adds exactly one to
    each of the two counters and returns 1; in every other case it
    returns 0 and leaves the connection as it was.  The counters are C
    ints; the increment is the mathematical one below INT_MAX. *)
Theorem ssl3_renegotiate_check_gate (s : SSL STATEM RLAYER) (initok : Z) :
  INT_MIN <= num_renegotiations s <= INT_MAX ->
  INT_MIN <= total_renegotiations s <= INT_MAX ->
  (renegotiate s <> 0 ->
   RECORD_LAYER_read_pending E (rlayer s) = 0 ->
   RECORD_LAYER_write_pending E (rlayer s) = 0 ->
   initok <> 0 \/ SSL_in_init E (statem s) = 0 ->
   num_renegotiations s < INT_MAX ->
   total_renegotiations s < INT_MAX ->
   ssl3_renegotiate_check E s initok =
     (1, mkSSL (handshake_func s)
               (ossl_statem_set_renegotiate E (statem s))
               (rlayer s)
               0
               (total_renegotiations s + 1)
               (num_renegotiations s + 1)))
  /\
  (renegotiate s = 0 \/
   RECORD_LAYER_read_pending E (rlayer s) <> 0 \/
   RECORD_LAYER_write_pending E (rlayer s) <> 0 \/
   (initok = 0 /\ SSL_in_init E (statem s) <> 0) ->
   ssl3_renegotiate_check E s initok = (0, s)).
Proof.
  intros Rn Rt. unfold ssl3_renegotiate_check. split.
  - intros F Hr Hw Hi Ln Lt.
    rewrite (truth_true _ F), (truth_false _ Hr), (truth_false _ Hw). simpl.
    assert (G : truth initok || negb (truth (SSL_in_init E (statem s))) = true).
    { destruct Hi as [Hi|Hi].
      - now rewrite (truth_true _ Hi).
      - rewrite (truth_false _ Hi). apply orb_true_r. }
    rewrite G.
    rewrite !int32_in_range by (unfold INT_MIN, INT_MAX in *; lia).
    reflexivity.
  - intros [F|[Hr|[Hw|[Hi Hn]]]].
    + now rewrite (truth_false _ F).
    + rewrite (truth_true _ Hr). simpl. now destruct (truth (renegotiate s)).
    + rewrite (truth_true _ Hw). simpl. rewrite andb_false_r.
      now destruct (truth (renegotiate s)).
    + rewrite (truth_false _ Hi), (truth_true _ Hn). simpl. rewrite andb_false_r.
      now destruct (truth (renegotiate s)).
Qed.
End Facts.

(** The statement of C6 on the sample connections: the ready one is taken into
    renegotiation with both counters one higher, the one with unread data
    is left alone. *)
Lemma ssl3_renegotiate_check_gate_sample :
  ssl3_renegotiate_check Sample.reneg_env Sample.reneg_ready 0 =
    (1, mkSSL (Some 1%N) Sample.Renegotiating (0, 0) 0 5 3) /\
  ssl3_renegotiate_check Sample.reneg_env Sample.reneg_pending 0 =
    (0, Sample.reneg_pending).
Proof.
  split.
  - apply (ssl3_renegotiate_check_gate Sample.reneg_env Sample.reneg_ready 0);
      simpl; unfold INT_MIN, INT_MAX; lia.
  - apply (ssl3_renegotiate_check_gate Sample.reneg_env Sample.reneg_pending 0);
      simpl; unfold INT_MIN, INT_MAX; lia.
Defined.

End RenegotiationProofs.

(** ** Shutdown *)
Module ShutdownProofs.
Import Shutdown.

Section Facts.
Context {X : Type} (E : Env X).

Lemma truth_iff z : truth z = true <-> z <> 0.
Proof. unfold truth. rewrite negb_true_iff, Z.eqb_neq. tauto. Qed.

Lemma truth_zero z : truth z = false <-> z = 0.
Proof. unfold truth. rewrite negb_false_iff, Z.eqb_eq. tauto. Qed.

Lemma finished_result (s : SSL X) : fst (finished E s) = 1 \/ fst (finished E s) = 0.
Proof. unfold finished. destruct (_ && _); simpl; auto. Qed.

(** Every result of ssl3_shutdown is 1, 0 or -1. *)
Lemma ssl3_shutdown_results (s : SSL X) :
  fst (ssl3_shutdown E s) = 1 \/ fst (ssl3_shutdown E s) = 0 \/
  fst (ssl3_shutdown E s) = -1.
Proof.
  unfold ssl3_shutdown.
  destruct (truth (quiet_shutdown s) || truth (SSL_in_before E s)); simpl; auto.
  destruct (truth (Z.land (shutdown s) (SSL_SENT_SHUTDOWN E))); simpl.
  - destruct (truth (alert_dispatch s)).
    + destruct (ssl_dispatch_alert E s) as [ret s1].
      destruct (ret =? -1) eqn:R; simpl.
      * apply Z.eqb_eq in R. auto.
      * destruct (finished_result s1); auto.
    + destruct (truth (Z.land (shutdown s) (SSL_RECEIVED_SHUTDOWN E))); simpl.
      * destruct (finished_result s); auto.
      * destruct (truth (Z.land (shutdown (snd (ssl_read_bytes E s))) _)); simpl; auto.
        destruct (finished_result (snd (ssl_read_bytes E s))); auto.
  - destruct (truth (alert_dispatch _)); simpl; auto.
    match goal with |- context [finished E ?t] => destruct (finished_result t); auto end.
Qed.

(** C5, as the code has it.  Outside quiet shutdown and past the initial
    state, ssl3_shutdown returns -1 when the close-notify it has just
    queued is still to be written, -1 when a queued alert is again not
    written, and -1 when the peer's close-notify is still missing after
    the zero-length read: one and the same value, different from the
    results 1 and 0, so the result alone does not tell the direction. *)
Theorem ssl3_shutdown_would_block_alike (s : SSL X) :
  quiet_shutdown s = 0 -> SSL_in_before E s = 0 ->
  (Z.land (shutdown s) (SSL_SENT_SHUTDOWN E) = 0 ->
   alert_dispatch
     (snd (ssl3_send_alert E
             (set_shutdown (Z.lor (shutdown s) (SSL_SENT_SHUTDOWN E)) s)
             (SSL3_AL_WARNING E) (SSL_AD_CLOSE_NOTIFY E))) <> 0 ->
   fst (ssl3_shutdown E s) = -1)
  /\
  (Z.land (shutdown s) (SSL_SENT_SHUTDOWN E) <> 0 ->
   alert_dispatch s <> 0 ->
   fst (ssl_dispatch_alert E s) = -1 ->
   fst (ssl3_shutdown E s) = -1)
  /\
  (Z.land (shutdown s) (SSL_SENT_SHUTDOWN E) <> 0 ->
   alert_dispatch s = 0 ->
   Z.land (shutdown s) (SSL_RECEIVED_SHUTDOWN E) = 0 ->
   Z.land (shutdown (snd (ssl_read_bytes E s))) (SSL_RECEIVED_SHUTDOWN E) = 0 ->
   fst (ssl3_shutdown E s) = -1).
Proof.
  intros Q B. unfold ssl3_shutdown.
  apply truth_zero in Q, B. rewrite Q, B. simpl.
  repeat split.
  - intros S A. apply truth_zero in S. apply truth_iff in A.
    rewrite S. simpl. now rewrite A.
  - intros S A D. apply truth_iff in S, A. rewrite S, A. simpl.
    destruct (ssl_dispatch_alert E s) as [ret s1]. simpl in D. subst ret.
    reflexivity.
  - intros S A R R'. apply truth_iff in S. apply truth_zero in A, R, R'.
    rewrite S, A, R. simpl. now rewrite R'.
Qed.
End Facts.

(** C5 as stated fails.  On a transport that is blocked both ways, the
    call that leaves the close-notify queued (the caller is to wait for
    writing) and the call that finds the peer's close-notify still missing
    (the caller is to wait for reading) return the same result. *)
Lemma ssl3_shutdown_indicators_coincide :
  (* the first call: the alert sent is still queued *)
  alert_dispatch (snd (ssl3_shutdown Sample.blocked_env Sample.shutdown_idle)) <> 0 /\
  (* the second: nothing queued, peer's close-notify not seen *)
  alert_dispatch (snd (ssl3_shutdown Sample.blocked_env Sample.shutdown_sent)) = 0 /\
  Z.land (shutdown (snd (ssl3_shutdown Sample.blocked_env Sample.shutdown_sent)))
         (SSL_RECEIVED_SHUTDOWN Sample.blocked_env) = 0 /\
  fst (ssl3_shutdown Sample.blocked_env Sample.shutdown_idle) =
  fst (ssl3_shutdown Sample.blocked_env Sample.shutdown_sent).
Proof. vm_compute. repeat split; discriminate. Qed.

(** The amended C5 on the same two connections. *)
Lemma ssl3_shutdown_would_block_alike_sample :
  fst (ssl3_shutdown Sample.blocked_env Sample.shutdown_idle) = -1 /\
  fst (ssl3_shutdown Sample.blocked_env Sample.shutdown_sent) = -1.
Proof.
  split.
  - destruct (ssl3_shutdown_would_block_alike Sample.blocked_env Sample.shutdown_idle
                eq_refl eq_refl) as (Queued & _ & _).
    apply Queued; vm_compute; [reflexivity | discriminate].
  - destruct (ssl3_shutdown_would_block_alike Sample.blocked_env Sample.shutdown_sent
                eq_refl eq_refl) as (_ & _ & Awaited).
    apply Awaited; vm_compute; try reflexivity. discriminate.
Defined.

End ShutdownProofs.

(** ** Hello randoms *)
Module HelloRandomProofs.
Import HelloRandom.

Lemma store_to_end (buf data : list byte) (off : Z) :
  0 <= off -> off + sizeof data = sizeof buf ->
  store buf off data = firstn (Z.to_nat off) buf ++ data.
Proof.
  unfold store, sizeof. intros P L.
  rewrite skipn_all2 by lia. now rewrite app_nil_r.
Qed.

Lemma store_all (buf data : list byte) :
  sizeof data = sizeof buf -> store buf 0 data = data.
Proof.
  intros L. rewrite store_to_end by lia. reflexivity.
Qed.

Lemma store_front (buf data : list byte) :
  store buf 0 data = data ++ skipn (List.length data) buf.
Proof. reflexivity. Qed.

Section Facts.
Variable E : Env.

Lemma sizeof_drawn n : 0 <= n -> sizeof (drawn E n) = n.
Proof. intros P. unfold sizeof, drawn. rewrite length_map, length_seq. lia. Qed.

Lemma sizeof_app (a b : list byte) : sizeof (a ++ b) = sizeof a + sizeof b.
Proof. unfold sizeof. rewrite length_app. lia. Qed.

Lemma sizeof_fill s server len : 4 <= len -> sizeof (fill E s server len) = len.
Proof.
  intros L. unfold fill. destruct (if truth server then _ else _).
  - rewrite sizeof_app, sizeof_drawn by lia.
    change (sizeof (l2n (time E))) with 4. lia.
  - apply sizeof_drawn. lia.
Qed.

Lemma sentinel_at_end (filled sentinel : list byte) (len : Z) :
  sizeof filled = len -> sizeof sentinel = 8 -> 8 < len ->
  let out := store filled (len - 8) sentinel in
  sizeof out = len /\
  firstn (Z.to_nat (len - 8)) out = firstn (Z.to_nat (len - 8)) filled /\
  skipn (Z.to_nat (len - 8)) out = sentinel.
Proof.
  intros F S L out. subst out. rewrite store_to_end by lia.
  assert (N : List.length (firstn (Z.to_nat (len - 8)) filled) = Z.to_nat (len - 8)).
  { rewrite length_firstn. unfold sizeof in F. lia. }
  repeat split.
  - rewrite sizeof_app. unfold sizeof at 1. rewrite N. lia.
  - rewrite firstn_app, N, Nat.sub_diag. simpl. rewrite app_nil_r.
    rewrite firstn_all2; auto. lia.
  - rewrite skipn_app, N, Nat.sub_diag. simpl.
    rewrite skipn_all2; auto. lia.
Qed.

(** C4.  [ssl_fill_hello_random] returns 0 for every length below 4.  On a
    successful fill E of a buffer longer than 8 bytes the last 8 bytes are
    44 4F 57 4E 47 52 44 01 for DOWNGRADE_TO_1_2 and
    44 4F 57 4E 47 52 44 00 for DOWNGRADE_TO_1_1, and for DOWNGRADE_NONE
    they are the filled bytes themselves: no sentinel is written.  The
    bytes before the last 8 are the fill E in all three cases. *)
Theorem ssl_fill_hello_random_sentinels
        (s : SSL) (server : Z) (result : list byte) (len : Z) (dgrd : DOWNGRADE) :
  (len < 4 -> ssl_fill_hello_random E s server result len dgrd = (0, result))
  /\
  (sizeof result = len -> 8 < len -> 0 < rand_ret E ->
   exists out,
     ssl_fill_hello_random E s server result len dgrd = (rand_ret E, out) /\
     sizeof out = len /\
     firstn (Z.to_nat (len - 8)) out = firstn (Z.to_nat (len - 8)) (fill E s server len) /\
     skipn (Z.to_nat (len - 8)) out =
       match dgrd with
       | DOWNGRADE_TO_1_2 => [0x44; 0x4f; 0x57; 0x4e; 0x47; 0x52; 0x44; 0x01]
       | DOWNGRADE_TO_1_1 => [0x44; 0x4f; 0x57; 0x4e; 0x47; 0x52; 0x44; 0x00]
       | DOWNGRADE_NONE => skipn (Z.to_nat (len - 8)) (fill E s server len)
       end).
Proof.
  split.
  - intros L. unfold ssl_fill_hello_random.
    apply Z.ltb_lt in L. now rewrite L.
  - intros B L R. unfold ssl_fill_hello_random.
    assert (L4 : (len <? 4) = false) by (apply Z.ltb_ge; lia). rewrite L4.
    assert (F : (if (if truth server
                     then truth (Z.land (mode s) (SSL_MODE_SEND_SERVERHELLO_TIME E))
                     else truth (Z.land (mode s) (SSL_MODE_SEND_CLIENTHELLO_TIME E)))
                 then RAND_bytes_ex E (store result 0 (l2n (time E))) 4 (len - 4)
                 else RAND_bytes_ex E result 0 len)
                = (rand_ret E, fill E s server len)).
    { unfold fill, RAND_bytes_ex. fold (drawn E (len - 4)). fold (drawn E len).
      destruct (if truth server then _ else _); f_equal.
      - rewrite store_to_end.
        + reflexivity.
        + lia.
        + rewrite sizeof_drawn by lia. rewrite store_front, sizeof_app.
          unfold sizeof in *. rewrite length_skipn.
          change (List.length (l2n (time E))) with 4%nat. lia.
      - apply store_all. rewrite sizeof_drawn; lia. }
    rewrite F.
    assert (G : (rand_ret E >? 0) = true) by (apply Z.gtb_lt; lia). rewrite G.
    assert (A : (sizeof tls11downgrade <? len) = true) by (apply Z.ltb_lt; exact L).
    assert (A' : (sizeof tls12downgrade <? len) = true) by (apply Z.ltb_lt; exact L).
    rewrite A, A'. simpl negb. simpl orb. cbv iota.
    pose proof (sizeof_fill s server len ltac:(lia)) as SF.
    destruct dgrd.
    + exists (fill E s server len). auto.
    + destruct (sentinel_at_end (fill E s server len) tls12downgrade len SF eq_refl L)
        as (O1 & O2 & O3).
      eexists. split; [reflexivity|]. change (sizeof tls12downgrade) with 8. auto.
    + destruct (sentinel_at_end (fill E s server len) tls11downgrade len SF eq_refl L)
        as (O1 & O2 & O3).
      eexists. split; [reflexivity|]. change (sizeof tls11downgrade) with 8. auto.
Qed.
End Facts.

(** A server random of 32 bytes with the time in front, marked as a
    downgrade to TLS 1.2. *)
Example server_random_downgraded_to_1_2 :
  ssl_fill_hello_random Sample.random_env {| mode := 0x40 |} 1
                        (repeat 0 32) 32 DOWNGRADE_TO_1_2 =
  (1, [0x65; 0x43; 0x21; 0x00;
       0xA0; 0xA1; 0xA2; 0xA3; 0xA4; 0xA5; 0xA6; 0xA7; 0xA8; 0xA9;
       0xAA; 0xAB; 0xAC; 0xAD; 0xAE; 0xAF; 0xB0; 0xB1; 0xB2; 0xB3;
       0x44; 0x4f; 0x57; 0x4e; 0x47; 0x52; 0x44; 0x01]).
Proof. vm_compute. reflexivity. Qed.

(** The statement of C4 on that call and on a call with a 3-byte buffer. *)
Lemma ssl_fill_hello_random_sentinels_sample :
  ssl_fill_hello_random Sample.random_env {| mode := 0x40 |} 1 [0; 0; 0] 3
                        DOWNGRADE_TO_1_2 = (0, [0; 0; 0]) /\
  exists out,
    ssl_fill_hello_random Sample.random_env {| mode := 0x40 |} 1 (repeat 0 32) 32
                          DOWNGRADE_TO_1_2 = (1, out) /\
    sizeof out = 32 /\
    firstn 24 out = firstn 24 (fill Sample.random_env {| mode := 0x40 |} 1 32) /\
    skipn 24 out = [0x44; 0x4f; 0x57; 0x4e; 0x47; 0x52; 0x44; 0x01].
Proof.
  split.
  - apply (ssl_fill_hello_random_sentinels Sample.random_env {| mode := 0x40 |} 1
             [0; 0; 0] 3 DOWNGRADE_TO_1_2). lia.
  - apply (ssl_fill_hello_random_sentinels Sample.random_env {| mode := 0x40 |} 1
             (repeat 0 32) 32 DOWNGRADE_TO_1_2); [reflexivity | lia | simpl; lia].
Defined.

End HelloRandomProofs.

(** ** The control dispatchers *)
Module DispatchProofs.
Import Dispatch BufferFacts.

Section Facts.
Variable E : Env.

(** C2, as the code has it.  In a build that keeps the deprecated API,
    registering the temporary-DH callback through [ssl3_callback_ctrl] or
    [ssl3_ctx_callback_ctrl] succeeds: the callback is stored in the
    certificate object, the call returns 1 and raises no error.  It is the
    SET_TMP_DH_CB path of the value-based dispatchers [ssl3_ctrl] and
    [ssl3_ctx_ctrl] that is rejected: it returns 0, changes nothing and
    raises "should not have been called". *)
Theorem tmp_dh_callback_registration
        (s : SSL) (ctx : SSL_CTX) (fp : option fn_ptr) (larg : Z) (parg : option pointee) :
  OPENSSL_NO_DEPRECATED_3_0 E = false ->
  (ret (ssl3_callback_ctrl E s SSL_CTRL_SET_TMP_DH_CB fp) = 1 /\
   raised (ssl3_callback_ctrl E s SSL_CTRL_SET_TMP_DH_CB fp) = [] /\
   dh_tmp_cb (cert (after (ssl3_callback_ctrl E s SSL_CTRL_SET_TMP_DH_CB fp))) = fp)
  /\
  (ret (ssl3_ctx_callback_ctrl E ctx SSL_CTRL_SET_TMP_DH_CB fp) = 1 /\
   raised (ssl3_ctx_callback_ctrl E ctx SSL_CTRL_SET_TMP_DH_CB fp) = [] /\
   dh_tmp_cb (ctx_cert (after (ssl3_ctx_callback_ctrl E ctx SSL_CTRL_SET_TMP_DH_CB fp))) = fp)
  /\
  ssl3_ctrl E s SSL_CTRL_SET_TMP_DH_CB larg parg =
    Ok (Outcome 0 s parg [ERR_R_SHOULD_NOT_HAVE_BEEN_CALLED])
  /\
  ssl3_ctx_ctrl E ctx SSL_CTRL_SET_TMP_DH_CB larg parg =
    Ok (Outcome 0 ctx parg [ERR_R_SHOULD_NOT_HAVE_BEEN_CALLED]).
Proof.
  intros D. unfold ssl3_callback_ctrl, ssl3_ctx_callback_ctrl, ssl3_ctrl, ssl3_ctx_ctrl.
  rewrite D. simpl. repeat split.
Qed.

(** C9 against the code.  Without a session, and unless the connection is a
    TLS 1.3 one that has done its key exchange, the case
    SSL_CTRL_GET_NEGOTIATED_GROUP reads s->session->kex_group through the
    NULL session pointer; its neighbour SSL_CTRL_GET_GROUPS tests the
    session first and returns 0. *)
Theorem negotiated_group_without_session
        (s : SSL) (larg : Z) (parg : option pointee) :
  session s = None ->
  SSL_IS_TLS13 E s = 0 \/ did_kex s = 0 ->
  ssl3_ctrl E s SSL_CTRL_GET_NEGOTIATED_GROUP larg parg = Undefined /\
  ssl3_ctrl E s SSL_CTRL_GET_GROUPS larg parg = Ok (Outcome 0 s parg []).
Proof.
  intros N K. unfold ssl3_ctrl. rewrite N. split; [|reflexivity].
  assert (G : truth (SSL_IS_TLS13 E s) && truth (did_kex s) = false).
  { destruct K as [K|K]; rewrite K; simpl; auto using andb_false_r. }
  now rewrite G.
Qed.
End Facts.

(** C2 as stated fails: on a fresh connection and a fresh context the
    registration through the callback entry points is accepted, with
    result 1 and no error, where the value-based dispatcher answers 0 and
    raises its error. *)
Lemma tmp_dh_callback_is_accepted :
  ret (ssl3_callback_ctrl Sample.dispatch_env Sample.fresh_ssl
         SSL_CTRL_SET_TMP_DH_CB (Some 7%N)) = 1 /\
  raised (ssl3_callback_ctrl Sample.dispatch_env Sample.fresh_ssl
            SSL_CTRL_SET_TMP_DH_CB (Some 7%N)) = [] /\
  ret (ssl3_ctx_callback_ctrl Sample.dispatch_env Sample.fresh_ctx
         SSL_CTRL_SET_TMP_DH_CB (Some 7%N)) = 1 /\
  raised (ssl3_ctx_callback_ctrl Sample.dispatch_env Sample.fresh_ctx
            SSL_CTRL_SET_TMP_DH_CB (Some 7%N)) = [] /\
  ssl3_ctrl Sample.dispatch_env Sample.fresh_ssl SSL_CTRL_SET_TMP_DH_CB 0 None =
    Ok (Outcome 0 Sample.fresh_ssl None [ERR_R_SHOULD_NOT_HAVE_BEEN_CALLED]).
Proof. vm_compute. repeat split. Qed.

(** The amended C2 on the fresh connection and context. *)
Lemma tmp_dh_callback_registration_sample :
  (ret (ssl3_callback_ctrl Sample.dispatch_env Sample.fresh_ssl
          SSL_CTRL_SET_TMP_DH_CB (Some 7%N)) = 1 /\
   raised (ssl3_callback_ctrl Sample.dispatch_env Sample.fresh_ssl
             SSL_CTRL_SET_TMP_DH_CB (Some 7%N)) = [] /\
   dh_tmp_cb (cert (after (ssl3_callback_ctrl Sample.dispatch_env Sample.fresh_ssl
                             SSL_CTRL_SET_TMP_DH_CB (Some 7%N)))) = Some 7%N)
  /\
  (ret (ssl3_ctx_callback_ctrl Sample.dispatch_env Sample.fresh_ctx
          SSL_CTRL_SET_TMP_DH_CB (Some 7%N)) = 1 /\
   raised (ssl3_ctx_callback_ctrl Sample.dispatch_env Sample.fresh_ctx
             SSL_CTRL_SET_TMP_DH_CB (Some 7%N)) = [] /\
   dh_tmp_cb (ctx_cert (after (ssl3_ctx_callback_ctrl Sample.dispatch_env Sample.fresh_ctx
                                 SSL_CTRL_SET_TMP_DH_CB (Some 7%N)))) = Some 7%N)
  /\
  ssl3_ctrl Sample.dispatch_env Sample.fresh_ssl SSL_CTRL_SET_TMP_DH_CB 0 None =
    Ok (Outcome 0 Sample.fresh_ssl None [ERR_R_SHOULD_NOT_HAVE_BEEN_CALLED])
  /\
  ssl3_ctx_ctrl Sample.dispatch_env Sample.fresh_ctx SSL_CTRL_SET_TMP_DH_CB 0 None =
    Ok (Outcome 0 Sample.fresh_ctx None [ERR_R_SHOULD_NOT_HAVE_BEEN_CALLED]).
Proof.
  apply (tmp_dh_callback_registration Sample.dispatch_env Sample.fresh_ssl
           Sample.fresh_ctx (Some 7%N) 0 None).
  reflexivity.
Defined.

(** The failing call of C9: a fresh connection asked for its negotiated
    group. *)
Lemma negotiated_group_without_session_sample :
  ssl3_ctrl Sample.dispatch_env Sample.fresh_ssl SSL_CTRL_GET_NEGOTIATED_GROUP 0 None
    = Undefined /\
  ssl3_ctrl Sample.dispatch_env Sample.fresh_ssl SSL_CTRL_GET_GROUPS 0 None
    = Ok (Outcome 0 Sample.fresh_ssl None []).
Proof.
  apply (negotiated_group_without_session Sample.dispatch_env Sample.fresh_ssl 0 None).
  - reflexivity.
  - left. reflexivity.
Defined.

Section TicketKeys.
Variable E : Env.
Hypothesis name_size : 0 <= sizeof_tick_key_name E.
Hypothesis hmac_size : 0 <= sizeof_tick_hmac_key E.
Hypothesis aes_size : 0 <= sizeof_tick_aes_key E.

Lemma ticket_keys_no_buffer ctx cmd larg :
  cmd = SSL_CTRL_SET_TLSEXT_TICKET_KEYS \/ cmd = SSL_CTRL_GET_TLSEXT_TICKET_KEYS ->
  ssl3_ctx_ctrl E ctx cmd larg None = Ok (Outcome (tick_keylen E) ctx None []).
Proof. intros [-> | ->]; reflexivity. Qed.

Lemma ticket_keys_wrong_length ctx cmd larg keys :
  cmd = SSL_CTRL_SET_TLSEXT_TICKET_KEYS \/ cmd = SSL_CTRL_GET_TLSEXT_TICKET_KEYS ->
  larg <> tick_keylen E ->
  ssl3_ctx_ctrl E ctx cmd larg (Some (Bytes keys)) =
    Ok (Outcome 0 ctx (Some (Bytes keys)) [SSL_R_INVALID_TICKET_KEYS_LENGTH]).
Proof.
  intros C L. apply Z.eqb_neq in L.
  destruct C as [-> | ->]; simpl; now rewrite L.
Qed.

Lemma ticket_keys_set ctx name hmac aes :
  Z.of_nat (List.length name) = sizeof_tick_key_name E ->
  Z.of_nat (List.length hmac) = sizeof_tick_hmac_key E ->
  Z.of_nat (List.length aes) = sizeof_tick_aes_key E ->
  ssl3_ctx_ctrl E ctx SSL_CTRL_SET_TLSEXT_TICKET_KEYS (tick_keylen E)
                (Some (Bytes (name ++ hmac ++ aes))) =
    Ok (Outcome 1 (set_ticket_keys name hmac aes ctx)
                (Some (Bytes (name ++ hmac ++ aes))) []).
Proof.
  intros N H A. simpl. rewrite Z.eqb_refl. simpl.
  rewrite (read_segment [] name (hmac ++ aes)) by auto. simpl bind.
  rewrite (read_segment name hmac aes) by auto. simpl bind.
  replace (name ++ hmac ++ aes) with ((name ++ hmac) ++ aes ++ [])
    by (now rewrite app_nil_r, app_assoc).
  rewrite (read_segment (name ++ hmac) aes []) by (rewrite ?length_app; lia).
  reflexivity.
Qed.

Lemma ticket_keys_get ctx b1 b2 b3 :
  Z.of_nat (List.length (tick_key_name ctx)) = sizeof_tick_key_name E ->
  Z.of_nat (List.length (tick_hmac_key ctx)) = sizeof_tick_hmac_key E ->
  Z.of_nat (List.length (tick_aes_key ctx)) = sizeof_tick_aes_key E ->
  List.length b1 = List.length (tick_key_name ctx) ->
  List.length b2 = List.length (tick_hmac_key ctx) ->
  List.length b3 = List.length (tick_aes_key ctx) ->
  ssl3_ctx_ctrl E ctx SSL_CTRL_GET_TLSEXT_TICKET_KEYS (tick_keylen E)
                (Some (Bytes (b1 ++ b2 ++ b3))) =
    Ok (Outcome 1 ctx
          (Some (Bytes (tick_key_name ctx ++ tick_hmac_key ctx ++ tick_aes_key ctx))) []).
Proof.
  intros N H A L1 L2 L3. simpl. rewrite Z.eqb_refl. simpl.
  rewrite <- (app_nil_r (tick_key_name ctx)) at 1.
  rewrite (read_segment [] (tick_key_name ctx) []) by auto. simpl bind.
  rewrite <- (app_nil_r (tick_hmac_key ctx)) at 1.
  rewrite (read_segment [] (tick_hmac_key ctx) []) by auto. simpl bind.
  rewrite <- (app_nil_r (tick_aes_key ctx)) at 1.
  rewrite (read_segment [] (tick_aes_key ctx) []) by auto. simpl bind.
  rewrite (write_segment [] b1 (b2 ++ b3) (tick_key_name ctx)) by auto. simpl bind.
  rewrite (write_segment (tick_key_name ctx) b2 b3 (tick_hmac_key ctx)) by auto.
  simpl bind.
  replace (tick_key_name ctx ++ tick_hmac_key ctx ++ b3)
    with ((tick_key_name ctx ++ tick_hmac_key ctx) ++ b3 ++ [])
    by (now rewrite app_nil_r, app_assoc).
  rewrite (write_segment (tick_key_name ctx ++ tick_hmac_key ctx) b3 []
                         (tick_aes_key ctx))
    by (rewrite ?length_app; lia).
  simpl bind. now rewrite app_nil_r, <- app_assoc.
Qed.

(** C7, as the code has it.  For the two ticket-key commands of
    [ssl3_ctx_ctrl]: without a buffer the call returns the total of the
    three sizes, whatever the length argument and for set as for get; with
    a buffer and a length argument other than that total it returns 0,
    raises the invalid-length error and leaves the context and the buffer
    as they were; and a set of a blob of exactly that length followed by a
    get into a buffer of that length hands back the same bytes, stored and
    returned in the order key name, HMAC key, cipher key. *)
Theorem ticket_keys_get_set (ctx : SSL_CTX) (cmd : ctrl) (larg : Z) :
  cmd = SSL_CTRL_SET_TLSEXT_TICKET_KEYS \/ cmd = SSL_CTRL_GET_TLSEXT_TICKET_KEYS ->
  ssl3_ctx_ctrl E ctx cmd larg None = Ok (Outcome (tick_keylen E) ctx None [])
  /\
  (forall keys, larg <> tick_keylen E ->
     ssl3_ctx_ctrl E ctx cmd larg (Some (Bytes keys)) =
       Ok (Outcome 0 ctx (Some (Bytes keys)) [SSL_R_INVALID_TICKET_KEYS_LENGTH]))
  /\
  (forall keys buf,
     Z.of_nat (List.length keys) = tick_keylen E ->
     Z.of_nat (List.length buf) = tick_keylen E ->
     exists ctx',
       ssl3_ctx_ctrl E ctx SSL_CTRL_SET_TLSEXT_TICKET_KEYS (tick_keylen E)
                     (Some (Bytes keys)) = Ok (Outcome 1 ctx' (Some (Bytes keys)) []) /\
       keys = tick_key_name ctx' ++ tick_hmac_key ctx' ++ tick_aes_key ctx' /\
       Z.of_nat (List.length (tick_key_name ctx')) = sizeof_tick_key_name E /\
       Z.of_nat (List.length (tick_hmac_key ctx')) = sizeof_tick_hmac_key E /\
       Z.of_nat (List.length (tick_aes_key ctx')) = sizeof_tick_aes_key E /\
       ssl3_ctx_ctrl E ctx' SSL_CTRL_GET_TLSEXT_TICKET_KEYS (tick_keylen E)
                     (Some (Bytes buf)) = Ok (Outcome 1 ctx' (Some (Bytes keys)) [])).
Proof.
  intros C. split; [|split].
  - now apply ticket_keys_no_buffer.
  - intros keys. now apply ticket_keys_wrong_length.
  - intros keys buf K B.
    destruct (three_parts keys _ _ _ name_size hmac_size aes_size K)
      as (name & hmac & aes & -> & N & H & A).
    destruct (three_parts buf _ _ _ name_size hmac_size aes_size B)
      as (b1 & b2 & b3 & -> & N' & H' & A').
    exists (set_ticket_keys name hmac aes ctx).
    split; [now apply ticket_keys_set|].
    repeat split; auto.
    apply (ticket_keys_get (set_ticket_keys name hmac aes ctx)); simpl; auto; lia.
Qed.
End TicketKeys.

(** C7 as stated fails: a set with no buffer and length 0, which is not
    the required 80, does not fail with the invalid-length error; it
    returns 80 and raises nothing. *)
Lemma ticket_keys_set_without_buffer :
  tick_keylen Sample.dispatch_env = 80 /\
  ssl3_ctx_ctrl Sample.dispatch_env Sample.fresh_ctx
                SSL_CTRL_SET_TLSEXT_TICKET_KEYS 0 None =
    Ok (Outcome 80 Sample.fresh_ctx None []).
Proof. vm_compute. split; reflexivity. Qed.

(** The amended C7 on the fresh context: the length query, a set of 79
    bytes, and an 80-byte blob set and read back. *)
Lemma ticket_keys_get_set_sample :
  ssl3_ctx_ctrl Sample.dispatch_env Sample.fresh_ctx
                SSL_CTRL_SET_TLSEXT_TICKET_KEYS 79 None =
    Ok (Outcome 80 Sample.fresh_ctx None [])
  /\
  ssl3_ctx_ctrl Sample.dispatch_env Sample.fresh_ctx
                SSL_CTRL_SET_TLSEXT_TICKET_KEYS 79 (Some (Bytes (repeat 9 79))) =
    Ok (Outcome 0 Sample.fresh_ctx (Some (Bytes (repeat 9 79)))
                [SSL_R_INVALID_TICKET_KEYS_LENGTH])
  /\
  exists ctx',
    ssl3_ctx_ctrl Sample.dispatch_env Sample.fresh_ctx
                  SSL_CTRL_SET_TLSEXT_TICKET_KEYS 80 (Some (Bytes Sample.ticket_blob))
      = Ok (Outcome 1 ctx' (Some (Bytes Sample.ticket_blob)) []) /\
    ssl3_ctx_ctrl Sample.dispatch_env ctx'
                  SSL_CTRL_GET_TLSEXT_TICKET_KEYS 80 (Some (Bytes (repeat 0 80)))
      = Ok (Outcome 1 ctx' (Some (Bytes Sample.ticket_blob)) []).
Proof.
  destruct (ticket_keys_get_set Sample.dispatch_env ltac:(simpl; lia) ltac:(simpl; lia)
              ltac:(simpl; lia) Sample.fresh_ctx SSL_CTRL_SET_TLSEXT_TICKET_KEYS 79
              (or_introl eq_refl)) as (Query & Wrong & Round).
  split; [exact Query|]. split.
  - apply Wrong. vm_compute. discriminate.
  - destruct (Round Sample.ticket_blob (repeat 0 80) eq_refl eq_refl)
      as (ctx' & Stored & _ & _ & _ & _ & Fetched).
    exists ctx'. split; [exact Stored | exact Fetched].
Defined.

End DispatchProofs.

(** ** The classic master secret *)
Module MasterSecretProofs.
Import MasterSecret.




(** Below 65536, [s2n] writes the two big-endian digits of its argument. *)
Lemma s2n_big_endian n :
  0 <= n < 65536 -> s2n n = [n / 256; n mod 256] /\ 0 <= n / 256 < 256.
Proof.
  intros R. unfold s2n.
  change 0xff with (Z.ones 8). rewrite !Z.land_ones by lia.
  rewrite Z.shiftr_div_pow2 by lia. change (2 ^ 8) with 256.
  assert (0 <= n / 256 < 256).
  { split; [apply Z.div_pos; lia | apply Z.div_lt_upper_bound; lia]. }
  rewrite (Z.mod_small (n / 256)) by lia. auto.
Qed.

Section Facts.
Variable E : Env.

End Facts.

(** A plain PSK suite with a 3-byte PSK: the KDF sees 00 03, three zeros,
    00 03 and the PSK, 10 bytes in all, and the PSK is gone afterwards. *)
Example plain_psk_input :
  ssl_generate_master_secret Sample.secret_env Sample.psk_server None 0 0 =
  Ok (1,
      mkSSL 1 (Some {| master_key := [0xC3; 0xC2; 0xC1; 3; 0; 0; 0; 0; 3; 0];
                       master_key_length := 10 |})
            (Some (Sample.cipher_with_kex 0x8)) None 0 None 0,
      [Clear_free the_psk 3;
       Kdf [0; 3; 0; 0; 0; 0; 3; 0xC1; 0xC2; 0xC3] 10;
       Clear_free the_pskpms 10]).
Proof. vm_compute. reflexivity. Qed.

(** A DHE_PSK suite with a 2-byte premaster: the premaster takes the place
    of the zeros. *)
Example dhe_psk_input :
  option_map (fun r => kdf_calls (snd r))
    (match ssl_generate_master_secret Sample.secret_env Sample.dhe_psk_server
             (Some [0xD1; 0xD2]) 2 1 with
     | Ok r => Some r
     | Undefined => None
     end) =
  Some [([0; 2; 0xD1; 0xD2; 0; 3; 0xC1; 0xC2; 0xC3], 9)].
Proof. vm_compute. reflexivity. Qed.



End MasterSecretProofs.

Module NegotiationProofs.
Import Negotiation.

Lemma find_value (st : list SSL_CIPHER) (c : SSL_CIPHER) :
  forall ii, sk_SSL_CIPHER_find st c = Some ii -> sk_SSL_CIPHER_value st ii c = c.
Proof.
  induction st as [|x r IH]; simpl; intros ii F; [discriminate|].
  destruct (SSL_CIPHER_eq_dec x c) as [->|D].
  - now injection F as <-.
  - destruct (sk_SSL_CIPHER_find r c) as [j|]; [|discriminate].
    injection F as <-. now apply IH.
Qed.

Lemma allowed_find (st : list SSL_CIPHER) (c : SSL_CIPHER) :
  allowed st c = match sk_SSL_CIPHER_find st c with Some _ => true | None => false end.
Proof.
  unfold allowed. destruct (in_dec SSL_CIPHER_eq_dec c st) as [I|I].
  - induction st as [|x r IH]; simpl in *; [contradiction|].
    destruct (SSL_CIPHER_eq_dec x c) as [->|D]; auto.
    destruct I as [->|I]; [contradiction|].
    specialize (IH I). now destruct (sk_SSL_CIPHER_find r c).
  - induction st as [|x r IH]; simpl in *; auto.
    destruct (SSL_CIPHER_eq_dec x c) as [->|D]; [tauto|].
    assert (IH' := IH ltac:(tauto)).
    destruct (sk_SSL_CIPHER_find r c); [discriminate|reflexivity].
Qed.

Section Facts.
Context {X MD : Type} (E : Env X MD).

Lemma truth_land_zero (m : Z) : truth (Z.land 0 m) = false.
Proof. reflexivity. Qed.

Lemma scan_client_order (s : SSL X) (allow : list SSL_CIPHER) :
  truth (SSL_IS_TLS13 E s) = true \/ is_probably_safari s = 0 ->
  forall prio alg_k alg_a,
    (truth (SSL_IS_TLS13 E s) = true -> alg_k = 0) ->
    scan E s false allow prio alg_k alg_a None = find (passes E s allow) prio.
Proof.
  intros Mode. induction prio as [|c next IH]; intros alg_k alg_a K; [reflexivity|].
  cbn [scan find].
  remember (find (passes E s allow) next) as chosen eqn:Chosen.
  assert (Next : forall k a, (truth (SSL_IS_TLS13 E s) = true -> k = 0) ->
                        scan E s false allow next k a None = chosen)
    by (intros; now apply IH).
  clear IH Chosen.
  unfold passes, version_ok, capable, permitted.
  rewrite allowed_find.
  rewrite Z.gtb_ltb, !Z.ltb_antisym.
  destruct (sk_SSL_CIPHER_find allow c) as [ii|] eqn:F;
    [rewrite (find_value _ _ _ F)|].
  all: destruct (truth (SSL_IS_TLS13 E s)) eqn:T;
    [ rewrite (K eq_refl); change (truth (Z.land 0 (SSL_kECDHE E))) with false |
      destruct Mode as [Mode|Mode]; [discriminate|]; rewrite ?Mode;
      change (truth 0) with false ];
    cbn [negb andb orb].
  all: repeat
    (match goal with
     | |- ?l = ?r => first [ reflexivity | apply Next; intros; congruence ]
     | |- context [OPENSSL_NO_SRP E] => destruct (OPENSSL_NO_SRP E)
     | |- context [truth (Z.land (srp_Mask ?x) ?m)] =>
         destruct (truth (Z.land (srp_Mask x) m)) eqn:?
     | |- context [truth (SSL_IS_DTLS E ?x)] => destruct (truth (SSL_IS_DTLS E x)) eqn:?
     | |- context [?a <=? ?b] => destruct (a <=? b) eqn:?
     | |- context [truth (DTLS_VERSION_LT E ?a ?b)] =>
         destruct (truth (DTLS_VERSION_LT E a b)) eqn:?
     | |- context [truth (DTLS_VERSION_GT E ?a ?b)] =>
         destruct (truth (DTLS_VERSION_GT E a b)) eqn:?
     | |- context [OPENSSL_NO_PSK E] => destruct (OPENSSL_NO_PSK E)
     | |- context [truth (Z.land ?a (SSL_PSK E))] =>
         destruct (truth (Z.land a (SSL_PSK E))) eqn:?
     | |- context [psk_server_callback ?x] => destruct (psk_server_callback x)
     | |- context [truth ?x] => destruct (truth x) eqn:?
     end; cbn [negb andb orb]).
Qed.

(** C1, as the code has it.  With neither Suite-B mode nor the server
    preference option, and with neither of the two tie-break rules in
    play (the connection is not marked as facing the client with the
    broken ECDSA support, or is a TLS 1.3 one; the TLS 1.3 bias towards
    SHA-256 for PSK is off), [ssl3_choose_cipher] returns the first entry
    of the client's list, in the client's order, that passes the version,
    capability, allow-list and security-policy filters.  In particular,
    for two suites A and B that pass them, the client list [A, B] against
    the server list [B, A] yields A, and [B, A] against it yields B. *)
Theorem client_order_choice (s : SSL X) :
  tls1_suiteb E s = 0 ->
  Z.land (options s) (SSL_OP_CIPHER_SERVER_PREFERENCE E) = 0 ->
  prefer_sha256 E s = false ->
  SSL_IS_TLS13 E (after_masks E s) <> 0 \/ is_probably_safari (after_masks E s) = 0 ->
  (forall clnt srvr,
     ssl3_choose_cipher E s clnt srvr =
       (find (passes E (after_masks E s) srvr) clnt, after_masks E s))
  /\
  (forall A B,
     passes E (after_masks E s) [B; A] A = true ->
     passes E (after_masks E s) [B; A] B = true ->
     fst (ssl3_choose_cipher E s [A; B] [B; A]) = Some A /\
     fst (ssl3_choose_cipher E s [B; A] [B; A]) = Some B).
Proof.
  intros SuiteB Pref Sha Mode.
  assert (Choice : forall clnt srvr,
             ssl3_choose_cipher E s clnt srvr =
               (find (passes E (after_masks E s) srvr) clnt, after_masks E s)).
  { intros clnt srvr. unfold ssl3_choose_cipher.
    rewrite SuiteB, Pref, Sha. change (truth 0) with false. cbv iota.
    f_equal. apply scan_client_order.
    - destruct Mode as [M|M]; [left|right; exact M].
      now apply negb_true_iff, Z.eqb_neq.
    - reflexivity. }
  split; [exact Choice|].
  intros A B PA PB. rewrite !Choice. cbn [fst find].
  now rewrite PA, PB.
Qed.
End Facts.

(** C1 as stated fails where a tie-break rule is in play.  The TLS 1.2
    server that takes its peer for the client with the broken ECDSA support
    is offered [ECDHE-ECDSA, RSA], allows [RSA, ECDHE-ECDSA], finds that the
    first offer passes every filter, and chooses the second.  The TLS 1.3
    server with a PSK callback and no certificate is offered
    [SHA-384, SHA-256], finds that the first offer passes, and chooses the
    SHA-256 suite. *)
Lemma first_passing_offer_not_chosen :
  (tls1_suiteb Sample.choose_env Sample.tls12_server_safari = 0 /\
   Z.land (options Sample.tls12_server_safari)
          (SSL_OP_CIPHER_SERVER_PREFERENCE Sample.choose_env) = 0 /\
   find (passes Sample.choose_env
           (after_masks Sample.choose_env Sample.tls12_server_safari)
           [Sample.AES128_GCM_SHA256; Sample.ECDHE_ECDSA_AES128_GCM_SHA256])
        [Sample.ECDHE_ECDSA_AES128_GCM_SHA256; Sample.AES128_GCM_SHA256]
     = Some Sample.ECDHE_ECDSA_AES128_GCM_SHA256 /\
   fst (ssl3_choose_cipher Sample.choose_env Sample.tls12_server_safari
          [Sample.ECDHE_ECDSA_AES128_GCM_SHA256; Sample.AES128_GCM_SHA256]
          [Sample.AES128_GCM_SHA256; Sample.ECDHE_ECDSA_AES128_GCM_SHA256])
     = Some Sample.AES128_GCM_SHA256)
  /\
  (tls1_suiteb Sample.choose_env Sample.tls13_psk_server = 0 /\
   Z.land (options Sample.tls13_psk_server)
          (SSL_OP_CIPHER_SERVER_PREFERENCE Sample.choose_env) = 0 /\
   find (passes Sample.choose_env
           (after_masks Sample.choose_env Sample.tls13_psk_server)
           [Sample.TLS_AES_128_GCM_SHA256; Sample.TLS_AES_256_GCM_SHA384])
        [Sample.TLS_AES_256_GCM_SHA384; Sample.TLS_AES_128_GCM_SHA256]
     = Some Sample.TLS_AES_256_GCM_SHA384 /\
   fst (ssl3_choose_cipher Sample.choose_env Sample.tls13_psk_server
          [Sample.TLS_AES_256_GCM_SHA384; Sample.TLS_AES_128_GCM_SHA256]
          [Sample.TLS_AES_128_GCM_SHA256; Sample.TLS_AES_256_GCM_SHA384])
     = Some Sample.TLS_AES_128_GCM_SHA256).
Proof. vm_compute. repeat split. Qed.

(** The amended C1 on the TLS 1.2 server whose peer is not so marked. *)
Lemma client_order_choice_sample :
  fst (ssl3_choose_cipher Sample.choose_env Sample.tls12_server
         [Sample.ECDHE_ECDSA_AES128_GCM_SHA256; Sample.AES128_GCM_SHA256]
         [Sample.AES128_GCM_SHA256; Sample.ECDHE_ECDSA_AES128_GCM_SHA256])
    = Some Sample.ECDHE_ECDSA_AES128_GCM_SHA256 /\
  fst (ssl3_choose_cipher Sample.choose_env Sample.tls12_server
         [Sample.AES128_GCM_SHA256; Sample.ECDHE_ECDSA_AES128_GCM_SHA256]
         [Sample.AES128_GCM_SHA256; Sample.ECDHE_ECDSA_AES128_GCM_SHA256])
    = Some Sample.AES128_GCM_SHA256.
Proof.
  destruct (client_order_choice Sample.choose_env Sample.tls12_server
              eq_refl eq_refl eq_refl (or_intror eq_refl)) as [_ Pair].
  apply Pair; vm_compute; reflexivity.
Defined.

End NegotiationProofs.

(** ** Lookup in the catalog *)
Module LookupProofs.
Import Catalog Lookup.

(** Two lists in ascending order without repeated ids that hold the same
    entries are the same list. *)
Lemma sorted_permutation_unique (l : list SSL_CIPHER) :
  forall l', StronglySorted id_le l -> StronglySorted id_le l' ->
    NoDup (map id l) -> Permutation l l' -> l = l'.
Proof.
  induction l as [|x r IH]; intros l' Sl Sl' N P.
  - now apply Permutation_nil in P.
  - destruct l' as [|y r']; [now apply Permutation_sym, Permutation_nil in P|].
    assert (N' : NoDup (map id (y :: r')))
      by (apply (CatalogProofs.Permutation_ids_unique (x :: r)); auto).
    inversion Sl as [|? ? Sr Fr]; subst.
    inversion Sl' as [|? ? Sr' Fr']; subst.
    rewrite Forall_forall in Fr, Fr'.
    assert (Ix : In x (y :: r')) by (apply (Permutation_in _ P); now left).
    assert (Iy : In y (x :: r))
      by (apply (Permutation_in _ (Permutation_sym P)); now left).
    assert (E : x = y).
    { destruct Ix as [->|Ix]; auto.
      destruct Iy as [->|Iy]; auto.
      assert (id y <= id x) by (now apply Fr').
      assert (id x <= id y) by (now apply Fr).
      inversion N' as [|? ? Fresh _]; subst.
      exfalso. apply Fresh. apply in_map_iff. exists x. split; [lia|auto]. }
    subst y. f_equal.
    apply IH; auto.
    + now inversion N.
    + now apply Permutation_cons_inv in P.
Qed.

Lemma same_id_same_entry (l : list SSL_CIPHER) a b :
  NoDup (map id l) -> In a l -> In b l -> id a = id b -> a = b.
Proof.
  induction l as [|x r IH]; simpl; intros N Ia Ib E; [contradiction|].
  inversion N as [|? ? Fresh N']; subst.
  destruct Ia as [<-|Ia], Ib as [<-|Ib]; auto.
  - exfalso. apply Fresh. apply in_map_iff. exists b. auto.
  - exfalso. apply Fresh. apply in_map_iff. exists a. auto.
Qed.

Lemma all_ids_written_once :
  NoDup (id_exprs (tls13_ciphers_src ++ ssl3_ciphers_src ++ ssl3_scsvs_src)).
Proof. apply CatalogProofs.distinctb_NoDup. vm_compute. reflexivity. Qed.

Lemma build_app H cfg a b : build H cfg (a ++ b) = build H cfg a ++ build H cfg b.
Proof. unfold build, preprocess. now rewrite filter_app, map_app. Qed.

Lemma separates_incl H es es' :
  incl es es' -> separates H es' -> separates H es.
Proof. intros I S a b Ia Ib. apply S; auto. Qed.

Lemma separates_each H : header_separates_all_ids H -> header_separates_ids H.
Proof.
  unfold header_separates_all_ids, header_separates_ids, id_exprs.
  rewrite !map_app. intros S.
  repeat split; refine (separates_incl _ _ _ _ S); intros e I;
    rewrite !in_app_iff; auto.
Qed.

Section SortedCatalog.
Variable qsort : qsort_t.
Hypothesis Q : qsort_contract qsort.

Lemma sort_permutes (l : list SSL_CIPHER) :
  Permutation l (qsort _ cipher_compare l).
Proof. apply (qsort_permutes _ Q), CatalogProofs.cipher_compare_consistent. Qed.

Lemma all_entries_permuted t :
  Permutation (all_entries t) (all_entries (ssl_sort_cipher_list qsort t)).
Proof.
  unfold all_entries, ssl_sort_cipher_list.
  cbn [tls13_ciphers ssl3_ciphers ssl3_scsvs].
  repeat apply Permutation_app; apply sort_permutes.
Qed.

Lemma catalog_ids_unique H cfg :
  header_separates_all_ids H ->
  NoDup (map id (all_entries (ssl_sort_cipher_list qsort (initial_tables H cfg)))).
Proof.
  intros S.
  apply (CatalogProofs.Permutation_ids_unique _ _ (all_entries_permuted _)).
  unfold all_entries, initial_tables.
  cbn [tls13_ciphers ssl3_ciphers ssl3_scsvs].
  rewrite <- !build_app.
  apply CatalogProofs.build_ids_unique; [exact all_ids_written_once | exact S].
Qed.
End SortedCatalog.

(** X1.  Under the promise of qsort, sorting only reorders: each table
    holds the same entries as before, so the number of ciphers reported and
    the membership of every entry are what they were. *)
Theorem ssl_sort_cipher_list_keeps_entries qsort t :
  qsort_contract qsort ->
  let t' := ssl_sort_cipher_list qsort t in
  Permutation (tls13_ciphers t) (tls13_ciphers t') /\
  Permutation (ssl3_ciphers t) (ssl3_ciphers t') /\
  Permutation (ssl3_scsvs t) (ssl3_scsvs t') /\
  ssl3_num_ciphers t' = ssl3_num_ciphers t.
Proof.
  intros Q t'. subst t'. unfold ssl_sort_cipher_list.
  cbn [tls13_ciphers ssl3_ciphers ssl3_scsvs].
  repeat split; try apply (sort_permutes _ Q).
  unfold ssl3_num_ciphers, SSL3_NUM_CIPHERS.
  cbn [tls13_ciphers ssl3_ciphers ssl3_scsvs].
  now rewrite <- (Permutation_length (sort_permutes _ Q (ssl3_ciphers t))).
Qed.

Lemma ssl_sort_cipher_list_keeps_entries_sample :
  let t := initial_tables Sample.headers Sample.config in
  let t' := ssl_sort_cipher_list Sample.qsort t in
  Permutation (tls13_ciphers t) (tls13_ciphers t') /\
  Permutation (ssl3_ciphers t) (ssl3_ciphers t') /\
  Permutation (ssl3_scsvs t) (ssl3_scsvs t') /\
  ssl3_num_ciphers t' = ssl3_num_ciphers t.
Proof.
  apply (ssl_sort_cipher_list_keeps_entries Sample.qsort).
  exact CatalogProofs.sample_qsort_contract.
Defined.

(** X2.  The sorted catalog does not depend on the sort: any two qsort
    that keep the promise of the C standard leave the same three tables,
    although qsort is free in how it orders equal elements, because no two
    entries of a table have the same id. *)
Theorem ssl_sort_cipher_list_result_is_determined qsort1 qsort2 H cfg :
  qsort_contract qsort1 -> qsort_contract qsort2 ->
  header_separates_ids H ->
  ssl_sort_cipher_list qsort1 (initial_tables H cfg) =
  ssl_sort_cipher_list qsort2 (initial_tables H cfg).
Proof.
  intros Q1 Q2 (S13 & S3 & Ssc).
  assert (One : forall src, NoDup (id_exprs src) -> separates H (id_exprs src) ->
             qsort1 _ cipher_compare (build H cfg src) =
             qsort2 _ cipher_compare (build H cfg src)).
  { intros src N S.
    apply sorted_permutation_unique.
    - now apply CatalogProofs.qsort_id_sorted.
    - now apply CatalogProofs.qsort_id_sorted.
    - apply (CatalogProofs.Permutation_ids_unique (build H cfg src)).
      + apply (sort_permutes _ Q1).
      + now apply CatalogProofs.build_ids_unique.
    - rewrite <- (sort_permutes _ Q1). apply (sort_permutes _ Q2). }
  unfold ssl_sort_cipher_list, initial_tables.
  cbn [tls13_ciphers ssl3_ciphers ssl3_scsvs].
  rewrite (One _ CatalogProofs.tls13_ids_written_once S13).
  rewrite (One _ CatalogProofs.ssl3_ids_written_once S3).
  rewrite (One _ CatalogProofs.scsv_ids_written_once Ssc).
  reflexivity.
Qed.

Lemma backwards_qsort_contract : qsort_contract Fixtures.qsort_backwards.
Proof.
  split; intros A cmp l C; unfold Fixtures.qsort_backwards.
  - rewrite <- CatalogProofs.isort_permutes. apply Permutation_rev.
  - now apply CatalogProofs.isort_orders.
Qed.

Lemma ssl_sort_cipher_list_result_is_determined_sample :
  ssl_sort_cipher_list Sample.qsort (initial_tables Sample.headers Sample.config) =
  ssl_sort_cipher_list Fixtures.qsort_backwards
    (initial_tables Sample.headers Sample.config).
Proof.
  apply (ssl_sort_cipher_list_result_is_determined
           Sample.qsort Fixtures.qsort_backwards).
  - exact CatalogProofs.sample_qsort_contract.
  - exact backwards_qsort_contract.
  - exact CatalogProofs.sample_headers_separate.
Defined.

(** *** Lookup by id *)
Section ById.
Variable bsearch : bsearch_t.
Hypothesis B : bsearch_contract bsearch.

Lemma by_id_sound t key c :
  ssl3_get_cipher_by_id bsearch t key = Some c ->
  In c (all_entries t) /\ id c = key.
Proof.
  unfold ssl3_get_cipher_by_id, all_entries. rewrite !in_app_iff.
  destruct (bsearch key (tls13_ciphers t)) as [c1|] eqn:E1.
  - intros [= <-]. apply (bsearch_sound _ B) in E1. tauto.
  - destruct (bsearch key (ssl3_ciphers t)) as [c2|] eqn:E2.
    + intros [= <-]. apply (bsearch_sound _ B) in E2. tauto.
    + intros E3. apply (bsearch_sound _ B) in E3. tauto.
Qed.

Lemma by_id_complete t key :
  sorted_by_id t ->
  (exists c, In c (all_entries t) /\ id c = key) ->
  ssl3_get_cipher_by_id bsearch t key <> None.
Proof.
  intros (S1 & S2 & S3) (c & I & E).
  unfold ssl3_get_cipher_by_id, all_entries in *. rewrite !in_app_iff in I.
  destruct (bsearch key (tls13_ciphers t)) as [c1|] eqn:E1; [discriminate|].
  destruct (bsearch key (ssl3_ciphers t)) as [c2|] eqn:E2; [discriminate|].
  destruct I as [I|[I|I]].
  - exfalso. apply (bsearch_complete _ B key _ S1); eauto.
  - exfalso. apply (bsearch_complete _ B key _ S2); eauto.
  - apply (bsearch_complete _ B key _ S3); eauto.
Qed.

Lemma by_id_tls13_first t key c :
  sorted_by_id t ->
  ssl3_get_cipher_by_id bsearch t key = Some c ->
  (exists c', In c' (tls13_ciphers t) /\ id c' = key) ->
  In c (tls13_ciphers t).
Proof.
  intros (S1 & _) G Ex. unfold ssl3_get_cipher_by_id in G.
  destruct (bsearch key (tls13_ciphers t)) as [c1|] eqn:E1.
  - injection G as <-. now apply (bsearch_sound _ B) in E1.
  - exfalso. now apply (bsearch_complete _ B key _ S1).
Qed.

Lemma by_id_entry t c :
  sorted_by_id t -> NoDup (map id (all_entries t)) ->
  In c (all_entries t) ->
  ssl3_get_cipher_by_id bsearch t (id c) = Some c.
Proof.
  intros St N I.
  destruct (ssl3_get_cipher_by_id bsearch t (id c)) as [c'|] eqn:G.
  - apply by_id_sound in G as [I' E].
    f_equal. now apply (same_id_same_entry (all_entries t)).
  - exfalso. apply (by_id_complete t (id c)); eauto.
Qed.
End ById.

Lemma catalog_sorted qsort t :
  qsort_contract qsort -> sorted_by_id (ssl_sort_cipher_list qsort t).
Proof.
  intros Q. unfold sorted_by_id, ssl_sort_cipher_list.
  cbn [tls13_ciphers ssl3_ciphers ssl3_scsvs].
  repeat split; now apply CatalogProofs.qsort_id_sorted.
Qed.

Lemma sample_bsearch_contract : bsearch_contract Fixtures.bsearch.
Proof.
  split; unfold Fixtures.bsearch.
  - intros key tbl c F. apply find_some in F as [I E].
    apply Z.eqb_eq in E. auto.
  - intros key tbl _ (c & I & E) F.
    apply (find_none _ _ F) in I. apply Z.eqb_neq in I. auto.
Qed.

Lemma sample_headers_separate_all : header_separates_all_ids Sample.headers.
Proof.
  apply CatalogProofs.NoDup_map_separates, CatalogProofs.all_differ_NoDup.
  vm_compute. reflexivity.
Qed.

(** X3.  A table sorted by id and a binary search that keeps its promise
    make [ssl3_get_cipher_by_id] exact: an entry it returns is in the
    catalog with the id asked for, it returns NULL only when no entry of
    any of the three tables has that id, and an id present in the TLS 1.3
    table is answered from that table. *)
Theorem ssl3_get_cipher_by_id_exact bsearch t key :
  bsearch_contract bsearch -> sorted_by_id t ->
  (forall c, ssl3_get_cipher_by_id bsearch t key = Some c ->
             In c (all_entries t) /\ id c = key) /\
  (ssl3_get_cipher_by_id bsearch t key = None <->
   forall c, In c (all_entries t) -> id c <> key) /\
  (forall c, ssl3_get_cipher_by_id bsearch t key = Some c ->
             (exists c', In c' (tls13_ciphers t) /\ id c' = key) ->
             In c (tls13_ciphers t)).
Proof.
  intros B St. split; [|split].
  - intros c. now apply by_id_sound.
  - split.
    + intros G c I E. apply (by_id_complete bsearch B t key St); eauto.
    + intros No.
      destruct (ssl3_get_cipher_by_id bsearch t key) as [c|] eqn:G; auto.
      apply (by_id_sound bsearch B) in G as [I E]. now apply No in I.
  - intros c. now apply by_id_tls13_first.
Qed.

Lemma ssl3_get_cipher_by_id_exact_sample :
  let t := Fixtures.tables in
  let key := 0x03001301 in
  (forall c, ssl3_get_cipher_by_id Fixtures.bsearch t key = Some c ->
             In c (all_entries t) /\ id c = key) /\
  (ssl3_get_cipher_by_id Fixtures.bsearch t key = None <->
   forall c, In c (all_entries t) -> id c <> key) /\
  (forall c, ssl3_get_cipher_by_id Fixtures.bsearch t key = Some c ->
             (exists c', In c' (tls13_ciphers t) /\ id c' = key) ->
             In c (tls13_ciphers t)).
Proof.
  apply (ssl3_get_cipher_by_id_exact Fixtures.bsearch Fixtures.tables 0x03001301).
  - exact sample_bsearch_contract.
  - apply catalog_sorted. exact CatalogProofs.sample_qsort_contract.
Defined.

(** X4.  Every entry of the sorted catalog is found again by its own id:
    no id is written twice across the three tables, so the search cannot
    return another entry in its place. *)
Theorem ssl3_get_cipher_by_id_round_trip qsort bsearch H cfg c :
  qsort_contract qsort -> bsearch_contract bsearch ->
  header_separates_all_ids H ->
  let t := ssl_sort_cipher_list qsort (initial_tables H cfg) in
  In c (all_entries t) ->
  ssl3_get_cipher_by_id bsearch t (id c) = Some c.
Proof.
  intros Q B S t I.
  apply by_id_entry; auto.
  - now apply catalog_sorted.
  - now apply catalog_ids_unique.
Qed.

Lemma first_suite_listed : In Fixtures.first_suite (all_entries Fixtures.tables).
Proof.
  unfold all_entries. apply in_or_app. left.
  apply nth_In. vm_compute. repeat constructor.
Qed.

Lemma ssl3_get_cipher_by_id_round_trip_sample :
  ssl3_get_cipher_by_id Fixtures.bsearch Fixtures.tables (id Fixtures.first_suite)
  = Some Fixtures.first_suite.
Proof.
  apply (ssl3_get_cipher_by_id_round_trip Sample.qsort Fixtures.bsearch
           Sample.headers Sample.config Fixtures.first_suite).
  - exact CatalogProofs.sample_qsort_contract.
  - exact sample_bsearch_contract.
  - exact sample_headers_separate_all.
  - exact first_suite_listed.
Defined.

(** *** Lookup by standard name *)
Lemma scan_table_first sought tbl :
  match scan_table sought tbl with
  | Some c => exists before after,
      tbl = before ++ c :: after /\ stdname c = Some sought /\
      forall b, In b before -> stdname b <> Some sought
  | None => forall b, In b tbl -> stdname b <> Some sought
  end.
Proof.
  induction tbl as [|x r IH]; simpl; [tauto|].
  assert (Skip : stdname x <> Some sought ->
    match scan_table sought r with
    | Some c => exists before after,
        x :: r = before ++ c :: after /\ stdname c = Some sought /\
        forall b, In b before -> stdname b <> Some sought
    | None => forall b, In b (x :: r) -> stdname b <> Some sought
    end).
  { intros Nx. destruct (scan_table sought r) as [c|].
    - destruct IH as (before & after & -> & E & No).
      exists (x :: before), after. repeat split; auto.
      intros b [<-|I]; auto.
    - intros b [<-|I]; auto. }
  destruct (stdname x) as [n|] eqn:Ex.
  - destruct (String.eqb sought n) eqn:En.
    + apply String.eqb_eq in En. subst n.
      exists [], r. repeat split; auto.
    + apply String.eqb_neq in En. apply Skip. congruence.
  - apply Skip. discriminate.
Qed.

Lemma scan_tables_first sought tabs :
  match scan_tables sought tabs with
  | Some c => exists before after,
      concat tabs = before ++ c :: after /\ stdname c = Some sought /\
      forall b, In b before -> stdname b <> Some sought
  | None => forall b, In b (concat tabs) -> stdname b <> Some sought
  end.
Proof.
  induction tabs as [|tbl r IH]; simpl; [tauto|].
  pose proof (scan_table_first sought tbl) as T.
  destruct (scan_table sought tbl) as [c|].
  - destruct T as (before & after & -> & E & No).
    exists before, (after ++ concat r). rewrite <- app_assoc. auto.
  - destruct (scan_tables sought r) as [c|].
    + destruct IH as (before & after & -> & E & No).
      exists (tbl ++ before), after. rewrite <- app_assoc. repeat split; auto.
      intros b I. apply in_app_iff in I as [I|I]; auto.
    + intros b I. apply in_app_iff in I as [I|I]; auto.
Qed.

(** X5.  [ssl3_get_cipher_by_std_name] returns the first entry, in the
    order TLS 1.3 table, SSL 3 table, SCSV table, whose standard name is
    the one sought; an entry without a standard name is never returned;
    and it returns NULL exactly when no entry carries that name. *)
Theorem ssl3_get_cipher_by_std_name_first_match t sought :
  match ssl3_get_cipher_by_std_name t sought with
  | Some c => exists before after,
      all_entries t = before ++ c :: after /\ stdname c = Some sought /\
      forall b, In b before -> stdname b <> Some sought
  | None => forall b, In b (all_entries t) -> stdname b <> Some sought
  end.
Proof.
  unfold ssl3_get_cipher_by_std_name, all_entries.
  pose proof (scan_tables_first sought
                [tls13_ciphers t; ssl3_ciphers t; ssl3_scsvs t]) as T.
  cbn [concat] in T. rewrite app_nil_r in T. exact T.
Qed.

(** *** The two bytes of the wire *)
Lemma uint32_small z : 0 <= z < 2 ^ 32 -> uint32 z = z.
Proof. intros. unfold uint32. now apply Z.mod_small. Qed.

(** An id whose bits 16 to 23 are clear is its tag and its low 16 bits. *)
Lemma id_tag_and_code i :
  0 <= i < 2 ^ 32 -> Z.land i 0xff0000 = 0 ->
  Z.lor (Z.land i 0xff000000) (Z.land i 0xffff) = i.
Proof.
  intros R Mid.
  rewrite <- (Z.lor_0_r (Z.land i 0xff000000)), <- Mid.
  rewrite <- !Z.land_lor_distr_r.
  change (Z.lor (Z.lor 0xff000000 0xff0000) 0xffff) with (Z.ones 32).
  rewrite Z.land_ones by lia. now apply Z.mod_small.
Qed.

(** The two bytes a 16-bit value is written as give it back. *)
Lemma two_bytes_back v :
  0 <= v < 2 ^ 16 ->
  Z.lor (uint32 (Z.shiftl (uint32 ((v / 256) mod 256)) 8)) (uint32 (v mod 256)) = v.
Proof.
  intros R.
  assert (0 <= v / 256 < 256) by (split; [apply Z.div_pos|apply Z.div_lt_upper_bound]; lia).
  rewrite (Z.mod_small (v / 256)) by lia.
  assert (0 <= v mod 256 < 256) by (apply Z.mod_pos_bound; lia).
  rewrite (uint32_small (v / 256)) by lia.
  rewrite (uint32_small (v mod 256)) by lia.
  change 256 with (2 ^ 8).
  rewrite <- Z.shiftr_div_pow2, <- Z.land_ones by lia.
  rewrite <- Z.ldiff_ones_r by lia.
  rewrite uint32_small.
  - apply Z.lor_ldiff_and.
  - rewrite Z.ldiff_ones_r, Z.shiftr_div_pow2, Z.shiftl_mul_pow2 by lia.
    change (2 ^ 8) with 256 in *. lia.
Qed.

Lemma built_id_range H cfg src c : In c (build H cfg src) -> 0 <= id c < 2 ^ 32.
Proof.
  unfold build. intros I. apply in_map_iff in I as (i & <- & _).
  cbn [compile id]. unfold uint32. apply Z.mod_pos_bound. lia.
Qed.

Lemma all_entries_initial H cfg :
  all_entries (initial_tables H cfg) =
  build H cfg (tls13_ciphers_src ++ ssl3_ciphers_src ++ ssl3_scsvs_src).
Proof.
  unfold all_entries, initial_tables.
  cbn [tls13_ciphers ssl3_ciphers ssl3_scsvs].
  now rewrite !build_app.
Qed.

Lemma catalog_id_range qsort (Q : qsort_contract qsort) H cfg c :
  In c (all_entries (ssl_sort_cipher_list qsort (initial_tables H cfg))) ->
  0 <= id c < 2 ^ 32.
Proof.
  intros I. apply (built_id_range H cfg (tls13_ciphers_src ++ ssl3_ciphers_src ++ ssl3_scsvs_src)).
  rewrite <- all_entries_initial.
  now apply (Permutation_in _ (Permutation_sym (all_entries_permuted qsort Q _))).
Qed.

Lemma writer_sample_contract : writer_contract Fixtures.writer.
Proof.
  split; cbn [Fixtures.writer WPACKET_put_bytes_u8 WPACKET_put_bytes_u16
                WPACKET_memcpy written];
    unfold Fixtures.room; intros pkt v pkt';
    match goal with |- context [if ?b then _ else _] => destruct b end;
    congruence.
Qed.

(** X6.  The wire form of a cipher suite reads back as the same suite:
    when [ssl3_put_cipher_by_char] reports two bytes written for an entry
    of the sorted catalog whose id has bits 16 to 23 clear, the packet has
    grown by exactly two bytes, and [ssl3_get_cipher_by_char] on those two
    bytes returns that entry. *)
Theorem cipher_wire_round_trip
  qsort bsearch FLAG {W} (P : Writer W) H cfg c pkt len pkt' :
  qsort_contract qsort -> bsearch_contract bsearch -> writer_contract P ->
  header_separates_all_ids H ->
  let t := ssl_sort_cipher_list qsort (initial_tables H cfg) in
  In c (all_entries t) ->
  Z.land (id c) 0xff0000 = 0 ->
  ssl3_put_cipher_by_char FLAG P c pkt len = (1, pkt', 2) ->
  exists p0 p1,
    written P pkt' = written P pkt ++ [p0; p1] /\
    ssl3_get_cipher_by_char bsearch FLAG t [p0; p1] = Ok (Some c).
Proof.
  intros Q B Wr S t I Mid Put.
  assert (R : 0 <= id c < 2 ^ 32) by (now apply (catalog_id_range qsort Q H cfg)).
  unfold ssl3_put_cipher_by_char in Put.
  destruct (Z.land (id c) 0xff000000 =? FLAG) eqn:Tag; cbn [negb] in Put;
    [|discriminate].
  apply Z.eqb_eq in Tag.
  destruct (WPACKET_put_bytes_u16 P pkt (Z.land (id c) 0xffff)) as [w|] eqn:Wo;
    [|discriminate].
  injection Put as ->.
  apply (put_u16_appends _ Wr) in Wo.
  set (v := Z.land (id c) 0xffff) in *.
  exists ((v / 256) mod 256), (v mod 256). split; [exact Wo|].
  unfold ssl3_get_cipher_by_char. f_equal.
  assert (Rv : 0 <= v < 2 ^ 16).
  { subst v. change 0xffff with (Z.ones 16). rewrite Z.land_ones by lia.
    apply Z.mod_pos_bound. lia. }
  rewrite <- Z.lor_assoc, (two_bytes_back v Rv), <- Tag.
  subst v. rewrite (id_tag_and_code _ R Mid), (uint32_small _ R).
  apply by_id_entry; auto.
  - now apply catalog_sorted.
  - now apply catalog_ids_unique.
Qed.

Lemma cipher_wire_round_trip_sample :
  exists p0 p1,
    written Fixtures.writer [0x13; 0x01] = written Fixtures.writer [] ++ [p0; p1] /\
    ssl3_get_cipher_by_char Fixtures.bsearch Fixtures.SSL3_CK_CIPHERSUITE_FLAG
      Fixtures.tables [p0; p1] = Ok (Some Fixtures.first_suite).
Proof.
  apply (cipher_wire_round_trip Sample.qsort Fixtures.bsearch
           Fixtures.SSL3_CK_CIPHERSUITE_FLAG Fixtures.writer
           Sample.headers Sample.config Fixtures.first_suite [] 0 [0x13; 0x01]).
  - exact CatalogProofs.sample_qsort_contract.
  - exact sample_bsearch_contract.
  - exact writer_sample_contract.
  - exact sample_headers_separate_all.
  - exact first_suite_listed.
  - vm_compute. reflexivity.
  - vm_compute. reflexivity.
Defined.

(** X7.  [ssl3_put_cipher_by_char] accounts for what it writes: when it
    returns 1, [*len] is 0 or 2 and is the number of bytes by which the
    packet has grown; when it returns 0, [*len] is as it was; and it
    returns nothing but 0 and 1. *)
Theorem ssl3_put_cipher_by_char_accounts
  FLAG {W} (P : Writer W) c pkt len r pkt' len' :
  writer_contract P ->
  ssl3_put_cipher_by_char FLAG P c pkt len = (r, pkt', len') ->
  (r = 0 \/ r = 1) /\
  (r = 1 ->
   (len' = 0 \/ len' = 2) /\
   Z.of_nat (List.length (written P pkt')) =
   Z.of_nat (List.length (written P pkt)) + len') /\
  (r = 0 -> len' = len).
Proof.
  intros Wr. unfold ssl3_put_cipher_by_char.
  destruct (negb (Z.land (id c) 0xff000000 =? FLAG)).
  - intros [= <- <- <-]. repeat split; auto; try lia.
  - destruct (WPACKET_put_bytes_u16 P pkt (Z.land (id c) 0xffff)) as [w|] eqn:Wo.
    + intros [= <- <- <-]. apply (put_u16_appends _ Wr) in Wo.
      repeat split; auto; try lia.
      rewrite Wo, length_app. cbn [List.length]. lia.
    + intros [= <- <- <-]. repeat split; auto; lia.
Qed.

Lemma ssl3_put_cipher_by_char_accounts_sample :
  (1 = 0 \/ 1 = 1) /\
  (1 = 1 ->
   (2 = 0 \/ 2 = 2) /\
   Z.of_nat (List.length (written Fixtures.writer [0x13; 0x01])) =
   Z.of_nat (List.length (written Fixtures.writer [])) + 2) /\
  (1 = 0 -> 2 = 0).
Proof.
  apply (ssl3_put_cipher_by_char_accounts Fixtures.SSL3_CK_CIPHERSUITE_FLAG
           Fixtures.writer Fixtures.first_suite [] 0 1 [0x13; 0x01] 2).
  - exact writer_sample_contract.
  - vm_compute. reflexivity.
Defined.

End LookupProofs.

(** ** The cipher choice in every mode *)
Module ChoiceProofs.
Import Negotiation Tiebreak.

Section Facts.
Context {X MD : Type} (E : Env X MD).

(** The loop returns the first candidate that passes the filters and ends
    the loop at once; failing that, the candidate held back so far; failing
    that, the first candidate that passes. *)
Lemma scan_rule (s : SSL X) (prefer : bool) (allow : list SSL_CIPHER) :
  forall prio alg_k alg_a ret,
    (truth (SSL_IS_TLS13 E s) = true -> alg_k = 0) ->
    scan E s prefer allow prio alg_k alg_a ret =
    match find (fun c => passes E s allow c && immediate E s prefer c) prio with
    | Some c => Some c
    | None =>
        match ret with
        | Some r => Some r
        | None => find (passes E s allow) prio
        end
    end.
Proof.
  induction prio as [|c next IH]; intros alg_k alg_a ret K;
    [now destruct ret|].
  cbn [scan find].
  remember (find (fun c => passes E s allow c && immediate E s prefer c) next)
    as quick eqn:Quick.
  remember (find (passes E s allow) next) as slow eqn:Slow.
  assert (Next : forall k a r, (truth (SSL_IS_TLS13 E s) = true -> k = 0) ->
             scan E s prefer allow next k a r =
             match quick with
             | Some c => Some c
             | None => match r with Some r => Some r | None => slow end
             end)
    by (intros; now apply IH).
  clear IH Quick Slow.
  unfold passes, immediate, set_aside, ecdhe_ecdsa, uses_sha256,
    version_ok, capable, permitted.
  rewrite NegotiationProofs.allowed_find.
  rewrite Z.gtb_ltb, !Z.ltb_antisym.
  destruct (sk_SSL_CIPHER_find allow c) as [ii|] eqn:F;
    [rewrite (NegotiationProofs.find_value _ _ _ F)|].
  all: destruct (truth (SSL_IS_TLS13 E s)) eqn:T;
    [ rewrite (K eq_refl); change (truth (Z.land 0 (SSL_kECDHE E))) with false | ];
    cbn [negb andb orb].
  all: repeat
    (match goal with
     | |- ?l = ?r =>
         first [ reflexivity
               | rewrite Next by (intros; congruence); reflexivity ]
     | |- context [truth (Z.land 0 ?m)] => change (truth (Z.land 0 m)) with false
     | |- context [OPENSSL_NO_SRP E] => destruct (OPENSSL_NO_SRP E)
     | |- context [truth (Z.land (srp_Mask ?x) ?m)] =>
         destruct (truth (Z.land (srp_Mask x) m)) eqn:?
     | |- context [truth (SSL_IS_DTLS E ?x)] => destruct (truth (SSL_IS_DTLS E x)) eqn:?
     | |- context [?a <=? ?b] => destruct (a <=? b) eqn:?
     | |- context [truth (DTLS_VERSION_LT E ?a ?b)] =>
         destruct (truth (DTLS_VERSION_LT E a b)) eqn:?
     | |- context [truth (DTLS_VERSION_GT E ?a ?b)] =>
         destruct (truth (DTLS_VERSION_GT E a b)) eqn:?
     | |- context [OPENSSL_NO_PSK E] => destruct (OPENSSL_NO_PSK E)
     | |- context [truth (Z.land ?a (SSL_PSK E))] =>
         destruct (truth (Z.land a (SSL_PSK E))) eqn:?
     | |- context [psk_server_callback ?x] => destruct (psk_server_callback x)
     | |- context [truth ?x] => destruct (truth x) eqn:?
     | |- context [ssl_md E ?x ?y] => destruct (ssl_md E x y)
     | |- context [if ?p then _ else _] => is_var p; destruct p
     | |- context [match ?r with Some _ => _ | None => _ end] => is_var r; destruct r
     | |- context [negb ?p] => is_var p; destruct p
     end; cbn [negb andb orb]).
Qed.

Lemma passes_parts (s : SSL X) allow c :
  passes E s allow c = true ->
  In c allow /\ version_ok E s c = true /\ capable E s c = true /\
  permitted E s c = true.
Proof.
  unfold passes, allowed. rewrite !andb_true_iff.
  destruct (in_dec SSL_CIPHER_eq_dec c allow); intuition discriminate.
Qed.

Lemma passes_true (s : SSL X) allow c :
  In c allow ->
  passes E s allow c = version_ok E s c && capable E s c && permitted E s c.
Proof.
  intros I. unfold passes, allowed.
  destruct (in_dec SSL_CIPHER_eq_dec c allow); [|contradiction].
  now rewrite andb_true_r.
Qed.

Lemma scan_some (s : SSL X) prefer allow prio c :
  scan E s prefer allow prio 0 0 None = Some c ->
  In c prio /\ passes E s allow c = true.
Proof.
  rewrite scan_rule by reflexivity.
  destruct (find (fun c => passes E s allow c && immediate E s prefer c) prio)
    as [q|] eqn:Q.
  - intros [= ->]. apply find_some in Q as [I P].
    apply andb_true_iff in P. tauto.
  - intros P. now apply find_some in P.
Qed.

Lemma scan_none (s : SSL X) prefer allow prio :
  scan E s prefer allow prio 0 0 None = None <->
  forall c, In c prio -> passes E s allow c = false.
Proof.
  rewrite scan_rule by reflexivity. split.
  - destruct (find (fun c => passes E s allow c && immediate E s prefer c) prio);
      [discriminate|].
    intros N c I. apply (find_none _ _ N _ I).
  - intros No.
    destruct (find (fun c => passes E s allow c && immediate E s prefer c) prio)
      as [q|] eqn:Q.
    + apply find_some in Q as [I P]. rewrite (No _ I) in P. discriminate.
    + destruct (find (passes E s allow) prio) as [q|] eqn:P; auto.
      apply find_some in P as [I P]. rewrite (No _ I) in P. discriminate.
Qed.

(** The first loop over the server's list finds the head of its ChaCha20
    entries. *)
Lemma first_chacha_head srvr :
  match first_chacha E srvr with
  | Some (c, after) =>
      existsb (is_chacha E) srvr = true /\
      filter (is_chacha E) srvr = c :: filter (is_chacha E) after
  | None => existsb (is_chacha E) srvr = false
  end.
Proof.
  induction srvr as [|x r IH]; simpl; auto.
  destruct (is_chacha E x); simpl; auto.
Qed.

Lemma prioritize_chacha_shape (s : SSL X) clnt srvr :
  prioritize_chacha E s clnt srvr =
  if chacha_first E s clnt srvr
  then filter (is_chacha E) srvr ++ filter (fun c => negb (is_chacha E c)) srvr
  else srvr.
Proof.
  unfold prioritize_chacha, chacha_first.
  destruct (truth (Z.land (options s) (SSL_OP_PRIORITIZE_CHACHA E)));
    cbn [andb]; [|reflexivity].
  destruct clnt as [|c0 r]; [reflexivity|].
  replace (sk_SSL_CIPHER_num (c0 :: r) >? 0) with true
    by (symmetry; apply Z.gtb_lt; unfold sk_SSL_CIPHER_num; cbn [List.length]; lia).
  destruct (is_chacha E c0); cbn [andb]; [|reflexivity].
  pose proof (first_chacha_head srvr) as Hd.
  destruct (first_chacha E srvr) as [[c after]|].
  - destruct Hd as [-> ->]. cbn [andb].
    now destruct (sk_SSL_CIPHER_new_reserve E (sk_SSL_CIPHER_num srvr)).
  - now rewrite Hd.
Qed.

Lemma partition_permutes {A} (p : A -> bool) (l : list A) :
  Permutation l (filter p l ++ filter (fun a => negb (p a)) l).
Proof.
  induction l as [|x r IH]; simpl; auto.
  destruct (p x); simpl.
  - now constructor.
  - now apply Permutation_cons_app.
Qed.

Lemma prioritize_chacha_permutes (s : SSL X) clnt srvr :
  Permutation srvr (prioritize_chacha E s clnt srvr).
Proof.
  rewrite prioritize_chacha_shape.
  destruct (chacha_first E s clnt srvr); auto using partition_permutes.
Qed.

Lemma find_filter {A} (p q : A -> bool) (l : list A) :
  find p (filter q l) = find (fun a => p a && q a) l.
Proof.
  induction l as [|x r IH]; simpl; auto.
  destruct (q x); simpl; rewrite ?andb_true_r, ?andb_false_r; [|exact IH].
  destruct (p x); auto.
Qed.

Lemma find_same {A} (p q : A -> bool) (l : list A) :
  (forall a, p a = q a) -> find p l = find q l.
Proof.
  intros Same. induction l as [|x r IH]; simpl; auto.
  now rewrite Same, IH.
Qed.

Lemma find_app {A} (p : A -> bool) (l l' : list A) :
  find p (l ++ l') = match find p l with Some a => Some a | None => find p l' end.
Proof.
  induction l as [|x r IH]; simpl; auto. destruct (p x); auto.
Qed.

(** X8.  Whatever the mode, a cipher that [ssl3_choose_cipher] returns is
    in the client's list and in the server's list, and passes the version,
    capability and security-policy filters on the connection as the call
    leaves it. *)
Theorem chosen_cipher_is_shared_and_passes (s : SSL X) clnt srvr c :
  fst (ssl3_choose_cipher E s clnt srvr) = Some c ->
  In c clnt /\ In c srvr /\
  version_ok E (after_masks E s) c = true /\
  capable E (after_masks E s) c = true /\
  permitted E (after_masks E s) c = true.
Proof.
  unfold ssl3_choose_cipher.
  destruct (truth (tls1_suiteb E s));
    [|destruct (truth (Z.land (options s) (SSL_OP_CIPHER_SERVER_PREFERENCE E)))];
    cbn [fst]; intros G; apply scan_some in G as [I P];
    apply passes_parts in P; try tauto.
  apply (Permutation_in _ (Permutation_sym (prioritize_chacha_permutes s clnt srvr)))
    in I.
  tauto.
Qed.

(** X9.  [ssl3_choose_cipher] returns NULL exactly when no cipher that is
    in both lists passes the version, capability and security-policy
    filters: neither tie-break rule can make it give up a candidate. *)
Theorem no_cipher_chosen_iff_none_passes (s : SSL X) clnt srvr :
  fst (ssl3_choose_cipher E s clnt srvr) = None <->
  forall c, In c clnt -> In c srvr ->
    version_ok E (after_masks E s) c && capable E (after_masks E s) c
    && permitted E (after_masks E s) c = false.
Proof.
  unfold ssl3_choose_cipher.
  destruct (truth (tls1_suiteb E s));
    [|destruct (truth (Z.land (options s) (SSL_OP_CIPHER_SERVER_PREFERENCE E)))];
    cbn [fst]; rewrite scan_none; split; intros No c.
  - intros Ic Is. rewrite <- (passes_true _ clnt) by auto. auto.
  - intros Is. destruct (in_dec SSL_CIPHER_eq_dec c clnt) as [Ic|Nc].
    + rewrite passes_true by auto. auto.
    + unfold passes, allowed.
      destruct (in_dec SSL_CIPHER_eq_dec c clnt); [contradiction|].
      now rewrite andb_false_r.
  - intros Ic Is. rewrite <- (passes_true _ clnt) by auto. apply No.
    now apply (Permutation_in _ (prioritize_chacha_permutes s clnt srvr)).
  - intros Ip.
    apply (Permutation_in _ (Permutation_sym (prioritize_chacha_permutes s clnt srvr)))
      in Ip.
    destruct (in_dec SSL_CIPHER_eq_dec c clnt) as [Ic|Nc].
    + rewrite passes_true by auto. auto.
    + unfold passes, allowed.
      destruct (in_dec SSL_CIPHER_eq_dec c clnt); [contradiction|].
      now rewrite andb_false_r.
  - intros Ic Is. rewrite <- (passes_true _ srvr) by auto. auto.
  - intros Ic. destruct (in_dec SSL_CIPHER_eq_dec c srvr) as [Is|Ns].
    + rewrite passes_true by auto. auto.
    + unfold passes, allowed.
      destruct (in_dec SSL_CIPHER_eq_dec c srvr); [contradiction|].
      now rewrite andb_false_r.
Qed.

(** X10.  The reordering for ChaCha20 is a stable partition of the
    server's list: when the option is set, the client's first choice is a
    ChaCha20 suite, the server has one and the temporary stack is granted,
    the priority list is the server's ChaCha20 suites in the server's order
    followed by its other suites in the server's order; in every other case
    it is the server's list itself.  No suite is added, lost or repeated. *)
Theorem prioritize_chacha_is_stable_partition (s : SSL X) clnt srvr :
  prioritize_chacha E s clnt srvr =
    (if chacha_first E s clnt srvr
     then filter (is_chacha E) srvr ++ filter (fun c => negb (is_chacha E c)) srvr
     else srvr) /\
  Permutation srvr (prioritize_chacha E s clnt srvr).
Proof.
  split; [apply prioritize_chacha_shape | apply prioritize_chacha_permutes].
Qed.

(** X11.  Before TLS 1.3, in the client's order, when the peer is taken
    for the client with the broken ECDSA support: the choice is the
    client's first passing suite that is not ECDHE with ECDSA, and only
    when there is none the client's first passing suite. *)
Theorem ecdsa_workaround_choice (s : SSL X) clnt srvr :
  tls1_suiteb E s = 0 ->
  Z.land (options s) (SSL_OP_CIPHER_SERVER_PREFERENCE E) = 0 ->
  SSL_IS_TLS13 E s = 0 ->
  SSL_IS_TLS13 E (after_masks E s) = 0 ->
  is_probably_safari (after_masks E s) <> 0 ->
  fst (ssl3_choose_cipher E s clnt srvr) =
  match find (fun c => passes E (after_masks E s) srvr c && negb (ecdhe_ecdsa E c))
             clnt with
  | Some c => Some c
  | None => find (passes E (after_masks E s) srvr) clnt
  end.
Proof.
  intros SuiteB Pref T T' Safari.
  unfold ssl3_choose_cipher, prefer_sha256.
  rewrite SuiteB, Pref, T. change (truth 0) with false. cbv iota. cbn [fst].
  rewrite scan_rule by reflexivity.
  assert (Imm : forall c, immediate E (after_masks E s) false c = negb (ecdhe_ecdsa E c)).
  { intros c. unfold immediate, set_aside. rewrite T'.
    change (truth 0) with false. cbn [negb andb orb].
    replace (truth (is_probably_safari (after_masks E s))) with true
      by (symmetry; now apply negb_true_iff, Z.eqb_neq).
    now rewrite !andb_true_r. }
  rewrite (find_same _ (fun c => passes E (after_masks E s) srvr c
                                && negb (ecdhe_ecdsa E c))); auto.
  intros c. now rewrite Imm.
Qed.

(** X12.  In TLS 1.3, in the client's order, when the preference for
    SHA-256 is on (a PSK server callback is set and no certificate is
    configured): the choice is the client's first passing suite whose
    digest is SHA-256, and only when there is none the client's first
    passing suite. *)
Theorem sha256_preference_choice (s : SSL X) clnt srvr :
  tls1_suiteb E s = 0 ->
  Z.land (options s) (SSL_OP_CIPHER_SERVER_PREFERENCE E) = 0 ->
  prefer_sha256 E s = true ->
  fst (ssl3_choose_cipher E s clnt srvr) =
  match find (fun c => passes E s srvr c && uses_sha256 E s c) clnt with
  | Some c => Some c
  | None => find (passes E s srvr) clnt
  end.
Proof.
  intros SuiteB Pref Sha.
  assert (T : truth (SSL_IS_TLS13 E s) = true).
  { unfold prefer_sha256 in Sha.
    destruct (truth (SSL_IS_TLS13 E s)); [reflexivity|discriminate]. }
  unfold ssl3_choose_cipher, after_masks.
  rewrite SuiteB, Pref, Sha, T. change (truth 0) with false. cbv iota. cbn [fst].
  rewrite scan_rule by reflexivity.
  rewrite (find_same _ (fun c => passes E s srvr c && uses_sha256 E s c)); auto.
  intros c. unfold immediate, set_aside. now rewrite T.
Qed.

(** X13.  Under server preference with the ChaCha20 reordering in effect
    and no tie-break rule in play, the choice is the server's first passing
    ChaCha20 suite, and only when there is none the server's first passing
    suite of another kind. *)
Theorem chacha_priority_choice (s : SSL X) clnt srvr :
  tls1_suiteb E s = 0 ->
  Z.land (options s) (SSL_OP_CIPHER_SERVER_PREFERENCE E) <> 0 ->
  chacha_first E s clnt srvr = true ->
  prefer_sha256 E s = false ->
  SSL_IS_TLS13 E (after_masks E s) <> 0 \/ is_probably_safari (after_masks E s) = 0 ->
  fst (ssl3_choose_cipher E s clnt srvr) =
  match find (fun c => passes E (after_masks E s) clnt c && is_chacha E c) srvr with
  | Some c => Some c
  | None =>
      find (fun c => passes E (after_masks E s) clnt c && negb (is_chacha E c)) srvr
  end.
Proof.
  intros SuiteB Pref First Sha Mode.
  unfold ssl3_choose_cipher.
  rewrite SuiteB, Sha. change (truth 0) with false. cbv iota.
  replace (truth (Z.land (options s) (SSL_OP_CIPHER_SERVER_PREFERENCE E))) with true
    by (symmetry; now apply negb_true_iff, Z.eqb_neq).
  cbn [fst].
  rewrite prioritize_chacha_shape, First.
  rewrite NegotiationProofs.scan_client_order.
  - now rewrite find_app, !find_filter.
  - destruct Mode as [M|M]; [left|right; exact M].
    now apply negb_true_iff, Z.eqb_neq.
  - reflexivity.
Qed.
End Facts.

Lemma chosen_cipher_is_shared_and_passes_sample :
  let s := Sample.tls12_server_safari in
  let clnt := [Sample.ECDHE_ECDSA_AES128_GCM_SHA256; Sample.AES128_GCM_SHA256] in
  let srvr := [Sample.AES128_GCM_SHA256; Sample.ECDHE_ECDSA_AES128_GCM_SHA256] in
  let c := Sample.AES128_GCM_SHA256 in
  In c clnt /\ In c srvr /\
  version_ok Sample.choose_env (after_masks Sample.choose_env s) c = true /\
  capable Sample.choose_env (after_masks Sample.choose_env s) c = true /\
  permitted Sample.choose_env (after_masks Sample.choose_env s) c = true.
Proof.
  apply (chosen_cipher_is_shared_and_passes Sample.choose_env
           Sample.tls12_server_safari).
  vm_compute. reflexivity.
Defined.

Lemma ecdsa_workaround_choice_sample :
  let s := Sample.tls12_server_safari in
  let clnt := [Sample.ECDHE_ECDSA_AES128_GCM_SHA256; Sample.AES128_GCM_SHA256] in
  let srvr := [Sample.AES128_GCM_SHA256; Sample.ECDHE_ECDSA_AES128_GCM_SHA256] in
  fst (ssl3_choose_cipher Sample.choose_env s clnt srvr) =
  match find (fun c => passes Sample.choose_env (after_masks Sample.choose_env s) srvr c
                       && negb (ecdhe_ecdsa Sample.choose_env c)) clnt with
  | Some c => Some c
  | None => find (passes Sample.choose_env (after_masks Sample.choose_env s) srvr) clnt
  end.
Proof.
  apply (ecdsa_workaround_choice Sample.choose_env Sample.tls12_server_safari);
    try reflexivity.
  vm_compute. discriminate.
Defined.

Lemma sha256_preference_choice_sample :
  let s := Sample.tls13_psk_server in
  let clnt := [Sample.TLS_AES_256_GCM_SHA384; Sample.TLS_AES_128_GCM_SHA256] in
  let srvr := [Sample.TLS_AES_128_GCM_SHA256; Sample.TLS_AES_256_GCM_SHA384] in
  fst (ssl3_choose_cipher Sample.choose_env s clnt srvr) =
  match find (fun c => passes Sample.choose_env s srvr c
                       && uses_sha256 Sample.choose_env s c) clnt with
  | Some c => Some c
  | None => find (passes Sample.choose_env s srvr) clnt
  end.
Proof.
  apply (sha256_preference_choice Sample.choose_env Sample.tls13_psk_server);
    reflexivity.
Defined.

Lemma chacha_priority_choice_sample :
  let s := Fixtures.tls12_server_chacha in
  let clnt := [Fixtures.ECDHE_ECDSA_CHACHA20_POLY1305; Sample.AES128_GCM_SHA256] in
  let srvr := [Sample.AES128_GCM_SHA256; Fixtures.ECDHE_ECDSA_CHACHA20_POLY1305] in
  fst (ssl3_choose_cipher Sample.choose_env s clnt srvr) =
  match find (fun c => passes Sample.choose_env (after_masks Sample.choose_env s) clnt c
                       && is_chacha Sample.choose_env c) srvr with
  | Some c => Some c
  | None =>
      find (fun c => passes Sample.choose_env (after_masks Sample.choose_env s) clnt c
                     && negb (is_chacha Sample.choose_env c)) srvr
  end.
Proof.
  apply (chacha_priority_choice Sample.choose_env Fixtures.tls12_server_chacha);
    try reflexivity.
  - vm_compute. discriminate.
  - right. reflexivity.
Defined.

(** The samples run: the server that suspects the broken client passes
    over the ECDHE-ECDSA suite offered first, the TLS 1.3 PSK server passes
    over the SHA-384 suite offered first, and the server that puts ChaCha20
    first chooses it although it lists it last. *)
Lemma tie_breaks_run :
  fst (ssl3_choose_cipher Sample.choose_env Sample.tls12_server_safari
         [Sample.ECDHE_ECDSA_AES128_GCM_SHA256; Sample.AES128_GCM_SHA256]
         [Sample.AES128_GCM_SHA256; Sample.ECDHE_ECDSA_AES128_GCM_SHA256])
    = Some Sample.AES128_GCM_SHA256 /\
  fst (ssl3_choose_cipher Sample.choose_env Sample.tls13_psk_server
         [Sample.TLS_AES_256_GCM_SHA384; Sample.TLS_AES_128_GCM_SHA256]
         [Sample.TLS_AES_128_GCM_SHA256; Sample.TLS_AES_256_GCM_SHA384])
    = Some Sample.TLS_AES_128_GCM_SHA256 /\
  fst (ssl3_choose_cipher Sample.choose_env Fixtures.tls12_server_chacha
         [Fixtures.ECDHE_ECDSA_CHACHA20_POLY1305; Sample.AES128_GCM_SHA256]
         [Sample.AES128_GCM_SHA256; Fixtures.ECDHE_ECDSA_CHACHA20_POLY1305])
    = Some Fixtures.ECDHE_ECDSA_CHACHA20_POLY1305.
Proof. vm_compute. repeat split. Qed.

End ChoiceProofs.

(** ** Closing the connection, call after call *)
Module ClosureProofs.
Import Shutdown Scenarios.

Lemma land_lor_left a b : Z.land (Z.lor a b) a = a.
Proof.
  apply Z.bits_inj'. intros n _. rewrite Z.land_spec, Z.lor_spec.
  destruct (Z.testbit a n), (Z.testbit b n); reflexivity.
Qed.

Lemma land_lor_right a b : Z.land (Z.lor a b) b = b.
Proof. rewrite Z.lor_comm. apply land_lor_left. Qed.

Section Facts.
Context {X : Type} (E : Env X).

Lemma finished_closed (s : SSL X) :
  fst (finished E s) = 1 ->
  shutdown (snd (finished E s)) = Z.lor (SSL_SENT_SHUTDOWN E) (SSL_RECEIVED_SHUTDOWN E)
  /\ alert_dispatch (snd (finished E s)) = 0.
Proof.
  unfold finished.
  destruct (shutdown s =? _) eqn:Both; cbn [andb]; [|discriminate].
  destruct (truth (alert_dispatch s)) eqn:A; cbn [negb fst snd]; [discriminate|].
  intros _. apply Z.eqb_eq in Both. now apply ShutdownProofs.truth_zero in A.
Qed.

(** X14.  [ssl3_shutdown] returns 1 only with both directions recorded as
    closed: the shutdown state is then exactly sent-and-received, and
    outside quiet shutdown and the initial state no alert is left
    queued. *)
Theorem ssl3_shutdown_success_means_closed (s : SSL X) :
  fst (ssl3_shutdown E s) = 1 ->
  shutdown (snd (ssl3_shutdown E s)) =
    Z.lor (SSL_SENT_SHUTDOWN E) (SSL_RECEIVED_SHUTDOWN E) /\
  (truth (quiet_shutdown s) || truth (SSL_in_before E s) = true \/
   alert_dispatch (snd (ssl3_shutdown E s)) = 0).
Proof.
  unfold ssl3_shutdown.
  destruct (truth (quiet_shutdown s) || truth (SSL_in_before E s));
    [cbn [fst snd set_shutdown shutdown]; auto|].
  destruct (truth (Z.land (shutdown s) (SSL_SENT_SHUTDOWN E))); cbn [negb].
  - destruct (truth (alert_dispatch s)).
    + destruct (ssl_dispatch_alert E s) as [ret s1].
      destruct (ret =? -1) eqn:R.
      * apply Z.eqb_eq in R. cbn [fst]. lia.
      * intros F. apply finished_closed in F. tauto.
    + destruct (truth (Z.land (shutdown s) (SSL_RECEIVED_SHUTDOWN E))); cbn [negb].
      * intros F. apply finished_closed in F. tauto.
      * destruct (truth (Z.land (shutdown (snd (ssl_read_bytes E s))) _));
          cbn [negb]; [|cbn [fst]; lia].
        intros F. apply finished_closed in F. tauto.
  - destruct (truth (alert_dispatch _)); [cbn [fst]; lia|].
    intros F. apply finished_closed in F. tauto.
Qed.

(** X15.  The call that queues our close-notify, and any call made while
    an alert is still queued or under quiet shutdown, does not read from
    the peer: its outcome is the same whatever the record-layer read would
    do. *)
Theorem ssl3_shutdown_reads_only_after_sending
        (s : SSL X) (rd : SSL X -> Z * SSL X) :
  Z.land (shutdown s) (SSL_SENT_SHUTDOWN E) = 0 \/ alert_dispatch s <> 0 \/
  quiet_shutdown s <> 0 ->
  ssl3_shutdown (with_read E rd) s = ssl3_shutdown E s.
Proof.
  intros Why. unfold ssl3_shutdown.
  change (SSL_in_before (with_read E rd)) with (SSL_in_before E).
  change (SSL_SENT_SHUTDOWN (with_read E rd)) with (SSL_SENT_SHUTDOWN E).
  change (SSL_RECEIVED_SHUTDOWN (with_read E rd)) with (SSL_RECEIVED_SHUTDOWN E).
  change (ssl3_send_alert (with_read E rd)) with (ssl3_send_alert E).
  change (ssl_dispatch_alert (with_read E rd)) with (ssl_dispatch_alert E).
  change (SSL3_AL_WARNING (with_read E rd)) with (SSL3_AL_WARNING E).
  change (SSL_AD_CLOSE_NOTIFY (with_read E rd)) with (SSL_AD_CLOSE_NOTIFY E).
  change (finished (with_read E rd)) with (finished E).
  destruct (truth (quiet_shutdown s)) eqn:Q; cbn [orb]; [reflexivity|].
  destruct (truth (SSL_in_before E s)); [reflexivity|].
  destruct (truth (Z.land (shutdown s) (SSL_SENT_SHUTDOWN E))) eqn:S;
    cbn [negb]; [|reflexivity].
  destruct (truth (alert_dispatch s)) eqn:A; [reflexivity|].
  apply ShutdownProofs.truth_zero in Q, A. apply ShutdownProofs.truth_iff in S.
  tauto.
Qed.

(** X16.  The orderly close takes two calls.  On a connection that has not
    begun to close, with a transport that writes the alert at once and then
    has the peer's close-notify to read, the first call returns 0 (ours is
    out, the peer's is not in), the second returns 1, and the state is then
    sent-and-received. *)
Theorem orderly_shutdown_in_two_calls (s : SSL X) :
  SSL_SENT_SHUTDOWN E <> 0 -> SSL_RECEIVED_SHUTDOWN E <> 0 ->
  Z.land (SSL_SENT_SHUTDOWN E) (SSL_RECEIVED_SHUTDOWN E) = 0 ->
  (forall t, SSL_in_before E t = 0) ->
  (forall t l d,
     alert_dispatch (snd (ssl3_send_alert E t l d)) = 0 /\
     shutdown (snd (ssl3_send_alert E t l d)) = shutdown t /\
     quiet_shutdown (snd (ssl3_send_alert E t l d)) = quiet_shutdown t) ->
  (forall t,
     shutdown (snd (ssl_read_bytes E t)) =
       Z.lor (shutdown t) (SSL_RECEIVED_SHUTDOWN E) /\
     alert_dispatch (snd (ssl_read_bytes E t)) = alert_dispatch t) ->
  quiet_shutdown s = 0 -> shutdown s = 0 ->
  fst (ssl3_shutdown E s) = 0 /\
  fst (ssl3_shutdown E (snd (ssl3_shutdown E s))) = 1 /\
  shutdown (snd (ssl3_shutdown E (snd (ssl3_shutdown E s)))) =
    Z.lor (SSL_SENT_SHUTDOWN E) (SSL_RECEIVED_SHUTDOWN E).
Proof.
  intros S0 R0 Apart Before Send Read Quiet Open.
  set (s1 := snd (ssl3_send_alert E
                    (set_shutdown (Z.lor (shutdown s) (SSL_SENT_SHUTDOWN E)) s)
                    (SSL3_AL_WARNING E) (SSL_AD_CLOSE_NOTIFY E))).
  destruct (Send (set_shutdown (Z.lor (shutdown s) (SSL_SENT_SHUTDOWN E)) s)
                 (SSL3_AL_WARNING E) (SSL_AD_CLOSE_NOTIFY E)) as (A1 & Sh1 & Q1).
  fold s1 in A1, Sh1, Q1.
  cbn [set_shutdown shutdown quiet_shutdown] in Sh1, Q1.
  rewrite Open, Z.lor_0_l in Sh1. rewrite Quiet in Q1.
  assert (Half : SSL_SENT_SHUTDOWN E <>
                 Z.lor (SSL_SENT_SHUTDOWN E) (SSL_RECEIVED_SHUTDOWN E)).
  { intros Eq.
    pose proof (land_lor_right (SSL_SENT_SHUTDOWN E) (SSL_RECEIVED_SHUTDOWN E)) as Ab.
    rewrite <- Eq, Apart in Ab. congruence. }
  assert (First : ssl3_shutdown E s = (0, s1)).
  { unfold ssl3_shutdown.
    rewrite Quiet, Before. change (truth 0) with false.
    replace (truth (Z.land (shutdown s) (SSL_SENT_SHUTDOWN E))) with false
      by (now rewrite Open).
    cbn [orb negb]. fold s1. rewrite A1. change (truth 0) with false. cbv iota.
    unfold finished. rewrite Sh1.
    replace (SSL_SENT_SHUTDOWN E =? _) with false
      by (symmetry; now apply Z.eqb_neq).
    reflexivity. }
  rewrite First. cbn [fst snd].
  destruct (Read s1) as (Sh2 & A2). rewrite Sh1 in Sh2. rewrite A1 in A2.
  assert (Second : ssl3_shutdown E s1 = (1, snd (ssl_read_bytes E s1))).
  { unfold ssl3_shutdown.
    rewrite Q1, Before, Sh1, A1, Z.land_diag, Apart.
    change (truth 0) with false. cbn [orb negb].
    replace (truth (SSL_SENT_SHUTDOWN E)) with true
      by (symmetry; now apply ShutdownProofs.truth_iff).
    cbv iota. cbn [negb]. rewrite Sh2, land_lor_right.
    replace (truth (SSL_RECEIVED_SHUTDOWN E)) with true
      by (symmetry; now apply ShutdownProofs.truth_iff).
    cbn [negb]. unfold finished. rewrite Sh2, A2, Z.eqb_refl. reflexivity. }
  rewrite Second. cbn [fst snd]. auto.
Qed.

(** X17.  A completed shutdown is stable: on a connection whose state is
    sent-and-received with no alert queued, [ssl3_shutdown] returns 1 and
    leaves the connection as it is, whatever the transport would do. *)
Theorem completed_shutdown_is_stable (s : SSL X) :
  SSL_SENT_SHUTDOWN E <> 0 -> SSL_RECEIVED_SHUTDOWN E <> 0 ->
  shutdown s = Z.lor (SSL_SENT_SHUTDOWN E) (SSL_RECEIVED_SHUTDOWN E) ->
  alert_dispatch s = 0 ->
  ssl3_shutdown E s = (1, s).
Proof.
  intros S0 R0 Both Quiet. unfold ssl3_shutdown.
  destruct (truth (quiet_shutdown s) || truth (SSL_in_before E s)).
  - rewrite <- Both. now destruct s.
  - rewrite Both, land_lor_left, land_lor_right, Quiet.
    replace (truth (SSL_SENT_SHUTDOWN E)) with true
      by (symmetry; now apply ShutdownProofs.truth_iff).
    replace (truth (SSL_RECEIVED_SHUTDOWN E)) with true
      by (symmetry; now apply ShutdownProofs.truth_iff).
    change (truth 0) with false. cbn [negb]. cbv iota.
    unfold finished. rewrite Both, Quiet, Z.eqb_refl. reflexivity.
Qed.
End Facts.

Lemma ssl3_shutdown_success_means_closed_sample :
  shutdown (snd (ssl3_shutdown Fixtures.open_env Sample.shutdown_sent)) = Z.lor 1 2 /\
  (truth (quiet_shutdown Sample.shutdown_sent)
   || truth (SSL_in_before Fixtures.open_env Sample.shutdown_sent) = true \/
   alert_dispatch (snd (ssl3_shutdown Fixtures.open_env Sample.shutdown_sent)) = 0).
Proof.
  apply (ssl3_shutdown_success_means_closed Fixtures.open_env Sample.shutdown_sent).
  reflexivity.
Defined.

Lemma ssl3_shutdown_reads_only_after_sending_sample :
  ssl3_shutdown (with_read Sample.blocked_env (ssl_read_bytes Fixtures.open_env))
                Sample.shutdown_idle =
  ssl3_shutdown Sample.blocked_env Sample.shutdown_idle.
Proof.
  apply (ssl3_shutdown_reads_only_after_sending Sample.blocked_env
           Sample.shutdown_idle (ssl_read_bytes Fixtures.open_env)).
  left. reflexivity.
Defined.

Lemma orderly_shutdown_in_two_calls_sample :
  fst (ssl3_shutdown Fixtures.open_env Sample.shutdown_idle) = 0 /\
  fst (ssl3_shutdown Fixtures.open_env
         (snd (ssl3_shutdown Fixtures.open_env Sample.shutdown_idle))) = 1 /\
  shutdown (snd (ssl3_shutdown Fixtures.open_env
                   (snd (ssl3_shutdown Fixtures.open_env Sample.shutdown_idle)))) =
    Z.lor 1 2.
Proof.
  apply (orderly_shutdown_in_two_calls Fixtures.open_env Sample.shutdown_idle);
    try reflexivity; try discriminate.
  - intros t l d. repeat split.
  - intros t. split; reflexivity.
Defined.

Lemma completed_shutdown_is_stable_sample :
  ssl3_shutdown Sample.blocked_env Fixtures.shutdown_done = (1, Fixtures.shutdown_done).
Proof.
  apply (completed_shutdown_is_stable Sample.blocked_env Fixtures.shutdown_done);
    try reflexivity; discriminate.
Defined.

End ClosureProofs.

(** ** The hello random on its other paths *)
Module RandomProofs.
Import HelloRandom.

Section Facts.
Variable E : Env.

(** What the generator leaves in a buffer of [len] bytes does not depend
    on what the buffer held. *)
Lemma generator_fills (s : SSL) (server : Z) (result : list byte) (len : Z) :
  4 <= len -> sizeof result = len ->
  (if (if truth server
       then truth (Z.land (mode s) (SSL_MODE_SEND_SERVERHELLO_TIME E))
       else truth (Z.land (mode s) (SSL_MODE_SEND_CLIENTHELLO_TIME E)))
   then RAND_bytes_ex E (store result 0 (l2n (time E))) 4 (len - 4)
   else RAND_bytes_ex E result 0 len)
  = (rand_ret E, fill E s server len).
Proof.
  intros L B.
  unfold fill, RAND_bytes_ex. fold (drawn E (len - 4)). fold (drawn E len).
  destruct (if truth server then _ else _); f_equal.
  - rewrite HelloRandomProofs.store_to_end.
    + reflexivity.
    + lia.
    + rewrite HelloRandomProofs.sizeof_drawn by lia.
      rewrite HelloRandomProofs.store_front, HelloRandomProofs.sizeof_app.
      unfold sizeof in *. rewrite length_skipn.
      change (List.length (l2n (time E))) with 4%nat. lia.
  - apply HelloRandomProofs.store_all.
    rewrite HelloRandomProofs.sizeof_drawn; lia.
Qed.

(** X18.  A buffer of 4 to 8 bytes is refused late: with a working
    generator [ssl_fill_hello_random] returns 0, yet it has by then
    overwritten the whole buffer with the time and the random bytes. *)
Theorem ssl_fill_hello_random_short_buffer
        (s : SSL) (server : Z) (result : list byte) (len : Z) (dgrd : DOWNGRADE) :
  4 <= len <= 8 -> sizeof result = len -> 0 < rand_ret E ->
  ssl_fill_hello_random E s server result len dgrd = (0, fill E s server len).
Proof.
  intros L B R. unfold ssl_fill_hello_random.
  replace (len <? 4) with false by (symmetry; apply Z.ltb_ge; lia).
  rewrite generator_fills by lia.
  replace (rand_ret E >? 0) with true by (symmetry; apply Z.gtb_lt; lia).
  replace (sizeof tls11downgrade <? len) with false
    by (symmetry; apply Z.ltb_ge; change (sizeof tls11downgrade) with 8; lia).
  reflexivity.
Qed.

(** X19.  When the generator fails, its status is what
    [ssl_fill_hello_random] returns, whatever the downgrade: no sentinel
    is written, and the buffer holds what the generator left (after the
    time, when the time is sent). *)
Theorem ssl_fill_hello_random_generator_failure
        (s : SSL) (server : Z) (result : list byte) (len : Z) (dgrd : DOWNGRADE) :
  4 <= len -> sizeof result = len -> rand_ret E <= 0 ->
  ssl_fill_hello_random E s server result len dgrd =
    (rand_ret E, fill E s server len).
Proof.
  intros L B R. unfold ssl_fill_hello_random.
  replace (len <? 4) with false by (symmetry; apply Z.ltb_ge; lia).
  rewrite generator_fills by lia.
  replace (rand_ret E >? 0) with false
    by (symmetry; rewrite Z.gtb_ltb; apply Z.ltb_ge; lia).
  reflexivity.
Qed.

(** X20.  When the generator succeeds, no byte of the caller's buffer
    survives a call that gets past the length test: two buffers of the
    same length, at least 4, come out the same and with the same status.
    (A generator that fails may have left the buffer as it was; nothing is
    said of that case.) *)
Theorem ssl_fill_hello_random_overwrites_all
        (s : SSL) (server : Z) (result result' : list byte) (len : Z)
        (dgrd : DOWNGRADE) :
  0 < rand_ret E ->
  4 <= len -> sizeof result = len -> sizeof result' = len ->
  ssl_fill_hello_random E s server result len dgrd =
  ssl_fill_hello_random E s server result' len dgrd.
Proof.
  intros Drawn L B B'. unfold ssl_fill_hello_random.
  replace (len <? 4) with false by (symmetry; apply Z.ltb_ge; lia).
  now rewrite !generator_fills by lia.
Qed.
End Facts.

Lemma ssl_fill_hello_random_short_buffer_sample :
  ssl_fill_hello_random Sample.random_env {| mode := 0x40 |} 1
                        [0; 0; 0; 0; 0; 0; 0; 0] 8 DOWNGRADE_TO_1_2 =
  (0, fill Sample.random_env {| mode := 0x40 |} 1 8).
Proof.
  apply (ssl_fill_hello_random_short_buffer Sample.random_env {| mode := 0x40 |} 1
           [0; 0; 0; 0; 0; 0; 0; 0] 8 DOWNGRADE_TO_1_2); [lia | reflexivity | simpl; lia].
Defined.

Lemma ssl_fill_hello_random_generator_failure_sample :
  ssl_fill_hello_random Fixtures.dry_env {| mode := 0 |} 0 (repeat 7 32) 32
                        DOWNGRADE_TO_1_1 =
  (rand_ret Fixtures.dry_env, fill Fixtures.dry_env {| mode := 0 |} 0 32).
Proof.
  apply (ssl_fill_hello_random_generator_failure Fixtures.dry_env {| mode := 0 |} 0
           (repeat 7 32) 32 DOWNGRADE_TO_1_1); [lia | reflexivity | simpl; lia].
Defined.

Lemma ssl_fill_hello_random_overwrites_all_sample :
  ssl_fill_hello_random Sample.random_env {| mode := 0x40 |} 1 (repeat 0 32) 32
                        DOWNGRADE_NONE =
  ssl_fill_hello_random Sample.random_env {| mode := 0x40 |} 1 (repeat 7 32) 32
                        DOWNGRADE_NONE.
Proof.
  apply (ssl_fill_hello_random_overwrites_all Sample.random_env {| mode := 0x40 |} 1
           (repeat 0 32) (repeat 7 32) 32 DOWNGRADE_NONE);
    [simpl; lia | lia | reflexivity | reflexivity].
Defined.

End RandomProofs.

(** ** The master secret on its other paths *)
Module SecretProofs.
Import MasterSecret.

Section Facts.
Variable E : Env.

(** What the function has done when it reaches the label err. *)
Lemma until_err_length (s : SSL) (alg_k : Z) (p : option (list byte)) (len : Z)
      ret s1 len1 done :
  until_err E s alg_k p len = Ok (ret, s1, len1, done) ->
  len1 = length_at_err E s alg_k len /\
  server s1 = server s /\ (ret = 0 \/ ret = 1).
Proof.
  unfold until_err, call_kdf, length_at_err.
  destruct (truth (Z.land alg_k (SSL_PSK E))); cbn [andb].
  - destruct (OPENSSL_NO_PSK E); cbn [negb andb].
    + intros [= <- <- <- <-]. auto.
    + destruct (truth (Z.land alg_k (SSL_kPSK E))).
      * destruct (OPENSSL_malloc E _); cbn [negb]; [|intros [= <- <- <- <-]; auto].
        cbn [bind].
        destruct (read_ptr (psk s) (psklen s)); cbn [bind]; [|discriminate].
        cbn [session clear_psk].
        destruct (session s); [|discriminate].
        destruct (generate_master_secret E _ _ _); cbn [bind];
          intros [= <- <- <- <-]; auto.
      * destruct (OPENSSL_malloc E _); cbn [negb]; [|intros [= <- <- <- <-]; auto].
        destruct (read_ptr p len); cbn [bind]; [|discriminate].
        destruct (read_ptr (psk s) (psklen s)); cbn [bind]; [|discriminate].
        cbn [session clear_psk].
        destruct (session s); [|discriminate].
        destruct (generate_master_secret E _ _ _); cbn [bind];
          intros [= <- <- <- <-]; auto.
  - destruct (read_ptr p len); cbn [bind]; [|discriminate].
    destruct (session s); [|discriminate].
    destruct (generate_master_secret E _ _ _); cbn [bind];
      intros [= <- <- <- <-]; auto.
Qed.

(** X21.  The erase of a premaster buffer handed in, at the exit of
    [ssl_generate_master_secret].  Whenever the function returns, with 1
    or with 0, the last thing it has done is to erase the buffer (freeing
    it when asked to) over L bytes that lie within it, and on a client the
    premaster kept in the connection is dropped.  L is the caller's length
    for every suite but plain PSK; for plain PSK it is the length of the
    PSK, so that a longer premaster is erased in part only, and with a
    buffer shorter than the PSK the erase runs past its end: the call is
    undefined. *)
Theorem premaster_erasure_at_exit
        (s : SSL) (c : SSL_CIPHER) (buf : list byte) (pmslen free_pms : Z) :
  new_cipher s = Some c ->
  let L := length_at_err E s (algorithm_mkey c) pmslen in
  (forall ret s' done,
     ssl_generate_master_secret E s (Some buf) pmslen free_pms = Ok (ret, s', done) ->
     0 <= L <= sizeof buf /\
     (exists before,
        done = before ++
          [if truth free_pms then Clear_free the_pms L else Cleanse the_pms L]) /\
     (server s = 0 -> pms s' = None /\ MasterSecret.pmslen s' = 0) /\
     (ret = 0 \/ ret = 1)) /\
  (sizeof buf < L ->
   ssl_generate_master_secret E s (Some buf) pmslen free_pms = Undefined).
Proof.
  intros C L. unfold ssl_generate_master_secret. rewrite C.
  destruct (until_err E s (algorithm_mkey c) (Some buf) pmslen)
    as [[[[r s1] len1] d]|] eqn:U; cbn [bind]; [|split; [discriminate|reflexivity]].
  apply until_err_length in U as (-> & Srv & R). fold L.
  unfold erase_pms.
  destruct ((0 <=? L) && (L <=? sizeof buf)) eqn:In; cbn [bind].
  - rewrite andb_true_iff, !Z.leb_le in In. split; [|lia].
    intros ret s' done [= <- <- <-]. split; [lia|]. split; [|split].
    + now exists d.
    + intros Client. rewrite Srv, Client. split; reflexivity.
    + exact R.
  - split; [discriminate|reflexivity].
Qed.


End Facts.

(** A DHE_PSK server handed a 2-byte premaster erases those 2 bytes as the
    last thing it does; the plain PSK server with a 3-byte PSK, handed the
    same buffer, would erase 3. *)
Lemma premaster_erasure_at_exit_sample :
  (0 <= 2 <= sizeof [0xD1; 0xD2] /\
   exists before,
     [Clear_free the_psk 3; Kdf [0; 2; 0xD1; 0xD2; 0; 3; 0xC1; 0xC2; 0xC3] 9;
      Clear_free the_pskpms 9; Clear_free the_pms 2] =
     before ++ [Clear_free the_pms 2]) /\
  ssl_generate_master_secret Sample.secret_env Sample.psk_server
    (Some [0xD1; 0xD2]) 2 0 = Undefined.
Proof.
  split.
  - destruct (premaster_erasure_at_exit Sample.secret_env Sample.dhe_psk_server
                (Sample.cipher_with_kex 0x100) [0xD1; 0xD2] 2 1 eq_refl)
      as [Exit _].
    destruct (Exit 1
                (mkSSL 1 (Some {| master_key := [0xC3; 0xC2; 0xC1; 3; 0; 0xD2; 0xD1; 2; 0];
                                  master_key_length := 9 |})
                       (Some (Sample.cipher_with_kex 0x100)) None 0 None 0)
                [Clear_free the_psk 3;
                 Kdf [0; 2; 0xD1; 0xD2; 0; 3; 0xC1; 0xC2; 0xC3] 9;
                 Clear_free the_pskpms 9; Clear_free the_pms 2])
      as (Within & Last & _).
    + vm_compute. reflexivity.
    + split; [exact Within | exact Last].
  - destruct (premaster_erasure_at_exit Sample.secret_env Sample.psk_server
                (Sample.cipher_with_kex 0x8) [0xD1; 0xD2] 2 0 eq_refl)
      as [_ Overrun].
    apply Overrun. vm_compute. reflexivity.
Defined.



End SecretProofs.

(** ** The certificate types of a CertificateRequest *)
Module CertTypesProofs.
Import Lookup CertTypes.

Lemma read_length (b : list byte) (off n : Z) (got : list byte) :
  read b off n = Ok got -> Z.of_nat (List.length got) = n /\ 0 <= n.
Proof.
  unfold read.
  destruct ((0 <=? off) && (0 <=? n) && (off + n <=? Z.of_nat (List.length b))) eqn:C;
    [|discriminate].
  rewrite !andb_true_iff, !Z.leb_le in C. intros [= <-].
  rewrite length_firstn, length_skipn. lia.
Qed.

Lemma read_front (b : list byte) (n : Z) :
  0 <= n <= Z.of_nat (List.length b) -> read b 0 n = Ok (firstn (Z.to_nat n) b).
Proof.
  intros R. unfold read.
  replace ((0 <=? 0) && (0 <=? n) && (0 + n <=? Z.of_nat (List.length b))) with true
    by (symmetry; rewrite !andb_true_iff, !Z.leb_le; lia).
  reflexivity.
Qed.

Section Facts.
Variable E : Env.
Context {W : Type} (P : Writer W).
Hypothesis Wr : writer_contract P.

Lemma puts_app (a b : list Z) : forall pkt,
  puts P (a ++ b) pkt =
  let (ok, pkt') := puts P a pkt in if ok then puts P b pkt' else (false, pkt').
Proof.
  induction a as [|v r IH]; intros pkt; cbn [puts app].
  - reflexivity.
  - destruct (WPACKET_put_bytes_u8 P pkt v); [apply IH | reflexivity].
Qed.

Lemma or_return_0_nothing pkt (rest : W -> Z * W) :
  or_return_0 P [] pkt rest = rest pkt.
Proof. reflexivity. Qed.

Lemma or_return_0_chain (a b : list Z) pkt :
  or_return_0 P a pkt (fun pkt => let (ok, pkt') := puts P b pkt in
                                  (if ok then 1 else 0, pkt')) =
  let (ok, pkt') := puts P (a ++ b) pkt in (if ok then 1 else 0, pkt').
Proof.
  unfold or_return_0. rewrite puts_app.
  destruct (puts P a pkt) as [[|] p1]; [|reflexivity].
  now destruct (puts P b p1) as [[|] p2].
Qed.

Lemma or_return_0_end (a : list Z) pkt :
  or_return_0 P a pkt (fun pkt => (1, pkt)) =
  let (ok, pkt') := puts P a pkt in (if ok then 1 else 0, pkt').
Proof. unfold or_return_0. now destruct (puts P a pkt) as [[|] p1]. Qed.

Lemma puts_written (vs : list Z) : forall pkt pkt',
  puts P vs pkt = (true, pkt') ->
  written P pkt' = written P pkt ++ map (fun v => v mod 256) vs.
Proof.
  induction vs as [|v r IH]; intros pkt pkt'; cbn [puts map].
  - intros [= <-]. now rewrite app_nil_r.
  - destruct (WPACKET_put_bytes_u8 P pkt v) as [p1|] eqn:Put; [|discriminate].
    intros Rest. apply IH in Rest. apply (put_u8_appends _ Wr) in Put.
    rewrite Rest, Put, <- app_assoc. reflexivity.
Qed.

Lemma default_run (s : SSL) (c : SSL_CIPHER) (pkt : W) :
  ctype (cert s) = None -> new_cipher s = Some c ->
  ssl3_get_req_cert_type E P s pkt =
    Ok (let (ok, pkt') := puts P (default_types E s c) pkt in
        (if ok then 1 else 0, pkt')).
Proof.
  intros Custom Cipher.
  unfold ssl3_get_req_cert_type, default_types. rewrite Custom, Cipher. f_equal.
    set (alg_a := uint32 (ssl_set_sig_mask E 0 s (SSL_SECOP_SIGALG_MASK E))).
    set (alg_k := algorithm_mkey c).
    set (gost := if negb (OPENSSL_NO_GOST E) && (version s >=? TLS1_VERSION E)
                    && truth (Z.land alg_k (SSL_kGOST E)) then _ else _).
    set (gost18 := if negb (OPENSSL_NO_GOST E) && (version s >=? TLS1_2_VERSION E)
                      && truth (Z.land alg_k (SSL_kGOST18 E)) then _ else _).
    rewrite (puts_app gost). unfold or_return_0 at 1.
    destruct (puts P gost pkt) as [[|] p1]; [|reflexivity].
    rewrite (puts_app gost18). unfold or_return_0 at 1.
    destruct (puts P gost18 p1) as [[|] p2]; [|reflexivity].
    destruct (version s >=? TLS1_VERSION E); cbn [andb].
    - destruct (truth (Z.land alg_k (SSL_kBDHE E))); cbn [orb];
        [apply or_return_0_end|].
      destruct (truth (Z.land alg_k (SSL_kBDHTPSK E))); [apply or_return_0_end|].
      destruct ((version s =? SSL3_VERSION E) && truth (Z.land alg_k (SSL_kDHE E)));
        cbn [andb];
        destruct (truth (Z.land alg_a (SSL_aDSS E))),
                 (truth (Z.land alg_a (SSL_aRSA E))),
                 (truth (Z.land alg_a (SSL_aECDSA E)));
        cbn [negb app]; unfold or_return_0; cbn [puts];
        repeat (match goal with
                | |- context [WPACKET_put_bytes_u8 P ?p ?v] =>
                    destruct (WPACKET_put_bytes_u8 P p v)
                end; cbn [puts]);
        reflexivity.
    - destruct ((version s =? SSL3_VERSION E) && truth (Z.land alg_k (SSL_kDHE E)));
        cbn [andb];
        destruct (truth (Z.land alg_a (SSL_aDSS E))),
                 (truth (Z.land alg_a (SSL_aRSA E)));
        cbn [negb app]; unfold or_return_0; cbn [puts];
        repeat (match goal with
                | |- context [WPACKET_put_bytes_u8 P ?p ?v] =>
                    destruct (WPACKET_put_bytes_u8 P p v)
                end; cbn [puts]);
        reflexivity.
Qed.

(** X24.  With no custom list, [ssl3_get_req_cert_type] writes the types
    of [default_types] one after the other and stops with 0 at the first
    write that fails; when it returns 1 the packet has grown by exactly
    those types, one byte each. *)
Theorem ssl3_get_req_cert_type_default (s : SSL) (c : SSL_CIPHER) (pkt : W) :
  ctype (cert s) = None -> new_cipher s = Some c ->
  ssl3_get_req_cert_type E P s pkt =
    Ok (let (ok, pkt') := puts P (default_types E s c) pkt in
        (if ok then 1 else 0, pkt')) /\
  (forall pkt', ssl3_get_req_cert_type E P s pkt = Ok (1, pkt') ->
     written P pkt' =
     written P pkt ++ map (fun v => v mod 256) (default_types E s c)).
Proof.
  intros Custom Cipher.
  pose proof (default_run s c pkt Custom Cipher) as Run.
  split; [exact Run|].
  intros pkt'. rewrite Run.
  destruct (puts P (default_types E s c) pkt) as [[|] p1] eqn:Puts;
    intros [= <-]. now apply puts_written.
Qed.

(** X25.  A custom list set with [ssl3_set_req_cert_type] is what
    [ssl3_get_req_cert_type] then writes, byte for byte and nothing else,
    whatever suite has been negotiated and even before one has: for a list
    of 1 to 255 bytes that the allocator copies, the set returns 1, and the
    get copies exactly those bytes into the packet (or returns 0 with the
    packet as it was when the copy into the packet fails). *)
Theorem custom_types_round_trip
        (c : CERT) (p : list byte) (len : Z) (ver : Z) (suite : option SSL_CIPHER)
        (pkt : W) :
  0 < len <= 0xff -> len <= Z.of_nat (List.length p) ->
  OPENSSL_memdup E len = true ->
  exists c',
    ssl3_set_req_cert_type E c (Some p) len = Ok (1, c') /\
    match WPACKET_memcpy P pkt (firstn (Z.to_nat len) p) with
    | Some pkt' =>
        ssl3_get_req_cert_type E P (mkSSL c' ver suite) pkt = Ok (1, pkt') /\
        written P pkt' = written P pkt ++ firstn (Z.to_nat len) p
    | None => ssl3_get_req_cert_type E P (mkSSL c' ver suite) pkt = Ok (0, pkt)
    end.
Proof.
  intros R Fit Granted.
  exists (mkCERT (Some (firstn (Z.to_nat len) p)) len). split.
  - unfold ssl3_set_req_cert_type.
    replace (len =? 0) with false by (symmetry; apply Z.eqb_neq; lia).
    replace (len >? 0xff) with false
      by (symmetry; rewrite Z.gtb_ltb; apply Z.ltb_ge; lia).
    rewrite Granted. cbn [negb]. rewrite read_front by lia. reflexivity.
  - unfold ssl3_get_req_cert_type. cbn [cert ctype ctype_len].
    rewrite read_front by (rewrite length_firstn; lia).
    rewrite firstn_firstn, Nat.min_id. cbn [bind].
    destruct (WPACKET_memcpy P pkt (firstn (Z.to_nat len) p)) as [pkt'|] eqn:Copy;
      [|reflexivity].
    split; [reflexivity|]. now apply (memcpy_appends _ Wr).
Qed.

(** X26.  For a suite with a BIGN key exchange at TLS 1.0 or later, with
    no GOST key exchange in play, the only certificate type requested is
    TLS_CT_BIGN_SIGN: the function returns straight after writing it, so
    the RSA, DSS and ECDSA types are never offered, whatever signature
    algorithms are enabled. *)
Theorem bign_suite_requests_bign_only (s : SSL) (c : SSL_CIPHER) (pkt : W) :
  ctype (cert s) = None -> new_cipher s = Some c ->
  TLS1_VERSION E <= version s ->
  Z.land (algorithm_mkey c) (SSL_kBDHE E) <> 0 \/
  Z.land (algorithm_mkey c) (SSL_kBDHTPSK E) <> 0 ->
  OPENSSL_NO_GOST E = true \/
  (Z.land (algorithm_mkey c) (SSL_kGOST E) = 0 /\
   Z.land (algorithm_mkey c) (SSL_kGOST18 E) = 0) ->
  default_types E s c = [TLS_CT_BIGN_SIGN E] /\
  match WPACKET_put_bytes_u8 P pkt (TLS_CT_BIGN_SIGN E) with
  | Some pkt' =>
      ssl3_get_req_cert_type E P s pkt = Ok (1, pkt') /\
      written P pkt' = written P pkt ++ [TLS_CT_BIGN_SIGN E mod 256]
  | None => ssl3_get_req_cert_type E P s pkt = Ok (0, pkt)
  end.
Proof.
  intros Custom Cipher Ver Bign Gost.
  assert (Only : default_types E s c = [TLS_CT_BIGN_SIGN E]).
  { unfold default_types.
    replace (version s >=? TLS1_VERSION E) with true
      by (symmetry; rewrite Z.geb_leb; now apply Z.leb_le).
    assert (B : truth (Z.land (algorithm_mkey c) (SSL_kBDHE E))
                || truth (Z.land (algorithm_mkey c) (SSL_kBDHTPSK E)) = true).
    { apply orb_true_iff. unfold truth. rewrite !negb_true_iff, !Z.eqb_neq. exact Bign. }
    rewrite B. cbn [andb].
    destruct Gost as [-> | [-> ->]]; cbn [negb andb app].
    - reflexivity.
    - change (truth 0) with false. rewrite !andb_false_r. reflexivity. }
  split; [exact Only|].
  rewrite (default_run s c pkt Custom Cipher), Only. cbn [puts].
  destruct (WPACKET_put_bytes_u8 P pkt (TLS_CT_BIGN_SIGN E)) as [pkt'|] eqn:Put;
    [|reflexivity].
  split; [reflexivity|]. now apply (put_u8_appends _ Wr).
Qed.
End Facts.

Section Setting.
Variable E : Env.

(** X27.  However [ssl3_set_req_cert_type] returns, the two fields agree:
    either no list is stored and the length is 0, or a list of 1 to 255
    bytes is stored and the length is its length.  When it returns 0 no
    list is stored: a refused list also removes the one set before. *)
Theorem ssl3_set_req_cert_type_invariant
        (c : CERT) (p : option (list byte)) (len : Z) (r : Z) (c' : CERT) :
  0 <= len ->
  ssl3_set_req_cert_type E c p len = Ok (r, c') ->
  (r = 0 \/ r = 1) /\
  (r = 0 -> ctype c' = None /\ ctype_len c' = 0) /\
  match ctype c' with
  | Some l => Z.of_nat (List.length l) = ctype_len c' /\ 0 < ctype_len c' <= 0xff
  | None => ctype_len c' = 0
  end.
Proof.
  intros Size. unfold ssl3_set_req_cert_type.
  destruct p as [b|]; [|intros [= <- <-]; cbn; auto].
  destruct (len =? 0) eqn:Z0; [intros [= <- <-]; cbn; auto|].
  destruct (len >? 0xff) eqn:Big; [intros [= <- <-]; cbn; auto|].
  destruct (OPENSSL_memdup E len); cbn [negb]; [|intros [= <- <-]; cbn; auto].
  destruct (read b 0 len) as [copy|] eqn:Rd; cbn [bind]; [|discriminate].
  intros [= <- <-]. cbn [ctype ctype_len].
  apply read_length in Rd as [L _].
  apply Z.eqb_neq in Z0. rewrite Z.gtb_ltb in Big. apply Z.ltb_ge in Big.
  repeat split; auto; lia.
Qed.
End Setting.

Lemma ssl3_get_req_cert_type_default_sample :
  ssl3_get_req_cert_type Fixtures.types_env Fixtures.writer Fixtures.rsa_server [] =
    Ok (let (ok, pkt') :=
          puts Fixtures.writer
               (default_types Fixtures.types_env Fixtures.rsa_server
                              (Sample.cipher_with_kex 0x1)) [] in
        (if ok then 1 else 0, pkt')) /\
  (forall pkt',
     ssl3_get_req_cert_type Fixtures.types_env Fixtures.writer Fixtures.rsa_server []
       = Ok (1, pkt') ->
     written Fixtures.writer pkt' =
     written Fixtures.writer [] ++
       map (fun v => v mod 256)
           (default_types Fixtures.types_env Fixtures.rsa_server
                          (Sample.cipher_with_kex 0x1))).
Proof.
  apply (ssl3_get_req_cert_type_default Fixtures.types_env Fixtures.writer
           LookupProofs.writer_sample_contract Fixtures.rsa_server
           (Sample.cipher_with_kex 0x1) []); reflexivity.
Defined.

(** The TLS 1.2 server with an RSA suite asks for RSA, DSS and ECDSA
    signing certificates; with a BIGN suite it asks for BIGN alone. *)
Lemma requested_types_run :
  ssl3_get_req_cert_type Fixtures.types_env Fixtures.writer Fixtures.rsa_server []
    = Ok (1, [1; 2; 64]) /\
  ssl3_get_req_cert_type Fixtures.types_env Fixtures.writer Fixtures.bign_server []
    = Ok (1, [231]) /\
  ssl3_get_req_cert_type Fixtures.types_env Fixtures.writer Fixtures.early_server []
    = Undefined.
Proof. vm_compute. repeat split. Qed.

Lemma custom_types_round_trip_sample :
  exists c',
    ssl3_set_req_cert_type Fixtures.types_env (mkCERT None 0) (Some [64; 1; 2]) 2
      = Ok (1, c') /\
    match WPACKET_memcpy Fixtures.writer [] (firstn (Z.to_nat 2) [64; 1; 2]) with
    | Some pkt' =>
        ssl3_get_req_cert_type Fixtures.types_env Fixtures.writer
          (mkSSL c' 0x303 None) [] = Ok (1, pkt') /\
        written Fixtures.writer pkt' =
          written Fixtures.writer [] ++ firstn (Z.to_nat 2) [64; 1; 2]
    | None =>
        ssl3_get_req_cert_type Fixtures.types_env Fixtures.writer
          (mkSSL c' 0x303 None) [] = Ok (0, [])
    end.
Proof.
  apply (custom_types_round_trip Fixtures.types_env Fixtures.writer
           LookupProofs.writer_sample_contract (mkCERT None 0) [64; 1; 2] 2 0x303 None []);
    [lia | simpl; lia | reflexivity].
Defined.

Lemma bign_suite_requests_bign_only_sample :
  default_types Fixtures.types_env Fixtures.bign_server (Sample.cipher_with_kex 0x400)
    = [231] /\
  match WPACKET_put_bytes_u8 Fixtures.writer [] 231 with
  | Some pkt' =>
      ssl3_get_req_cert_type Fixtures.types_env Fixtures.writer Fixtures.bign_server []
        = Ok (1, pkt') /\
      written Fixtures.writer pkt' = written Fixtures.writer [] ++ [231 mod 256]
  | None =>
      ssl3_get_req_cert_type Fixtures.types_env Fixtures.writer Fixtures.bign_server []
        = Ok (0, [])
  end.
Proof.
  apply (bign_suite_requests_bign_only Fixtures.types_env Fixtures.writer
           LookupProofs.writer_sample_contract Fixtures.bign_server
           (Sample.cipher_with_kex 0x400) []); try reflexivity.
  - simpl. lia.
  - left. vm_compute. discriminate.
  - right. split; reflexivity.
Defined.

Lemma ssl3_set_req_cert_type_invariant_sample :
  (0 = 0 \/ 0 = 1) /\
  (0 = 0 -> ctype (mkCERT None 0) = None /\ ctype_len (mkCERT None 0) = 0) /\
  match ctype (mkCERT None 0) with
  | Some l => Z.of_nat (List.length l) = ctype_len (mkCERT None 0)
              /\ 0 < ctype_len (mkCERT None 0) <= 0xff
  | None => ctype_len (mkCERT None 0) = 0
  end.
Proof.
  apply (ssl3_set_req_cert_type_invariant Fixtures.types_env
           (mkCERT (Some [64]) 1) (Some (repeat 1 300)) 300 0 (mkCERT None 0)).
  - lia.
  - reflexivity.
Defined.

End CertTypesProofs.

(** ** Asking for a renegotiation *)
Module RequestProofs.
Import Renegotiation.

Section Facts.
Context {STATEM RLAYER : Type} (E : Env STATEM RLAYER).

End Facts.


End RequestProofs.

(** ** Naming the groups of the peer *)
Module GroupNamesProofs.
Import Dispatch GroupNames.

Section Facts.
Variable E : GroupNames.Env.

Lemma nth_error_map_app {A B} (f : A -> B) (l : list A) (tail : list B) i a :
  nth_error l i = Some a -> nth_error (map f l ++ tail) i = Some (f a).
Proof.
  intros N. rewrite nth_error_app1.
  - now rewrite nth_error_map, N.
  - rewrite length_map. apply nth_error_Some. congruence.
Qed.

(** X29.  A group of the peer that the library does not know is shown by
    SSL_CTRL_GET_GROUPS as TLSEXT_nid_unknown | id, at the position it has
    in the peer's list; [SSL_group_to_name] takes that value apart again,
    looks up the same id, and returns NULL. *)
Theorem unknown_group_is_shown_and_named_back
        (s : Dispatch.SSL) (sess : SSL_SESSION) (larg : Z) (cptr : list Z)
        (i : nat) (g : Z) :
  session s = Some sess ->
  List.length cptr = List.length (peer_supportedgroups s) ->
  nth_error (peer_supportedgroups s) i = Some g ->
  0 <= g < 65536 ->
  tls1_group_id_lookup (base E) g = None ->
  TLSEXT_nid_unknown (base E) <> 0 ->
  Z.land (TLSEXT_nid_unknown (base E)) 0xFFFF = 0 ->
  exists out nids,
    ssl3_ctrl (base E) s SSL_CTRL_GET_GROUPS larg (Some (Ints cptr)) = Ok out /\
    pointed out = Some (Ints nids) /\
    List.length nids = List.length cptr /\
    nth_error nids i = Some (Z.lor (TLSEXT_nid_unknown (base E)) g) /\
    Z.land (Z.lor (TLSEXT_nid_unknown (base E)) g) 0xFFFF = g /\
    SSL_group_to_name E (Z.lor (TLSEXT_nid_unknown (base E)) g) = None.
Proof.
  intros Se Len Nth R Unknown U0 Low.
  assert (Back : Z.land (Z.lor (TLSEXT_nid_unknown (base E)) g) 0xFFFF = g).
  { rewrite Z.land_lor_distr_l, Low, Z.lor_0_l.
    change 0xFFFF with (Z.ones 16). rewrite Z.land_ones by lia.
    apply Z.mod_small. lia. }
  cbn [ssl3_ctrl]. rewrite Se.
  replace (Z.of_nat (List.length (peer_supportedgroups s))
           <=? Z.of_nat (List.length cptr)) with true
    by (symmetry; apply Z.leb_le; lia).
  do 2 eexists. split; [reflexivity|]. cbn [pointed].
  split; [reflexivity|]. split; [|split; [|split]].
  - rewrite length_app, length_map, length_skipn. lia.
  - rewrite (nth_error_map_app _ _ _ _ _ Nth). unfold group_nid.
    now rewrite Unknown.
  - exact Back.
  - unfold SSL_group_to_name.
    rewrite ClosureProofs.land_lor_left.
    replace (truth (TLSEXT_nid_unknown (base E))) with true
      by (symmetry; now apply negb_true_iff, Z.eqb_neq).
    rewrite Back, Z.mod_small by lia. now rewrite Unknown.
Qed.
End Facts.

Lemma unknown_group_is_shown_and_named_back_sample :
  exists out nids,
    ssl3_ctrl Sample.dispatch_env Fixtures.listed_ssl SSL_CTRL_GET_GROUPS 0
              (Some (Ints [0; 0; 0])) = Ok out /\
    pointed out = Some (Ints nids) /\
    List.length nids = List.length [0; 0; 0] /\
    nth_error nids 2 = Some (Z.lor 0x1000000 0x6A6A) /\
    Z.land (Z.lor 0x1000000 0x6A6A) 0xFFFF = 0x6A6A /\
    SSL_group_to_name Fixtures.names_env (Z.lor 0x1000000 0x6A6A) = None.
Proof.
  apply (unknown_group_is_shown_and_named_back Fixtures.names_env Fixtures.listed_ssl
           {| kex_group := 29 |} 0 [0; 0; 0] 2 0x6A6A);
    try reflexivity; try lia.
  discriminate.
Defined.

(** The groups the library knows are shown by their identifiers and named. *)
Lemma listed_groups_run :
  option_map pointed
    (match ssl3_ctrl Sample.dispatch_env Fixtures.listed_ssl SSL_CTRL_GET_GROUPS 0
                     (Some (Ints [0; 0; 0])) with
     | Ok out => Some out
     | Undefined => None
     end) = Some (Some (Ints [1029; 1023; 0x1006A6A])) /\
  SSL_group_to_name Fixtures.names_env 1029 = Some "x25519"%string /\
  SSL_group_to_name Fixtures.names_env 1023 = Some "secp256r1"%string.
Proof. vm_compute. repeat split. Qed.

End GroupNamesProofs.

(** ** The digests of the handshake *)
Module Algorithm2Proofs.
Import Algorithm2.

Section Facts.
Variable E : Env.

(** X30.  [ssl_get_algorithm2] never returns the pair it replaces: with
    the SHA-256 PRF flag of the method set it never returns the default
    digests with the default PRF, and without the flag it never returns
    SHA-384 with the SHA-384 PRF for a PSK suite; in both cases a suite
    naming any other pair keeps its own. *)
Theorem ssl_get_algorithm2_replaces (s : SSL) (c : SSL_CIPHER) :
  new_cipher s = Some c ->
  let legacy := Z.lor (SSL_HANDSHAKE_MAC_DEFAULT E) (TLS1_PRF E) in
  let sha256 := Z.lor (SSL_HANDSHAKE_MAC_SHA256 E) (TLS1_PRF_SHA256 E) in
  let sha384 := Z.lor (SSL_HANDSHAKE_MAC_SHA384 E) (TLS1_PRF_SHA384 E) in
  legacy <> sha256 -> legacy <> sha384 ->
  (Z.land (enc_flags s) (SSL_ENC_FLAG_SHA256_PRF E) <> 0 ->
   ssl_get_algorithm2 E s <> legacy /\
   (algorithm2 c <> legacy -> ssl_get_algorithm2 E s = algorithm2 c)) /\
  (Z.land (enc_flags s) (SSL_ENC_FLAG_SHA256_PRF E) = 0 ->
   Z.land (algorithm_mkey c) (SSL_PSK E) <> 0 ->
   ssl_get_algorithm2 E s <> sha384 /\
   (algorithm2 c <> sha384 -> ssl_get_algorithm2 E s = algorithm2 c)).
Proof.
  intros C legacy sha256 sha384 D256 D384.
  unfold ssl_get_algorithm2. rewrite C. fold legacy sha256 sha384.
  split.
  - intros Flag.
    replace (truth (Z.land (enc_flags s) (SSL_ENC_FLAG_SHA256_PRF E))) with true
      by (symmetry; now apply negb_true_iff, Z.eqb_neq).
    destruct (algorithm2 c =? legacy) eqn:A;
      [apply Z.eqb_eq in A | apply Z.eqb_neq in A]; split; congruence.
  - intros Flag Psk. rewrite Flag. change (truth 0) with false. cbv iota.
    replace (truth (Z.land (algorithm_mkey c) (SSL_PSK E))) with true
      by (symmetry; now apply negb_true_iff, Z.eqb_neq).
    destruct (algorithm2 c =? sha384) eqn:A;
      [apply Z.eqb_eq in A | apply Z.eqb_neq in A]; split; congruence.
Qed.
End Facts.

(** The TLS 1.2 method turns the default digests of the sample suite into
    SHA-256 with the SHA-256 PRF. *)
Lemma ssl_get_algorithm2_replaces_sample :
  ssl_get_algorithm2 Fixtures.algorithm2_env Fixtures.tls12_default_suite
  <> Z.lor (SSL_HANDSHAKE_MAC_DEFAULT Fixtures.algorithm2_env)
           (TLS1_PRF Fixtures.algorithm2_env).
Proof.
  destruct (ssl_get_algorithm2_replaces Fixtures.algorithm2_env
              Fixtures.tls12_default_suite
              (mkSSL_CIPHER 1 None None 0x0300002F
                            0x1 0x1 0x40 0x2 0x300 0x303 0 0 0 0x909 128 128)
              eq_refl) as [Flagged _].
  - vm_compute. discriminate.
  - vm_compute. discriminate.
  - destruct Flagged as [Never _]; [vm_compute; discriminate | exact Never].
Defined.

End Algorithm2Proofs.
